(* ===== verification/_CoqProject ===== *)
-Q . S2P
Prelude.v
Tracker.v
Domain.v
DomainMerge.v
DomainFiles.v
DomainOps.v
Policy.v
Ensemble.v
Evaluation.v
EvaluationReport.v
EnsembleIO.v
ModelDir.v
Slack.v
SpacyExtractor.v
Cli.v
