(* ===== verification/Prelude.v ===== *)
(** * A verification library for the Rasa dialogue core: policy ensemble,
      domain state encoding and story evaluation

    ** The program

    The sources under [src/] are three Python modules of the Rasa dialogue
    core and three adapters:
    - [src/rasa/core/domain.py] ([Domain]): the universe of intents,
      entities, slots, responses, actions and forms.  [Domain.__init__]
      collects the intent properties and checks the domain's sanity; the
      domain then gives the state-vector schema ([input_states],
      [input_state_map], [index_of_state]), turns a tracker into a bag of
      active states ([get_active_states], via [get_parsing_states],
      [get_prev_action_states] and [get_active_form]), looks actions up by
      name and index, and writes and compares its specification.
    - [src/rasa/core/policies/ensemble.py] ([SimplePolicyEnsemble]): asks
      every policy for a distribution over the domain's actions, zeroes an
      action the tracker has just rejected, keeps the policy of highest
      (confidence, priority), and lets the fallback policy override a
      non-memoization [action_listen] right after [action_listen]
      ([probabilities_using_best_policy]).  Its base class
      [PolicyEnsemble] builds the ensemble from a policy configuration
      ([from_dict]), warns about shared priorities, trains the policies,
      records action fingerprints, and persists and reloads the ensemble
      with a version guard.
    - [src/rasa/core/test.py]: replays recorded stories through the agent.
      For every action event it asks the ensemble (through the processor's
      [predict_next_action]) for the next action and records gold and
      prediction in an [EvaluationStore]; it retries after an emulated form
      rejection; then it logs the gold event or a [WronglyPredictedAction],
      and raises in fail-fast mode.  [collect_story_predictions] runs this
      over a corpus and reports the share of memoized predictions.
    - [src/rasa/core/channels/slack.py]: the Slack connector.  Its
      webhook turns Slack's HTTP requests (URL verification, user
      messages, interactive components, retries) into at most one
      [UserMessage] for the agent, after sanitizing the text; its output
      channel turns the bot's answers into [chat.postMessage] calls.
    - [src/rasa/__main__.py]: the command line.  [create_argument_parser]
      registers the sub-commands; [main] sets the log level and runs the
      chosen sub-command, or prints the version, or exits with status 1.
    - [src/rasa/nlu/extractors/spacy_entity_extractor.py]: an NLU
      component that runs a spaCy pipeline on the message text and appends
      the named entities it finds, filtered by the configured dimensions,
      to the message's entities.

    The components meet at the tracker.  The domain reads the tracker's
    state.  The ensemble calls each policy on the tracker and the domain,
    and uses the domain's action index.  The evaluation loop updates a
    partial tracker, calls the ensemble, and names the predicted action
    through the domain.

    The tracker (an event log), the slot classes, the default action list,
    the individual policies, [pad_lists_to_size] and [predict_next_action]
    live outside [src/].  They are modelled from the specification and
    marked [spec_modelled] in the map.

    ** Files, modules and their correspondence with the code

    - [Prelude] (this file) holds what all components share:
      - the exception type [Exn] and the result type [res] ([Ok] or
        [Raise]), with the bind notation [x <- c ;; k] in [rasa_scope];
        every Python function that can raise returns a [res];
      - Python and numpy primitives with their lemmas: [py_index]
        ([list.index]), [py_setitem] ([l[i] = v], raising [IndexError]),
        [np_max], [endswith], [get_duplicates] (the [Counter] idiom),
        [index_dict] (a dict comprehension over [enumerate]), [contains]
        ([sub in s]) and [py_truthy];
      - the loop combinator [fold_res] (a [for] loop whose body can raise),
        with its invariant and measure lemmas;
      - the hint databases [rasa] and [rasa_rw].
    - [Tracker] (module [Slots], module [Tracker]) models the slot types
      with their featurisation, the events, and the tracker.  A tracker is
      an event log with the state its events produced kept beside it.
      [update] appends an event and applies it.  [drop_last_event] and
      [clear_form_rejection] are the two in-place edits of
      [_emulate_form_rejection].  [consistent] says that the state is the
      replay of the log.
    - [Domain] (module [Domain]) holds the [Domain] record and the rest of
      [domain.py]:
      - [domain_init] is [Domain.__init__], with [collect_intent_properties]
        and [check_domain_sanity];
      - the schema: [input_states] and [index_of_state];
      - state computation: [get_active_states] and the functions it calls;
      - action lookup: [index_for_action], [action_for_index];
      - the specification: [persist_specification] and
        [compare_with_specification].
      Python dicts are stdpp [gmap]s and sets are [gset]s.
    - [DomainMerge] (module [DomainMerge]) models how a domain is put
      together from several files:
      - [as_dict] ([Domain.as_dict]) writes a domain as the dict
        ([Domain.DomainData]) that [Domain.from_dict] reads; [from_dict]
        now takes the whole dict, with [_get_session_config] and
        [collect_slots];
      - [domain_merge] is [Domain.merge]: [merge_data] builds the combined
        dict with [merge_dicts] (an ordered [dict.update] in the direction
        of the [override] flag), [merge_lists] ([sorted(set(l1 + l2))])
        and [remove_forms] (the in-place removal of the forms of [self]
        from the other domain's actions), then calls [from_dict];
        [merge_argument_after] is the argument domain after that removal;
      - [domain_load] and [domain_from_directory] are the folds of
        [Domain.load] and [Domain.from_directory] over the domains read
        from the files.
    - [DomainFiles] (module [DomainFiles]) models the reading of domain
      files.  The file system is a directory tree ([FsNode]) whose
      directories list their entries in [os.listdir] order.  Paths are
      split by [path_segments] and joined by [os_path_join], and [walk]
      is [os.walk], top-down.  [from_yaml], [from_file], [from_path],
      [from_directory] and [load_domain] ([Domain.load]) read and merge
      in turn, as the code does.  The YAML schema check, the YAML parser
      and [is_domain_file] are section variables.
    - [DomainOps] (module [DomainOps]) models the other operations of
      [Domain]: [cleaned_domain] (what [persist_clean] writes).  Its
      state is the domain together with the dicts
      [self.intent_properties] holds ([IntentStore]).  [as_dict] puts
      those same dict objects in its [intents] list, so the pops of
      [cleaned_domain] change them in place.  Its slot loop works on the
      [persistence_info] dicts ([SlotInfo]), and [from_domain_dict] reads
      such a dict back through [collect_slots] and the slot
      constructors.  The module also models the
      in-place slot additions [add_requested_slot] and
      [add_knowledge_base_slots] (a new [Domain] with the slots
      appended), [slots_for_entities], [domain_warnings] with
      [get_symmetric_difference], [check_missing_templates], which
      returns the utterances it warns about, [actions],
      [random_template_for] (the index [np.random.choice] draws is an
      argument) and [as_yaml] (the dict it dumps).
    - [Slack] (module [Slack]) models [slack.py] on JSON values
      ([Json], with Python's [dict.get], [d[k]], [l[0]] and truthiness):
      [webhook] is the route [/webhook] and returns the HTTP response with
      the messages handed to the agent; [process_message] drops ignored
      retries; [sanitize_user_message] is [_sanitize_user_message], whose
      [re.sub], [re.search] and [str.replace] are the scans [sub_scan]
      and [link_search]; [blueprint] dispatches the routes [/] (health)
      and [/webhook]; the [send_*] methods return their
      [chat.postMessage] calls ([PostMessage]), and [send_custom_json]
      the keyword arguments of its call, which are also the caller's dict
      after its in-place [setdefault]s.
    - [Policy] (module [Policy]) is the interface of a policy that the
      ensemble relies on: its class, its priority and its prediction
      function.  The class [PolicyContract] says that a prediction has one
      entry per action, each in [0, 1].  [fallback_scores] is
      [FallbackPolicy.fallback_scores].
    - [Ensemble] (module [Ensemble]) models [probabilities_using_best_policy]:
      - [zero_rejected] zeroes the rejected action;
      - [arbitration_step] is one iteration of the loop, with tuple
        comparison [key_gt], and [arbitrate] is the whole loop;
      - [fallback_override] is the override after the loop;
      - [is_not_memo_policy] is the memoization test on policy names.
      A reference winner, [first_best] over the [candidates], is the
      abstract specification of the loop.
    - [EnsembleIO] (module [EnsembleIO]) models the rest of
      [PolicyEnsemble]:
      - [ensemble_init] with [check_priorities] and
        [check_for_important_policies], which return the warnings the
        code logs;
      - [train] and [continue_training];
      - the fingerprints: [training_events_from_trackers] and
        [create_action_fingerprints], and their JSON form in
        [metadata.json] ([json_fingerprints], [loads_fingerprints]: the
        key [None] is written as ["null"]);
      - [persist], [persist_metadata], [load] and
        [ensure_model_compatibility], over a file system that maps paths
        to artifacts;
      - [ensemble_from_dict] ([from_dict]) with the featurizer helpers;
      - [check_domain_ensemble_compatibility] over the policies'
        validators, and [ensemble_probabilities], the class dispatch of
        [probabilities_using_best_policy] (the base class raises
        [NotImplementedError]).
      The registry, the constructors, the policies' own training and
      [MINIMUM_COMPATIBLE_VERSION] are section variables.
    - [ModelDir] (module [ModelDir]) models the trained model directory
      that the ensemble and the domain share: [persist_specification_at],
      [load_specification] and [compare_with_specification_at] write and
      read [domain.json] in the file system of [EnsembleIO], and
      [persist_flattened] is [persist] with [dump_flattened_stories].
    - [Evaluation] (module [Evaluation]) models [test.py]:
      - [EvaluationStore], [add_to_store] (with Python's truthiness of
        its arguments), [merge_store], [has_prediction_target_mismatch]
        and [serialise];
      - [collect_user_uttered_predictions], [emulate_form_rejection] and
        [collect_action_executed_predictions];
      - [replay_step] and [predict_tracker_actions], which replay one
        story;
      - [story_step] and [story_loop], the loop over a corpus, and
        [collect_story_predictions] with [in_training_data_fraction].
    - [EvaluationReport] (module [EvaluationReport]) models [test]: the
      corpus replay, the serialised store handed to the metrics (a
      section variable), [log_failed_stories] writing
      [failed_stories.md], and the report dict ([TestResult]).
    - [SpacyExtractor] (module [SpacyExtractor]) models
      [SpacyEntityExtractor]: its class attributes, [extract_entities] and
      [process].  [process] takes the spaCy pipeline as an [option] of a
      function and raises [TypeError] when it is missing.  The base-class
      helpers [add_extractor_name] and [filter_irrelevant_entities] and
      [Message.set] are modelled from the specification.
    - [Cli] (module [Cli]) models [__main__.py]: [create_argument_parser]
      as the [Parser] it builds, and [main] as the ordered list of its
      [Effect]s on the parsed [Namespace].

    ** What the theorems show

    - Arbitration ([Ensemble]):
      - the single-pass loop equals the reference [first_best], and so
        refines the contract "the earliest policy whose key no other
        policy exceeds wins";
      - a rejected action gets probability 0, with one exception: when
        the override fires and the rejected action is the fallback action,
        it gets probability 1 (a finding);
      - the fallback override fires exactly in the listen-after-listen
        case, and a memoization winner is kept;
      - the result is a distribution whenever the policies keep
        [PolicyContract]; a rejection of an unknown action raises
        [NameError].
    - Domain ([Domain]):
      - the constructor returns only well-formed domains ([domain_wf]),
        and the sanity check holds exactly on them;
      - an entity state is 1.0 exactly when the message has an entity
        of that type which the intent's [use_entities] includes and its
        [ignore_entities] does not; an ignored entity is never featurized;
      - an entity type unknown to the domain still produces a state
        outside the schema (a finding);
      - [index_of_state] is in range;
      - comparing the specification raises with exactly the removed and
        the added states, and what [persist_specification] writes is
        accepted back;
      - action lookup by name and then by index round-trips.
    - Merging domains ([DomainMerge]):
      - a merge raises whenever a user action of [self] is a form of the
        other domain, since only the forms of [self] are removed (a
        finding); [Domain.load] and [Domain.from_directory] merge in
        opposite directions, so the same files in the same order can be
        accepted by one and rejected by the other (an example);
      - what [as_dict] writes of a domain [from_dict] built is read back
        as the same domain;
      - a merged domain merged with itself is unchanged, and two merges
        in opposite orders that both succeed agree on entities, forms and
        the set of user actions; [merge_lists], like
        [compare_with_specification], depends only on the elements of its
        lists ([Proper] instances for permutations);
      - a merge edits the user actions of the domain passed as argument
        (a finding).
    - Reading domain files ([DomainFiles]):
      - [Domain.from_directory] and [Domain.load], which read and merge
        in turn, equal the folds [domain_from_directory] and
        [domain_load] of [DomainMerge] over the domains read (lemmas);
      - in a well-formed tree every path [os.walk] yields is a readable
        file (via the round trip of [os.path.join] and path splitting);
      - no path, a missing first path and a first file failing the schema
        each raise [InvalidDomain], before any later path is read.
    - Other domain operations ([DomainOps]):
      - what [cleaned_domain] writes of a domain [from_dict] built is
        read back as the same domain, whatever state the shared intent
        dicts are in.  Its pops leave unchanged what the domain's readers
        see of those dicts, and a second [persist_clean] writes the same
        dict.  A later [persist] writes the popped dicts (an example);
      - the slot additions keep [domain_wf] and the state schema;
      - every event of [slots_for_entities] sets an auto-filled slot to a
        value of its type (all values for a list slot, the last one
        otherwise);
      - an [utter_] action without a response is accepted, with only a
        warning (a finding);
      - [actions] never raises, and [random_template_for] returns one of
        the utterance's templates, each of which can be drawn; an empty
        template list is accepted by [collect_templates] and makes
        [random_template_for] raise (a finding).
    - Slack ([Slack]):
      - a message with one link is sanitized to the link's label, and
        with two links the greedy pattern mangles the second (a finding);
      - a retry for an ignored error never reaches the agent, and a
        bot's own message is never handed to it;
      - [send_text_message] splits the text on blank lines and loses
        nothing (a lemma);
      - the replacement scan is never cut short by its fuel (a lemma);
      - [send_custom_json] keeps the caller's channel and [as_user] and
        passes every other key on; only [/webhook] hands messages to the
        agent.
    - Ensemble life cycle ([EnsembleIO]):
      - persisting a trained ensemble and loading it back gives the same
        policies in the same order, and the fingerprints of the training
        stories, except that the slots set before a story's first action
        come back under the action name ["null"] (a finding);
      - the priority warning fires exactly on shared priorities;
      - the fingerprints are characterised exactly: every slot event is
        charged to the latest action before it (a finding);
      - configuration parsing returns one policy per entry in order, and
        its error kinds differ from the specification's (a finding);
      - a model without a recorded version counts as 0.0.0 (a lemma);
      - a loaded ensemble cannot be persisted again or trained further
        (a finding);
      - [check_domain_ensemble_compatibility] passes exactly when the
        three validators pass, and otherwise raises the first failure.
    - The model directory ([ModelDir], lemmas): writing [domain.json] or
      [stories.md] changes nothing [load] reads, and the ensemble's
      writes leave [domain.json] in place.
    - Evaluation ([Evaluation]):
      - the [actions] report of a story matches its store;
      - fail-fast mode leaves no failed story;
      - the corpus loop counts one entry per story and as many failed
        stories as 0 entries;
      - a corpus without action events divides by zero (a finding);
      - [serialise] pads to equal length;
      - [test] ([EvaluationReport]) returns the report of the
        specification, its metrics computed on targets and predictions of
        equal length, and in fail-fast mode [failed_stories.md] says that
        all stories passed.
    - spaCy extractor ([SpacyExtractor]): [process] appends exactly the
      document's entities within the configured dimensions, in order and
      tagged with the extractor's name, and raises without a pipeline.
    - Command line ([Cli]): [main] runs the sub-command exactly once and
      last, after the logging set-up; without a sub-command it prints the
      version or exits with status 1.
    Each theorem with hypotheses has a witness that applies it to a small
    example domain ([ex_domain]: intents greet and inform, entities city
    and name, one form), to small domain files ([DomainMerge.ex_forms],
    [DomainMerge.ex_actions], [DomainMerge.ex_greet]), to its example
    policies ([Ensemble.ex_policies]), to example stories
    ([Evaluation.ex_story] and the others), to a project tree
    ([DomainFiles.ex_tree]) and to the trained example ensemble
    ([EnsembleIO.ex_trained]).  The
    witnesses are evaluated by [vm_compute].

    ** Bounds, fuel and numbers

    Every loop of the code is a [for] loop over a finite list.  It is
    modelled by structural recursion ([fold_left], [fold_res]), so no fuel
    is needed and every function is total; [os.walk] recurses
    structurally through the directory tree ([DomainFiles.walk], with the
    nested induction principle [FsNode_ind2]).  The one exception is the
    left-to-right replacement scan of [re.sub] and [str.replace]
    ([Slack.sub_scan]), which jumps over a whole match: it gets the length
    of the string plus one as fuel, and it is proved that
    more fuel changes nothing, so the scan always reaches the end.  Probabilities and confidences
    are exact rationals ([Q]) rather than IEEE floats.  The theorems use
    only comparisons, 0, 1 and a division of two counts, for which the two
    agree up to rounding.  List indices and counts are [nat]; Python has no
    fixed-width integers in this code.

    ** Not modelled

    - In [__main__.py]: [argparse]'s parsing, the help and version texts,
      and the sub-command modules of [rasa.cli] (outside [src/]); [main]
      starts from the parsed namespace, and the command a sub-command runs
      is the effect [RunCommand].
    - In [spacy_entity_extractor.py]: the spaCy model, which is a function
      parameter, and the component's configuration handling in the base
      class.
    - In [slack.py]: the HTTP server itself, decoding the JSON text, the
      Slack client call, [get_metadata] (a parameter), user ids that are
      not strings, and non-ASCII whitespace.
    - In [ensemble.py]: the policies' [validate_against_domain] (a
      parameter), the JSON text of the metadata beyond the keys of the
      fingerprint table (its other values are strings, numbers, lists and
      [null], which [json] round-trips), the story format of
      [training.persist_data] (its file holds the trackers), and
      pre-release tags in version numbers.
    - In [domain.py]: the YAML schema check and parser (parameters),
      [os.path.abspath]'s resolution of [.] and [..], [__hash__] (a hash
      of the JSON dump; it changes no state), the templates' rendering,
      [is_empty], and the warnings that are only logged.  In
      [DomainMerge], [as_dict] writes a slot as the slot itself rather
      than its [persistence_info] dict, and a fresh domain's intent dicts
      as [IntentProps]; [DomainOps.as_dict_at] writes both as the dicts
      they are.  [Slot.resolve_by_type] knows the five slot classes of
      [Tracker] and their module paths; a user-defined slot class is not
      modelled.
    - In [test.py]: the sklearn metrics (a parameter), the logging, the
      plots, story file parsing ([_generate_trackers]; [test] starts from
      the completed trackers) and model comparison.
    - The individual policies, which are parameters constrained by
      [PolicyContract].
    - The form policy's [state_is_unhappy] and the Markdown writer, which
      are section variables.
*)

From stdpp Require Export base list gmap strings decidable pretty sorting.
From Stdlib Require Export QArith Lqa.
From Stdlib Require Import Ascii.

Open Scope nat_scope.
Declare Scope rasa_scope.
Delimit Scope rasa_scope with rasa.
Open Scope rasa_scope.

(** ** Errors raised by the modelled code *)

(** Why the domain is invalid ([InvalidDomain] in [domain.py]). *)
Inductive DomainError :=
| NoDomainFile
| IntentsNotUnique (name : string)
| TemplateWithoutVariants (key : string)
| TemplateWithoutTextOrCustom (key : string)
| DomainInsane (dup_actions dup_slots dup_entities : list string)
    (incorrect_mappings : list (string * string))
| SpecificationChanged (removed added : gset string)
| FileNotFound (path : string)      (** [from_path] on a path that does not exist *)
| InvalidYaml (msg : string).       (** the schema validation message of [from_yaml] *)

(** The Python exceptions the modelled functions raise. *)
Inductive Exn :=
| InvalidDomain (e : DomainError)
| NameError (action_name : string)
| IndexError (index : nat)
| ValueError (msg : string)
| ZeroDivisionError
| UnsupportedDialogueModelError (model_version : list nat)
| InvalidPolicyConfig (msg : string)
| TypeError (msg : string)
| ImportError (msg : string)
| AttributeError (msg : string)
| KeyError (key : string)
| IOError (path : string)
| NotImplementedError             (** an abstract method of a base class *)
| PyException (msg : string).     (** a bare [raise Exception(msg)] *)

(** A computation that returns a value or raises. *)
Inductive res (A : Type) : Type :=
| Ok (a : A)
| Raise (e : Exn).
Arguments Ok {A} a.
Arguments Raise {A} e.

Definition res_bind {A B} (c : res A) (k : A -> res B) : res B :=
  match c with
  | Ok a => k a
  | Raise e => Raise e
  end.

Notation "x <- c1 ;; c2" := (res_bind c1 (fun x => c2))
  (at level 100, c1 at next level, right associativity) : rasa_scope.

Definition is_ok {A} (c : res A) : bool :=
  match c with Ok _ => true | Raise _ => false end.

(** ** Python list primitives *)

(** [l.index(x)] with an equality test [eqb]: the first position, [None]
    where Python raises [ValueError]. *)
Fixpoint py_index {A} (eqb : A -> bool) (l : list A) : option nat :=
  match l with
  | [] => None
  | y :: l' => if eqb y then Some 0 else S <$> py_index eqb l'
  end.

(** [l[i] = v]: raises [IndexError] out of range, unlike stdpp's insert. *)
Definition py_setitem {A} (l : list A) (i : nat) (v : A) : res (list A) :=
  if decide (i < length l) then Ok (<[i:=v]> l) else Raise (IndexError i).

Definition np_max_step (m y : Q) : Q := if Qle_bool m y then y else m.

(** [np.max(l)] on a list of floats: [ValueError] on the empty list. *)
Definition np_max (l : list Q) : res Q :=
  match l with
  | [] => Raise (ValueError "zero-size array to reduction operation maximum")
  | x :: xs => Ok (fold_left np_max_step xs x)
  end.

(** [s.endswith(suffix)]. *)
Definition endswith (s suffix : string) : bool :=
  bool_decide (String.list_ascii_of_string suffix `suffix_of`
               String.list_ascii_of_string s).

(** [c in s]. *)
Fixpoint has_char (c : ascii) (s : string) : bool :=
  match s with
  | EmptyString => false
  | String d s' => Ascii.eqb d c || has_char c s'
  end.

Lemma string_app_cons c x y : String c x +:+ y = String c (x +:+ y).
Proof. reflexivity. Qed.

Lemma has_char_app c x y : has_char c (x +:+ y) = has_char c x || has_char c y.
Proof. induction x as [|d x IH]; simpl; [done|]. by rewrite IH, orb_assoc. Qed.

(** [[item for item, count in Counter(l).items() if count > 1]]: the
    duplicated items in order of first occurrence. *)
Fixpoint get_duplicates_aux (seen : list string) (l : list string) : list string :=
  match l with
  | [] => []
  | x :: l' =>
      if decide (x ∈ seen) then get_duplicates_aux seen l'
      else if decide (x ∈ l') then x :: get_duplicates_aux (x :: seen) l'
      else get_duplicates_aux (x :: seen) l'
  end.
Definition get_duplicates (l : list string) : list string := get_duplicates_aux [] l.

(** [enumerate(l)]. *)
Definition enumerate {A} (l : list A) : list (nat * A) := zip (seq 0 (length l)) l.

(** ** The hint database of the development *)

Create HintDb rasa.
Create Rewrite HintDb rasa_rw.

(** ** Lemmas on the result type *)

Lemma res_bind_Ok_inv {A B} (c : res A) (k : A -> res B) v :
  res_bind c k = Ok v -> exists a, c = Ok a /\ k a = Ok v.
Proof. destruct c; simpl; [eauto | discriminate]. Qed.

Lemma res_bind_Ok {A B} (a : A) (k : A -> res B) : res_bind (Ok a) k = k a.
Proof. reflexivity. Qed.

Lemma res_bind_Raise {A B} e (k : A -> res B) : res_bind (Raise e) k = Raise e.
Proof. reflexivity. Qed.

#[export] Hint Rewrite @res_bind_Ok @res_bind_Raise : rasa_rw.

(** Peel one bind off a hypothesis [res_bind c k = Ok v]. *)
Ltac inv_bind H :=
  let a := fresh "a" in
  let Hc := fresh "Hc" in
  apply res_bind_Ok_inv in H as (a & Hc & H).

(** ** Lemmas on the list primitives *)

Section PyIndex.
Context {A : Type} (eqb : A -> bool).

Lemma py_index_Some (l : list A) i :
  py_index eqb l = Some i ->
  exists x, l !! i = Some x /\ eqb x = true /\
    forall j y, j < i -> l !! j = Some y -> eqb y = false.
Proof.
  revert i; induction l as [|y l IH]; intros i H; simpl in H; [discriminate|].
  destruct (eqb y) eqn:Ey.
  - injection H as <-. exists y. split_and!; [done|done|]. intros j z Hj; lia.
  - destruct (py_index eqb l) as [k|] eqn:Ek; simpl in H; [|discriminate].
    injection H as <-. destruct (IH k eq_refl) as (x & Hx & Hex & Hmin).
    exists x. split_and!; [done|done|].
    intros [|j] z Hj Hz; simpl in Hz; [congruence|]. apply (Hmin j); [lia|done].
Qed.

Lemma py_index_None (l : list A) :
  py_index eqb l = None -> forall x, x ∈ l -> eqb x = false.
Proof.
  induction l as [|y l IH]; simpl; intros H x Hx; [set_solver|].
  destruct (eqb y) eqn:Ey; [discriminate|].
  destruct (py_index eqb l); [discriminate|].
  apply elem_of_cons in Hx as [->|Hx]; auto.
Qed.

Lemma py_index_first (l : list A) i x :
  l !! i = Some x -> eqb x = true ->
  (forall j y, j < i -> l !! j = Some y -> eqb y = false) ->
  py_index eqb l = Some i.
Proof.
  revert i; induction l as [|y l IH]; intros i Hi Hx Hmin; [done|].
  destruct i as [|i]; simpl in *.
  - injection Hi as ->. by rewrite Hx.
  - rewrite (Hmin 0 y); [|lia|done].
    rewrite (IH i); [done|done|done|].
    intros j z Hj Hz. apply (Hmin (S j)); [lia|done].
Qed.
End PyIndex.

Lemma py_setitem_Ok {A} (l : list A) i v :
  i < length l -> py_setitem l i v = Ok (<[i:=v]> l).
Proof. intros H. unfold py_setitem. by rewrite decide_True. Qed.

Lemma py_setitem_Ok_inv {A} (l l' : list A) i v :
  py_setitem l i v = Ok l' -> i < length l /\ l' = <[i:=v]> l.
Proof. unfold py_setitem. case_decide; intros H'; [by injection H' as <-|done]. Qed.

Lemma fold_np_max_step (xs : list Q) acc :
  let r := fold_left np_max_step xs acc in
  (r = acc \/ r ∈ xs) /\ (acc <= r)%Q /\ Forall (fun y => (y <= r)%Q) xs.
Proof.
  induction xs as [|y xs IH] in acc |- *; simpl.
  - split_and!; [by left|apply Qle_refl|constructor].
  - destruct (IH (np_max_step acc y)) as (Hin & Hle & Hall).
    unfold np_max_step in *. destruct (Qle_bool acc y) eqn:E.
    + apply Qle_bool_iff in E. split_and!.
      * right. destruct Hin as [->|Hin]; set_solver.
      * eapply Qle_trans; eauto.
      * by constructor.
    + assert (Hlt : (y < acc)%Q) by (apply Qnot_le_lt; intros Hc;
        apply Qle_bool_iff in Hc; congruence).
      split_and!.
      * destruct Hin as [->|Hin]; [by left|set_solver].
      * done.
      * constructor; [|done]. eapply Qle_trans; [apply Qlt_le_weak, Hlt|done].
Qed.

Lemma np_max_spec (l : list Q) m :
  np_max l = Ok m -> m ∈ l /\ Forall (fun y => (y <= m)%Q) l.
Proof.
  destruct l as [|x xs]; simpl; [discriminate|]. intros [= <-].
  destruct (fold_np_max_step xs x) as (Hin & Hle & Hall).
  fold np_max_step. split; [destruct Hin as [->|Hin]; set_solver|by constructor].
Qed.

(** ** Lemmas on strings *)

Lemma list_ascii_of_string_app (s t : string) :
  String.list_ascii_of_string (s +:+ t) =
  String.list_ascii_of_string s ++ String.list_ascii_of_string t.
Proof. induction s as [|c s IH]; simpl; [done|by rewrite IH]. Qed.

Lemma length_list_ascii_of_string (s : string) :
  length (String.list_ascii_of_string s) = String.length s.
Proof. induction s as [|c s IH]; simpl; [done|by rewrite IH]. Qed.

Lemma suffix_of_app_long {A} (suf a b : list A) :
  length suf <= length b -> suf `suffix_of` a ++ b <-> suf `suffix_of` b.
Proof.
  intros Hlen. split; [|apply suffix_app_r].
  intros [k Hk]. apply app_eq_app in Hk as [m [[-> Hb]|[Hk Hb]]].
  - destruct m as [|z m]; simpl in Hb; subst suf; [done|].
    simpl in Hlen. rewrite length_app in Hlen. lia.
  - exists m. done.
Qed.

(** Only the last [length suffix] characters of a string decide [endswith]. *)
Lemma endswith_app (s t suffix : string) :
  String.length suffix <= String.length t ->
  endswith (s +:+ t) suffix = endswith t suffix.
Proof.
  intros H. unfold endswith. rewrite list_ascii_of_string_app.
  apply bool_decide_ext, suffix_of_app_long.
  by rewrite !length_list_ascii_of_string.
Qed.

(** ** Lemmas on [get_duplicates] *)

Lemma get_duplicates_aux_nil seen l :
  (forall x, x ∈ seen -> x ∉ l) ->
  get_duplicates_aux seen l = [] <-> NoDup l.
Proof.
  induction l as [|x l IH] in seen |- *; intros Hdisj; simpl.
  - split; [constructor|done].
  - rewrite NoDup_cons.
    rewrite decide_False by (intros Hx; apply (Hdisj x Hx); set_solver).
    case_decide as Hin; [split; [done|tauto]|].
    rewrite IH; [tauto|].
    intros y Hy. apply elem_of_cons in Hy as [->|Hy]; [done|].
    intros Hl. apply (Hdisj y Hy). set_solver.
Qed.

(** No duplicate is reported exactly when the list has none. *)
Lemma get_duplicates_nil l : get_duplicates l = [] <-> NoDup l.
Proof. apply get_duplicates_aux_nil. set_solver. Qed.

(** ** Strings as Python compares them *)

(** [sorted(l)] on strings: lexicographic order on characters. *)
Definition str_le (x y : string) : Prop := String.leb x y = true.
#[export] Instance str_le_dec : RelDecision str_le.
Proof. intros x y. unfold str_le. apply _. Defined.
Definition sort_strings (l : list string) : list string := merge_sort str_le l.

Lemma sort_strings_elem_of l x : x ∈ sort_strings l <-> x ∈ l.
Proof. unfold sort_strings. by rewrite merge_sort_Permutation. Qed.

(** [String.leb] is a total order: Python's order on [str]. *)
Lemma string_leb_trans s1 s2 s3 :
  String.leb s1 s2 = true -> String.leb s2 s3 = true -> String.leb s1 s3 = true.
Proof.
  unfold String.leb. revert s2 s3.
  induction s1 as [|a s1 IH]; intros [|b s2] [|c s3]; simpl; try done.
  unfold Ascii.compare.
  destruct (N.compare_spec (Ascii.N_of_ascii a) (Ascii.N_of_ascii b)),
    (N.compare_spec (Ascii.N_of_ascii b) (Ascii.N_of_ascii c)),
    (N.compare_spec (Ascii.N_of_ascii a) (Ascii.N_of_ascii c)); try done; try lia.
  apply IH.
Qed.

#[export] Instance str_le_trans : Transitive str_le.
Proof. intros x y z. apply string_leb_trans. Qed.
#[export] Instance str_le_antisymm : AntiSymm (=) str_le.
Proof. intros x y. apply String.leb_antisym. Qed.
#[export] Instance str_le_total : Total str_le.
Proof. intros x y. apply String.leb_total. Qed.

(** Sorting depends only on the elements, and leaves a sorted list alone. *)
Lemma sort_strings_Permutation l1 l2 : l1 ≡ₚ l2 -> sort_strings l1 = sort_strings l2.
Proof.
  intros Hp. unfold sort_strings. apply (Sorted_unique str_le); [apply Sorted_merge_sort; exact str_le_total..|].
  etrans; [apply merge_sort_Permutation|]. etrans; [exact Hp|].
  symmetry. apply merge_sort_Permutation.
Qed.

Lemma sort_strings_sorted l : StronglySorted str_le l -> sort_strings l = l.
Proof.
  intros Hs. unfold sort_strings. apply (Sorted_unique str_le); [apply Sorted_merge_sort; exact str_le_total| |].
  - by apply StronglySorted_Sorted.
  - apply merge_sort_Permutation.
Qed.

Lemma sort_strings_StronglySorted l : StronglySorted str_le (sort_strings l).
Proof. apply StronglySorted_merge_sort; [exact str_le_trans|exact str_le_total]. Qed.

(** Truthiness of an optional string ([if name:] in Python): [None] and
    the empty string are false. *)
Definition py_truthy (o : option string) : option string :=
  match o with
  | Some s => if String.eqb s "" then None else Some s
  | None => None
  end.

Lemma py_truthy_Some o s : py_truthy o = Some s -> o = Some s /\ s <> "".
Proof.
  destruct o as [t|]; simpl; [|discriminate].
  destruct (String.eqb_spec t "") as [->|Hne]; [discriminate|].
  intros [= <-]. done.
Qed.

(** ** Ordered dicts as association lists *)

(** [d.get(k)] on an ordered dict with string keys. *)
Fixpoint assoc {A} (k : string) (l : list (string * A)) : option A :=
  match l with
  | [] => None
  | (k', v) :: l' => if String.eqb k k' then Some v else assoc k l'
  end.

Lemma assoc_app {A} k (l1 l2 : list (string * A)) :
  assoc k (l1 ++ l2) = match assoc k l1 with Some v => Some v | None => assoc k l2 end.
Proof. induction l1 as [|[k' v'] l1 IH]; simpl; [done|]. by destruct (String.eqb k k'). Qed.

Lemma assoc_None {A} k (l : list (string * A)) : assoc k l = None <-> k ∉ map fst l.
Proof.
  induction l as [|[k' v'] l IH]; simpl; [set_solver|]. rewrite not_elem_of_cons, <- IH.
  destruct (String.eqb_spec k k') as [->|]; naive_solver.
Qed.

Lemma assoc_Some_elem_of {A} k (l : list (string * A)) v :
  assoc k l = Some v -> (k, v) ∈ l.
Proof.
  induction l as [|[k' v'] l IH]; simpl; [discriminate|].
  destruct (String.eqb_spec k k') as [->|]; [intros [= ->]; set_solver|].
  intros H. apply elem_of_cons. auto.
Qed.

(** ** [{x: i for i, x in enumerate(l)}] *)

(** A later occurrence of a key overwrites an earlier one. *)
Definition index_dict (l : list string) : gmap string nat :=
  fold_left (fun m '(i, x) => <[x:=i]> m) (enumerate l) ∅.

Lemma enumerate_snoc {A} (l : list A) x :
  enumerate (l ++ [x]) = enumerate l ++ [(length l, x)].
Proof.
  unfold enumerate. rewrite length_app. simpl.
  rewrite Nat.add_1_r, seq_S. simpl. rewrite zip_with_app; [done|].
  by rewrite length_seq.
Qed.

Lemma index_dict_snoc l x : index_dict (l ++ [x]) = <[x:=length l]> (index_dict l).
Proof. unfold index_dict. by rewrite enumerate_snoc, fold_left_app. Qed.

(** The dict maps a key to its last position. *)
Lemma index_dict_spec l s i :
  index_dict l !! s = Some i <->
  l !! i = Some s /\ forall j, i < j -> l !! j <> Some s.
Proof.
  induction l as [|x l IH] using rev_ind.
  - unfold index_dict. simpl. rewrite lookup_empty. split; [discriminate|]. by intros [].
  - rewrite index_dict_snoc. destruct (decide (x = s)) as [<-|Hne].
    + rewrite lookup_insert_eq. split.
      * intros [= <-]. rewrite lookup_app_r, Nat.sub_diag by lia. split; [done|].
        intros j Hj. rewrite lookup_ge_None_2; [done|]. rewrite length_app. simpl. lia.
      * intros [Hi Hlast]. f_equal. apply lookup_lt_Some in Hi as Hlt.
        rewrite length_app in Hlt. simpl in Hlt.
        destruct (decide (i = length l)) as [|Hne]; [done|].
        exfalso. apply (Hlast (length l)); [lia|].
        by rewrite lookup_app_r, Nat.sub_diag by lia.
    + rewrite lookup_insert_ne by done. rewrite IH. split.
      * intros [Hi Hlast]. split; [by apply lookup_app_l_Some|].
        intros j Hj. destruct (decide (j < length l)).
        -- rewrite lookup_app_l by done. auto.
        -- rewrite lookup_app_r by lia.
           destruct (j - length l) as [|k]; simpl; [congruence|].
           by rewrite lookup_nil.
      * intros [Hi Hlast]. apply lookup_lt_Some in Hi as Hlt.
        rewrite length_app in Hlt. simpl in Hlt.
        destruct (decide (i = length l)) as [->|].
        -- rewrite lookup_app_r, Nat.sub_diag in Hi by lia. simpl in Hi. congruence.
        -- rewrite lookup_app_l in Hi by lia. split; [done|].
           intros j Hj Hjs. apply (Hlast j Hj). by apply lookup_app_l_Some.
Qed.

Lemma index_dict_None l s : index_dict l !! s = None <-> s ∉ l.
Proof.
  induction l as [|x l IH] using rev_ind.
  - unfold index_dict. simpl. rewrite lookup_empty. set_solver.
  - rewrite index_dict_snoc, lookup_insert_None, IH. set_solver.
Qed.

(** ** A loop whose body may raise *)

Fixpoint fold_res {A B} (f : A -> B -> res A) (l : list B) (acc : A) : res A :=
  match l with
  | [] => Ok acc
  | x :: l' => a <- f acc x ;; fold_res f l' a
  end.

(** A list comprehension whose element expression may raise: the first
    exception in list order propagates. *)
Fixpoint map_res {A B} (f : A -> res B) (l : list A) : res (list B) :=
  match l with
  | [] => Ok []
  | x :: l' => y <- f x ;; r <- map_res f l' ;; Ok (y :: r)
  end.

Lemma map_res_map_Ok {A B C} (f : B -> res C) (h : A -> B) (g : A -> C) l :
  (forall x, x ∈ l -> f (h x) = Ok (g x)) -> map_res f (map h l) = Ok (map g l).
Proof.
  induction l as [|x l IH]; intros Hf; simpl; [done|].
  rewrite Hf by apply list_elem_of_here. simpl.
  rewrite IH by (intros y Hy; apply Hf; by apply list_elem_of_further). done.
Qed.

Lemma fold_res_app {A B} (f : A -> B -> res A) l1 l2 acc :
  fold_res f (l1 ++ l2) acc = (a <- fold_res f l1 acc ;; fold_res f l2 a).
Proof.
  induction l1 as [|x l1 IH] in acc |- *; simpl; [done|].
  destruct (f acc x); simpl; [apply IH|done].
Qed.

(** An invariant of the loop body is an invariant of the loop. *)
Lemma fold_res_invariant {A B} (P : A -> Prop) (f : A -> B -> res A) l acc r :
  P acc -> (forall a x a', x ∈ l -> P a -> f a x = Ok a' -> P a') ->
  fold_res f l acc = Ok r -> P r.
Proof.
  induction l as [|x l IH] in acc |- *; simpl; intros Hacc Hstep H.
  - by injection H as <-.
  - inv_bind H. apply (IH a); [apply (Hstep acc x a); [set_solver|done|done]| |done].
    intros b y b' Hy. apply Hstep. set_solver.
Qed.

(** A loop whose body raises a measure by one runs once per element. *)
Lemma fold_res_measure {A B} (mu : A -> nat) (f : A -> B -> res A) l acc r :
  (forall a x a', f a x = Ok a' -> mu a' = S (mu a)) ->
  fold_res f l acc = Ok r -> mu r = mu acc + length l.
Proof.
  intros Hstep. induction l as [|x l IH] in acc |- *; simpl; intros H.
  - injection H as <-. lia.
  - inv_bind H. rewrite (IH a H), (Hstep _ _ _ Hc). lia.
Qed.

(** A loop of checks passes when every check passes, and otherwise raises
    the error of the first check that fails. *)
Lemma fold_res_checks_Ok {B} (g : B -> res unit) l :
  fold_res (fun _ x => g x) l tt = Ok tt <-> Forall (fun x => g x = Ok tt) l.
Proof.
  induction l as [|x l IH]; simpl; [split; auto|]. rewrite Forall_cons, <- IH.
  destruct (g x) as [[]|e]; simpl; naive_solver.
Qed.

Lemma fold_res_checks_Raise {B} (g : B -> res unit) l e :
  fold_res (fun _ x => g x) l tt = Raise e <->
  exists l1 x l2, l = l1 ++ x :: l2 /\ Forall (fun y => g y = Ok tt) l1 /\ g x = Raise e.
Proof.
  induction l as [|x l IH]; simpl.
  - split; [done|]. intros (l1 & y & l2 & H & _). by destruct l1.
  - destruct (g x) as [[]|e'] eqn:E; simpl.
    + rewrite IH. split.
      * intros (l1 & y & l2 & -> & Hok & Hy). exists (x :: l1), y, l2. split_and!; [done|by constructor|done].
      * intros ([|z l1] & y & l2 & Hl & Hok & Hy); simplify_eq/=; [congruence|].
        apply Forall_cons in Hok as [_ Hok]. by exists l1, y, l2.
    + split.
      * intros [= ->]. by exists [], x, l.
      * intros ([|z l1] & y & l2 & Hl & Hok & Hy); simplify_eq/=; [congruence|].
        apply Forall_cons in Hok as [Hz _]. congruence.
Qed.

Lemma fold_res_ext {A B} (f g : A -> B -> res A) l acc :
  (forall a x, f a x = g a x) -> fold_res f l acc = fold_res g l acc.
Proof.
  intros H. induction l as [|x l IH] in acc |- *; [done|]. simpl. rewrite H.
  destruct (g acc x); simpl; [apply IH|done].
Qed.

(** A loop whose body skips the elements a test rejects is the loop over
    the elements it accepts. *)
Lemma fold_res_filter {A B} (p : B -> bool) (f : A -> B -> res A) l acc :
  fold_res (fun a x => if p x then f a x else Ok a) l acc = fold_res f (filter (fun x => p x = true) l) acc.
Proof.
  induction l as [|x l IH] in acc |- *; [done|]. rewrite filter_cons. simpl.
  destruct (p x); simpl; [destruct (f acc x); simpl; [apply IH|done]|apply IH].
Qed.

(** A loop whose body first reads its element and then steps is, when
    every read succeeds, the loop of the step over what was read. *)
Lemma fold_res_read {A B C} (read : B -> res C) (f : A -> C -> res A) xs ys acc :
  Forall2 (fun x y => read x = Ok y) xs ys ->
  fold_res (fun a x => y <- read x ;; f a y) xs acc = fold_res f ys acc.
Proof.
  intros H. induction H as [|x y xs ys Hxy _ IH] in acc |- *; [done|]. simpl.
  rewrite Hxy. simpl. destruct (f acc y); simpl; [apply IH|done].
Qed.

Lemma lookup_enumerate {A} (l : list A) j :
  enumerate l !! j = (fun x => (j, x)) <$> l !! j.
Proof.
  unfold enumerate. rewrite lookup_zip_with.
  destruct (l !! j) eqn:E; simpl.
  - apply lookup_lt_Some in E. rewrite lookup_seq_lt by done. done.
  - destruct (seq 0 (length l) !! j); done.
Qed.

Lemma elem_of_enumerate {A} (l : list A) i x : (i, x) ∈ enumerate l <-> l !! i = Some x.
Proof.
  rewrite list_elem_of_lookup. split.
  - intros [j Hj]. rewrite lookup_enumerate in Hj.
    destruct (l !! j) eqn:E; simpl in Hj; [|discriminate]. by injection Hj as -> ->.
  - intros H. exists i. by rewrite lookup_enumerate, H.
Qed.

(** A suffix that starts with a separator absent from the rest of it is
    decided by the text after the last separator. *)
Lemma suffix_of_sep {A} (x : A) (s c m : list A) :
  x ∉ m -> (x :: m) `suffix_of` (s ++ x :: c) <-> (x :: m) `suffix_of` (x :: c).
Proof.
  intros Hx. split; [|apply suffix_app_r]. intros [k Hk].
  apply app_eq_app in Hk as [l [[Hs Hl]|[Hk' Hl]]].
  - destruct l as [|y l]; simpl in Hl.
    + rewrite Hl. done.
    + injection Hl as -> Hm. exfalso. apply Hx. rewrite Hm. set_solver.
  - by exists l.
Qed.

Lemma endswith_sep (s c m : string) (x : Ascii.ascii) :
  x ∉ String.list_ascii_of_string m ->
  endswith (s +:+ String x c) (String x m) = endswith (String x c) (String x m).
Proof.
  intros Hx. unfold endswith. rewrite list_ascii_of_string_app. simpl.
  apply bool_decide_ext, suffix_of_sep, Hx.
Qed.

Lemma string_app_assoc (a b c : string) : a +:+ (b +:+ c) = (a +:+ b) +:+ c.
Proof.
  rewrite <- (String.string_of_list_ascii_of_string (a +:+ (b +:+ c))),
    <- (String.string_of_list_ascii_of_string ((a +:+ b) +:+ c)).
  by rewrite !list_ascii_of_string_app, app_assoc.
Qed.

Lemma string_app_inj_r (p x y : string) : p +:+ x = p +:+ y -> x = y.
Proof.
  intros H. apply (f_equal String.list_ascii_of_string) in H.
  rewrite !list_ascii_of_string_app in H. apply app_inv_head in H.
  rewrite <- (String.string_of_list_ascii_of_string x), <- (String.string_of_list_ascii_of_string y).
  by rewrite H.
Qed.

(** The decimal rendering of a number has digits only. *)
Lemma pretty_N_go_chars x s c :
  c ∈ String.list_ascii_of_string (pretty_N_go x s) ->
  c ∈ String.list_ascii_of_string s \/ exists y, c = pretty_N_char y.
Proof.
  revert s. induction (N.lt_wf_0 x) as [x _ IH]; intros s Hc.
  destruct (decide (x = 0)%N) as [->|Hx]; [rewrite pretty_N_go_0 in Hc; by left|].
  rewrite pretty_N_go_step in Hc by lia. apply IH in Hc; [|apply N.div_lt; lia].
  destruct Hc as [Hc|Hc]; [|by right].
  simpl in Hc. apply elem_of_cons in Hc as [->|Hc]; eauto.
Qed.

Lemma pretty_nat_no_sep (n : nat) : "_"%char ∉ String.list_ascii_of_string (pretty n).
Proof.
  unfold pretty, pretty_nat. unfold pretty, pretty_N. case_decide; [simpl; set_solver|].
  intros Hc. apply pretty_N_go_chars in Hc as [Hc|[y Hy]]; [simpl in Hc; set_solver|].
  unfold pretty_N_char in Hy. repeat case_match; discriminate.
Qed.

(** Two strings that agree up to the first separator agree before it. *)
Lemma sep_prefix_eq (c : ascii) (u v a b : list ascii) :
  c ∉ u -> c ∉ v -> u ++ c :: a = v ++ c :: b -> u = v.
Proof.
  induction u as [|x u IH] in v |- *; destruct v as [|y v]; simpl; intros Hu Hv H.
  - done.
  - injection H as -> _. destruct Hv. left.
  - injection H as <- _. destruct Hu. left.
  - injection H as -> H. f_equal. apply IH; [set_solver|set_solver|done].
Qed.

(** The directory and identifier scheme [policy_<i>_<name>] determines [i]. *)
Lemma policy_prefix_inj (i j : nat) (a b : string) :
  "policy_" +:+ pretty i +:+ "_" +:+ a = "policy_" +:+ pretty j +:+ "_" +:+ b -> i = j.
Proof.
  intros H. apply string_app_inj_r in H. apply (f_equal String.list_ascii_of_string) in H.
  rewrite !list_ascii_of_string_app in H. simpl in H.
  apply sep_prefix_eq in H; [|apply pretty_nat_no_sep..].
  apply (inj pretty). by rewrite <- (String.string_of_list_ascii_of_string (pretty i)), H,
    String.string_of_list_ascii_of_string.
Qed.

(** Writing [key i x := val x] for every [(i, x)] of [enumerate l], with
    keys that determine the index. *)
Section InsertEnumerate.
Context {A V : Type} (key : nat -> A -> string) (val : A -> V).
Hypothesis key_inj : forall i j x y, key i x = key j y -> i = j.

Definition insert_enumerate (l : list A) (m : gmap string V) : gmap string V :=
  fold_left (fun m '(i, x) => <[key i x := val x]> m) (enumerate l) m.

Lemma insert_enumerate_snoc l x m :
  insert_enumerate (l ++ [x]) m = <[key (length l) x := val x]> (insert_enumerate l m).
Proof. unfold insert_enumerate. by rewrite enumerate_snoc, fold_left_app. Qed.

Lemma lookup_insert_enumerate l m i x :
  l !! i = Some x -> insert_enumerate l m !! key i x = Some (val x).
Proof.
  induction l as [|y l IH] using rev_ind; [by rewrite lookup_nil|].
  rewrite insert_enumerate_snoc. intros Hi.
  destruct (decide (i = length l)) as [->|Hne].
  - rewrite lookup_app_r, Nat.sub_diag in Hi by lia. injection Hi as ->. by rewrite lookup_insert_eq.
  - rewrite lookup_insert_ne by (intros Hk; apply key_inj in Hk; congruence).
    apply IH. apply lookup_lt_Some in Hi as Hlt. rewrite length_app in Hlt. simpl in Hlt.
    by rewrite lookup_app_l in Hi by lia.
Qed.

Lemma lookup_insert_enumerate_other l m k :
  (forall i x, key i x <> k) -> insert_enumerate l m !! k = m !! k.
Proof.
  intros Hk. induction l as [|y l IH] using rev_ind; [done|].
  rewrite insert_enumerate_snoc, lookup_insert_ne by apply Hk. exact IH.
Qed.
End InsertEnumerate.

(** Inserting [p ++ x := v] for every [x] of a list. *)
Lemma lookup_foldr_insert_prefix {V} (p : string) (v : V) (l : list string) (m : gmap string V) e :
  foldr (fun x sd => <[p +:+ x := v]> sd) m l !! (p +:+ e) =
  if bool_decide (e ∈ l) then Some v else m !! (p +:+ e).
Proof.
  induction l as [|x l IH]; cbn [foldr].
  - by rewrite bool_decide_eq_false_2 by set_solver.
  - destruct (decide (x = e)) as [->|Hne].
    + rewrite lookup_insert_eq. by rewrite bool_decide_eq_true_2 by set_solver.
    + rewrite lookup_insert_ne by (intros H%string_app_inj_r; congruence).
      rewrite IH. destruct (decide (e ∈ l)).
      * by rewrite !bool_decide_eq_true_2 by set_solver.
      * by rewrite !bool_decide_eq_false_2 by set_solver.
Qed.

(** [sub in s] on strings. *)
Fixpoint contains (s sub : string) : bool :=
  String.prefix sub s ||
  match s with
  | EmptyString => false
  | String _ s' => contains s' sub
  end.

