(* ===== verification/Tracker.v ===== *)
(** * Slots, user messages, events and the dialogue state tracker

    The slot classes ([rasa.core.slots]) and the tracker
    ([rasa.core.trackers], [rasa.core.events]) are not under [src/]; the
    specification treats the tracker as an external collaborator, "an
    append-only ordered log of tagged event variants" whose current state
    "is always a pure fold over the log".  This file models exactly that,
    from the specification: [Slots] gives the slot types with their
    feature width and featurisation (one-hot categorical slots, width-one
    boolean, text and list slots), [Tracker] the events, their effect
    [apply_event] on the state (latest message, latest action, slot
    values, active form and its rejection flag) and the tracker: the log
    with the state kept beside it, as the Python object keeps it, so that
    the in-place edits of [test.py] ([del tracker.events[-1]]) are
    modelled as they happen.  [consistent] states that the state is the
    replay of the log; [update] and [from_events] keep it. *)

From S2P Require Import Prelude.

Module Slots.

(** A value stored in a slot. *)
Inductive SlotValue :=
| VNone
| VStr (s : string)
| VBool (b : bool)
| VList (l : list string).

(** The slot classes with a featurisation. *)
Inductive SlotType :=
| TextSlot
| BooleanSlot
| CategoricalSlot (values : list string)
| ListSlot
| UnfeaturizedSlot.

Record Slot := mkSlot {
  slot_name : string;
  slot_type : SlotType;
  initial_value : SlotValue;
  auto_fill : bool
}.

Definition type_name (t : SlotType) : string :=
  match t with
  | TextSlot => "text"
  | BooleanSlot => "bool"
  | CategoricalSlot _ => "categorical"
  | ListSlot => "list"
  | UnfeaturizedSlot => "unfeaturized"
  end.

Definition feature_dimensionality (s : Slot) : nat :=
  match slot_type s with
  | TextSlot | BooleanSlot | ListSlot => 1
  | CategoricalSlot vs => length vs
  | UnfeaturizedSlot => 0
  end.

Definition as_feature (s : Slot) (v : SlotValue) : list Q :=
  match slot_type s with
  | TextSlot => [if v is VNone then 0%Q else 1%Q]
  | BooleanSlot => [if v is VBool true then 1%Q else 0%Q]
  | CategoricalSlot vs =>
      map (fun c => if v is VStr x then (if String.eqb x c then 1%Q else 0%Q) else 0%Q) vs
  | ListSlot => [if v is VList (_ :: _) then 1%Q else 0%Q]
  | UnfeaturizedSlot => []
  end.

Lemma length_as_feature s v : length (as_feature s v) = feature_dimensionality s.
Proof. unfold as_feature, feature_dimensionality. by destruct (slot_type s); rewrite ?length_map. Qed.

(** Every feature is 0 or 1. *)
Lemma as_feature_01 s v : Forall (fun q => q = 0%Q \/ q = 1%Q) (as_feature s v).
Proof.
  unfold as_feature. destruct (slot_type s).
  - constructor; [destruct v; auto|constructor].
  - constructor; [destruct v as [| |[]|]; auto|constructor].
  - apply Forall_forall. intros q Hq. apply list_elem_of_In, in_map_iff in Hq as (c & <- & _).
    destruct v; auto. destruct (String.eqb _ c); auto.
  - constructor; [destruct v as [| | |[]]; auto|constructor].
  - constructor.
Qed.

End Slots.

Module Tracker.
Import Slots.

(** An entity recognised in a user message. *)
Record Entity := mkEntity {
  entity_type : option string;     (** the ["entity"] key, when present *)
  entity_value : string;
  entity_start : option nat;
  entity_end : option nat
}.

(** The parse data of a user message. *)
Record Message := mkMessage {
  msg_text : string;
  intent_name : option string;
  intent_confidence : option Q;
  intent_ranking : option (list (option string * Q));
  msg_entities : list Entity;
  true_intent : option string;
  true_entities : option (list Entity)
}.

Inductive Event :=
| UserUttered (m : Message)
| ActionExecuted (name : string) (policy : option string) (confidence : option Q)
| WronglyPredictedAction (gold predicted : string)
| ActionExecutionRejected (name : string)
| SlotSet (key : string) (value : SlotValue)
| FormEvent (name : option string)
| Restarted.

Record TrackerState := mkState {
  latest_message : option Message;     (** [None]: [UserUttered.empty()] *)
  latest_action_name : option string;
  slot_values : gmap string SlotValue;
  active_form : option string;
  form_rejected : bool
}.

Definition initial_state : TrackerState := mkState None None ∅ None false.

(** How one event changes the tracker's state. *)
Definition apply_event (st : TrackerState) (e : Event) : TrackerState :=
  match e with
  | UserUttered m =>
      mkState (Some m) (latest_action_name st) (slot_values st) (active_form st) (form_rejected st)
  | ActionExecuted a _ _ | WronglyPredictedAction a _ =>
      mkState (latest_message st) (Some a) (slot_values st) (active_form st) (form_rejected st)
  | ActionExecutionRejected a =>
      mkState (latest_message st) (latest_action_name st) (slot_values st) (active_form st)
        (form_rejected st || bool_decide (active_form st = Some a))
  | SlotSet k v =>
      mkState (latest_message st) (latest_action_name st) (<[k:=v]> (slot_values st))
        (active_form st) (form_rejected st)
  | FormEvent f =>
      mkState (latest_message st) (latest_action_name st) (slot_values st) f false
  | Restarted => initial_state
  end.

(** A tracker: the slots of the domain, the event log and the state the
    events have produced.  The state is kept beside the log, as the Python
    object does: removing an event from the log does not undo it. *)
Record Tracker := mkTracker {
  sender_id : string;
  tracker_slots : list Slot;
  events : list Event;
  tracker_state : TrackerState
}.

(** The state a log produces. *)
Definition replay (evs : list Event) : TrackerState := fold_left apply_event evs initial_state.

(** [tracker.update(event)]: log the event and apply it. *)
Definition update (tr : Tracker) (e : Event) : Tracker :=
  mkTracker (sender_id tr) (tracker_slots tr) (events tr ++ [e]) (apply_event (tracker_state tr) e).

(** [DialogueStateTracker.from_events(sender_id, events, slots)]. *)
Definition from_events (sender : string) (evs : list Event) (slots : list Slot) : Tracker :=
  mkTracker sender slots evs (replay evs).

(** [del tracker.events[-1]]: the log forgets the event, the state keeps it. *)
Definition drop_last_event (tr : Tracker) : Tracker :=
  mkTracker (sender_id tr) (tracker_slots tr) (removelast (events tr)) (tracker_state tr).

(** [tracker.active_form["rejected"] = False]. *)
Definition clear_form_rejection (tr : Tracker) : Tracker :=
  let st := tracker_state tr in
  mkTracker (sender_id tr) (tracker_slots tr) (events tr)
    (mkState (latest_message st) (latest_action_name st) (slot_values st) (active_form st) false).

Definition tracker_latest_message (tr : Tracker) := latest_message (tracker_state tr).
Definition tracker_latest_action_name (tr : Tracker) := latest_action_name (tracker_state tr).
Definition tracker_active_form (tr : Tracker) := active_form (tracker_state tr).

(** [tracker.slots.items()]: every slot of the domain with its current
    value, the initial value while no [SlotSet] has set it. *)
Definition tracker_slot_items (tr : Tracker) : list (Slot * SlotValue) :=
  map (fun s => (s, default (initial_value s) (slot_values (tracker_state tr) !! slot_name s)))
    (tracker_slots tr).

(** [tracker.events[-1]]. *)
Definition last_event (tr : Tracker) : option Event := last (events tr).

(** The trackers of every prefix of the conversation. *)
Definition prior_trackers (tr : Tracker) : list Tracker :=
  map (fun n => from_events (sender_id tr) (take n (events tr)) (tracker_slots tr))
    (seq 0 (S (length (events tr)))).

(** The state is the replay of the log. *)
Definition consistent (tr : Tracker) : Prop := tracker_state tr = replay (events tr).

Lemma from_events_consistent sender evs slots : consistent (from_events sender evs slots).
Proof. done. Qed.

Lemma update_consistent tr e : consistent tr -> consistent (update tr e).
Proof. unfold consistent, replay. simpl. intros ->. by rewrite fold_left_app. Qed.

Lemma last_event_update tr e : last_event (update tr e) = Some e.
Proof. unfold last_event, update. simpl. by rewrite last_snoc. Qed.

End Tracker.
