(* ===== verification/Domain.v ===== *)
(** * The domain ([src/rasa/core/domain.py])

    [Domain] models the class [Domain]: the record holds the fields its
    constructor computes ([intent_properties], [entities], [form_names],
    [slots], [templates], [session_config], [user_actions],
    [action_names], [store_entities_as_slots]); [domain_init] is
    [Domain.__init__] with [collect_intent_properties] and
    [_check_domain_sanity], and raises [InvalidDomain] where the code
    does.  The lazy properties ([intents], [input_states] and the
    per-namespace state lists, [input_state_map]) are plain functions of
    the record, since the domain never changes once built.  The state
    computation ([get_parsing_states], [_get_featurized_entities],
    [get_prev_action_states], [get_active_form], [get_active_states])
    returns a [gmap string Q], the Python [Dict[Text, float]];
    [dict.update] is the left-biased union with the new map on the left. *)

From S2P Require Import Prelude Tracker.
Import Slots Tracker.

Module Domain.

(** ** Default actions ([rasa.core.actions.action], from the spec) *)

Definition ACTION_LISTEN_NAME := "action_listen".
Definition ACTION_RESTART_NAME := "action_restart".
Definition ACTION_BACK_NAME := "action_back".
Definition ACTION_DEFAULT_FALLBACK_NAME := "action_default_fallback".
Definition ACTION_DEACTIVATE_FORM_NAME := "action_deactivate_form".

Definition default_action_names : list string :=
  [ACTION_LISTEN_NAME; ACTION_RESTART_NAME; ACTION_DEFAULT_FALLBACK_NAME;
   ACTION_DEACTIVATE_FORM_NAME; ACTION_BACK_NAME].

(** Default actions first, then the user actions that are not defaults. *)
Definition combine_user_with_default_actions (user_actions : list string) : list string :=
  default_action_names ++ filter (fun a => a ∉ default_action_names) user_actions.

(** A response variant as written in the domain file. *)
Inductive TemplateVariant :=
| TStr (text : string)            (** a bare string (deprecated) *)
| TDict (keys : list string).     (** a dict, by its keys *)

(** A validated response: the keys of its dict. *)
Definition Template := list string.

(** The user actions and the responses not listed as actions. *)
Definition combine_with_templates (actions : list string)
    (templates : list (string * list Template)) : list string :=
  actions ++ filter (fun t => t ∉ actions) (sort_strings (map fst templates)).

(** ** Intents *)

(** The raw value of [use_entities] in the file. *)
Inductive UseEntitiesRaw := RTrue | RFalse | RNone | RList (l : list string).

(** [use_entities] after [collect_intent_properties]: [True] or a list. *)
Inductive UseEntities := UseAll | UseList (l : list string).

Record IntentProps := mkIntentProps {
  use_entities : UseEntities;
  ignore_entities : list string;
  triggers : option string
}.

(** An entry of the [intents] list of the domain file: a name, or a dict
    [{name: {use_entities, ignore_entities, triggers}}] with optional keys. *)
Inductive IntentSpec :=
| IntentName (name : string)
| IntentDict (name : string) (use : option UseEntitiesRaw)
    (ignore : option (list string)) (trig : option string).

Definition intent_spec_name (i : IntentSpec) : string :=
  match i with IntentName n | IntentDict n _ _ _ => n end.

Definition intent_spec_props (i : IntentSpec) : IntentProps :=
  match i with
  | IntentName _ => mkIntentProps UseAll [] None
  | IntentDict _ use ign trig =>
      mkIntentProps
        (match use with
         | None | Some RTrue => UseAll
         | Some RFalse | Some RNone => UseList []
         | Some (RList l) => UseList l
         end)
        (default [] ign) trig
  end.

(** [collect_intent_properties]: an ordered dict, or [IntentsNotUnique]. *)
Fixpoint collect_intent_properties_aux (acc : list (string * IntentProps))
    (intents : list IntentSpec) : res (list (string * IntentProps)) :=
  match intents with
  | [] => Ok acc
  | i :: rest =>
      let name := intent_spec_name i in
      if decide (name ∈ map fst acc) then Raise (InvalidDomain (IntentsNotUnique name))
      else collect_intent_properties_aux (acc ++ [(name, intent_spec_props i)]) rest
  end.
Definition collect_intent_properties (intents : list IntentSpec) :=
  collect_intent_properties_aux [] intents.

(** ** Responses *)

(** [collect_templates]: each key needs variants, each variant [text] or
    [custom]; bare strings become [{"text": ...}]. *)
Fixpoint validate_variations (key : string) (vs : list TemplateVariant) : res (list Template) :=
  match vs with
  | [] => Ok []
  | TStr _ :: rest => r <- validate_variations key rest ;; Ok (["text"] :: r)
  | TDict ks :: rest =>
      if decide (("text" ∉ ks) /\ ("custom" ∉ ks))
      then Raise (InvalidDomain (TemplateWithoutTextOrCustom key))
      else r <- validate_variations key rest ;; Ok (ks :: r)
  end.

Fixpoint collect_templates (yml : list (string * option (list TemplateVariant)))
    : res (list (string * list Template)) :=
  match yml with
  | [] => Ok []
  | (key, None) :: _ => Raise (InvalidDomain (TemplateWithoutVariants key))
  | (key, Some vs) :: rest =>
      v <- validate_variations key vs ;;
      r <- collect_templates rest ;;
      Ok ((key, v) :: r)
  end.

(** ** The domain record *)

Record SessionConfig := mkSessionConfig {
  session_expiration_time : Q;
  carry_over_slots : bool
}.

Definition are_sessions_enabled (c : SessionConfig) : bool :=
  negb (Qle_bool (session_expiration_time c) 0).

Record Domain := mkDomain {
  intent_properties : list (string * IntentProps);
  entities : list string;
  form_names : list string;
  slots : list Slot;
  templates : list (string * list Template);
  session_config : SessionConfig;
  user_actions : list string;
  action_names : list string;
  store_entities_as_slots : bool
}.

(** ** Construction and sanity check *)

(** [check_mappings]: intents whose [triggers] names no action. *)
Definition check_mappings (ip : list (string * IntentProps)) (actions : list string)
    : list (string * string) :=
  omap (fun '(intent, p) =>
          match triggers p with
          | Some a => if decide (a ∈ actions) then None else Some (intent, a)
          | None => None
          end) ip.

(** [_check_domain_sanity]. *)
Definition check_domain_sanity (d : Domain) : res unit :=
  let duplicate_actions := get_duplicates (action_names d) in
  let duplicate_slots := get_duplicates (map slot_name (slots d)) in
  let duplicate_entities := get_duplicates (entities d) in
  let incorrect_mappings := check_mappings (intent_properties d) (action_names d) in
  match duplicate_actions, duplicate_slots, duplicate_entities, incorrect_mappings with
  | [], [], [], [] => Ok tt
  | _, _, _, _ =>
      Raise (InvalidDomain (DomainInsane duplicate_actions duplicate_slots
                              duplicate_entities incorrect_mappings))
  end.

(** [Domain.__init__]. *)
Definition domain_init (intents : list IntentSpec) (ents : list string) (sls : list Slot)
    (tmpls : list (string * list Template)) (actions forms : list string)
    (store : bool) (session : SessionConfig) : res Domain :=
  ip <- collect_intent_properties intents ;;
  let ua := combine_with_templates actions tmpls in
  let d := mkDomain ip ents forms sls tmpls session ua
             (combine_user_with_default_actions ua ++ forms) store in
  _ <- check_domain_sanity d ;;
  Ok d.

(** [SessionConfig.default()]; [DEFAULT_CARRY_OVER_SLOTS_TO_NEW_SESSION]
    is [True]. *)
Definition session_config_default : SessionConfig := mkSessionConfig 0 true.

(** [_get_session_config], on the two keys of the [session_config] dict;
    a missing expiration time is 0 (with a warning). *)
Definition get_session_config (expiration : option Q) (carry_over : option bool) : SessionConfig :=
  mkSessionConfig (default 0%Q expiration) (default true carry_over).

(** [collect_slots]: one slot per key, in the order of the sorted names. *)
Definition collect_slots (slot_dict : list (string * Slot)) : list Slot :=
  omap (fun k => (fun s => mkSlot k (slot_type s) (initial_value s) (auto_fill s)) <$> assoc k slot_dict)
    (sort_strings (map fst slot_dict)).

(** The dict [Domain.from_dict] reads and [as_dict] writes: each field is a
    key of the domain file, [None] when the key is absent. *)
Record DomainData := mkDomainData {
  dd_store_entities_as_slots : option bool;            (** [config] *)
  dd_session_config : option (option Q * option bool);  (** [session_config] *)
  dd_intents : list IntentSpec;
  dd_entities : list string;
  dd_slots : list (string * Slot);
  dd_responses : list (string * option (list TemplateVariant));
  dd_templates : option (list (string * option (list TemplateVariant)));  (** deprecated key *)
  dd_actions : list string;
  dd_forms : list string
}.

(** [Domain.from_dict]: the deprecated [templates] key replaces
    [responses], after [responses] has been validated. *)
Definition from_dict (data : DomainData) : res Domain :=
  utter_templates <- collect_templates (dd_responses data) ;;
  utter_templates <- (match dd_templates data with
                      | Some t => collect_templates t
                      | None => Ok utter_templates
                      end) ;;
  let session := match dd_session_config data with
                 | Some (t, c) => get_session_config t c
                 | None => get_session_config None None
                 end in
  domain_init (dd_intents data) (dd_entities data) (collect_slots (dd_slots data)) utter_templates
    (dd_actions data) (dd_forms data) (default true (dd_store_entities_as_slots data)) session.

(** The invariant every constructed domain satisfies. *)
Record domain_wf (d : Domain) : Prop := {
  wf_intents : NoDup (map fst (intent_properties d));
  wf_actions : NoDup (action_names d);
  wf_slots : NoDup (map slot_name (slots d));
  wf_entities : NoDup (entities d);
  wf_triggers : forall i p a, (i, p) ∈ intent_properties d -> triggers p = Some a ->
                a ∈ action_names d
}.

(** ** Lazy properties *)

Definition intents (d : Domain) : list string := sort_strings (map fst (intent_properties d)).
Definition num_actions (d : Domain) : nat := length (action_names d).
Definition user_actions_and_forms (d : Domain) : list string := user_actions d ++ form_names d.

Definition slot_state_name (name : string) (i : nat) : string :=
  "slot_" +:+ name +:+ "_" +:+ pretty i.

Definition slot_states (d : Domain) : list string :=
  flat_map (fun s => map (slot_state_name (slot_name s)) (seq 0 (feature_dimensionality s)))
    (slots d).
Definition prev_action_states (d : Domain) : list string :=
  map (fun a => "prev_" +:+ a) (action_names d).
Definition intent_states (d : Domain) : list string :=
  map (fun i => "intent_" +:+ i) (intents d).
Definition entity_states (d : Domain) : list string :=
  map (fun e => "entity_" +:+ e) (entities d).
Definition form_states (d : Domain) : list string :=
  map (fun f => "active_form_" +:+ f) (form_names d).

Definition input_states (d : Domain) : list string :=
  intent_states d ++ entity_states d ++ slot_states d ++ prev_action_states d ++ form_states d.
Definition num_states (d : Domain) : nat := length (input_states d).

(** [{f: i for i, f in enumerate(input_states)}]: a later duplicate
    overwrites an earlier one. *)
Definition input_state_map (d : Domain) : gmap string nat := index_dict (input_states d).

Definition index_of_state (d : Domain) (s : string) : option nat := input_state_map d !! s.

(** ** Actions by name and by index *)

(** [index_for_action]: [NameError] for an unknown action. *)
Definition index_for_action (d : Domain) (a : string) : res nat :=
  match py_index (String.eqb a) (action_names d) with
  | Some i => Ok i
  | None => Raise (NameError a)
  end.

(** [action_for_name]: the action, or [NameError]. *)
Definition action_for_name (d : Domain) (a : string) : res string :=
  if decide (a ∈ action_names d) then Ok a else Raise (NameError a).

(** [action_for_index]: [IndexError] outside [0, num_actions). *)
Definition action_for_index (d : Domain) (i : nat) : res string :=
  match action_names d !! i with
  | Some a => action_for_name d a
  | None => Raise (IndexError i)
  end.

(** ** Active states of a tracker *)

Definition default_intent_props : IntentProps := mkIntentProps UseAll [] None.

(** [intent_config]: the properties, [{}] (all defaults) when unknown. *)
Definition intent_config (d : Domain) (name : string) : IntentProps :=
  default default_intent_props (assoc name (intent_properties d)).

(** [_get_featurized_entities]: the entity types of the message that the
    intent wants, [use_entities] minus [ignore_entities]. *)
Definition get_featurized_entities (d : Domain) (intent : string) (m : Message) : gset string :=
  let cfg := intent_config d intent in
  let entity_names : gset string := list_to_set (omap entity_type (msg_entities m)) in
  let included : gset string :=
    match use_entities cfg with UseAll => entity_names | UseList l => list_to_set l end in
  let excluded : gset string := list_to_set (ignore_entities cfg) in
  entity_names ∩ (included ∖ excluded).

(** The ambiguity [_get_featurized_entities] warns about. *)
Definition ambiguous_entities (d : Domain) (intent : string) : gset string :=
  let cfg := intent_config d intent in
  match use_entities cfg with
  | UseAll => ∅
  | UseList l => list_to_set l ∩ list_to_set (ignore_entities cfg)
  end.

(** The slot part of [get_parsing_states]: [slot_<name>_<i>] for every
    non-zero feature. *)
Definition slot_feature_states (items : list (Slot * SlotValue)) (acc : gmap string Q)
    : gmap string Q :=
  fold_left (fun m '(s, v) =>
    fold_left (fun m' '(i, f) =>
      if Qeq_bool f 0 then m' else <[slot_state_name (slot_name s) i := f]> m')
      (enumerate (as_feature s v)) m) items acc.

(** The intent part of [get_parsing_states]. *)
Definition intent_confidence_states (m : Message) (acc : gmap string Q) : gmap string Q :=
  match intent_ranking m with
  | Some ranking =>
      fold_left (fun sd '(name, conf) =>
        match py_truthy name with
        | Some n => <[("intent_" +:+ n) := conf]> sd
        | None => sd
        end) ranking acc
  | None =>
      match py_truthy (intent_name m) with
      | Some n => <[("intent_" +:+ n) := default 1%Q (intent_confidence m)]> acc
      | None => acc
      end
  end.

(** [get_parsing_states].  Before any user message the tracker holds
    [UserUttered.empty()] ([None] here): that event is truthy, so the
    early return of line 554 is not taken, and with no intent, no
    entities and no ranking only the slot states are set. *)
Definition get_parsing_states (d : Domain) (tr : Tracker) : gmap string Q :=
  match tracker_latest_message tr with
  | None => slot_feature_states (tracker_slot_items tr) ∅
  | Some m =>
      let entity_part : gmap string Q :=
        match py_truthy (intent_name m) with
        | Some intent =>
            set_fold (fun e sd => <[("entity_" +:+ e) := 1%Q]> sd) ∅
              (get_featurized_entities d intent m)
        | None => ∅
        end in
      intent_confidence_states m (slot_feature_states (tracker_slot_items tr) entity_part)
  end.

(** [get_prev_action_states]: only a state of the schema. *)
Definition get_prev_action_states (d : Domain) (tr : Tracker) : gmap string Q :=
  match py_truthy (tracker_latest_action_name tr) with
  | Some a =>
      let p := "prev_" +:+ a in
      if decide (is_Some (input_state_map d !! p)) then {[p := 1%Q]} else ∅
  | None => ∅
  end.

(** [get_active_form]. *)
Definition get_active_form (tr : Tracker) : gmap string Q :=
  match tracker_active_form tr with
  | Some f => {[("active_form_" +:+ f) := 1%Q]}
  | None => ∅
  end.

(** [get_active_states]: [state_dict.update(...)] twice. *)
Definition get_active_states (d : Domain) (tr : Tracker) : gmap string Q :=
  get_active_form tr ∪ (get_prev_action_states d tr ∪ get_parsing_states d tr).

(** [states_for_tracker_history]. *)
Definition states_for_tracker_history (d : Domain) (tr : Tracker) : list (gmap string Q) :=
  map (get_active_states d) (prior_trackers tr).

(** ** The persisted specification *)

(** [persist_specification]: the [states] list written to [domain.json]. *)
Definition persist_specification (d : Domain) : list string := input_states d.

(** [compare_with_specification] against the loaded [states]. *)
Definition compare_with_specification (d : Domain) (states : list string) : res bool :=
  let loaded : gset string := list_to_set states in
  let current : gset string := list_to_set (input_states d) in
  if decide (loaded = current) then Ok true
  else Raise (InvalidDomain (SpecificationChanged (loaded ∖ current) (current ∖ loaded))).


(** ** The constructor's invariant *)

Lemma collect_intent_properties_aux_NoDup acc intents ip :
  NoDup (map fst acc) -> collect_intent_properties_aux acc intents = Ok ip ->
  NoDup (map fst ip).
Proof.
  induction intents as [|i rest IH] in acc |- *; simpl; intros Hacc H.
  - by injection H as <-.
  - case_decide as Hin; [discriminate|].
    refine (IH _ _ H). rewrite map_app. simpl.
    apply NoDup_app. split_and!; [done| |apply NoDup_singleton].
    intros x Hx ->%list_elem_of_singleton. done.
Qed.

Lemma check_mappings_nil ip actions :
  check_mappings ip actions = [] <->
  forall i p a, (i, p) ∈ ip -> triggers p = Some a -> a ∈ actions.
Proof.
  induction ip as [|[i p] ip IH]; simpl.
  - split; [set_solver|done].
  - destruct (triggers p) as [a|] eqn:Ht; [case_decide as Hdec|]; simpl.
    + rewrite IH. split.
      * intros H j q b [[= -> ->]|Hin]%elem_of_cons Hq; [congruence|eauto].
      * intros H j q b Hin Hq. apply (H j q b); [set_solver|done].
    + split; [discriminate|]. intros H. exfalso. apply Hdec, (H i p a); [set_solver|done].
    + rewrite IH. split.
      * intros H j q b [[= -> ->]|Hin]%elem_of_cons Hq; [congruence|eauto].
      * intros H j q b Hin Hq. apply (H j q b); [set_solver|done].
Qed.

Lemma check_domain_sanity_Ok d :
  check_domain_sanity d = Ok tt <->
  NoDup (action_names d) /\ NoDup (map slot_name (slots d)) /\ NoDup (entities d) /\
  (forall i p a, (i, p) ∈ intent_properties d -> triggers p = Some a -> a ∈ action_names d).
Proof.
  unfold check_domain_sanity.
  rewrite <- !get_duplicates_nil, <- check_mappings_nil.
  destruct (get_duplicates (action_names d)), (get_duplicates (map slot_name (slots d))),
    (get_duplicates (entities d)), (check_mappings _ _); naive_solver.
Qed.

(** The sanity check passes exactly on domains without duplicate actions,
    slots or entities and whose intent mappings name known actions. *)
Lemma check_domain_sanity_spec d :
  check_domain_sanity d = Ok tt <->
  NoDup (action_names d) /\ NoDup (map slot_name (slots d)) /\ NoDup (entities d) /\
  (forall i p a, (i, p) ∈ intent_properties d -> triggers p = Some a -> a ∈ action_names d).
Proof. apply check_domain_sanity_Ok. Qed.


(** C8: The constructor only returns domains satisfying [domain_wf]. *)
Theorem domain_init_wf intents ents sls tmpls actions forms store session d :
  domain_init intents ents sls tmpls actions forms store session = Ok d -> domain_wf d.
Proof.
  unfold domain_init. intros H. inv_bind H. inv_bind H. injection H as <-.
  destruct a0. apply check_domain_sanity_Ok in Hc0 as (Ha & Hs & He & Ht).
  constructor; simpl in *; try done.
  eapply collect_intent_properties_aux_NoDup; [|exact Hc]. constructor.
Qed.

(** ** The state schema *)

Lemma index_of_state_last d s i :
  index_of_state d s = Some i <->
  input_states d !! i = Some s /\ forall j, i < j -> input_states d !! j <> Some s.
Proof. apply index_dict_spec. Qed.

(** ** Actions by name and by index *)

Lemma index_for_action_Ok d a i :
  index_for_action d a = Ok i <->
  action_names d !! i = Some a /\ forall j, j < i -> action_names d !! j <> Some a.
Proof.
  unfold index_for_action. split.
  - destruct (py_index _ _) as [k|] eqn:E; [intros [= <-]|discriminate].
    apply py_index_Some in E as (x & Hx & Hex & Hmin).
    apply String.eqb_eq in Hex as <-. split; [done|].
    intros j Hj Hja. specialize (Hmin j a Hj Hja). by rewrite String.eqb_refl in Hmin.
  - intros [Hi Hmin]. rewrite (py_index_first _ _ i a); [done|done|apply String.eqb_refl|].
    intros j y Hj Hy. apply String.eqb_neq. intros ->. by apply (Hmin j).
Qed.

Lemma index_for_action_Raise d a e :
  index_for_action d a = Raise e -> e = NameError a /\ a ∉ action_names d.
Proof.
  unfold index_for_action. destruct (py_index _ _) eqn:E; [discriminate|].
  intros [= <-]. split; [done|]. intros Ha.
  pose proof (py_index_None _ _ E a Ha). by rewrite String.eqb_refl in H.
Qed.

Lemma index_for_action_known d a :
  a ∈ action_names d -> exists i, index_for_action d a = Ok i.
Proof.
  intros Ha. destruct (index_for_action d a) as [i|e] eqn:E; [eauto|].
  by apply index_for_action_Raise in E as [_ []].
Qed.


(** ** Namespaces of the state dict *)

Lemma slot_feature_states_other items acc k :
  (forall name i, slot_state_name name i <> k) ->
  slot_feature_states items acc !! k = acc !! k.
Proof.
  intros Hk. unfold slot_feature_states.
  induction items as [|[s v] items IH] in acc |- *; simpl; [done|].
  rewrite IH. generalize (enumerate (as_feature s v)). intros l.
  induction l as [|[i f] l IHl] in acc |- *; simpl; [done|].
  rewrite IHl. destruct (Qeq_bool f 0); [done|]. by rewrite lookup_insert_ne.
Qed.

Lemma intent_confidence_states_other m acc k :
  (forall n, "intent_" +:+ n <> k) ->
  intent_confidence_states m acc !! k = acc !! k.
Proof.
  intros Hk. unfold intent_confidence_states.
  destruct (intent_ranking m) as [ranking|].
  - induction ranking as [|[name conf] ranking IH] in acc |- *; simpl; [done|].
    rewrite IH. destruct (py_truthy name); [|done]. by rewrite lookup_insert_ne.
  - destruct (py_truthy (intent_name m)); [|done]. by rewrite lookup_insert_ne.
Qed.

Lemma get_active_form_entity tr e : get_active_form tr !! ("entity_" +:+ e) = None.
Proof.
  unfold get_active_form. destruct (tracker_active_form tr); [|apply lookup_empty].
  apply lookup_singleton_ne. discriminate.
Qed.

Lemma get_prev_action_states_entity d tr e :
  get_prev_action_states d tr !! ("entity_" +:+ e) = None.
Proof.
  unfold get_prev_action_states. destruct (py_truthy _); [|apply lookup_empty].
  case_decide; [apply lookup_singleton_ne; discriminate|apply lookup_empty].
Qed.

(** The entity states of the dict come from the entity part alone. *)
Lemma get_active_states_entity d tr e :
  get_active_states d tr !! ("entity_" +:+ e) = get_parsing_states d tr !! ("entity_" +:+ e).
Proof.
  unfold get_active_states.
  rewrite !lookup_union, get_active_form_entity, get_prev_action_states_entity.
  by destruct (get_parsing_states d tr !! _).
Qed.

(** The entity types [_get_featurized_entities] keeps. *)
Lemma get_featurized_entities_spec d intent m e :
  e ∈ get_featurized_entities d intent m <->
  e ∈ omap entity_type (msg_entities m) /\
  (match use_entities (intent_config d intent) with UseAll => True | UseList l => e ∈ l end) /\
  e ∉ ignore_entities (intent_config d intent).
Proof.
  unfold get_featurized_entities.
  destruct (use_entities (intent_config d intent)); set_solver.
Qed.


(** ** Entity states *)

Lemma entity_state_lookup d tr m intent e :
  tracker_latest_message tr = Some m -> py_truthy (intent_name m) = Some intent ->
  get_active_states d tr !! ("entity_" +:+ e) =
  if bool_decide (e ∈ get_featurized_entities d intent m) then Some 1%Q else None.
Proof.
  intros Hm Hi. rewrite get_active_states_entity. unfold get_parsing_states. rewrite Hm, Hi.
  rewrite intent_confidence_states_other by discriminate.
  rewrite slot_feature_states_other by discriminate.
  unfold set_fold. simpl. rewrite lookup_foldr_insert_prefix, lookup_empty.
  destruct (decide (e ∈ get_featurized_entities d intent m)).
  - by rewrite !bool_decide_eq_true_2 by (rewrite ?elem_of_elements; done).
  - by rewrite !bool_decide_eq_false_2 by (rewrite ?elem_of_elements; done).
Qed.

(** C10: With a latest message whose intent is [intent], the state
    [entity_<e>] is active with value 1 exactly when [e] is the type of
    one of the message's entities, the intent's [use_entities] is [True]
    or lists [e], and its [ignore_entities] does not list [e]; otherwise
    the state is absent. *)
Theorem entity_state_featurized d tr m intent e :
  tracker_latest_message tr = Some m -> py_truthy (intent_name m) = Some intent ->
  (get_active_states d tr !! ("entity_" +:+ e) = Some 1%Q <->
   e ∈ omap entity_type (msg_entities m) /\
   (match use_entities (intent_config d intent) with UseAll => True | UseList l => e ∈ l end) /\
   e ∉ ignore_entities (intent_config d intent)) /\
  (get_active_states d tr !! ("entity_" +:+ e) = None <->
   ~ (e ∈ omap entity_type (msg_entities m) /\
      (match use_entities (intent_config d intent) with UseAll => True | UseList l => e ∈ l end) /\
      e ∉ ignore_entities (intent_config d intent))).
Proof.
  intros Hm Hi. rewrite (entity_state_lookup d tr m intent e Hm Hi), <- get_featurized_entities_spec.
  case_bool_decide; naive_solver.
Qed.

(** Only the domain's entities have a state [entity_<e>] in the schema:
    the other kinds of state start with another letter. *)
Lemma entity_state_in_schema d e : "entity_" +:+ e ∈ input_states d <-> e ∈ entities d.
Proof.
  unfold input_states, intent_states, entity_states, slot_states, prev_action_states, form_states.
  rewrite !elem_of_app. split.
  - intros [H|[H|[H|[H|H]]]].
    + apply list_elem_of_fmap in H as (i & H & _). apply (f_equal (String.get 0)) in H. cbv in H. discriminate.
    + apply list_elem_of_fmap in H as (e' & H & He). apply string_app_inj_r in H. by subst.
    + apply list_elem_of_In, in_flat_map in H as (s & _ & Hs). apply in_map_iff in Hs as (j & H & _).
      apply (f_equal (String.get 0)) in H. cbv in H. discriminate.
    + apply list_elem_of_fmap in H as (a & H & _). apply (f_equal (String.get 0)) in H. cbv in H. discriminate.
    + apply list_elem_of_fmap in H as (f & H & _). apply (f_equal (String.get 0)) in H. cbv in H. discriminate.
  - intros He. right. left. apply list_elem_of_fmap. by exists e.
Qed.

(** C11: The state vector can hold a state outside the domain's schema: an
    entity type of the latest message that the domain does not declare,
    under an intent that uses all entities and does not ignore it, is
    active as [entity_<e>], although [entity_<e>] is not one of
    [input_states]. *)
Theorem unknown_entity_outside_schema d tr m intent e :
  tracker_latest_message tr = Some m -> py_truthy (intent_name m) = Some intent ->
  e ∈ omap entity_type (msg_entities m) -> use_entities (intent_config d intent) = UseAll ->
  e ∉ ignore_entities (intent_config d intent) -> e ∉ entities d ->
  get_active_states d tr !! ("entity_" +:+ e) = Some 1%Q /\ "entity_" +:+ e ∉ input_states d.
Proof.
  intros Hm Hi He Huse Hign Hd. rewrite entity_state_in_schema. split; [|done].
  rewrite (entity_state_lookup d tr m intent e Hm Hi), bool_decide_eq_true_2; [done|].
  apply get_featurized_entities_spec. rewrite Huse. tauto.
Qed.

(** C9: Exclusion wins: an entity the intent ignores is never featurized, even
    when [use_entities] lists it too. *)
Theorem ignored_entity_never_featurized d tr m intent e :
  tracker_latest_message tr = Some m -> py_truthy (intent_name m) = Some intent ->
  e ∈ ignore_entities (intent_config d intent) ->
  get_active_states d tr !! ("entity_" +:+ e) = None.
Proof.
  intros Hm Hi He. rewrite (entity_state_lookup d tr m intent e Hm Hi).
  rewrite bool_decide_eq_false_2; [done|]. rewrite get_featurized_entities_spec. tauto.
Qed.

(** ** The schema index *)

(** C12: [index_of_state] returns a position in [0, num_states) holding the
    state for every state of the schema, and [None] for any other name. *)
Theorem index_of_state_range d s :
  (s ∈ input_states d ->
   exists i, index_of_state d s = Some i /\ i < num_states d /\ input_states d !! i = Some s) /\
  (s ∉ input_states d -> index_of_state d s = None).
Proof.
  split.
  - intros Hs. destruct (index_of_state d s) as [i|] eqn:E.
    + exists i. apply index_of_state_last in E as [Hi _]. split_and!; [done| |done].
      by apply lookup_lt_Some in Hi.
    + by apply index_dict_None in E.
  - intros Hs. by apply index_dict_None.
Qed.

(** ** The persisted specification *)

Theorem compare_with_specification_Ok d states :
  compare_with_specification d states = Ok true <->
  (forall s, s ∈ states <-> s ∈ input_states d).
Proof.
  unfold compare_with_specification. case_decide as Heq; split; try done.
  - intros _ s. rewrite <- (elem_of_list_to_set (C := gset string)), Heq.
    apply elem_of_list_to_set.
  - intros Hs. exfalso. apply Heq. apply set_eq. intros s. rewrite !elem_of_list_to_set. apply Hs.
Qed.

(** C13: A mismatch raises [InvalidDomain] naming exactly the removed and the
    added states, at least one of them. *)
Theorem compare_with_specification_Raise d states e :
  compare_with_specification d states = Raise e ->
  exists removed added, e = InvalidDomain (SpecificationChanged removed added) /\
    (forall s, s ∈ removed <-> s ∈ states /\ s ∉ input_states d) /\
    (forall s, s ∈ added <-> s ∈ input_states d /\ s ∉ states) /\
    (removed ≠ ∅ \/ added ≠ ∅).
Proof.
  unfold compare_with_specification. case_decide as Heq; [discriminate|].
  intros [= <-]. eexists _, _. split_and!; [done| | |].
  - intros s. rewrite elem_of_difference, !elem_of_list_to_set. done.
  - intros s. rewrite elem_of_difference, !elem_of_list_to_set. done.
  - destruct (decide (list_to_set states ∖ list_to_set (input_states d) = (∅ : gset string))) as [H1|H1];
      [|by left]. right. intros H2. apply Heq.
    apply (anti_symm (⊆)); by apply empty_difference_subseteq_L.
Qed.

(** The comparison depends only on the set of the loaded states. *)
#[export] Instance compare_with_specification_perm d : Proper ((≡ₚ) ==> (=)) (compare_with_specification d).
Proof.
  intros s s' H. unfold compare_with_specification.
  assert (E : list_to_set s = (list_to_set s' : gset string)) by (apply set_eq; intros x; by rewrite !elem_of_list_to_set, H).
  by rewrite E.
Qed.

(** What [persist_specification] writes is accepted by
    [compare_with_specification] of the same domain. *)
Theorem specification_roundtrip d :
  compare_with_specification d (persist_specification d) = Ok true.
Proof. apply compare_with_specification_Ok. done. Qed.

(** ** Actions by index *)

(** Looking an action up by name and then by index gives it back; on a
    well-formed domain the converse holds too. *)
Theorem action_index_roundtrip d a i :
  (index_for_action d a = Ok i -> action_for_index d i = Ok a) /\
  (domain_wf d -> action_for_index d i = Ok a -> index_for_action d a = Ok i).
Proof.
  split.
  - intros [Hi _]%index_for_action_Ok. unfold action_for_index, action_for_name.
    rewrite Hi. rewrite decide_True; [done|]. by eapply list_elem_of_lookup_2.
  - intros Hwf. unfold action_for_index, action_for_name.
    destruct (action_names d !! i) as [b|] eqn:Hb; [|discriminate].
    case_decide; [intros [= <-]|discriminate]. apply index_for_action_Ok.
    split; [done|]. intros j Hj Hja.
    pose proof (NoDup_lookup _ _ _ _ (wf_actions d Hwf) Hja Hb). lia.
Qed.


(** ** Examples *)

(** A restaurant domain: two intents, [inform] listing [city] and [name]
    but ignoring [name], a text slot, one custom action, one response and
    one form. *)
Definition ex_domain_result : res Domain :=
  domain_init
    [IntentName "greet"; IntentDict "inform" (Some (RList ["city"; "name"])) (Some ["name"]) None]
    ["city"; "name"] [mkSlot "city" TextSlot VNone true] [("utter_greet", [["text"]])]
    ["action_search"] ["restaurant_form"] true (mkSessionConfig 0 true).

Definition ex_domain : Domain :=
  match ex_domain_result with
  | Ok d => d
  | Raise _ => mkDomain [] [] [] [] [] (mkSessionConfig 0 true) [] [] true
  end.

Definition ex_message : Message :=
  mkMessage "a table in Berlin for Bob" (Some "inform") (Some (9 # 10)) None
    [mkEntity (Some "city") "Berlin" None None; mkEntity (Some "name") "Bob" None None] None None.

Definition ex_tracker : Tracker :=
  from_events "user"
    [ActionExecuted ACTION_LISTEN_NAME None None; UserUttered ex_message; SlotSet "city" (VStr "Berlin")]
    (slots ex_domain).

Lemma domain_init_wf_witness : ex_domain_result = Ok ex_domain /\ domain_wf ex_domain.
Proof.
  assert (H : ex_domain_result = Ok ex_domain) by (vm_compute; reflexivity).
  split; [exact H|]. exact (domain_init_wf _ _ _ _ _ _ _ _ _ H).
Defined.

Lemma entity_state_featurized_witness :
  tracker_latest_message ex_tracker = Some ex_message /\
  py_truthy (intent_name ex_message) = Some "inform" /\
  (get_active_states ex_domain ex_tracker !! ("entity_" +:+ "city") = Some 1%Q <->
   "city" ∈ omap entity_type (msg_entities ex_message) /\
   (match use_entities (intent_config ex_domain "inform") with UseAll => True | UseList l => "city" ∈ l end) /\
   "city" ∉ ignore_entities (intent_config ex_domain "inform")) /\
  get_active_states ex_domain ex_tracker !! ("entity_" +:+ "city") = Some 1%Q.
Proof.
  assert (Hm : tracker_latest_message ex_tracker = Some ex_message) by (vm_compute; reflexivity).
  assert (Hi : py_truthy (intent_name ex_message) = Some "inform") by (vm_compute; reflexivity).
  split_and!; [exact Hm|exact Hi|exact (proj1 (entity_state_featurized _ _ _ _ _ Hm Hi))|].
  vm_compute. reflexivity.
Defined.

Lemma ignored_entity_never_featurized_witness :
  tracker_latest_message ex_tracker = Some ex_message /\
  py_truthy (intent_name ex_message) = Some "inform" /\
  "name" ∈ ignore_entities (intent_config ex_domain "inform") /\
  get_active_states ex_domain ex_tracker !! ("entity_" +:+ "name") = None.
Proof.
  assert (Hin : "name" ∈ ignore_entities (intent_config ex_domain "inform"))
    by (vm_compute; left).
  split_and!; [vm_compute; reflexivity|vm_compute; reflexivity|exact Hin|].
  apply (ignored_entity_never_featurized _ _ ex_message "inform"); [vm_compute; reflexivity|vm_compute; reflexivity|exact Hin].
Defined.

Lemma index_of_state_range_witness :
  "prev_action_listen" ∈ input_states ex_domain /\
  exists i, index_of_state ex_domain "prev_action_listen" = Some i /\ i < num_states ex_domain /\
    input_states ex_domain !! i = Some "prev_action_listen".
Proof.
  assert (Hin : "prev_action_listen" ∈ input_states ex_domain)
    by (apply (bool_decide_eq_true_1 _); vm_compute; reflexivity).
  split; [exact Hin|]. exact (proj1 (index_of_state_range ex_domain "prev_action_listen") Hin).
Defined.

Lemma compare_with_specification_Raise_witness :
  exists e, compare_with_specification ex_domain ["intent_greet"; "intent_goodbye"] = Raise e /\
  exists removed added, e = InvalidDomain (SpecificationChanged removed added) /\
    (forall s, s ∈ removed <-> s ∈ ["intent_greet"; "intent_goodbye"] /\ s ∉ input_states ex_domain) /\
    (forall s, s ∈ added <-> s ∈ input_states ex_domain /\ s ∉ ["intent_greet"; "intent_goodbye"]) /\
    (removed ≠ ∅ \/ added ≠ ∅).
Proof.
  eexists. split; [vm_compute; reflexivity|].
  apply compare_with_specification_Raise. vm_compute. reflexivity.
Defined.

Lemma action_index_roundtrip_witness :
  index_for_action ex_domain "action_search" = Ok 5 /\
  action_for_index ex_domain 5 = Ok "action_search".
Proof.
  split; [vm_compute; reflexivity|].
  apply (proj1 (action_index_roundtrip ex_domain "action_search" 5)). vm_compute. reflexivity.
Defined.


(** A message about Roman cuisine, an entity type [ex_domain] does not
    declare. *)
Definition ex_rome : Message :=
  mkMessage "hello from Rome" (Some "greet") None None [mkEntity (Some "cuisine") "roman" None None] None None.

Definition ex_rome_tracker : Tracker := from_events "user" [UserUttered ex_rome] (slots ex_domain).

Lemma unknown_entity_outside_schema_witness :
  get_active_states ex_domain ex_rome_tracker !! ("entity_" +:+ "cuisine") = Some 1%Q /\
  "entity_" +:+ "cuisine" ∉ input_states ex_domain.
Proof.
  apply (unknown_entity_outside_schema ex_domain ex_rome_tracker ex_rome "greet" "cuisine");
    try (vm_compute; reflexivity).
  - apply (bool_decide_eq_true_1 _). vm_compute. reflexivity.
  - apply (bool_decide_eq_true_1 _). vm_compute. reflexivity.
  - apply (bool_decide_eq_true_1 _). vm_compute. reflexivity.
Defined.

End Domain.
