(* ===== verification/DomainMerge.v ===== *)
(** * Merging domains ([src/rasa/core/domain.py]: [Domain.merge], [Domain.load],
      [Domain.from_directory], [Domain.as_dict])

    [DomainMerge] models how a domain split over several files is put
    together.  [as_dict] writes a domain as the dict of its file
    ([DomainData] of [Domain]); [domain_merge] is [Domain.merge] on two
    such dicts, with its helpers [merge_dicts] (a [dict.update] in the
    direction the [override] flag chooses) and [merge_lists]
    ([sorted(set(l1 + l2))]), followed by [Domain.from_dict].
    [domain_load] and [domain_from_directory] fold the merge over the
    domains read from a list of files or from a directory; reading and
    parsing the files is I/O and is not modelled. *)

From S2P Require Import Prelude Tracker Domain.
Import Slots Tracker Domain.

Module DomainMerge.

(** ** Ordered dicts *)

(** [d[k] = v] on an ordered dict: in place when [k] is a key, at the end
    otherwise. *)
Fixpoint dict_set {V} (k : string) (v : V) (d : list (string * V)) : list (string * V) :=
  match d with
  | [] => [(k, v)]
  | (k', v') :: d' => if String.eqb k k' then (k', v) :: d' else (k', v') :: dict_set k v d'
  end.

(** [a.update(b)]. *)
Definition dict_update {V} (a b : list (string * V)) : list (string * V) :=
  fold_left (fun acc '(k, v) => dict_set k v acc) b a.

(** [merge_dicts] of [Domain.merge]: the values of [d1] win unless
    [override_existing_values] is set. *)
Definition merge_dicts {V} (d1 d2 : list (string * V)) (override_existing_values : bool)
    : list (string * V) :=
  if override_existing_values then dict_update d1 d2 else dict_update d2 d1.

(** [merge_lists] of [Domain.merge]: [sorted(list(set(l1 + l2)))]. *)
Definition merge_lists (l1 l2 : list string) : list string := sort_strings (remove_dups (l1 ++ l2)).

(** [list.remove(x)]: the first occurrence. *)
Fixpoint list_remove (x : string) (l : list string) : list string :=
  match l with
  | [] => []
  | y :: l' => if String.eqb x y then l' else y :: list_remove x l'
  end.

(** The loop [for form in combined["forms"]: if form in
    domain_dict["actions"]: domain_dict["actions"].remove(form)]. *)
Definition remove_forms (forms actions : list string) : list string :=
  fold_left (fun acts form => if decide (form ∈ acts) then list_remove form acts else acts) forms actions.

(** ** The dict of a domain *)

(** An entry [{name: properties}] of the [intents] list of [as_dict]. *)
Definition intent_to_spec (ip : string * IntentProps) : IntentSpec :=
  let '(name, p) := ip in
  IntentDict name
    (Some (match use_entities p with UseAll => RTrue | UseList l => RList l end))
    (Some (ignore_entities p)) (triggers p).

(** The responses [as_dict] writes. *)
Definition responses_dict (tmpls : list (string * list Template)) :
    list (string * option (list TemplateVariant)) :=
  map (fun '(k, ts) => (k, Some (map TDict ts))) tmpls.

#[local] Arguments responses_dict : simpl never.

(** [Domain.as_dict]; a slot is written as its persistence info, which
    [collect_slots] reads back. *)
Definition as_dict (d : Domain) : DomainData :=
  mkDomainData (Some (store_entities_as_slots d))
    (Some (Some (session_expiration_time (session_config d)), Some (carry_over_slots (session_config d))))
    (map intent_to_spec (intent_properties d)) (entities d)
    (map (fun s => (slot_name s, s)) (slots d))
    (responses_dict (templates d)) None
    (user_actions d) (form_names d).

(** [self.session_config == SessionConfig.default()]. *)
Definition session_is_default (c : SessionConfig) : bool :=
  Qeq_bool (session_expiration_time c) 0 && carry_over_slots c.

(** The dict [{list(i.keys())[0]: i for i in intents}]. *)
Definition intents_by_name (l : list IntentSpec) : list (string * IntentSpec) :=
  map (fun i => (intent_spec_name i, i)) l.

(** ** Merging *)

(** The dict [Domain.merge] hands to [from_dict]: [combined] after the
    updates of lines 218-250. *)
Definition merge_data (self other : Domain) (override : bool) : DomainData :=
  let domain_dict := as_dict other in
  let combined := as_dict self in
  let store :=
    if override
    then match dd_store_entities_as_slots domain_dict with
         | Some b => Some b
         | None => dd_store_entities_as_slots combined
         end
    else dd_store_entities_as_slots combined in
  let session :=
    if override || session_is_default (session_config self)
    then dd_session_config domain_dict else dd_session_config combined in
  let merged_intents :=
    merge_dicts (intents_by_name (dd_intents combined)) (intents_by_name (dd_intents domain_dict))
      override in
  let other_actions := remove_forms (dd_forms combined) (dd_actions domain_dict) in
  mkDomainData store session (map snd merged_intents)
    (merge_lists (dd_entities combined) (dd_entities domain_dict))
    (merge_dicts (dd_slots combined) (dd_slots domain_dict) override)
    (merge_dicts (dd_responses combined) (dd_responses domain_dict) override)
    None
    (merge_lists (dd_actions combined) other_actions)
    (merge_lists (dd_forms combined) (dd_forms domain_dict)).

(** [Domain.merge]: [if not domain: return self], otherwise
    [self.__class__.from_dict(combined)]. *)
Definition domain_merge (self : Domain) (domain : option Domain) (override : bool) : res Domain :=
  match domain with
  | None => Ok self
  | Some other => from_dict (merge_data self other override)
  end.

(** [as_dict] returns [self.user_actions] itself under ["actions"], so the
    removal loop of [Domain.merge] edits the list of the domain passed as
    argument: this is that domain after the call.  Its [action_names],
    computed in [__init__], are not updated. *)
Definition merge_argument_after (self other : Domain) : Domain :=
  mkDomain (intent_properties other) (entities other) (form_names other) (slots other)
    (templates other) (session_config other) (remove_forms (form_names self) (user_actions other))
    (action_names other) (store_entities_as_slots other).

(** [Domain.empty()]. *)
Definition domain_empty : res Domain :=
  domain_init [] [] [] [] [] [] true session_config_default.

(** [Domain.load] on the domains read from the given files, in order:
    [domain = domain.merge(other)]. *)
Definition domain_load (domains : list Domain) : res Domain :=
  match domains with
  | [] => Raise (InvalidDomain NoDomainFile)
  | _ => e <- domain_empty ;; fold_res (fun domain other => domain_merge domain (Some other) false) domains e
  end.

(** [Domain.from_directory] on the domain files in the order [os.walk]
    visits them: [domain = other.merge(domain)]. *)
Definition domain_from_directory (domains : list Domain) : res Domain :=
  e <- domain_empty ;; fold_res (fun domain other => domain_merge other (Some domain) false) domains e.

(** ** Ordered dicts: keys and values *)

Section Dicts.
Context {V : Type}.
Implicit Types (d a b : list (string * V)).

Lemma dict_set_keys k v d :
  map fst (dict_set k v d) = if decide (k ∈ map fst d) then map fst d else map fst d ++ [k].
Proof.
  induction d as [|[k' v'] d IH]; simpl; [done|].
  destruct (String.eqb_spec k k') as [->|Hne]; simpl.
  - by rewrite decide_True by set_solver.
  - rewrite IH. destruct (decide (k ∈ map fst d)).
    + by rewrite decide_True by set_solver.
    + by rewrite decide_False by set_solver.
Qed.

Lemma dict_set_NoDup k v d : NoDup (map fst d) -> NoDup (map fst (dict_set k v d)).
Proof.
  rewrite dict_set_keys. case_decide; [done|]. intros Hd.
  apply NoDup_app. split_and!; [done| |by apply NoDup_singleton]. set_solver.
Qed.

Lemma dict_update_NoDup a b : NoDup (map fst a) -> NoDup (map fst (dict_update a b)).
Proof.
  unfold dict_update. induction b as [|[k v] b IH] in a |- *; simpl; [done|].
  intros Ha. by apply IH, dict_set_NoDup.
Qed.

Lemma dict_update_keys a b k : k ∈ map fst (dict_update a b) <-> k ∈ map fst a \/ k ∈ map fst b.
Proof.
  unfold dict_update. induction b as [|[k' v] b IH] in a |- *; simpl; [set_solver|].
  rewrite IH, dict_set_keys. case_decide; set_solver.
Qed.

(** Setting a key to the value it has changes nothing. *)
Lemma dict_set_present k v d : NoDup (map fst d) -> (k, v) ∈ d -> dict_set k v d = d.
Proof.
  induction d as [|[k' v'] d IH]; simpl; intros Hnd Hin; [by apply elem_of_nil in Hin|].
  apply NoDup_cons in Hnd as [Hk' Hnd]. apply elem_of_cons in Hin as [[= -> ->]|Hin].
  - by rewrite String.eqb_refl.
  - destruct (String.eqb_spec k k') as [->|Hne].
    + exfalso. apply Hk'. apply list_elem_of_In, in_map_iff. exists (k', v).
      split; [done|]. by apply list_elem_of_In.
    + by rewrite IH.
Qed.

Lemma dict_update_sub a b : NoDup (map fst a) -> (forall kv, kv ∈ b -> kv ∈ a) -> dict_update a b = a.
Proof.
  unfold dict_update. induction b as [|[k v] b IH]; simpl; intros Hnd Hsub; [done|].
  rewrite dict_set_present by (done || apply Hsub; left). apply IH; [done|set_solver].
Qed.

Lemma merge_dicts_self d o : NoDup (map fst d) -> merge_dicts d d o = d.
Proof. intros Hnd. unfold merge_dicts. by destruct o; apply dict_update_sub. Qed.

Lemma merge_dicts_keys d1 d2 o k :
  k ∈ map fst (merge_dicts d1 d2 o) <-> k ∈ map fst d1 \/ k ∈ map fst d2.
Proof. unfold merge_dicts. destruct o; rewrite dict_update_keys; tauto. Qed.

Lemma merge_dicts_NoDup d1 d2 o :
  NoDup (map fst d1) -> NoDup (map fst d2) -> NoDup (map fst (merge_dicts d1 d2 o)).
Proof. unfold merge_dicts. destruct o; intros; by apply dict_update_NoDup. Qed.
End Dicts.

(** ** [merge_lists] *)

Lemma elem_of_merge_lists l1 l2 x : x ∈ merge_lists l1 l2 <-> x ∈ l1 \/ x ∈ l2.
Proof. unfold merge_lists. rewrite sort_strings_elem_of, elem_of_remove_dups. set_solver. Qed.

Lemma merge_lists_sorted l1 l2 :
  StronglySorted str_le (merge_lists l1 l2) /\ NoDup (merge_lists l1 l2).
Proof.
  split; [apply sort_strings_StronglySorted|]. unfold merge_lists, sort_strings.
  rewrite merge_sort_Permutation. apply NoDup_remove_dups.
Qed.

Lemma merge_lists_self l : StronglySorted str_le l -> NoDup l -> merge_lists l l = l.
Proof.
  intros Hs Hnd. unfold merge_lists. transitivity (sort_strings l); [|by apply sort_strings_sorted].
  apply sort_strings_Permutation. apply NoDup_Permutation; [apply NoDup_remove_dups|done|].
  intros x. rewrite elem_of_remove_dups. set_solver.
Qed.

(** [merge_lists] depends only on the elements of its arguments. *)
Lemma merge_lists_same_elems l1 l2 l1' l2' :
  (forall x, x ∈ l1 \/ x ∈ l2 <-> x ∈ l1' \/ x ∈ l2') -> merge_lists l1 l2 = merge_lists l1' l2'.
Proof.
  intros H. unfold merge_lists. apply sort_strings_Permutation.
  apply NoDup_Permutation; [apply NoDup_remove_dups..|]. intros x. rewrite !elem_of_remove_dups, !elem_of_app. apply H.
Qed.

Lemma merge_lists_comm l1 l2 : merge_lists l1 l2 = merge_lists l2 l1.
Proof. apply merge_lists_same_elems. intros x. tauto. Qed.

#[export] Instance merge_lists_perm : Proper ((≡ₚ) ==> (≡ₚ) ==> (=)) merge_lists.
Proof. intros l1 l1' H1 l2 l2' H2. apply merge_lists_same_elems. intros x. by rewrite H1, H2. Qed.

(** ** Reading back what [as_dict] writes *)

Lemma omap_ext_map {A B} (f : A -> option B) (g : A -> B) l :
  (forall x, x ∈ l -> f x = Some (g x)) -> omap f l = map g l.
Proof.
  induction l as [|x l IH]; simpl; intros H; [done|].
  rewrite H by left. f_equal. apply IH. set_solver.
Qed.

Lemma assoc_map_key_val {A B} (key : A -> string) (v : A -> B) (l : list A) x :
  NoDup (map key l) -> x ∈ l -> assoc (key x) (map (fun y => (key y, v y)) l) = Some (v x).
Proof.
  induction l as [|y l IH]; simpl; intros Hnd Hx; [by apply elem_of_nil in Hx|].
  apply NoDup_cons in Hnd as [Hy Hnd]. apply elem_of_cons in Hx as [->|Hx].
  - by rewrite String.eqb_refl.
  - destruct (String.eqb_spec (key x) (key y)) as [Heq|]; [|by apply IH].
    exfalso. apply Hy. rewrite <- Heq. apply list_elem_of_In, in_map_iff. exists x.
    split; [done|]. by apply list_elem_of_In.
Qed.

Lemma assoc_map_key {A} (key : A -> string) (l : list A) x :
  NoDup (map key l) -> x ∈ l -> assoc (key x) (map (fun y => (key y, y)) l) = Some x.
Proof. exact (assoc_map_key_val key id l x). Qed.

Lemma omap_map_comp {A B C} (f : B -> option C) (g : A -> B) l :
  omap f (map g l) = omap (fun x => f (g x)) l.
Proof. induction l as [|x l IH]; [done|]. cbn. destruct (f (g x)); cbn; by rewrite IH. Qed.

(** [collect_slots] gives back slots already sorted by name. *)
Lemma collect_slots_as_dict sls :
  StronglySorted str_le (map slot_name sls) -> NoDup (map slot_name sls) ->
  collect_slots (map (fun s => (slot_name s, s)) sls) = sls.
Proof.
  intros Hs Hnd. unfold collect_slots.
  rewrite map_map. simpl. rewrite sort_strings_sorted by done.
  rewrite omap_map_comp. etransitivity; [apply (omap_ext_map _ id)|apply map_id].
  intros x Hx. rewrite (assoc_map_key slot_name) by done. simpl. by destruct x.
Qed.

Lemma assoc_elem_of {A} k (l : list (string * A)) : k ∈ map fst l -> exists v, assoc k l = Some v.
Proof.
  induction l as [|[k' v] l IH]; simpl; intros Hk; [by apply elem_of_nil in Hk|].
  destruct (String.eqb_spec k k'); [eauto|]. apply IH. set_solver.
Qed.

Lemma names_collect_slots sd : map slot_name (collect_slots sd) = sort_strings (map fst sd).
Proof.
  unfold collect_slots. assert (Hks : forall x, x ∈ sort_strings (map fst sd) -> x ∈ map fst sd)
    by (intros x; by rewrite sort_strings_elem_of).
  revert Hks. generalize (sort_strings (map fst sd)). intros ks Hks.
  induction ks as [|k ks IH]; simpl; [done|].
  destruct (assoc_elem_of k sd) as [v ->]; [apply Hks; left|]. simpl. f_equal.
  apply IH. set_solver.
Qed.

(** ** Responses, intents and user actions read back *)

(** A response variant [collect_templates] accepts: a dict with a [text]
    or a [custom] key. *)
Definition template_valid (t : Template) : Prop := "text" ∈ t \/ "custom" ∈ t.

Definition templates_valid (tmpls : list (string * list Template)) : Prop :=
  forall k ts, (k, ts) ∈ tmpls -> Forall template_valid ts.

Lemma validate_variations_valid key vs ts :
  validate_variations key vs = Ok ts -> Forall template_valid ts.
Proof.
  induction vs as [|[s|ks] vs IH] in ts |- *; simpl; intros H.
  - by injection H as <-.
  - inv_bind H. injection H as <-. constructor; [left; set_solver|eauto].
  - case_decide as Hd; [discriminate|]. inv_bind H. injection H as <-.
    constructor; [|eauto]. unfold template_valid.
    destruct (decide ("text" ∈ ks)); [by left|]. destruct (decide ("custom" ∈ ks)); tauto.
Qed.

Lemma validate_variations_TDict key ts :
  Forall template_valid ts -> validate_variations key (map TDict ts) = Ok ts.
Proof.
  induction 1 as [|t ts Ht _ IH]; simpl; [done|].
  rewrite decide_False by (unfold template_valid in Ht; tauto). by rewrite IH.
Qed.

Lemma collect_templates_valid yml tmpls : collect_templates yml = Ok tmpls -> templates_valid tmpls.
Proof.
  induction yml as [|[k [vs|]] yml IH] in tmpls |- *; simpl; intros H; [|inv_bind H; inv_bind H|discriminate].
  - injection H as <-. intros ? ? Hin. by apply elem_of_nil in Hin.
  - injection H as <-. intros k' ts [[= -> ->]|Hin]%elem_of_cons;
      [by eapply validate_variations_valid|by eapply IH].
Qed.

Lemma collect_templates_as_dict tmpls :
  templates_valid tmpls -> collect_templates (responses_dict tmpls) = Ok tmpls.
Proof.
  induction tmpls as [|[k ts] tmpls IH]; simpl; intros Hv; [done|].
  rewrite validate_variations_TDict by (eapply Hv; left).
  rewrite IH; [done|]. intros k' ts' Hin. eapply Hv. by right.
Qed.

Lemma responses_dict_keys tmpls : map fst (responses_dict tmpls) = map fst tmpls.
Proof. induction tmpls as [|[k ts] tmpls IH]; simpl; by f_equal. Qed.

Lemma intent_to_spec_name ip : intent_spec_name (intent_to_spec ip) = fst ip.
Proof. by destruct ip. Qed.

Lemma intent_to_spec_props ip : intent_spec_props (intent_to_spec ip) = snd ip.
Proof. destruct ip as [n [[|l] ign trig]]; reflexivity. Qed.

(** An encoding of intent properties as entries of the [intents] list
    that [collect_intent_properties] reads back. *)
Section IntentEncoding.
Variable enc : string * IntentProps -> IntentSpec.
Hypothesis enc_name : forall ip, intent_spec_name (enc ip) = fst ip.
Hypothesis enc_props : forall ip, intent_spec_props (enc ip) = snd ip.

Lemma collect_intent_properties_aux_encoded acc ip :
  NoDup (map fst (acc ++ ip)) ->
  collect_intent_properties_aux acc (map enc ip) = Ok (acc ++ ip).
Proof.
  induction ip as [|[n p] ip IH] in acc |- *; intros Hnd; [by rewrite app_nil_r|].
  rewrite map_cons. cbn [collect_intent_properties_aux]. rewrite enc_name, enc_props. simpl.
  rewrite map_app in Hnd. simpl in Hnd. apply NoDup_app in Hnd as (Hacc & Hdis & Hx).
  rewrite decide_False by (intros Hin; apply (Hdis _ Hin); left).
  rewrite IH; [by rewrite <- app_assoc|].
  rewrite <- app_assoc, map_app. simpl. apply NoDup_app. split_and!; [done|done|done].
Qed.

Lemma collect_intent_properties_encoded ip :
  NoDup (map fst ip) -> collect_intent_properties (map enc ip) = Ok ip.
Proof. intros Hnd. by apply (collect_intent_properties_aux_encoded []). Qed.
End IntentEncoding.

Lemma filter_none {A} (P : A -> Prop) `{!forall x, Decision (P x)} l :
  (forall x, x ∈ l -> ~ P x) -> filter P l = [].
Proof.
  induction l as [|x l IH]; intros Hl; [done|].
  rewrite filter_cons_False by (apply Hl; left). apply IH. set_solver.
Qed.

Lemma combine_with_templates_covered actions tmpls :
  (forall k, k ∈ map fst tmpls -> k ∈ actions) -> combine_with_templates actions tmpls = actions.
Proof.
  intros H. unfold combine_with_templates. rewrite filter_none; [apply app_nil_r|].
  intros x Hx. rewrite sort_strings_elem_of in Hx. auto.
Qed.

Lemma elem_of_combine_with_templates actions tmpls k :
  k ∈ combine_with_templates actions tmpls <-> k ∈ actions \/ k ∈ map fst tmpls.
Proof.
  unfold combine_with_templates. rewrite elem_of_app, list_elem_of_filter, sort_strings_elem_of.
  destruct (decide (k ∈ actions)); tauto.
Qed.

(** ** Domains [from_dict] builds *)

(** What every domain [Domain.from_dict] returns satisfies: the facts
    [as_dict] needs to be read back unchanged. *)
Record domain_normal (d : Domain) : Prop := {
  dn_intents : NoDup (map fst (intent_properties d));
  dn_slots : StronglySorted str_le (map slot_name (slots d));
  dn_templates : templates_valid (templates d);
  dn_responses : forall k, k ∈ map fst (templates d) -> k ∈ user_actions d;
  dn_action_names : action_names d = combine_user_with_default_actions (user_actions d) ++ form_names d;
  dn_sane : check_domain_sanity d = Ok tt
}.

Lemma domain_init_Ok intents ents sls tmpls actions forms store session d :
  domain_init intents ents sls tmpls actions forms store session = Ok d ->
  exists ip, collect_intent_properties intents = Ok ip /\
    d = mkDomain ip ents forms sls tmpls session (combine_with_templates actions tmpls)
          (combine_user_with_default_actions (combine_with_templates actions tmpls) ++ forms) store /\
    check_domain_sanity d = Ok tt.
Proof.
  unfold domain_init. intros H. inv_bind H. inv_bind H. injection H as <-.
  destruct a0. eauto.
Qed.

Lemma from_dict_Ok_inv data d :
  from_dict data = Ok d ->
  exists tmpls session, collect_templates (default (dd_responses data) (dd_templates data)) = Ok tmpls /\
    domain_init (dd_intents data) (dd_entities data) (collect_slots (dd_slots data)) tmpls
      (dd_actions data) (dd_forms data) (default true (dd_store_entities_as_slots data)) session = Ok d.
Proof.
  unfold from_dict. intros H. inv_bind H. inv_bind H. exists a0.
  destruct (dd_templates data); simpl in *; [|injection Hc0 as <-]; eauto.
Qed.

Lemma from_dict_normal data d : from_dict data = Ok d -> domain_normal d.
Proof.
  intros (tmpls & session & Ht & H)%from_dict_Ok_inv.
  apply domain_init_Ok in H as (ip & Hip & -> & Hs). constructor; simpl; try done.
  - eapply (collect_intent_properties_aux_NoDup []); [constructor|exact Hip].
  - rewrite names_collect_slots. apply sort_strings_StronglySorted.
  - by eapply collect_templates_valid.
  - intros k Hk. apply elem_of_combine_with_templates. by right.
Qed.

(** [from_dict] reads back a dict that writes the fields of a domain the
    way [as_dict] does, up to the encoding of intents and of the [config]
    entry. *)
Lemma from_dict_readback d enc store_o :
  (forall ip, intent_spec_name (enc ip) = fst ip) -> (forall ip, intent_spec_props (enc ip) = snd ip) ->
  default true store_o = store_entities_as_slots d -> domain_normal d ->
  from_dict (mkDomainData store_o
               (Some (Some (session_expiration_time (session_config d)),
                      Some (carry_over_slots (session_config d))))
               (map enc (intent_properties d)) (entities d)
               (map (fun s => (slot_name s, s)) (slots d)) (responses_dict (templates d)) None
               (user_actions d) (form_names d)) = Ok d.
Proof.
  destruct d as [ip ents forms sls tmpls [t c] ua an store].
  intros Hname Hprops Hstore [Hip Hsl Htv Hresp Han Hs]; simpl in *. unfold from_dict; simpl.
  rewrite collect_templates_as_dict by done. simpl.
  pose proof Hs as Hs'. apply check_domain_sanity_Ok in Hs' as (_ & Hnd & _); simpl in Hnd.
  rewrite collect_slots_as_dict by done. unfold domain_init.
  rewrite collect_intent_properties_encoded by done. simpl.
  rewrite combine_with_templates_covered by done. rewrite Hstore.
  change (get_session_config (Some t) (Some c)) with (mkSessionConfig t c). by rewrite <- Han, Hs.
Qed.

Lemma as_dict_normal d : domain_normal d -> from_dict (as_dict d) = Ok d.
Proof.
  apply from_dict_readback; [apply intent_to_spec_name|apply intent_to_spec_props|done].
Qed.

(** ** Forms and user actions *)

Lemma elem_of_combine_user_with_default_actions ua x :
  x ∈ ua -> x ∈ combine_user_with_default_actions ua.
Proof.
  intros Hx. unfold combine_user_with_default_actions. rewrite elem_of_app, list_elem_of_filter.
  destruct (decide (x ∈ default_action_names)); tauto.
Qed.

(** In a sane domain no form is also a user action: the form's name would
    appear twice in [action_names]. *)
Lemma normal_forms_disjoint d x : domain_normal d -> x ∈ user_actions d -> x ∉ form_names d.
Proof.
  intros [_ _ _ _ Han Hs] Hua Hf. apply check_domain_sanity_Ok in Hs as (Hnd & _).
  rewrite Han in Hnd. apply NoDup_app in Hnd as (_ & Hdis & _).
  exact (Hdis x (elem_of_combine_user_with_default_actions _ _ Hua) Hf).
Qed.

Lemma collect_templates_keys yml tmpls : collect_templates yml = Ok tmpls -> map fst tmpls = map fst yml.
Proof.
  induction yml as [|[k [vs|]] yml IH] in tmpls |- *; simpl; intros H; [|inv_bind H; inv_bind H|discriminate].
  - by injection H as <-.
  - injection H as <-. simpl. f_equal. by apply IH.
Qed.

Lemma from_dict_fields data d :
  from_dict data = Ok d ->
  form_names d = dd_forms data /\ entities d = dd_entities data /\
  map fst (templates d) = map fst (default (dd_responses data) (dd_templates data)) /\
  user_actions d = combine_with_templates (dd_actions data) (templates d).
Proof.
  intros (tmpls & session & Ht & H)%from_dict_Ok_inv.
  apply domain_init_Ok in H as (ip & _ & -> & _). simpl. split_and!; try done.
  by apply collect_templates_keys.
Qed.

(** What [list.remove] keeps, and the removal loop of [Domain.merge]. *)
Lemma elem_of_list_remove x y l : x ∈ l -> x <> y -> x ∈ list_remove y l.
Proof.
  induction l as [|z l IH]; simpl; intros Hx Hne; [done|].
  destruct (String.eqb_spec y z) as [->|]; set_solver.
Qed.

Lemma elem_of_remove_forms forms actions x :
  x ∈ actions -> x ∉ forms -> x ∈ remove_forms forms actions.
Proof.
  unfold remove_forms. induction forms as [|f forms IH] in actions |- *; simpl; intros Hx Hf; [done|].
  apply IH; [|set_solver]. case_decide; [|done]. apply elem_of_list_remove; set_solver.
Qed.

Lemma remove_forms_disjoint forms actions :
  (forall f, f ∈ forms -> f ∉ actions) -> remove_forms forms actions = actions.
Proof.
  unfold remove_forms. induction forms as [|f forms IH]; simpl; intros H; [done|].
  rewrite decide_False by (apply H; left). apply IH. set_solver.
Qed.

(** ** Merging: conflicts *)

(** When a merge succeeds, no user action of [self] is a form of the other
    domain (the other direction is removed by the loop of lines 240-243). *)
Lemma merge_Ok_disjoint self other o m f :
  domain_merge self (Some other) o = Ok m -> f ∈ user_actions self -> f ∉ form_names other.
Proof.
  intros H Hua Hf. simpl in H. pose proof (from_dict_normal _ _ H) as Hn.
  apply from_dict_fields in H as (HF & _ & _ & HU).
  apply (normal_forms_disjoint m f Hn).
  - rewrite HU. apply elem_of_combine_with_templates. left. simpl. apply elem_of_merge_lists. by left.
  - rewrite HF. simpl. apply elem_of_merge_lists. by right.
Qed.

(** C22: [Domain.merge] fails whenever a user action of [self] is a form of
    the other domain: only the forms of [self] are removed from the other
    domain's actions, never the other way round, so the merged domain lists
    the name twice and [_check_domain_sanity] raises. *)
Theorem merge_action_form_conflict self other o f :
  f ∈ user_actions self -> f ∈ form_names other -> forall m, domain_merge self (Some other) o <> Ok m.
Proof. intros Hua Hf m H. exact (merge_Ok_disjoint _ _ _ _ _ H Hua Hf). Qed.

(** The user actions of a merge: those of both domains, and the responses. *)
Lemma merge_user_actions self other o m x :
  domain_merge self (Some other) o = Ok m ->
  x ∈ user_actions m <->
  x ∈ user_actions self \/ x ∈ remove_forms (form_names self) (user_actions other) \/
  x ∈ map fst (templates self) \/ x ∈ map fst (templates other).
Proof.
  intros H. simpl in H. apply from_dict_fields in H as (_ & _ & HT & HU). simpl in HT, HU.
  rewrite HU, elem_of_combine_with_templates, elem_of_merge_lists, HT, merge_dicts_keys,
    !responses_dict_keys. tauto.
Qed.

(** C25: When both [merge(a, b)] and [merge(b, a)] succeed they agree on the
    set-like fields: the same entities and forms, and the same user actions
    as sets. *)
Theorem merge_set_fields_commute a b o o' m1 m2 :
  domain_merge a (Some b) o = Ok m1 -> domain_merge b (Some a) o' = Ok m2 ->
  (forall x, x ∈ user_actions m1 <-> x ∈ user_actions m2) /\
  entities m1 = entities m2 /\ form_names m1 = form_names m2.
Proof.
  intros H1 H2. split_and!.
  - intros x. rewrite (merge_user_actions _ _ _ _ x H1), (merge_user_actions _ _ _ _ x H2).
    rewrite !remove_forms_disjoint; [tauto| |].
    + intros f Hf Hua. exact (merge_Ok_disjoint _ _ _ _ _ H1 Hua Hf).
    + intros f Hf Hua. exact (merge_Ok_disjoint _ _ _ _ _ H2 Hua Hf).
  - simpl in H1, H2. apply from_dict_fields in H1 as (_ & -> & _), H2 as (_ & -> & _). apply merge_lists_comm.
  - simpl in H1, H2. apply from_dict_fields in H1 as (-> & _), H2 as (-> & _). apply merge_lists_comm.
Qed.

(** ** Merging a merged domain with itself *)

(** The shape of a domain [Domain.merge] returns: on top of what
    [from_dict] ensures, its entities, forms and user actions are sorted
    without duplicates (they come out of [merge_lists]) and its responses
    are a dict. *)
Record merged_domain (m : Domain) : Prop := {
  md_normal : domain_normal m;
  md_entities : StronglySorted str_le (entities m) /\ NoDup (entities m);
  md_forms : StronglySorted str_le (form_names m) /\ NoDup (form_names m);
  md_actions : StronglySorted str_le (user_actions m) /\ NoDup (user_actions m);
  md_responses : NoDup (map fst (templates m))
}.

(** The responses of a merged domain are user actions of the merge, since
    a response of [other] whose name is a form of [self] would clash. *)
Lemma merge_templates_covered a b m k :
  domain_normal a -> domain_normal b -> domain_normal m ->
  form_names m = merge_lists (form_names a) (form_names b) ->
  k ∈ user_actions m ->
  k ∈ map fst (templates a) \/ k ∈ map fst (templates b) ->
  k ∈ merge_lists (user_actions a) (remove_forms (form_names a) (user_actions b)).
Proof.
  intros Ha Hb Hm HF Hk [Hka|Hkb]; apply elem_of_merge_lists.
  - left. by apply (dn_responses a Ha).
  - right. destruct (decide (k ∈ form_names a)) as [Hf|Hf].
    + exfalso. apply (normal_forms_disjoint m k Hm Hk). rewrite HF. apply elem_of_merge_lists. by left.
    + apply elem_of_remove_forms; [by apply (dn_responses b Hb)|done].
Qed.

Lemma merge_merged_domain a b o m :
  domain_normal a -> domain_normal b ->
  NoDup (map fst (templates a)) -> NoDup (map fst (templates b)) ->
  domain_merge a (Some b) o = Ok m -> merged_domain m.
Proof.
  intros Ha Hb Hta Htb H. simpl in H. pose proof (from_dict_normal _ _ H) as Hm.
  apply from_dict_fields in H as (HF & HE & HT & HU). simpl in HF, HE, HT, HU.
  assert (HU' : user_actions m = merge_lists (user_actions a) (remove_forms (form_names a) (user_actions b))).
  { rewrite HU. apply combine_with_templates_covered. intros k Hk.
    eapply merge_templates_covered; [exact Ha|exact Hb|exact Hm|exact HF|..].
    - apply (dn_responses m Hm). exact Hk.
    - rewrite HT, merge_dicts_keys, !responses_dict_keys in Hk. exact Hk. }
  constructor; [done| rewrite HE | rewrite HF | rewrite HU' | ]; try apply merge_lists_sorted.
  rewrite HT. apply merge_dicts_NoDup; by rewrite responses_dict_keys.
Qed.

Lemma merge_data_self m o : merged_domain m -> merge_data m m o = as_dict m.
Proof.
  intros [Hn [He He'] [Hf Hf'] [Hu Hu'] Hr].
  pose proof (dn_sane m Hn) as Hs. apply check_domain_sanity_Ok in Hs as (_ & Hsl & _).
  unfold merge_data, as_dict. simpl. f_equal.
  - by destruct o.
  - by destruct (o || _).
  - unfold intents_by_name. rewrite merge_dicts_self.
    + rewrite map_map. apply map_id.
    + rewrite !map_map. erewrite map_ext; [apply (dn_intents m Hn)|]. intros [? ?]. done.
  - by apply merge_lists_self.
  - apply merge_dicts_self. by rewrite map_map.
  - apply merge_dicts_self. by rewrite responses_dict_keys.
  - rewrite remove_forms_disjoint; [by apply merge_lists_self|].
    intros f Hf1 Hf2. exact (normal_forms_disjoint m f Hn Hf2 Hf1).
  - by apply merge_lists_self.
Qed.

(** C23: What [as_dict] writes of a domain built by [from_dict] is read
    back by [from_dict] as the same domain: [Domain.persist] followed by
    loading the file loses nothing. *)
Theorem as_dict_roundtrip data d : from_dict data = Ok d -> from_dict (as_dict d) = Ok d.
Proof. intros H. by apply as_dict_normal, (from_dict_normal data). Qed.

(** C24: A domain [Domain.merge] returned, merged with itself, comes back
    unchanged, whatever the [override] flag, provided the merged domains
    were built by [from_dict] from dicts (unique response names). *)
Theorem merge_idempotent da db a b o m o' :
  from_dict da = Ok a -> from_dict db = Ok b ->
  NoDup (map fst (templates a)) -> NoDup (map fst (templates b)) ->
  domain_merge a (Some b) o = Ok m -> domain_merge m (Some m) o' = Ok m.
Proof.
  intros Ha Hb Hta Htb H. apply from_dict_normal in Ha, Hb.
  pose proof (merge_merged_domain a b o m Ha Hb Hta Htb H) as Hm. simpl.
  rewrite merge_data_self by done. by apply as_dict_normal, Hm.
Qed.

(** ** Examples *)

Definition ok_or {A} (dflt : A) (r : res A) : A :=
  match r with Ok a => a | Raise _ => dflt end.

Definition ex_blank : Domain := mkDomain [] [] [] [] [] session_config_default [] [] true.

(** A domain file with a form, and one listing the same name as a custom
    action (as the forms of Rasa 1.x were also listed under [actions]). *)
Definition ex_forms_data : DomainData :=
  mkDomainData None None [IntentName "request_restaurant"] [] [] [] None [] ["restaurant_form"].
Definition ex_actions_data : DomainData :=
  mkDomainData None (Some (Some 60%Q, None)) [IntentName "greet"] [] []
    [("utter_greet", Some [TDict ["text"]])] None ["restaurant_form"] [].

Definition ex_greet_data : DomainData :=
  mkDomainData (Some false) None [IntentName "greet"; IntentName "request_restaurant"] ["name"] []
    [("utter_greet", Some [TStr "Hello!"])] None ["action_hello"] [].

Definition ex_forms : Domain := ok_or ex_blank (from_dict ex_forms_data).
Definition ex_greet : Domain := ok_or ex_blank (from_dict ex_greet_data).
Definition ex_actions : Domain := ok_or ex_blank (from_dict ex_actions_data).
Definition ex_merged : Domain := ok_or ex_blank (domain_merge ex_forms (Some ex_actions) false).
Definition ex_merged_fg : Domain := ok_or ex_blank (domain_merge ex_forms (Some ex_greet) false).
Definition ex_merged_gf : Domain := ok_or ex_blank (domain_merge ex_greet (Some ex_forms) true).

Lemma merge_action_form_conflict_witness :
  "restaurant_form" ∈ user_actions ex_actions /\ "restaurant_form" ∈ form_names ex_forms /\
  forall m, domain_merge ex_actions (Some ex_forms) false <> Ok m.
Proof.
  assert (H1 : "restaurant_form" ∈ user_actions ex_actions) by (vm_compute; left).
  assert (H2 : "restaurant_form" ∈ form_names ex_forms) by (vm_compute; left).
  split; [exact H1|]. split; [exact H2|]. exact (merge_action_form_conflict _ _ false _ H1 H2).
Defined.

Lemma as_dict_roundtrip_witness :
  from_dict ex_actions_data = Ok ex_actions /\ from_dict (as_dict ex_actions) = Ok ex_actions.
Proof.
  assert (H : from_dict ex_actions_data = Ok ex_actions) by (vm_compute; reflexivity).
  split; [exact H|]. exact (as_dict_roundtrip _ _ H).
Defined.

Lemma merge_idempotent_witness :
  domain_merge ex_forms (Some ex_actions) false = Ok ex_merged /\
  domain_merge ex_merged (Some ex_merged) true = Ok ex_merged.
Proof.
  assert (Ha : from_dict ex_forms_data = Ok ex_forms) by (vm_compute; reflexivity).
  assert (Hb : from_dict ex_actions_data = Ok ex_actions) by (vm_compute; reflexivity).
  assert (Hta : NoDup (map fst (templates ex_forms))) by (vm_compute; constructor).
  assert (Htb : NoDup (map fst (templates ex_actions))) by (vm_compute; repeat constructor; set_solver).
  assert (H : domain_merge ex_forms (Some ex_actions) false = Ok ex_merged) by (vm_compute; reflexivity).
  split; [exact H|]. exact (merge_idempotent _ _ _ _ _ _ true Ha Hb Hta Htb H).
Defined.

Lemma merge_set_fields_commute_witness :
  domain_merge ex_forms (Some ex_greet) false = Ok ex_merged_fg /\
  domain_merge ex_greet (Some ex_forms) true = Ok ex_merged_gf /\
  entities ex_merged_fg = entities ex_merged_gf /\ form_names ex_merged_fg = form_names ex_merged_gf /\
  form_names ex_merged_gf = ["restaurant_form"].
Proof.
  assert (H1 : domain_merge ex_forms (Some ex_greet) false = Ok ex_merged_fg) by (vm_compute; reflexivity).
  assert (H2 : domain_merge ex_greet (Some ex_forms) true = Ok ex_merged_gf) by (vm_compute; reflexivity).
  destruct (merge_set_fields_commute _ _ _ _ _ _ H1 H2) as (_ & He & Hf).
  split_and!; [exact H1|exact H2|exact He|exact Hf|vm_compute; reflexivity].
Defined.

(** [Domain.load] and [Domain.from_directory] merge in opposite
    directions: the same two domain files, in the same order, are rejected
    by one and accepted by the other. *)
Example load_order_dependent :
  is_ok (domain_load [ex_actions; ex_forms]) = false /\
  is_ok (domain_from_directory [ex_actions; ex_forms]) = true.
Proof. vm_compute. split; reflexivity. Qed.

(** After a merge, the domain passed as argument has lost from its
    [user_actions] the forms of [self], while its [action_names] still list
    them. *)
Example merge_mutates_argument :
  user_actions ex_actions = ["restaurant_form"; "utter_greet"] /\
  user_actions (merge_argument_after ex_forms ex_actions) = ["utter_greet"] /\
  action_names (merge_argument_after ex_forms ex_actions) = action_names ex_actions /\
  "restaurant_form" ∈ action_names ex_actions.
Proof. vm_compute. split_and!; try reflexivity. set_solver. Qed.

End DomainMerge.
