(* ===== verification/DomainFiles.v ===== *)
(** * Reading domain files ([src/rasa/core/domain.py]: [Domain.load],
      [Domain.from_path], [Domain.from_file], [Domain.from_yaml],
      [Domain.from_directory])

    [DomainFiles] models how [Domain.load] reads its paths.  The file
    system is a tree ([FsNode]): a file holds its text, and a directory
    lists its entries in the order [os.listdir] returns them.  Paths are
    strings, split on [/] ([path_segments]), joined by [os_path_join]
    ([os.path.join]) and made absolute by [abspath] ([os.path.abspath]),
    with the tree's root as [/] and as the working directory.  [walk] lists the files [os.walk] visits, top-down:
    the files of a directory, then those of each sub-directory.
    [from_yaml] validates the text against the domain schema and calls
    [from_dict].  [from_file] reads a file, [from_path] dispatches on a
    file or a directory, and [from_directory] and [load_domain] are the loops of
    the code, which read and merge in turn.  The YAML schema check, the
    YAML parser and [rasa.data.is_domain_file] live outside [src/] and are
    section variables. *)

From Stdlib Require Import Ascii.
From S2P Require Import Prelude Tracker Domain DomainMerge.
Import Slots Tracker Domain DomainMerge.

Module DomainFiles.

(** ** Paths *)

(** [s.split("/")]. *)
Fixpoint split_sep (s : string) : list string :=
  match s with
  | EmptyString => [""]
  | String c s' =>
      let rest := split_sep s' in
      if Ascii.eqb c "/"%char then "" :: rest
      else match rest with [] => [String c ""] | x :: xs => String c x :: xs end
  end.

(** The components of a path: [os.path.abspath] drops empty components,
    so [a//b] and [a/b/] name [a/b]. *)
Definition path_segments (p : string) : list string :=
  filter (fun x => x <> "") (split_sep p).

(** [os.path.abspath(p)]: the tree's root is [/] and the working
    directory, so the absolute form of a path joins its components
    under [/]. *)
Definition abspath (p : string) : string := String "/" (String.concat "/" (path_segments p)).

(** [os.path.isabs(b)]. *)
Definition isabs (b : string) : bool :=
  match b with String c _ => Ascii.eqb c "/" | EmptyString => false end.

(** [os.path.join(a, b)]. *)
Definition os_path_join (a b : string) : string :=
  if isabs b then b
  else if String.eqb a "" || endswith a "/" then a +:+ b else a +:+ String "/"%char b.

(** A directory entry name: not empty and without a separator. *)
Definition valid_name (name : string) : bool :=
  negb (String.eqb name "") && negb (has_char "/"%char name).

(** ** The directory tree *)

Inductive FsNode :=
| FsFile (text : string)
| FsDir (entries : list (string * FsNode)).

(** The entry of a directory with the given name. *)
Fixpoint dir_entry (name : string) (es : list (string * FsNode)) : option FsNode :=
  match es with
  | [] => None
  | (n, c) :: es' => if String.eqb n name then Some c else dir_entry name es'
  end.

Fixpoint lookup_segments (segs : list string) (n : FsNode) : option FsNode :=
  match segs with
  | [] => Some n
  | s :: segs' =>
      match n with
      | FsFile _ => None
      | FsDir es => match dir_entry s es with Some c => lookup_segments segs' c | None => None end
      end
  end.

(** What a path names in the tree. *)
Definition fs_lookup (root : FsNode) (p : string) : option FsNode :=
  lookup_segments (path_segments p) root.

(** A tree a file system can hold: entry names are valid and unique in
    each directory. *)
Fixpoint fs_wf (n : FsNode) : bool :=
  match n with
  | FsFile _ => true
  | FsDir es => bool_decide (NoDup (map fst es)) && forallb (fun '(name, c) => valid_name name && fs_wf c) es
  end.

(** [os.walk(path)] from a node: the [os.path.join(root, file)] of the
    files of each directory it visits, top-down.  On a file it yields
    nothing. *)
Fixpoint walk (root : string) (n : FsNode) : list string :=
  match n with
  | FsFile _ => []
  | FsDir es =>
      omap (fun '(name, c) => match c with FsFile _ => Some (os_path_join root name) | FsDir _ => None end) es ++
      concat (map (fun '(name, c) => walk (os_path_join root name) c) es)
  end.

(** The files [os.walk(path)] visits: none when the path does not exist. *)
Definition walk_of (root : FsNode) (p : string) : list string :=
  match fs_lookup root p with Some n => walk p n | None => [] end.

(** ** Paths, names and the tree *)

Lemma split_sep_nonempty s : split_sep s <> [].
Proof.
  destruct s as [|c s]; simpl; [done|].
  destruct (Ascii.eqb c "/"); [done|]. by destruct (split_sep s).
Qed.

Lemma split_sep_app_sep x y : split_sep (x +:+ String "/" y) = split_sep x ++ split_sep y.
Proof.
  induction x as [|c x IH]; [reflexivity|]. rewrite string_app_cons. cbn [split_sep]. rewrite IH.
  destruct (Ascii.eqb c "/"); [done|].
  destruct (split_sep x) eqn:E; [by destruct (split_sep_nonempty x)|done].
Qed.

Lemma split_sep_name f : has_char "/" f = false -> split_sep f = [f].
Proof.
  induction f as [|c f IH]; [done|]. cbn [has_char split_sep]. intros [Hc Hf]%orb_false_elim.
  by rewrite Hc, IH.
Qed.

Lemma endswith_slash a : endswith a "/" = true -> exists a0, a = a0 +:+ String "/" "".
Proof.
  unfold endswith. rewrite bool_decide_eq_true. intros [k Hk].
  exists (String.string_of_list_ascii k).
  rewrite <- (String.string_of_list_ascii_of_string a), Hk.
  rewrite <- (String.string_of_list_ascii_of_string (_ +:+ _)).
  rewrite list_ascii_of_string_app, String.list_ascii_of_string_of_list_ascii. reflexivity.
Qed.

Lemma path_segments_sep x y : path_segments (x +:+ String "/" y) = path_segments x ++ path_segments y.
Proof. unfold path_segments. by rewrite split_sep_app_sep, filter_app. Qed.

Lemma path_segments_name f : valid_name f = true -> path_segments f = [f].
Proof.
  unfold valid_name, path_segments. intros [Hne Hsep]%andb_prop.
  apply negb_true_iff in Hne, Hsep. rewrite split_sep_name by done.
  rewrite filter_cons, decide_True; [done|]. intros ->. done.
Qed.

(** [os.path.join] adds one component to a path. *)
Lemma path_segments_join a f :
  valid_name f = true -> path_segments (os_path_join a f) = path_segments a ++ [f].
Proof.
  intros Hf. pose proof (path_segments_name f Hf) as Hseg.
  assert (Habs : isabs f = false).
  { destruct f as [|c f]; [done|]. unfold valid_name in Hf. cbn [has_char] in Hf.
    simpl. destruct (Ascii.eqb c "/"); [|done]. by rewrite andb_false_r in Hf. }
  unfold os_path_join. rewrite Habs.
  destruct (String.eqb_spec a "") as [->|_]; simpl; [exact Hseg|].
  destruct (endswith a "/") eqn:E; [|by rewrite path_segments_sep, Hseg].
  destruct (endswith_slash a E) as [a0 ->].
  rewrite <- string_app_assoc, string_app_cons. change (EmptyString +:+ f) with f.
  rewrite !path_segments_sep, Hseg. assert (H0 : path_segments "" = []) by reflexivity.
  by rewrite H0, app_nil_r.
Qed.

Lemma split_sep_no_sep s x : x ∈ split_sep s -> has_char "/" x = false.
Proof.
  induction s as [|c s IH] in x |- *; cbn [split_sep].
  - intros ->%list_elem_of_singleton. done.
  - destruct (Ascii.eqb c "/") eqn:Ec.
    + intros [->|Hx]%elem_of_cons; [done|by apply IH].
    + destruct (split_sep s) as [|y ys] eqn:E; [by destruct (split_sep_nonempty s)|].
      intros [->|Hx]%elem_of_cons; cbn [has_char].
      * rewrite Ec. simpl. apply IH. rewrite ?E. left.
      * apply IH. rewrite ?E. by right.
Qed.

(** The components of a path are valid names. *)
Lemma path_segments_valid p x : x ∈ path_segments p -> valid_name x = true.
Proof.
  unfold path_segments, valid_name. intros [Hne Hx]%list_elem_of_filter.
  apply split_sep_no_sep in Hx. rewrite Hx. destruct (String.eqb_spec x ""); done.
Qed.

Lemma path_segments_concat segs :
  Forall (fun x => valid_name x = true) segs -> path_segments (String "/" (String.concat "/" segs)) = segs.
Proof.
  intros Hv. change (String "/" ?s) with ("" +:+ String "/" s). rewrite path_segments_sep.
  change (path_segments "") with (@nil string). simpl.
  induction Hv as [|x segs Hx Hv IH]; [reflexivity|].
  destruct segs as [|y segs].
  - by apply path_segments_name.
  - change (String.concat "/" (x :: y :: segs)) with (x +:+ String "/" (String.concat "/" (y :: segs))).
    rewrite path_segments_sep, path_segments_name by done. by rewrite IH.
Qed.

(** [os.path.abspath] keeps the components of a path. *)
Lemma path_segments_abspath p : path_segments (abspath p) = path_segments p.
Proof. apply path_segments_concat, Forall_forall. intros x Hx. by apply (path_segments_valid p). Qed.

Lemma fs_lookup_abspath root p : fs_lookup root (abspath p) = fs_lookup root p.
Proof. unfold fs_lookup. by rewrite path_segments_abspath. Qed.

Lemma lookup_segments_app xs ys n :
  lookup_segments (xs ++ ys) n = lookup_segments xs n ≫= lookup_segments ys.
Proof.
  induction xs as [|s xs IH] in n |- *; [done|]. destruct n as [|es]; [done|]. simpl.
  destruct (dir_entry s es); [apply IH|done].
Qed.

Lemma dir_entry_elem name c es : NoDup (map fst es) -> (name, c) ∈ es -> dir_entry name es = Some c.
Proof.
  induction es as [|[n c'] es IH]; simpl; [by intros _ ?%elem_of_nil|].
  intros [Hn Hnd]%NoDup_cons [[= -> ->]|Hin]%elem_of_cons; [by rewrite String.eqb_refl|].
  destruct (String.eqb_spec n name) as [->|]; [|by apply IH].
  destruct Hn. apply list_elem_of_In, in_map_iff. exists (name, c). split; [done|]. by apply list_elem_of_In.
Qed.

Lemma dir_entry_Some name c es : dir_entry name es = Some c -> (name, c) ∈ es.
Proof.
  induction es as [|[n c'] es IH]; simpl; [done|].
  destruct (String.eqb_spec n name) as [->|]; [intros [= ->]; left|intros; right; auto].
Qed.

Lemma fs_wf_dir es :
  fs_wf (FsDir es) = true <->
  NoDup (map fst es) /\ forall name c, (name, c) ∈ es -> valid_name name = true /\ fs_wf c = true.
Proof.
  simpl. rewrite andb_true_iff, bool_decide_eq_true, forallb_forall.
  setoid_rewrite <- list_elem_of_In.
  split; intros [Hnd H]; split; try done.
  - intros name c Hin. apply andb_prop. exact (H (name, c) Hin).
  - intros [name c] Hin. apply andb_true_iff. auto.
Qed.

(** Every node below a well-formed tree is well formed. *)
Lemma fs_wf_lookup segs n n' : fs_wf n = true -> lookup_segments segs n = Some n' -> fs_wf n' = true.
Proof.
  induction segs as [|s segs IH] in n |- *; simpl; [by intros ? [= <-]|].
  destruct n as [|es]; [done|]. destruct (dir_entry s es) as [c|] eqn:E; [|done].
  intros Hwf. apply IH. apply fs_wf_dir in Hwf as [_ Hwf]. apply (Hwf s). by apply dir_entry_Some.
Qed.

(** Induction on trees through the entries of directories. *)
Section FsNode_ind2.
Variable P : FsNode -> Prop.
Hypothesis Hfile : forall t, P (FsFile t).
Hypothesis Hdir : forall es, Forall (fun e => P e.2) es -> P (FsDir es).

Fixpoint FsNode_ind2 (n : FsNode) : P n :=
  match n with
  | FsFile t => Hfile t
  | FsDir es =>
      Hdir es ((fix go (es : list (string * FsNode)) : Forall (fun e => P e.2) es :=
                  match es with
                  | [] => @List.Forall_nil _ _
                  | (n0, c0) :: es' => @List.Forall_cons _ (fun e => P e.2) (n0, c0) es' (FsNode_ind2 c0) (go es')
                  end) es)
  end.
End FsNode_ind2.

(** Every path [os.walk] yields under a node of a well-formed tree names
    a file of that node: its components are those of the start path
    followed by a path to the file. *)
Lemma walk_spec n p x :
  fs_wf n = true -> x ∈ walk p n ->
  exists rel t, path_segments x = path_segments p ++ rel /\ lookup_segments rel n = Some (FsFile t).
Proof.
  revert p x. induction n as [t|es IH] using FsNode_ind2; intros p x Hwf Hx; [by apply elem_of_nil in Hx|].
  apply fs_wf_dir in Hwf as [Hnd Hwf]. cbn [walk] in Hx. apply elem_of_app in Hx as [Hx|Hx].
  - apply list_elem_of_omap in Hx as [[name c] [Hin Hc]]. destruct c as [t|]; [|done].
    injection Hc as <-. destruct (Hwf _ _ Hin) as [Hname _].
    exists [name], t. rewrite path_segments_join by done. split; [done|].
    simpl. by rewrite (dir_entry_elem name (FsFile t) es Hnd Hin).
  - apply list_elem_of_In, in_concat in Hx as [l [Hl Hx]].
    apply in_map_iff in Hl as [[name c] [<- Hin]]. apply list_elem_of_In in Hin, Hx.
    destruct (Hwf _ _ Hin) as [Hname Hc].
    rewrite Forall_forall in IH.
    destruct (IH (name, c) Hin (os_path_join p name) x Hc Hx) as (rel & t & Hseg & Hlook).
    exists (name :: rel), t. rewrite Hseg, path_segments_join by done. split; [by rewrite <- app_assoc|].
    simpl. by rewrite (dir_entry_elem name c es Hnd Hin).
Qed.

(** Conversely, [os.walk] visits every file below a node of a
    well-formed tree. *)
Lemma walk_complete n p rel t :
  fs_wf n = true -> rel <> [] -> lookup_segments rel n = Some (FsFile t) ->
  exists x, x ∈ walk p n /\ path_segments x = path_segments p ++ rel.
Proof.
  induction rel as [|name rel IH] in n, p |- *; [done|]. intros Hwf _ Hl.
  destruct n as [t0|es]; [done|]. cbn [lookup_segments] in Hl.
  destruct (dir_entry name es) as [c|] eqn:E; [|done].
  apply dir_entry_Some in E as Hin. apply fs_wf_dir in Hwf as [Hnd Hwf].
  destruct (Hwf _ _ Hin) as [Hname Hc]. cbn [walk]. destruct rel as [|name' rel'].
  - injection Hl as ->. exists (os_path_join p name). rewrite path_segments_join by done.
    split; [|done]. apply elem_of_app. left. apply list_elem_of_omap. by exists (name, FsFile t).
  - destruct (IH c (os_path_join p name) Hc ltac:(discriminate) Hl) as [x [Hx Hseg]].
    exists x. rewrite Hseg, path_segments_join by done. split; [|by rewrite <- app_assoc].
    apply elem_of_app. right. apply list_elem_of_In, in_concat. exists (walk (os_path_join p name) c).
    split; [|by apply list_elem_of_In]. apply in_map_iff. exists (name, c). split; [done|by apply list_elem_of_In].
Qed.

(** ** Reading and merging *)

(** How [Domain.load] is given its paths: one path, or a list or set of
    them (a set is taken in its iteration order). *)
Inductive Paths :=
| PathStr (path : string)
| PathList (paths : list string).

(** [paths = [paths]] unless [paths] is a list or a set. *)
Definition paths_list (paths : Paths) : list string :=
  match paths with PathStr p => [p] | PathList ps => ps end.

Section Reading.
(** [validate_yaml_schema(yaml, DOMAIN_SCHEMA_FILE)]: the message of the
    [InvalidYamlFileError] it raises, if any. *)
Variable validate_yaml_schema : string -> option string.
(** [rasa.utils.io.read_yaml] on a text that passed the schema. *)
Variable read_yaml : string -> DomainData.
(** [rasa.data.is_domain_file]. *)
Variable is_domain_file : string -> bool.

(** [Domain.from_yaml]. *)
Definition from_yaml (yaml : string) : res Domain :=
  match validate_yaml_schema yaml with
  | Some msg => Raise (InvalidDomain (InvalidYaml msg))
  | None => from_dict (read_yaml yaml)
  end.

(** [Domain.from_file]: [read_file] raises when the path is not a file. *)
Definition from_file (root : FsNode) (path : string) : res Domain :=
  match fs_lookup root path with
  | Some (FsFile text) => from_yaml text
  | _ => Raise (IOError path)
  end.

(** [Domain.from_directory]: each domain file [os.walk] visits is read and
    merged into the domain built so far, [other.merge(domain)]. *)
Definition from_directory (root : FsNode) (path : string) : res Domain :=
  domain <- domain_empty ;;
  fold_res (fun domain full_path =>
              if is_domain_file full_path then
                other <- from_file root full_path ;; domain_merge other (Some domain) false
              else Ok domain)
    (walk_of root path) domain.

(** [Domain.from_path]. *)
Definition from_path (root : FsNode) (path : string) : res Domain :=
  let path := abspath path in
  match fs_lookup root path with
  | Some (FsFile _) => from_file root path
  | Some (FsDir _) => from_directory root path
  | None => Raise (InvalidDomain (FileNotFound path))
  end.

(** [Domain.load]: [if not paths] raises; a single path is wrapped in a
    list; each path is read and merged in turn, [domain.merge(other)]. *)
Definition load_domain (root : FsNode) (paths : Paths) : res Domain :=
  match paths with
  | PathStr "" | PathList [] => Raise (InvalidDomain NoDomainFile)
  | _ =>
      domain <- domain_empty ;;
      fold_res (fun domain path => other <- from_path root path ;; domain_merge domain (Some other) false)
        (paths_list paths) domain
  end.

End Reading.

Lemma domain_empty_Ok : exists e, domain_empty = Ok e.
Proof. eexists. vm_compute. reflexivity. Qed.

Section ReadingFacts.
Variable validate_yaml_schema : string -> option string.
Variable read_yaml : string -> DomainData.
Variable is_domain_file : string -> bool.

Notation from_yaml := (from_yaml validate_yaml_schema read_yaml).
Notation from_file := (from_file validate_yaml_schema read_yaml).
Notation from_directory := (from_directory validate_yaml_schema read_yaml is_domain_file).
Notation from_path := (from_path validate_yaml_schema read_yaml is_domain_file).
Notation load := (load_domain validate_yaml_schema read_yaml is_domain_file).

(** C27: In a well-formed tree, the paths [os.walk] yields in
    [from_directory] are exactly the files below the path: each is a file
    that [from_file] reads and parses, and every file below the path is
    visited. *)
Theorem walked_files_readable root p :
  fs_wf root = true ->
  (forall x, x ∈ walk_of root p -> exists t, fs_lookup root x = Some (FsFile t) /\ from_file root x = from_yaml t) /\
  (forall rel t, rel <> [] -> lookup_segments (path_segments p ++ rel) root = Some (FsFile t) ->
     exists x, x ∈ walk_of root p /\ path_segments x = path_segments p ++ rel).
Proof.
  unfold walk_of, fs_lookup. intros Hwf. split.
  - intros x Hx. destruct (lookup_segments (path_segments p) root) as [n|] eqn:Hp; [|by apply elem_of_nil in Hx].
    destruct (walk_spec n p x (fs_wf_lookup _ _ _ Hwf Hp) Hx) as (rel & t & Hseg & Hlook).
    assert (Hfile : lookup_segments (path_segments x) root = Some (FsFile t))
      by (by rewrite Hseg, lookup_segments_app, Hp).
    exists t. split; [done|]. unfold from_file, fs_lookup. by rewrite Hfile.
  - intros rel t Hne Hl. rewrite lookup_segments_app in Hl.
    destruct (lookup_segments (path_segments p) root) as [n|] eqn:Hp; [|done].
    exact (walk_complete n p rel t (fs_wf_lookup _ _ _ Hwf Hp) Hne Hl).
Qed.

(** [from_directory] is the merge of the domain files [os.walk]
    visits, in its order: when each of them is read as a domain,
    [from_directory] returns what [domain_from_directory] returns on those
    domains. *)
Lemma from_directory_refines root p ds :
  Forall2 (fun x d => from_file root x = Ok d) (filter (fun x => is_domain_file x = true) (walk_of root p)) ds ->
  from_directory root p = domain_from_directory ds.
Proof.
  intros H. unfold from_directory, domain_from_directory. destruct domain_empty as [e|]; simpl; [|done].
  rewrite (fold_res_filter is_domain_file (fun domain x => other <- from_file root x ;; domain_merge other (Some domain) false)).
  exact (fold_res_read (from_file root) (fun domain other => domain_merge other (Some domain) false) _ _ e H).
Qed.

(** [Domain.load] is the merge of the domains its paths name, in
    order: when each path is read as a domain, [load] returns what
    [domain_load] returns on those domains (and raises [InvalidDomain]
    when there is no path). *)
Lemma load_refines root paths ds :
  paths <> PathStr "" ->
  Forall2 (fun p d => from_path root p = Ok d) (paths_list paths) ds ->
  load root paths = domain_load ds.
Proof.
  intros Hne H. destruct paths as [[|c p]|[|p ps]]; [done| | |].
  - inversion H as [|? d ? ds' Hd Hnil]; subst. inversion Hnil; subst.
    unfold load, domain_load. destruct domain_empty as [e|]; simpl; [|done]. by rewrite Hd.
  - inversion H; subst. reflexivity.
  - unfold load, domain_load. destruct ds as [|d ds]; [by inversion H|].
    destruct domain_empty as [e|]; simpl; [|done].
    exact (fold_res_read (from_path root) (fun domain other => domain_merge domain (Some other) false) _ _ e H).
Qed.

(** C26: The errors of [Domain.load]: no path raises [InvalidDomain]; a
    path that does not exist raises [InvalidDomain] naming its absolute
    path ([os.path.abspath]), and a file
    that fails the schema raises [InvalidDomain] with the schema message,
    before any later path is read. *)
Theorem load_errors root p ps t msg :
  load root (PathStr "") = Raise (InvalidDomain NoDomainFile) /\
  load root (PathList []) = Raise (InvalidDomain NoDomainFile) /\
  (fs_lookup root p = None -> load root (PathList (p :: ps)) = Raise (InvalidDomain (FileNotFound (abspath p)))) /\
  (fs_lookup root p = Some (FsFile t) -> validate_yaml_schema t = Some msg ->
     load root (PathList (p :: ps)) = Raise (InvalidDomain (InvalidYaml msg))).
Proof.
  destruct domain_empty_Ok as [e He].
  split_and!; [done|done| |]; intros Hp; [|intros Hv];
    unfold load; rewrite He; simpl; unfold from_path; rewrite fs_lookup_abspath, Hp; [done|].
  unfold from_file; rewrite fs_lookup_abspath, Hp. simpl. unfold from_yaml. by rewrite Hv.
Qed.

End ReadingFacts.

(** ** A project tree *)

(** [domain.yml] at the top, a [config.yml] that is not a domain file
    (and would fail the schema), and a [domains] directory whose own
    domain file [os.walk] visits before the one of its sub-directory
    [forms]. *)
Definition ex_tree : FsNode :=
  FsDir [("domain.yml", FsFile "greet"); ("config.yml", FsFile "pipeline");
         ("domains", FsDir [("forms", FsDir [("domain.yml", FsFile "forms")]);
                            ("domain.yml", FsFile "actions")])].

Definition ex_validate (yaml : string) : option string :=
  if String.eqb yaml "pipeline" then Some "Failed to validate YAML." else None.

Definition ex_read_yaml (yaml : string) : DomainData :=
  if String.eqb yaml "forms" then ex_forms_data
  else if String.eqb yaml "actions" then ex_actions_data
  else ex_greet_data.

Definition ex_is_domain_file (path : string) : bool := endswith path "domain.yml".

Lemma walked_files_readable_witness :
  fs_wf ex_tree = true /\ "domains/forms/domain.yml" ∈ walk_of ex_tree "domains" /\
  from_file ex_validate ex_read_yaml ex_tree "domains/forms/domain.yml" = from_yaml ex_validate ex_read_yaml "forms" /\
  exists x, x ∈ walk_of ex_tree "domains" /\ path_segments x = ["domains"; "forms"; "domain.yml"].
Proof.
  assert (Hwf : fs_wf ex_tree = true) by (vm_compute; reflexivity).
  assert (Hx : "domains/forms/domain.yml" ∈ walk_of ex_tree "domains")
    by (apply (bool_decide_unpack _); vm_compute; reflexivity).
  destruct (walked_files_readable ex_validate ex_read_yaml ex_tree "domains" Hwf) as [Hsound Hcomplete].
  destruct (Hsound _ Hx) as [t [Ht Hf]].
  assert (Hlook : fs_lookup ex_tree "domains/forms/domain.yml" = Some (FsFile "forms")) by (vm_compute; reflexivity).
  rewrite Hlook in Ht. injection Ht as <-. split_and!; [exact Hwf|exact Hx|exact Hf|].
  exact (Hcomplete ["forms"; "domain.yml"] "forms" ltac:(discriminate) ltac:(vm_compute; reflexivity)).
Defined.

(** [config.yml] is never read by [from_directory], but loading it by
    name fails the schema. *)
Lemma load_errors_witness :
  fs_lookup ex_tree "config.yml" = Some (FsFile "pipeline") /\ ex_validate "pipeline" = Some "Failed to validate YAML." /\
  load_domain ex_validate ex_read_yaml ex_is_domain_file ex_tree (PathList ["config.yml"; "domains"]) =
    Raise (InvalidDomain (InvalidYaml "Failed to validate YAML.")) /\
  load_domain ex_validate ex_read_yaml ex_is_domain_file ex_tree (PathList ["nlu.md"; "config.yml"]) =
    Raise (InvalidDomain (FileNotFound "/nlu.md")).
Proof.
  assert (Hc : fs_lookup ex_tree "config.yml" = Some (FsFile "pipeline")) by (vm_compute; reflexivity).
  assert (Hv : ex_validate "pipeline" = Some "Failed to validate YAML.") by reflexivity.
  assert (Hn : fs_lookup ex_tree "nlu.md" = None) by (vm_compute; reflexivity).
  split_and!; [exact Hc|exact Hv|
    exact (proj2 (proj2 (proj2 (load_errors ex_validate ex_read_yaml ex_is_domain_file ex_tree _ ["domains"] _ _))) Hc Hv)|
    exact (proj1 (proj2 (proj2 (load_errors ex_validate ex_read_yaml ex_is_domain_file ex_tree _ ["config.yml"] "" "") )) Hn)].
Defined.

End DomainFiles.
