(* ===== verification/DomainOps.v ===== *)
(** * The remaining operations of [Domain] ([src/rasa/core/domain.py])

    [DomainOps] models the operations of [Domain] that neither build nor
    merge a domain: [cleaned_domain] (the dict [persist_clean] writes,
    with its in-place pops on the intent dicts the domain shares with
    [as_dict], its slot loop on the [persistence_info] dicts, and the
    reading back of such a dict by [from_dict]), the two in-place slot additions [add_requested_slot] and
    [add_knowledge_base_slots], [slots_for_entities], the domain warnings
    against training data ([domain_warnings] with
    [_get_symmetric_difference]) and [check_missing_templates].  The
    constants these use live in [rasa.core.constants], outside [src/]. *)

From Stdlib Require Import Ascii.
From S2P Require Import Prelude Tracker Domain DomainMerge.
Import Slots Tracker Domain DomainMerge.

Module DomainOps.

(** ** [Domain.cleaned_domain] *)

(** *** The intent dicts *)

(** A dict of [self.intent_properties], by the keys it holds.
    [collect_intent_properties] sets [use_entities] and
    [ignore_entities]; [cleaned_domain] may pop them later. *)
Record IntentDictRaw := mkIntentDictRaw {
  ri_use : option UseEntities;
  ri_ignore : option (list string);
  ri_triggers : option string
}.

(** The dicts [self.intent_properties] holds, by intent.  The [intents]
    list of [as_dict] (line 721) holds these same dict objects, so the
    pops of [cleaned_domain] act on them. *)
Definition IntentStore := list (string * IntentDictRaw).

(** The dict [collect_intent_properties] builds for an intent. *)
Definition intent_dict_of (p : IntentProps) : IntentDictRaw :=
  mkIntentDictRaw (Some (use_entities p)) (Some (ignore_entities p)) (triggers p).

(** The store of a domain fresh from [Domain.__init__]. *)
Definition intent_store (d : Domain) : IntentStore :=
  map (fun '(n, p) => (n, intent_dict_of p)) (intent_properties d).

(** What the readers of a dict see: [.get("use_entities", True)] and
    [.get("ignore_entities", [])] ([_get_featurized_entities]) and the
    [triggers] key ([check_mappings]). *)
Definition read_intent_dict (r : IntentDictRaw) : IntentProps :=
  mkIntentProps (default UseAll (ri_use r)) (default [] (ri_ignore r)) (ri_triggers r).

Definition store_reads (rs : IntentStore) : list (string * IntentProps) :=
  map (fun '(n, r) => (n, read_intent_dict r)) rs.

(** The entry [{k: v}] of the [intents] list, with [v] the dict as it is. *)
Definition raw_to_spec (e : string * IntentDictRaw) : IntentSpec :=
  let '(n, r) := e in
  IntentDict n ((fun u => match u with UseAll => RTrue | UseList l => RList l end) <$> ri_use r)
    (ri_ignore r) (ri_triggers r).

(** Lines 741-744: [use_entities] is popped when it is [True], and
    [ignore_entities] when it is missing or empty. *)
Definition pop_defaults (r : IntentDictRaw) : IntentDictRaw :=
  mkIntentDictRaw
    (match ri_use r with Some UseAll => None | u => u end)
    (match ri_ignore r with Some (_ :: _) => ri_ignore r | _ => None end)
    (ri_triggers r).

(** Lines 745-746: an entry whose dict is left empty becomes the bare
    intent name. *)
Definition clean_intent (e : string * IntentDictRaw) : IntentSpec :=
  match e.2 with
  | mkIntentDictRaw None None None => IntentName e.1
  | _ => raw_to_spec e
  end.

(** *** The slot dicts *)

(** The dict [Slot.persistence_info] returns, by the keys it holds. *)
Record SlotInfo := mkSlotInfo {
  si_type : string;
  si_initial_value : option SlotValue;
  si_auto_fill : option bool;
  si_values : option (list string)     (** [CategoricalSlot] only *)
}.

(** The slot classes [Slot.resolve_by_type] can find. *)
Inductive SlotClass := CText | CBool | CCategorical | CList | CUnfeaturized.

Definition slot_classes : list SlotClass := [CText; CBool; CCategorical; CList; CUnfeaturized].

Definition class_of_type (t : SlotType) : SlotClass :=
  match t with
  | TextSlot => CText | BooleanSlot => CBool | CategoricalSlot _ => CCategorical
  | ListSlot => CList | UnfeaturizedSlot => CUnfeaturized
  end.

(** [cls.type_name]. *)
Definition class_type_name (c : SlotClass) : string :=
  match c with
  | CText => "text" | CBool => "bool" | CCategorical => "categorical"
  | CList => "list" | CUnfeaturized => "unfeaturized"
  end.

Definition slot_class_name (c : SlotClass) : string :=
  match c with
  | CText => "TextSlot" | CBool => "BooleanSlot" | CCategorical => "CategoricalSlot"
  | CList => "ListSlot" | CUnfeaturized => "UnfeaturizedSlot"
  end.

Definition SLOTS_MODULE : string := "rasa.core.slots".

(** [utils.module_path_from_instance(slot)]. *)
Definition module_path_from_instance (c : SlotClass) : string := SLOTS_MODULE +:+ "." +:+ slot_class_name c.

(** [Slot.persistence_info]; a [CategoricalSlot] adds its [values]. *)
Definition persistence_info (s : Slot) : SlotInfo :=
  mkSlotInfo (module_path_from_instance (class_of_type (slot_type s))) (Some (initial_value s)) (Some (auto_fill s))
    (match slot_type s with CategoricalSlot vs => Some vs | _ => None end).

(** [Slot.resolve_by_type]: a class by its [type_name], else by its
    module path; any other name raises [ValueError]. *)
Definition resolve_by_type (type_name : string) : res SlotClass :=
  match List.find (fun c => String.eqb (class_type_name c) type_name) slot_classes with
  | Some c => Ok c
  | None =>
      match List.find (fun c => String.eqb (module_path_from_instance c) type_name) slot_classes with
      | Some c => Ok c
      | None => Raise (ValueError "Failed to find slot type")
      end
  end.

(** [str.lower] on ASCII. *)
Definition ascii_lower (c : ascii) : ascii :=
  let n := nat_of_ascii c in
  if (65 <=? n)%nat && (n <=? 90)%nat then ascii_of_nat (n + 32) else c.

Fixpoint str_lower (s : string) : string :=
  match s with
  | EmptyString => EmptyString
  | String c s' => String (ascii_lower c) (str_lower s')
  end.

(** [slot_class(slot_name, **slot_dict[slot_name])] (lines 258-262): the
    missing keys take the constructor defaults ([initial_value=None],
    [auto_fill=True], [values=None]); [CategoricalSlot] lowers its values,
    and the other classes take no [values] argument. *)
Definition slot_of_info (name : string) (si : SlotInfo) : res Slot :=
  c <- resolve_by_type (si_type si) ;;
  let iv := default VNone (si_initial_value si) in
  let af := default true (si_auto_fill si) in
  match c, si_values si with
  | CCategorical, vs => Ok (mkSlot name (CategoricalSlot (map str_lower (default [] vs))) iv af)
  | _, Some _ => Raise (TypeError "__init__() got an unexpected keyword argument 'values'")
  | CText, None => Ok (mkSlot name TextSlot iv af)
  | CBool, None => Ok (mkSlot name BooleanSlot iv af)
  | CList, None => Ok (mkSlot name ListSlot iv af)
  | CUnfeaturized, None => Ok (mkSlot name UnfeaturizedSlot iv af)
  end.

(** The body of the slot loop (lines 748-754) on one dict: it reads
    [initial_value] and [auto_fill] with [slot[...]], so a missing key
    raises [KeyError]. *)
Definition clean_slot_info (si : SlotInfo) : res SlotInfo :=
  match si_initial_value si, si_auto_fill si with
  | None, _ => Raise (KeyError "initial_value")
  | _, None => Raise (KeyError "auto_fill")
  | Some iv, Some af =>
      ty <- (if String.prefix SLOTS_MODULE (si_type si)
             then c <- resolve_by_type (si_type si) ;; Ok (class_type_name c)
             else Ok (si_type si)) ;;
      Ok (mkSlotInfo ty (if iv is VNone then None else Some iv)
            (if af then None else Some af) (si_values si))
  end.

(** *** The dicts [as_dict] and [cleaned_domain] return *)

(** A domain dict whose slots are their [persistence_info] dicts; an
    absent key of the dict is [None] or an empty list. *)
Record DomainDict := mkDomainDict {
  dict_config : option bool;
  dict_session_config : option (option Q * option bool);
  dict_intents : list IntentSpec;
  dict_entities : list string;
  dict_slots : list (string * SlotInfo);
  dict_responses : list (string * option (list TemplateVariant));
  dict_actions : list string;
  dict_forms : list string
}.

(** [Domain.as_dict] (lines 714-727), whose [intents] entries are the
    dicts of the store as they are now. *)
Definition as_dict_at (d : Domain) (rs : IntentStore) : DomainDict :=
  mkDomainDict (Some (store_entities_as_slots d))
    (Some (Some (session_expiration_time (session_config d)), Some (carry_over_slots (session_config d))))
    (map raw_to_spec rs) (entities d)
    (map (fun s => (slot_name s, persistence_info s)) (slots d))
    (responses_dict (templates d)) (user_actions d) (form_names d).

(** [Domain.cleaned_domain] (lines 735-764): the dict it returns and the
    store after its pops.  Deleting [store_entities_as_slots] when it is
    true leaves [config] empty, so the key goes; the other empty values
    are already absent keys here. *)
Definition cleaned_domain (d : Domain) (rs : IntentStore) : res (DomainDict * IntentStore) :=
  let data := as_dict_at d rs in
  let rs' := map (fun '(n, r) => (n, pop_defaults r)) rs in
  sls <- map_res (fun '(n, si) => si' <- clean_slot_info si ;; Ok (n, si')) (dict_slots data) ;;
  Ok (mkDomainDict (if store_entities_as_slots d then None else Some false)
        (dict_session_config data) (map clean_intent rs') (dict_entities data) sls
        (dict_responses data) (dict_actions data) (dict_forms data), rs').

(** [Domain.from_dict] on such a dict: [collect_slots] builds the slots
    from their dicts in the order of the sorted names (lines 257-262). *)
Definition from_domain_dict (dd : DomainDict) : res Domain :=
  sls <- map_res (fun k => match assoc k (dict_slots dd) with
                           | Some si => s <- slot_of_info k si ;; Ok (k, s)
                           | None => Raise (KeyError k)
                           end) (sort_strings (map fst (dict_slots dd))) ;;
  from_dict (mkDomainData (dict_config dd) (dict_session_config dd) (dict_intents dd)
               (dict_entities dd) sls (dict_responses dd) None (dict_actions dd) (dict_forms dd)).

(** ** Slots added after loading *)

Definition REQUESTED_SLOT : string := "requested_slot".
Definition DEFAULT_KNOWLEDGE_BASE_ACTION : string := "action_query_knowledge_base".
Definition SLOT_LISTED_ITEMS : string := "knowledge_base_listed_objects".
Definition SLOT_LAST_OBJECT : string := "knowledge_base_last_object".
Definition SLOT_LAST_OBJECT_TYPE : string := "knowledge_base_last_object_type".

(** [UnfeaturizedSlot(name)]: no initial value, auto-filled. *)
Definition unfeaturized_slot (name : string) : Slot := mkSlot name UnfeaturizedSlot VNone true.

Definition with_slots (d : Domain) (sls : list Slot) : Domain :=
  mkDomain (intent_properties d) (entities d) (form_names d) sls (templates d)
    (session_config d) (user_actions d) (action_names d) (store_entities_as_slots d).

(** [Domain.add_requested_slot]: [self.slots.append(...)]. *)
Definition add_requested_slot (d : Domain) : Domain :=
  if bool_decide (form_names d <> []) && bool_decide (REQUESTED_SLOT ∉ map slot_name (slots d))
  then with_slots d (slots d ++ [unfeaturized_slot REQUESTED_SLOT])
  else d.

(** [Domain.add_knowledge_base_slots]: [slot_names] is computed once,
    before the loop appends. *)
Definition add_knowledge_base_slots (d : Domain) : Domain :=
  if decide (DEFAULT_KNOWLEDGE_BASE_ACTION ∈ action_names d) then
    let slot_names := map slot_name (slots d) in
    let knowledge_base_slots := [SLOT_LISTED_ITEMS; SLOT_LAST_OBJECT; SLOT_LAST_OBJECT_TYPE] in
    with_slots d
      (fold_left (fun sls s => if decide (s ∉ slot_names) then sls ++ [unfeaturized_slot s] else sls)
         knowledge_base_slots (slots d))
  else d.

(** ** [Domain.slots_for_entities] *)

(** [[e["value"] for e in entities if e["entity"] == s.name]]: an entity
    without an ["entity"] key raises [KeyError]. *)
Fixpoint matching_entities (name : string) (es : list Entity) : res (list string) :=
  match es with
  | [] => Ok []
  | e :: rest =>
      match entity_type e with
      | None => Raise (KeyError "entity")
      | Some t =>
          r <- matching_entities name rest ;;
          Ok (if String.eqb t name then entity_value e :: r else r)
      end
  end.

(** [if matching_entities: ...]: a list slot gets all the values, any other
    slot the last one. *)
Definition slot_event (s : Slot) (vals : list string) : option Event :=
  match last vals with
  | None => None
  | Some v =>
      Some (SlotSet (slot_name s)
              (if String.eqb (type_name (slot_type s)) "list" then VList vals else VStr v))
  end.

(** The loop body over [self.slots]. *)
Definition slots_for_entities_step (es : list Entity) (slot_events : list Event) (s : Slot)
    : res (list Event) :=
  if auto_fill s then
    vals <- matching_entities (slot_name s) es ;;
    Ok (match slot_event s vals with Some ev => slot_events ++ [ev] | None => slot_events end)
  else Ok slot_events.

(** [Domain.slots_for_entities]. *)
Definition slots_for_entities (d : Domain) (es : list Entity) : res (list Event) :=
  if store_entities_as_slots d then fold_res (slots_for_entities_step es) (slots d) [] else Ok [].

(** The values of the entities of one type, in order. *)
Definition entity_values (name : string) (es : list Entity) : list string :=
  map entity_value (filter (fun e => entity_type e = Some name) es).

(** ** Domain warnings *)

(** [Domain._get_symmetric_difference]: what only the domain has and what
    only the training data has; [None] is the empty set. *)
Definition get_symmetric_difference (domain_elements : list string)
    (training_data_elements : option (list string)) : gset string * gset string :=
  let dom : gset string := list_to_set domain_elements in
  let tr : gset string := list_to_set (default [] training_data_elements) in
  (dom ∖ tr, tr ∖ dom).

(** [Domain._slots_for_domain_warnings]: the slots that are not
    [UnfeaturizedSlot]s. *)
Definition is_unfeaturized (s : Slot) : bool :=
  match slot_type s with UnfeaturizedSlot => true | _ => false end.

Definition slots_for_domain_warnings (d : Domain) : list string :=
  map slot_name (filter (fun s => is_unfeaturized s = false) (slots d)).

(** [Domain._actions_for_domain_warnings]: user actions and forms that are
    not default actions. *)
Definition actions_for_domain_warnings (d : Domain) : list string :=
  filter (fun a => a ∉ default_action_names) (user_actions_and_forms d).

Record DomainWarnings := mkDomainWarnings {
  intent_warnings : gset string * gset string;
  entity_warnings : gset string * gset string;
  action_warnings : gset string * gset string;
  slot_warnings : gset string * gset string
}.

(** [Domain.domain_warnings]. *)
Definition domain_warnings (d : Domain) (intents_ entities_ actions slots_ : option (list string))
    : DomainWarnings :=
  mkDomainWarnings (get_symmetric_difference (intents d) intents_)
    (get_symmetric_difference (entities d) entities_)
    (get_symmetric_difference (actions_for_domain_warnings d) actions)
    (get_symmetric_difference (slots_for_domain_warnings d) slots_).

(** ** [Domain.check_missing_templates] *)

Definition UTTER_PREFIX : string := "utter_".

(** [s.startswith(prefix)]. *)
Definition startswith (s pre : string) : bool := String.prefix pre s.

(** The utterances [check_missing_templates] warns about, in order. *)
Definition check_missing_templates (d : Domain) : list string :=
  let utterances := filter (fun a => startswith a UTTER_PREFIX = true) (action_names d) in
  filter (fun t => t ∉ map fst (templates d)) utterances.

(** ** Actions, templates and YAML *)

(** [Domain.actions]: [action_for_name] of every action name. *)
Definition actions (d : Domain) : res (list string) :=
  fold_res (fun acc name => a <- action_for_name d name ;; Ok (acc ++ [a])) (action_names d) [].

(** [Domain.random_template_for]: [draw] is the index [np.random.choice]
    draws among the templates of the utterance; [np.random.choice] of an
    empty list raises [ValueError]. *)
Definition random_template_for (draw : nat) (d : Domain) (utter_action : string) : res (option Template) :=
  match assoc utter_action (templates d) with
  | None => Ok None
  | Some [] => Raise (ValueError "'a' cannot be empty unless no samples are taken")
  | Some ts => Ok (ts !! (draw mod length ts))
  end.

(** [Domain.as_yaml]: the dict it dumps, and the store after it. *)
Definition as_yaml (clean_before_dump : bool) (d : Domain) (rs : IntentStore)
    : res (DomainDict * IntentStore) :=
  if clean_before_dump then cleaned_domain d rs else Ok (as_dict_at d rs, rs).

(** ** Reading back the cleaned dict *)

(** The slot values a [CategoricalSlot] keeps: its constructor lowers
    them, so those of a constructed slot are lower case. *)
Definition slot_values_lower (s : Slot) : bool :=
  match slot_type s with
  | CategoricalSlot vs => bool_decide (map str_lower vs = vs)
  | _ => true
  end.

(** The pops depend only on what the readers see of a dict. *)
Lemma pop_defaults_read r : pop_defaults (intent_dict_of (read_intent_dict r)) = pop_defaults r.
Proof. destruct r as [[[|l]|] [[|i ign]|] t]; reflexivity. Qed.

Lemma read_pop_defaults r : read_intent_dict (pop_defaults r) = read_intent_dict r.
Proof. destruct r as [[[|l]|] [[|i ign]|] t]; reflexivity. Qed.

Lemma store_reads_pop rs : store_reads (map (fun '(n, r) => (n, pop_defaults r)) rs) = store_reads rs.
Proof.
  unfold store_reads. rewrite map_map. apply map_ext. intros [n r]. by rewrite read_pop_defaults.
Qed.

(** The cleaned entry of an intent, from what is read of its dict. *)
Definition clean_props (ip : string * IntentProps) : IntentSpec :=
  clean_intent (ip.1, pop_defaults (intent_dict_of ip.2)).

Lemma clean_props_name ip : intent_spec_name (clean_props ip) = fst ip.
Proof. destruct ip as [n [[|l] [|i ign] [t|]]]; reflexivity. Qed.

Lemma clean_props_props ip : intent_spec_props (clean_props ip) = snd ip.
Proof. destruct ip as [n [[|l] [|i ign] [t|]]]; reflexivity. Qed.

Lemma clean_intents_reads rs :
  map clean_intent (map (fun '(n, r) => (n, pop_defaults r)) rs) = map clean_props (store_reads rs).
Proof.
  unfold store_reads. rewrite !map_map. apply map_ext. intros [n r].
  unfold clean_props. simpl. by rewrite pop_defaults_read.
Qed.

(** The cleaned dict of a slot. *)
Definition cleaned_info (s : Slot) : SlotInfo :=
  ok_or (persistence_info s) (clean_slot_info (persistence_info s)).

(** The loop body never raises on a [persistence_info] dict, and
    [collect_slots] builds the slot back from what it leaves. *)
Lemma clean_persistence_info s : clean_slot_info (persistence_info s) = Ok (cleaned_info s).
Proof. destruct s as [n [| |vs| |] [] []]; reflexivity. Qed.

Lemma slot_of_cleaned_info s :
  slot_values_lower s = true -> slot_of_info (slot_name s) (cleaned_info s) = Ok s.
Proof.
  destruct s as [n [| |vs| |] iv af]; unfold slot_values_lower; simpl; intros Hl;
    destruct iv, af; try reflexivity;
    apply bool_decide_eq_true in Hl; unfold cleaned_info, slot_of_info; cbv -[str_lower map];
    by rewrite Hl.
Qed.

(** [cleaned_domain] on any store whose dicts read as the domain's
    intent properties. *)
Lemma cleaned_domain_eq d rs :
  cleaned_domain d rs =
  Ok (mkDomainDict (if store_entities_as_slots d then None else Some false)
        (Some (Some (session_expiration_time (session_config d)), Some (carry_over_slots (session_config d))))
        (map clean_props (store_reads rs)) (entities d)
        (map (fun s => (slot_name s, cleaned_info s)) (slots d))
        (responses_dict (templates d)) (user_actions d) (form_names d),
      map (fun '(n, r) => (n, pop_defaults r)) rs).
Proof.
  unfold cleaned_domain, as_dict_at. simpl.
  rewrite (map_res_map_Ok _ _ (fun s => (slot_name s, cleaned_info s)))
    by (intros s _; by rewrite clean_persistence_info).
  simpl. by rewrite clean_intents_reads.
Qed.

Lemma from_domain_dict_cleaned d :
  domain_normal d -> forallb slot_values_lower (slots d) = true ->
  from_domain_dict
    (mkDomainDict (if store_entities_as_slots d then None else Some false)
       (Some (Some (session_expiration_time (session_config d)), Some (carry_over_slots (session_config d))))
       (map clean_props (intent_properties d)) (entities d)
       (map (fun s => (slot_name s, cleaned_info s)) (slots d))
       (responses_dict (templates d)) (user_actions d) (form_names d)) = Ok d.
Proof.
  intros Hn Hl. pose proof (dn_sane _ Hn) as Hs. apply check_domain_sanity_Ok in Hs as (_ & Hnd & _).
  unfold from_domain_dict; simpl. rewrite map_map, sort_strings_sorted by apply (dn_slots _ Hn).
  rewrite (map_res_map_Ok _ slot_name (fun s => (slot_name s, s))); simpl.
  - apply from_dict_readback; [apply clean_props_name|apply clean_props_props| |done].
    by destruct (store_entities_as_slots d).
  - intros s Hs. rewrite (assoc_map_key_val slot_name cleaned_info) by done. simpl.
    rewrite slot_of_cleaned_info; [done|]. rewrite forallb_forall in Hl.
    apply Hl, list_elem_of_In, Hs.
Qed.

(** C28: [persist_clean] writes a dict that [from_dict] reads back as the
    same domain, for a domain [from_dict] built (its categorical values
    lower case, as their constructor leaves them) and any state of the
    intent dicts it shares with [as_dict].  The pops of [cleaned_domain]
    change those dicts in place, but not what the domain's readers see of
    them, and a second [persist_clean] writes the same dict. *)
Theorem cleaned_domain_roundtrip data d rs :
  from_dict data = Ok d -> forallb slot_values_lower (slots d) = true ->
  store_reads rs = intent_properties d ->
  exists dd rs', cleaned_domain d rs = Ok (dd, rs') /\ from_domain_dict dd = Ok d /\
    store_reads rs' = intent_properties d /\ (exists rs'', cleaned_domain d rs' = Ok (dd, rs'')).
Proof.
  intros Hd Hl Hrs. apply from_dict_normal in Hd.
  do 2 eexists. rewrite cleaned_domain_eq. split; [reflexivity|]. rewrite store_reads_pop, Hrs.
  split_and!; [by apply from_domain_dict_cleaned|done|].
  eexists. by rewrite cleaned_domain_eq, store_reads_pop, Hrs.
Qed.

(** ** Adding unfeaturized slots *)

(** Appending slots that no other slot is named like, with distinct
    names, keeps [domain_wf]. *)
Lemma with_slots_app_wf d l :
  domain_wf d -> NoDup l -> (forall s, s ∈ l -> s ∉ map slot_name (slots d)) ->
  domain_wf (with_slots d (slots d ++ map unfeaturized_slot l)).
Proof.
  intros [Hi Ha Hs He Ht] Hl Hdis. constructor; simpl; try done.
  rewrite map_app, map_map. simpl. rewrite map_id. apply NoDup_app.
  split_and!; [done| |done]. intros x Hx Hx'. exact (Hdis x Hx' Hx).
Qed.

(** Unfeaturized slots have no feature, so they add no state. *)
Lemma input_states_with_unfeaturized d l :
  input_states (with_slots d (slots d ++ map unfeaturized_slot l)) = input_states d.
Proof.
  unfold input_states, slot_states. simpl. rewrite flat_map_app.
  assert (Hl : flat_map (fun s => map (slot_state_name (slot_name s)) (seq 0 (feature_dimensionality s)))
                 (map unfeaturized_slot l) = []) by (induction l; simpl; done).
  by rewrite Hl, app_nil_r.
Qed.

Lemma add_requested_slot_shape d :
  exists l, add_requested_slot d = with_slots d (slots d ++ map unfeaturized_slot l) /\ NoDup l /\
    (forall s, s ∈ l -> s ∉ map slot_name (slots d)).
Proof.
  unfold add_requested_slot. destruct (bool_decide _ && bool_decide _) eqn:E.
  - apply andb_true_iff in E as [_ E]. apply bool_decide_eq_true in E.
    exists [REQUESTED_SLOT]. split_and!; [done|apply NoDup_singleton|set_solver].
  - exists []. split_and!; [|constructor|set_solver]. destruct d; unfold with_slots; simpl. by rewrite app_nil_r.
Qed.

Lemma kb_fold_app (names slot_names : list string) sls :
  fold_left (fun sls s => if decide (s ∉ slot_names) then sls ++ [unfeaturized_slot s] else sls) names sls =
  sls ++ map unfeaturized_slot (filter (fun s => s ∉ slot_names) names).
Proof.
  induction names as [|x names IH] in sls |- *; simpl; [by rewrite app_nil_r|].
  rewrite IH, filter_cons. case_decide; simpl; [by rewrite <- app_assoc|done].
Qed.

Lemma add_knowledge_base_slots_shape d :
  exists l, add_knowledge_base_slots d = with_slots d (slots d ++ map unfeaturized_slot l) /\ NoDup l /\
    (forall s, s ∈ l -> s ∉ map slot_name (slots d)).
Proof.
  unfold add_knowledge_base_slots. case_decide.
  - rewrite kb_fold_app. eexists. split; [reflexivity|]. split.
    + apply NoDup_filter. vm_compute. repeat constructor; set_solver.
    + intros s Hs. by apply list_elem_of_filter in Hs as [? _].
  - exists []. split_and!; [|constructor|set_solver]. destruct d; unfold with_slots; simpl. by rewrite app_nil_r.
Qed.

(** C29: [add_requested_slot] and [add_knowledge_base_slots] keep a
    domain well formed (slot names stay unique) and leave its state schema
    [input_states] unchanged, since the slots they add are unfeaturized. *)
Theorem add_slots_preserve d :
  domain_wf d ->
  domain_wf (add_requested_slot d) /\ input_states (add_requested_slot d) = input_states d /\
  domain_wf (add_knowledge_base_slots d) /\ input_states (add_knowledge_base_slots d) = input_states d.
Proof.
  intros Hwf. destruct (add_requested_slot_shape d) as (l1 & -> & Hl1 & Hd1).
  destruct (add_knowledge_base_slots_shape d) as (l2 & -> & Hl2 & Hd2).
  split_and!; auto using with_slots_app_wf, input_states_with_unfeaturized.
Qed.

(** ** Slots filled from entities *)

Lemma matching_entities_typed name es :
  Forall (fun e => entity_type e <> None) es -> matching_entities name es = Ok (entity_values name es).
Proof.
  unfold entity_values. induction 1 as [|e es He _ IH]; [done|]. simpl.
  destruct (entity_type e) as [t|] eqn:Ht; [|done]. rewrite IH. simpl. rewrite filter_cons, Ht.
  destruct (String.eqb_spec t name) as [->|Hne]; [by rewrite decide_True|].
  rewrite decide_False; [done|congruence].
Qed.

Lemma matching_entities_untyped name es e :
  e ∈ es -> entity_type e = None -> exists k, matching_entities name es = Raise (KeyError k).
Proof.
  induction es as [|e' es IH]; simpl; intros Hin Hnone; [by apply elem_of_nil in Hin|].
  destruct (entity_type e') eqn:Ht; [|eauto]. apply elem_of_cons in Hin as [->|Hin]; [congruence|].
  destruct (IH Hin Hnone) as [k ->]. eauto.
Qed.

Lemma slots_for_entities_loop es sls acc :
  Forall (fun e => entity_type e <> None) es ->
  fold_res (slots_for_entities_step es) sls acc =
  Ok (acc ++ omap (fun s => if auto_fill s then slot_event s (entity_values (slot_name s) es) else None) sls).
Proof.
  intros Hes. induction sls as [|s sls IH] in acc |- *; simpl; [by rewrite app_nil_r|].
  unfold slots_for_entities_step. destruct (auto_fill s); simpl; [|apply IH].
  rewrite matching_entities_typed by done. simpl.
  destruct (slot_event s _); rewrite IH; simpl; [by rewrite <- app_assoc|done].
Qed.

(** [slots_for_entities] on messages whose entities all have a type: one
    event per auto-filled slot with an entity of its name, in slot order. *)
Lemma slots_for_entities_Ok d es :
  Forall (fun e => entity_type e <> None) es ->
  slots_for_entities d es =
  Ok (if store_entities_as_slots d
      then omap (fun s => if auto_fill s then slot_event s (entity_values (slot_name s) es) else None) (slots d)
      else []).
Proof. intros Hes. unfold slots_for_entities. destruct (store_entities_as_slots d); [|done]. by apply slots_for_entities_loop. Qed.

(** C30: Every event [slots_for_entities] returns sets an auto-filled slot
    of the domain, to a value of its slot type: the list of all the values
    of the entities named like the slot for a list slot, the value of the
    last such entity for any other slot. *)
Theorem slots_for_entities_typed d es evs :
  Forall (fun e => entity_type e <> None) es -> slots_for_entities d es = Ok evs ->
  Forall (fun ev => exists s, s ∈ slots d /\ auto_fill s = true /\
            let vals := entity_values (slot_name s) es in
            vals <> [] /\
            ev = SlotSet (slot_name s)
                   (if String.eqb (type_name (slot_type s)) "list" then VList vals
                    else VStr (default "" (last vals)))) evs.
Proof.
  intros Hes H. rewrite slots_for_entities_Ok in H by done. injection H as <-.
  destruct (store_entities_as_slots d); [|constructor].
  apply Forall_forall. intros ev (s & Hs & Hev)%list_elem_of_omap. exists s.
  destruct (auto_fill s); [|done]. unfold slot_event in Hev.
  destruct (last _) as [v|] eqn:Hl; [|done]. injection Hev as <-. cbv zeta. split_and!; try done.
  - intros Hnil. rewrite Hnil in Hl. discriminate.
  - by rewrite Hl.
Qed.

(** ** Warnings *)

(** No warning of a kind exactly when the training data has the same
    elements as the domain. *)
Lemma get_symmetric_difference_empty dom tr :
  get_symmetric_difference dom tr = (∅, ∅) <-> forall x, x ∈ dom <-> x ∈ default [] tr.
Proof.
  unfold get_symmetric_difference. split.
  - intros [= H1 H2] x. split; intros Hx.
    + destruct (decide (x ∈ default [] tr)) as [|Hn]; [done|].
      assert (Hin : x ∈ (list_to_set dom : gset string) ∖ list_to_set (default [] tr)) by set_solver.
      rewrite H1 in Hin. set_solver.
    + destruct (decide (x ∈ dom)) as [|Hn]; [done|].
      assert (Hin : x ∈ (list_to_set (default [] tr) : gset string) ∖ list_to_set dom) by set_solver.
      rewrite H2 in Hin. set_solver.
  - intros H. f_equal; apply set_eq; intros x; rewrite elem_of_difference, !elem_of_list_to_set, H;
      set_solver.
Qed.

(** An utterance is reported missing exactly when it is an action whose
    name starts with [utter_] and has no response. *)
Lemma elem_of_check_missing_templates d t :
  t ∈ check_missing_templates d <->
  t ∈ action_names d /\ startswith t UTTER_PREFIX = true /\ t ∉ map fst (templates d).
Proof. unfold check_missing_templates. rewrite !list_elem_of_filter. tauto. Qed.

(** A domain whose intents are unique and that passes the sanity check is
    well formed. *)
Lemma domain_wf_of_sanity d :
  NoDup (map fst (intent_properties d)) -> check_domain_sanity d = Ok tt -> domain_wf d.
Proof. intros Hi (Ha & Hs & He & Ht)%check_domain_sanity_Ok. by constructor. Qed.

(** ** Actions and templates *)

Lemma actions_loop d l acc :
  (forall x, x ∈ l -> x ∈ action_names d) ->
  fold_res (fun acc name => a <- action_for_name d name ;; Ok (acc ++ [a])) l acc = Ok (acc ++ l).
Proof.
  induction l as [|x l IH] in acc |- *; intros Hl; simpl; [by rewrite app_nil_r|].
  unfold action_for_name. rewrite decide_True by set_solver. simpl.
  rewrite IH by set_solver. by rewrite <- app_assoc.
Qed.

(** [Domain.actions] never raises: it gives one action per name, in order. *)
Lemma actions_Ok d : actions d = Ok (action_names d).
Proof. apply actions_loop. done. Qed.

(** [random_template_for] returns [None] for an utterance without
    templates, one of its templates otherwise, and every template can be
    drawn; an utterance whose template list is empty raises. *)
Lemma random_template_for_spec d a :
  (assoc a (templates d) = None -> forall draw, random_template_for draw d a = Ok None) /\
  (forall ts, assoc a (templates d) = Some ts -> ts <> [] ->
     (forall draw, exists t, random_template_for draw d a = Ok (Some t) /\ t ∈ ts) /\
     (forall t, t ∈ ts -> exists draw, random_template_for draw d a = Ok (Some t))) /\
  (assoc a (templates d) = Some [] -> forall draw, exists msg, random_template_for draw d a = Raise (ValueError msg)).
Proof.
  unfold random_template_for. split_and!; [by intros -> | |by intros -> draw; eexists].
  intros ts Hts Hne. rewrite Hts. destruct ts as [|t0 ts']; [done|]. split.
  - intros draw. set (ts := t0 :: ts').
    destruct (lookup_lt_is_Some_2 ts (draw mod length ts)) as [t Ht]; [apply Nat.mod_upper_bound; discriminate|].
    exists t. rewrite Ht. split; [done|]. by apply list_elem_of_lookup_2 in Ht.
  - intros t Ht. apply list_elem_of_lookup_1 in Ht as [i Hi]. exists i.
    rewrite Nat.mod_small; [by rewrite Hi|]. by apply lookup_lt_Some in Hi.
Qed.

(** ** Examples *)

Definition ex_restaurant_data : DomainData :=
  mkDomainData None (Some (Some 60%Q, Some false))
    [IntentName "greet"; IntentDict "inform" (Some (RList ["city"])) (Some ["name"]) None;
     IntentDict "bye" (Some RTrue) None None; IntentDict "affirm" (Some RFalse) None None]
    ["city"; "name"]
    [("cuisines", mkSlot "cuisines" ListSlot VNone true); ("city", mkSlot "city" TextSlot VNone true);
     ("name", mkSlot "name" TextSlot VNone false)]
    [("utter_greet", Some [TDict ["text"]])] None
    ["action_query_knowledge_base"; "utter_bye"] ["restaurant_form"].

Definition ex_restaurant : Domain := ok_or ex_blank (from_dict ex_restaurant_data).

Definition ex_entity (t v : string) : Entity := mkEntity (Some t) v None None.

Lemma cleaned_domain_roundtrip_witness :
  from_dict ex_restaurant_data = Ok ex_restaurant /\
  forallb slot_values_lower (slots ex_restaurant) = true /\
  store_reads (intent_store ex_restaurant) = intent_properties ex_restaurant /\
  exists dd rs', cleaned_domain ex_restaurant (intent_store ex_restaurant) = Ok (dd, rs') /\
    from_domain_dict dd = Ok ex_restaurant /\ store_reads rs' = intent_properties ex_restaurant /\
    (exists rs'', cleaned_domain ex_restaurant rs' = Ok (dd, rs'')).
Proof.
  assert (H1 : from_dict ex_restaurant_data = Ok ex_restaurant) by (vm_compute; reflexivity).
  assert (H2 : forallb slot_values_lower (slots ex_restaurant) = true) by (vm_compute; reflexivity).
  assert (H3 : store_reads (intent_store ex_restaurant) = intent_properties ex_restaurant)
    by (vm_compute; reflexivity).
  split_and!; [exact H1|exact H2|exact H3|exact (cleaned_domain_roundtrip _ _ _ H1 H2 H3)].
Defined.

(** The pops are visible to [as_dict]: after [persist_clean], [persist]
    writes [{"greet": {}}] where it wrote
    [{"greet": {"use_entities": True, "ignore_entities": []}}] before. *)
Example persist_after_persist_clean :
  exists dd rs', cleaned_domain ex_restaurant (intent_store ex_restaurant) = Ok (dd, rs') /\
    head (dict_intents (as_dict_at ex_restaurant (intent_store ex_restaurant))) =
      Some (IntentDict "greet" (Some RTrue) (Some []) None) /\
    head (dict_intents (as_dict_at ex_restaurant rs')) = Some (IntentDict "greet" None None None).
Proof. do 2 eexists. split; [vm_compute; reflexivity|]. split; vm_compute; reflexivity. Qed.

Lemma add_slots_preserve_witness :
  domain_wf ex_restaurant /\
  map slot_name (slots (add_knowledge_base_slots (add_requested_slot ex_restaurant))) =
    ["city"; "cuisines"; "name"; "requested_slot"; "knowledge_base_listed_objects";
     "knowledge_base_last_object"; "knowledge_base_last_object_type"] /\
  input_states (add_requested_slot ex_restaurant) = input_states ex_restaurant.
Proof.
  assert (Hwf : domain_wf ex_restaurant).
  { apply domain_wf_of_sanity; [apply (bool_decide_unpack _)|]; vm_compute; reflexivity. }
  split_and!; [exact Hwf|vm_compute; reflexivity|].
  exact (proj1 (proj2 (add_slots_preserve _ Hwf))).
Defined.

Lemma slots_for_entities_typed_witness :
  slots_for_entities ex_restaurant [ex_entity "cuisines" "thai"; ex_entity "city" "Berlin";
                                    ex_entity "cuisines" "greek"; ex_entity "city" "Paris";
                                    ex_entity "name" "Bob"] =
    Ok [SlotSet "city" (VStr "Paris"); SlotSet "cuisines" (VList ["thai"; "greek"])] /\
  Forall (fun ev => exists s, s ∈ slots ex_restaurant /\ auto_fill s = true /\
            let vals := entity_values (slot_name s) [ex_entity "cuisines" "thai"; ex_entity "city" "Berlin";
                                    ex_entity "cuisines" "greek"; ex_entity "city" "Paris";
                                    ex_entity "name" "Bob"] in
            vals <> [] /\
            ev = SlotSet (slot_name s)
                   (if String.eqb (type_name (slot_type s)) "list" then VList vals
                    else VStr (default "" (last vals))))
    [SlotSet "city" (VStr "Paris"); SlotSet "cuisines" (VList ["thai"; "greek"])].
Proof.
  assert (Hes : Forall (fun e => entity_type e <> None)
                  [ex_entity "cuisines" "thai"; ex_entity "city" "Berlin"; ex_entity "cuisines" "greek";
                   ex_entity "city" "Paris"; ex_entity "name" "Bob"]) by (repeat constructor; discriminate).
  assert (H : slots_for_entities ex_restaurant [ex_entity "cuisines" "thai"; ex_entity "city" "Berlin";
                                    ex_entity "cuisines" "greek"; ex_entity "city" "Paris";
                                    ex_entity "name" "Bob"] =
    Ok [SlotSet "city" (VStr "Paris"); SlotSet "cuisines" (VList ["thai"; "greek"])]) by (vm_compute; reflexivity).
  split; [exact H|]. exact (slots_for_entities_typed _ _ _ Hes H).
Defined.

(** The specification asks every [utter_] action to have a response; the
    code builds the domain and only warns. *)
Example utter_action_without_response :
  is_ok (from_dict ex_restaurant_data) = true /\ check_missing_templates ex_restaurant = ["utter_bye"].
Proof. split; vm_compute; reflexivity. Qed.

(** [collect_templates] rejects an utterance whose templates are [None]
    but accepts an empty list, and [random_template_for] then raises. *)
Example empty_templates_accepted :
  exists d, from_dict (mkDomainData None None [IntentName "greet"] [] [] [("utter_greet", Some [])] None
                        ["utter_greet"] []) = Ok d /\
            exists msg, random_template_for 0 d "utter_greet" = Raise (ValueError msg).
Proof. eexists. split; [vm_compute; reflexivity|]. eexists. vm_compute. reflexivity. Qed.

End DomainOps.
