(* ===== verification/Policy.v ===== *)
(** * The policy interface ([rasa.core.policies.policy], from the spec)

    The ensemble sees a policy through four things: its class (for
    [isinstance] tests and for [type(p).__name__] in the policy
    identifiers), its integer [priority], its prediction
    [predict_action_probabilities(tracker, domain)] and, for the fallback
    policies, [fallback_scores(domain)].  The policy classes are not under
    [src/]: [Policy] is modelled from the specification (section 4.2), the
    prediction kept abstract as a field of the record.  [PolicyContract]
    states what every policy promises the ensemble: a distribution of
    length [num_actions] with every entry in [0, 1]. *)

From S2P Require Import Prelude Tracker Domain.
Import Slots Tracker Domain.

Module Policy.

(** The policy classes, with [CustomPolicy] for user classes. *)
Inductive PolicyClass :=
| MemoizationPolicy
| AugmentedMemoizationPolicy
| FormPolicy
| MappingPolicy
| FallbackPolicy
| TwoStageFallbackPolicy
| KerasPolicy
| TEDPolicy
| SklearnPolicy
| CustomPolicy (name : string).

#[export] Instance PolicyClass_eq_dec : EqDecision PolicyClass.
Proof. solve_decision. Defined.

(** [type(p).__name__]. *)
Definition class_name (c : PolicyClass) : string :=
  match c with
  | MemoizationPolicy => "MemoizationPolicy"
  | AugmentedMemoizationPolicy => "AugmentedMemoizationPolicy"
  | FormPolicy => "FormPolicy"
  | MappingPolicy => "MappingPolicy"
  | FallbackPolicy => "FallbackPolicy"
  | TwoStageFallbackPolicy => "TwoStageFallbackPolicy"
  | KerasPolicy => "KerasPolicy"
  | TEDPolicy => "TEDPolicy"
  | SklearnPolicy => "SklearnPolicy"
  | CustomPolicy n => n
  end.

(** [isinstance(p, FallbackPolicy)]: the two-stage policy is a subclass. *)
Definition is_fallback_class (c : PolicyClass) : bool :=
  match c with FallbackPolicy | TwoStageFallbackPolicy => true | _ => false end.

(** [issubclass(c, parent)]: [FormPolicy] and [AugmentedMemoizationPolicy]
    derive from [MemoizationPolicy], [TwoStageFallbackPolicy] from
    [FallbackPolicy]; a custom class is taken to derive from no other. *)
Definition policy_subclass (c parent : PolicyClass) : bool :=
  bool_decide (c = parent) ||
  match c, parent with
  | FormPolicy, MemoizationPolicy | AugmentedMemoizationPolicy, MemoizationPolicy => true
  | TwoStageFallbackPolicy, FallbackPolicy => true
  | _, _ => false
  end.

Lemma policy_subclass_refl c : policy_subclass c c = true.
Proof. unfold policy_subclass. by rewrite bool_decide_true. Qed.

Definition is_form_class (c : PolicyClass) : bool :=
  match c with FormPolicy => true | _ => false end.

Definition is_mapping_class (c : PolicyClass) : bool :=
  match c with MappingPolicy => true | _ => false end.

Record Policy := mkPolicy {
  policy_class : PolicyClass;
  priority : Z;
  predict_action_probabilities : Tracker -> Domain -> list Q;
  fallback_action_name : string;
  max_history : option nat
}.

(** [FallbackPolicy.fallback_scores(domain)]: all zeros, [1.0] at the
    fallback action. *)
Definition fallback_scores (p : Policy) (d : Domain) : res (list Q) :=
  idx <- index_for_action d (fallback_action_name p) ;;
  py_setitem (replicate (num_actions d) 0%Q) idx 1%Q.

(** A probability distribution over the actions of the domain. *)
Definition valid_distribution (d : Domain) (ps : list Q) : Prop :=
  length ps = num_actions d /\ Forall (fun q => 0 <= q <= 1)%Q ps.

(** What a policy promises the ensemble. *)
Class PolicyContract (p : Policy) : Prop :=
  predict_valid : forall tr d, valid_distribution d (predict_action_probabilities p tr d).

(** A policy that always gives action [k] the probability [q] and every
    other action 0, the shape of a memoization hit or a mapping rule; the
    examples of the ensemble's theorems are built from it. *)
Definition one_hot_policy (c : PolicyClass) (prio : Z) (k : nat) (q : Q) : Policy :=
  mkPolicy c prio (fun _ d => <[k:=q]> (replicate (num_actions d) 0%Q))
    ACTION_DEFAULT_FALLBACK_NAME None.

Lemma one_hot_policy_contract c prio k q :
  (0 <= q <= 1)%Q -> PolicyContract (one_hot_policy c prio k q).
Proof.
  intros Hq tr d. split; simpl.
  - by rewrite length_insert, length_replicate.
  - apply Forall_insert; [apply Forall_replicate; lra|done].
Qed.

End Policy.
