(* ===== verification/Ensemble.v ===== *)
(** * The policy ensemble ([src/rasa/core/policies/ensemble.py])

    [Ensemble] models [SimplePolicyEnsemble.probabilities_using_best_policy]
    line by line: [arbitration_step] is the body of the [for i, p in
    enumerate(self.policies)] loop (prediction, zeroing of a just-rejected
    action, [np.max], the comparison of [(confidence, p.priority)] with the
    running best by Python's tuple order), [arbitrate] the loop, and
    [probabilities_using_best_policy] adds the override that replaces an
    [action_listen] prediction right after [action_listen] by the first
    fallback policy's scores.  [first_best] is the reference definition of
    the winner (the earliest policy with the greatest key), against which
    the single pass is proved equivalent. *)

From S2P Require Import Prelude Tracker Domain Policy.
From Stdlib Require Import Ascii.
Import Slots Tracker Domain Policy.

Module Ensemble.

(** ["policy_{}_{}".format(i, type(p).__name__)]. *)
Definition policy_name (i : nat) (p : Policy) : string :=
  "policy_" +:+ pretty i +:+ "_" +:+ class_name (policy_class p).

(** [SimplePolicyEnsemble.is_not_memo_policy]. *)
Definition is_not_memo_policy (best_policy_name : string) : bool :=
  negb (endswith best_policy_name ("_" +:+ class_name MemoizationPolicy) ||
        endswith best_policy_name ("_" +:+ class_name AugmentedMemoizationPolicy)).

(** Python's [(c1, p1) > (c2, p2)] on a float and an int. *)
Definition key_gt (c1 : Q) (p1 : Z) (c2 : Q) (p2 : Z) : bool :=
  if Qeq_bool c1 c2 then Z.ltb p2 p1 else negb (Qle_bool c1 c2).

(** The action named by the last event when it is a rejection. *)
Definition rejected_action (tr : Tracker) : option string :=
  match last_event tr with
  | Some (ActionExecutionRejected a) => Some a
  | _ => None
  end.

(** [probabilities[domain.index_for_action(...)] = 0.0] after a rejection. *)
Definition zero_rejected (tr : Tracker) (d : Domain) (probabilities : list Q) : res (list Q) :=
  match rejected_action tr with
  | Some a => idx <- index_for_action d a ;; py_setitem probabilities idx 0%Q
  | None => Ok probabilities
  end.

(** The loop variables of [probabilities_using_best_policy]. *)
Record ArbState := mkArb {
  result : option (list Q);
  max_confidence : Q;
  best_policy_name : option string;
  best_policy_priority : Z
}.

Definition arb_init : ArbState := mkArb None (-1)%Q None (-1)%Z.

(** One iteration of the loop. *)
Definition arbitration_step (tr : Tracker) (d : Domain) (st : ArbState)
    (ip : nat * Policy) : res ArbState :=
  let '(i, p) := ip in
  probabilities <- zero_rejected tr d (predict_action_probabilities p tr d) ;;
  confidence <- np_max probabilities ;;
  if key_gt confidence (priority p) (max_confidence st) (best_policy_priority st)
  then Ok (mkArb (Some probabilities) confidence (Some (policy_name i p)) (priority p))
  else Ok st.

Definition arbitrate (policies : list Policy) (tr : Tracker) (d : Domain) : res ArbState :=
  fold_res (arbitration_step tr d) (enumerate policies) arb_init.

(** [[(i, p) for i, p in enumerate(self.policies) if isinstance(p, FallbackPolicy)]][0]. *)
Definition first_fallback (policies : list Policy) : option (nat * Policy) :=
  head (filter (fun ip => is_fallback_class (policy_class ip.2) = true) (enumerate policies)).

(** The override after the loop. *)
Definition fallback_override (policies : list Policy) (tr : Tracker) (d : Domain)
    (r : list Q) (conf : Q) (name : string) : res (option (list Q) * option string) :=
  match py_index (Qeq_bool conf) r with
  | None => Raise (ValueError "max_confidence is not in list")
  | Some top =>
      listen <- index_for_action d ACTION_LISTEN_NAME ;;
      if bool_decide (top = listen) && bool_decide (tracker_latest_action_name tr = Some ACTION_LISTEN_NAME)
         && is_not_memo_policy name
      then match first_fallback policies with
           | Some (fi, fp) =>
               scores <- fallback_scores fp d ;;
               Ok (Some scores, Some (policy_name fi fp))
           | None => Ok (Some r, Some name)
           end
      else Ok (Some r, Some name)
  end.

(** [SimplePolicyEnsemble.probabilities_using_best_policy]. *)
Definition probabilities_using_best_policy (policies : list Policy) (tr : Tracker)
    (d : Domain) : res (option (list Q) * option string) :=
  st <- arbitrate policies tr d ;;
  match result st, best_policy_name st with
  | Some r, Some name => fallback_override policies tr d r (max_confidence st) name
  | r, name => Ok (r, name)
  end.

(** ** The reference definition of the winner *)

(** A candidate: index, identifier, zeroed distribution, confidence, priority. *)
Record Candidate := mkCand {
  cand_index : nat;
  cand_name : string;
  cand_probs : list Q;
  cand_conf : Q;
  cand_priority : Z
}.

Definition candidate (tr : Tracker) (d : Domain) (ip : nat * Policy) : res Candidate :=
  let '(i, p) := ip in
  probabilities <- zero_rejected tr d (predict_action_probabilities p tr d) ;;
  confidence <- np_max probabilities ;;
  Ok (mkCand i (policy_name i p) probabilities confidence (priority p)).

Fixpoint candidates (tr : Tracker) (d : Domain) (ips : list (nat * Policy)) : res (list Candidate) :=
  match ips with
  | [] => Ok []
  | ip :: rest => c <- candidate tr d ip ;; cs <- candidates tr d rest ;; Ok (c :: cs)
  end.

(** The earliest candidate whose key no other candidate exceeds. *)
Fixpoint first_best (cs : list Candidate) : option Candidate :=
  match cs with
  | [] => None
  | c :: rest =>
      match first_best rest with
      | None => Some c
      | Some b =>
          if key_gt (cand_conf b) (cand_priority b) (cand_conf c) (cand_priority c)
          then Some b else Some c
      end
  end.


(** The state after a candidate wins, and one comparison of the loop. *)
Definition state_of (c : Candidate) : ArbState :=
  mkArb (Some (cand_probs c)) (cand_conf c) (Some (cand_name c)) (cand_priority c).

Definition pick (st : ArbState) (c : Candidate) : ArbState :=
  if key_gt (cand_conf c) (cand_priority c) (max_confidence st) (best_policy_priority st)
  then state_of c else st.

(** ** Python's tuple order *)

Lemma key_gt_spec c1 p1 c2 p2 :
  key_gt c1 p1 c2 p2 = true <-> (c2 < c1)%Q \/ (c1 == c2)%Q /\ (p2 < p1)%Z.
Proof.
  unfold key_gt. destruct (Qeq_bool c1 c2) eqn:E.
  - apply Qeq_bool_iff in E. rewrite Z.ltb_lt. split; [auto|]. intros [H|[_ H]]; [exfalso; lra|done].
  - assert (~ (c1 == c2)%Q) by (intros Hc; apply Qeq_bool_iff in Hc; congruence).
    destruct (Qle_bool c1 c2) eqn:E2; simpl.
    + apply Qle_bool_iff in E2. split; [discriminate|]. intros [H'|[H' _]]; exfalso; lra.
    + split; [|done]. intros _. left. apply Qnot_le_lt. intros Hc.
      apply Qle_bool_iff in Hc. congruence.
Qed.

Lemma key_gt_false c1 p1 c2 p2 :
  key_gt c1 p1 c2 p2 = false <-> (c1 < c2)%Q \/ (c1 == c2)%Q /\ (p1 <= p2)%Z.
Proof.
  rewrite <- not_true_iff_false, key_gt_spec. split.
  - intros H. destruct (Qlt_le_dec c1 c2) as [|Hle]; [by left|].
    destruct (Qeq_dec c1 c2) as [He|Hne].
    { right. split; [done|]. destruct (Z.le_gt_cases p1 p2); [done|].
      exfalso. apply H. right. split; [done|lia]. }
    exfalso. apply H. left. apply Qle_lteq in Hle as [|]; [done|]. exfalso; apply Hne; by symmetry.
  - intros [H|[H1 H2]] [H'|[H1' H2']]; (exfalso; lra) || lia.
Qed.

Lemma key_gt_trans c1 p1 c2 p2 c3 p3 :
  key_gt c1 p1 c2 p2 = true -> key_gt c2 p2 c3 p3 = true -> key_gt c1 p1 c3 p3 = true.
Proof.
  rewrite !key_gt_spec. intros [H|[H1 H2]] [H'|[H1' H2']].
  - left. lra.
  - left. lra.
  - left. lra.
  - right. split; [lra|lia].
Qed.

(** Not exceeding is transitive too: the order is total. *)
Lemma key_ngt_trans c1 p1 c2 p2 c3 p3 :
  key_gt c1 p1 c2 p2 = false -> key_gt c2 p2 c3 p3 = false -> key_gt c1 p1 c3 p3 = false.
Proof.
  rewrite !key_gt_false. intros [H|[H1 H2]] [H'|[H1' H2']].
  - left. lra.
  - left. lra.
  - left. lra.
  - right. split; [lra|lia].
Qed.


(** ** The single pass computes the earliest best candidate *)

Lemma arbitration_step_candidate tr d st ip :
  arbitration_step tr d st ip = (c <- candidate tr d ip ;; Ok (pick st c)).
Proof.
  destruct ip as [i p]. unfold arbitration_step, candidate, pick.
  destruct (zero_rejected _ _ _) as [probs|]; cbn [res_bind]; [|done].
  destruct (np_max probs); simpl; [|done]. by destruct (key_gt _ _ _ _).
Qed.

Lemma fold_arbitration_candidates tr d ips st :
  fold_res (arbitration_step tr d) ips st =
  (cs <- candidates tr d ips ;; Ok (fold_left pick cs st)).
Proof.
  induction ips as [|ip ips IH] in st |- *; simpl; [done|].
  rewrite arbitration_step_candidate.
  destruct (candidate tr d ip) as [c|e]; simpl; [|done].
  rewrite IH. by destruct (candidates tr d ips).
Qed.

Lemma fold_pick_first_best cs st :
  fold_left pick cs st =
  match first_best cs with Some b => pick st b | None => st end.
Proof.
  induction cs as [|c cs IH] in st |- *; simpl; [done|].
  rewrite IH. destruct (first_best cs) as [b|]; [|done].
  unfold pick at 2 3. unfold pick.
  destruct (key_gt (cand_conf c) _ (max_confidence st) _) eqn:Ecs; simpl.
  - destruct (key_gt (cand_conf b) _ (cand_conf c) _) eqn:Ebc; simpl; rewrite ?Ebc, ?Ecs; [|done].
    by rewrite (key_gt_trans _ _ _ _ _ _ Ebc Ecs).
  - destruct (key_gt (cand_conf b) _ (cand_conf c) _) eqn:Ebc; [done|]. rewrite Ecs.
    by rewrite (key_ngt_trans _ _ _ _ _ _ Ebc Ecs).
Qed.

(** Zeroing keeps every property that 0 has. *)
Lemma zero_rejected_Forall (P : Q -> Prop) tr d l l' :
  P 0%Q -> Forall P l -> zero_rejected tr d l = Ok l' -> Forall P l'.
Proof.
  unfold zero_rejected. intros H0 Hl. destruct (rejected_action tr); [|by intros [= <-]].
  intros H. inv_bind H. apply py_setitem_Ok_inv in H as [_ ->]. by apply Forall_insert.
Qed.

Lemma zero_rejected_length tr d l l' : zero_rejected tr d l = Ok l' -> length l' = length l.
Proof.
  unfold zero_rejected. destruct (rejected_action tr); [|by intros [= <-]].
  intros H. inv_bind H. apply py_setitem_Ok_inv in H as [_ ->]. apply length_insert.
Qed.

Lemma candidate_conf_nonneg tr d i p c :
  PolicyContract p -> candidate tr d (i, p) = Ok c -> (0 <= cand_conf c)%Q.
Proof.
  intros Hp H. simpl in H. inv_bind H. inv_bind H. injection H as <-. simpl.
  destruct (Hp tr d) as [_ Hall].
  apply (zero_rejected_Forall (fun q => 0 <= q <= 1)%Q) in Hc; [|lra|done].
  apply np_max_spec in Hc0 as [Hin _].
  rewrite Forall_forall in Hc. destruct (Hc a0 Hin). done.
Qed.

Lemma candidates_elem_of tr d ips cs c :
  candidates tr d ips = Ok cs -> c ∈ cs -> exists ip, ip ∈ ips /\ candidate tr d ip = Ok c.
Proof.
  induction ips as [|ip ips IH] in cs |- *; simpl; intros H Hc.
  - injection H as <-. set_solver.
  - inv_bind H. inv_bind H. injection H as <-.
    apply elem_of_cons in Hc as [->|Hc]; [exists ip; split; [set_solver|done]|].
    destruct (IH _ Hc1 Hc) as (ip' & Hin & Hip'). exists ip'. split; [set_solver|done].
Qed.

Lemma first_best_nonempty c cs : first_best (c :: cs) <> None.
Proof. simpl. destruct (first_best cs); [destruct (key_gt _ _ _ _)|]; done. Qed.

Lemma first_best_elem_of cs b : first_best cs = Some b -> b ∈ cs.
Proof.
  induction cs as [|c cs IH]; simpl; [discriminate|].
  destruct (first_best cs) as [b'|]; [|intros [= <-]; set_solver].
  destruct (key_gt _ _ _ _); intros [= <-]; [specialize (IH eq_refl); set_solver|set_solver].
Qed.


(** The reference winner is a candidate that no candidate exceeds and
    that exceeds every earlier candidate. *)
Lemma first_best_spec cs b :
  first_best cs = Some b ->
  exists k, cs !! k = Some b /\
    (forall j c, cs !! j = Some c ->
       key_gt (cand_conf c) (cand_priority c) (cand_conf b) (cand_priority b) = false) /\
    (forall j c, j < k -> cs !! j = Some c ->
       key_gt (cand_conf b) (cand_priority b) (cand_conf c) (cand_priority c) = true).
Proof.
  induction cs as [|c cs IH] in b |- *; simpl; [discriminate|].
  assert (Hrefl : forall x, key_gt (cand_conf x) (cand_priority x) (cand_conf x) (cand_priority x) = false).
  { intros x. apply key_gt_false. right. split; [apply Qeq_refl|lia]. }
  destruct (first_best cs) as [b'|] eqn:Eb.
  - destruct (IH b' eq_refl) as (k & Hk & Hmax & Hfirst).
    destruct (key_gt (cand_conf b') _ (cand_conf c) _) eqn:Ebc; intros [= <-].
    + exists (S k). split_and!; [done| |].
      * intros [|j] x Hx; simpl in Hx; [|by eapply Hmax].
        injection Hx as <-. apply key_gt_false. apply key_gt_spec in Ebc.
        destruct Ebc as [H|[H1 H2]]; [left; lra|right; split; [by symmetry|lia]].
      * intros [|j] x Hj Hx; simpl in Hx; [by injection Hx as <-|].
        apply (Hfirst j); [lia|done].
    + exists 0. split_and!; [done| |intros j x Hj; lia].
      intros [|j] x Hx; simpl in Hx; [injection Hx as <-; apply Hrefl|].
      eapply key_ngt_trans; [eapply Hmax; exact Hx|exact Ebc].
  - intros [= <-]. destruct cs as [|c' cs]; [|by destruct (first_best_nonempty c' cs Eb)].
    exists 0. split_and!; [done| |intros j x Hj; lia].
    intros [|j] x Hx; simpl in Hx; [injection Hx as <-; apply Hrefl|done].
Qed.


Lemma candidates_lookup tr d ips cs j :
  candidates tr d ips = Ok cs ->
  (forall c, cs !! j = Some c -> exists ip, ips !! j = Some ip /\ candidate tr d ip = Ok c) /\
  (forall ip, ips !! j = Some ip -> exists c, cs !! j = Some c /\ candidate tr d ip = Ok c).
Proof.
  induction ips as [|ip ips IH] in cs, j |- *; simpl; intros H.
  - injection H as <-. split; intros ? Hx; by rewrite lookup_nil in Hx.
  - inv_bind H. inv_bind H. injection H as <-.
    destruct j as [|j]; simpl; [split; intros ? [= <-]; eauto|]. by apply IH.
Qed.

Lemma candidate_index tr d i p c :
  candidate tr d (i, p) = Ok c -> cand_index c = i /\ cand_name c = policy_name i p.
Proof. simpl. intros H. inv_bind H. inv_bind H. by injection H as <-. Qed.

Lemma best_above_init tr d policies cs b :
  Forall PolicyContract policies ->
  candidates tr d (enumerate policies) = Ok cs -> first_best cs = Some b ->
  key_gt (cand_conf b) (cand_priority b) (-1)%Q (-1)%Z = true.
Proof.
  intros Hall Hcs Hb.
  apply first_best_elem_of, list_elem_of_lookup in Hb as [j Hj].
  destruct (proj1 (candidates_lookup _ _ _ _ j Hcs) b Hj) as ([i p] & Hip & Hc).
  rewrite lookup_enumerate in Hip. destruct (policies !! j) as [q|] eqn:Eq; [|discriminate].
  injection Hip as -> ->.
  pose proof (candidate_conf_nonneg _ _ _ _ _ (proj1 (Forall_lookup _ _) Hall _ _ Eq) Hc).
  apply key_gt_spec. left. lra.
Qed.

(** ** Arbitration *)

(** The loop as the reference [first_best] over the candidates. *)
Lemma arbitrate_eq_first_best policies tr d :
  Forall PolicyContract policies ->
  arbitrate policies tr d =
  (cs <- candidates tr d (enumerate policies) ;;
   Ok (match first_best cs with Some b => state_of b | None => arb_init end)).
Proof.
  intros Hall. unfold arbitrate. rewrite fold_arbitration_candidates.
  destruct (candidates tr d (enumerate policies)) as [cs|e] eqn:Hcs; simpl; [|done].
  rewrite fold_pick_first_best. destruct (first_best cs) as [b|] eqn:Hb; [|done].
  unfold pick. simpl. by rewrite (best_above_init tr d policies cs b).
Qed.

(** C2: The single pass of [probabilities_using_best_policy] computes the
    reference winner: it fails exactly when computing some candidate
    fails, and otherwise ends in the state of [first_best]. *)
Theorem arbitrate_first_best policies tr d :
  Forall PolicyContract policies ->
  arbitrate policies tr d =
  (cs <- candidates tr d (enumerate policies) ;;
   Ok (match first_best cs with Some b => state_of b | None => arb_init end)).
Proof. apply arbitrate_eq_first_best. Qed.

(** C1: The winner is the earliest policy whose (confidence, priority) no
    other policy exceeds; with no policy the loop ends in its initial state. *)
Theorem arbitrate_winner policies tr d st :
  Forall PolicyContract policies ->
  arbitrate policies tr d = Ok st ->
  (policies = [] /\ st = arb_init) \/
  exists i p c, policies !! i = Some p /\ candidate tr d (i, p) = Ok c /\ st = state_of c /\
    (forall j q cq, policies !! j = Some q -> candidate tr d (j, q) = Ok cq ->
       key_gt (cand_conf cq) (cand_priority cq) (cand_conf c) (cand_priority c) = false) /\
    (forall j q cq, j < i -> policies !! j = Some q -> candidate tr d (j, q) = Ok cq ->
       key_gt (cand_conf c) (cand_priority c) (cand_conf cq) (cand_priority cq) = true).
Proof.
  intros Hall H. rewrite arbitrate_eq_first_best in H by done. inv_bind H. injection H as <-.
  destruct (first_best a) as [b|] eqn:Hb.
  - right. destruct (first_best_spec _ _ Hb) as (k & Hk & Hmax & Hfirst).
    destruct (proj1 (candidates_lookup _ _ _ _ k Hc) b Hk) as ([i p] & Hip & Hcb).
    rewrite lookup_enumerate in Hip. destruct (policies !! k) as [q|] eqn:Eq; [|discriminate].
    injection Hip as <- <-. exists k, q, b. split_and!; [done|done|done| |].
    + intros j q' cq Hq Hcq.
      destruct (proj2 (candidates_lookup _ _ _ _ j Hc) (j, q')) as (c' & Hc' & Hcq');
        [by rewrite lookup_enumerate, Hq|].
      rewrite Hcq in Hcq'. injection Hcq' as ->. by apply (Hmax j).
    + intros j q' cq Hj Hq Hcq.
      destruct (proj2 (candidates_lookup _ _ _ _ j Hc) (j, q')) as (c' & Hc' & Hcq');
        [by rewrite lookup_enumerate, Hq|].
      rewrite Hcq in Hcq'. injection Hcq' as ->. by apply (Hfirst j).
  - left. split; [|done]. destruct policies as [|p ps]; [done|].
    destruct (proj2 (candidates_lookup _ _ _ _ 0 Hc) (0, p)) as (c & Hc0 & _); [done|].
    destruct a as [|c' a]; [done|]. by destruct (first_best_nonempty c' a).
Qed.


(** ** What the loop keeps *)

Lemma zero_rejected_zero tr d a l l' :
  rejected_action tr = Some a -> zero_rejected tr d l = Ok l' ->
  exists k, index_for_action d a = Ok k /\ l' !! k = Some 0%Q.
Proof.
  unfold zero_rejected. intros -> H. inv_bind H.
  apply py_setitem_Ok_inv in H as [Hlt ->]. exists a0. split; [done|].
  by apply list_lookup_insert_eq.
Qed.

(** The invariant of the loop: the state is the initial one or the
    state of a candidate computed from one of the policies. *)
Definition arb_inv (policies : list Policy) (tr : Tracker) (d : Domain) (st : ArbState) : Prop :=
  st = arb_init \/
  exists i p c, policies !! i = Some p /\ candidate tr d (i, p) = Ok c /\ st = state_of c.

Lemma arbitrate_inv policies tr d st :
  arbitrate policies tr d = Ok st -> arb_inv policies tr d st.
Proof.
  unfold arbitrate. apply fold_res_invariant; [by left|].
  intros st0 [i p] st' Hin Hinv Hstep. rewrite arbitration_step_candidate in Hstep.
  inv_bind Hstep. injection Hstep as <-. unfold pick.
  destruct (key_gt _ _ _ _); [|done].
  right. exists i, p, a. split_and!; [by apply elem_of_enumerate|done|done].
Qed.

Lemma candidate_zeroed tr d i p c a :
  candidate tr d (i, p) = Ok c -> rejected_action tr = Some a ->
  exists k, index_for_action d a = Ok k /\ cand_probs c !! k = Some 0%Q.
Proof. simpl. intros H Ha. inv_bind H. inv_bind H. injection H as <-. by eapply zero_rejected_zero. Qed.

Lemma candidate_valid tr d i p c :
  PolicyContract p -> candidate tr d (i, p) = Ok c -> valid_distribution d (cand_probs c).
Proof.
  simpl. intros Hp H. inv_bind H. inv_bind H. injection H as <-. simpl.
  destruct (Hp tr d) as [Hlen Hall]. split.
  - by rewrite (zero_rejected_length _ _ _ _ Hc).
  - eapply zero_rejected_Forall; [|exact Hall|exact Hc]. lra.
Qed.

Lemma candidate_conf_in tr d i p c :
  candidate tr d (i, p) = Ok c -> exists top, py_index (Qeq_bool (cand_conf c)) (cand_probs c) = Some top.
Proof.
  simpl. intros H. inv_bind H. inv_bind H. injection H as <-. simpl.
  apply np_max_spec in Hc0 as [Hin _].
  destruct (py_index (Qeq_bool a0) a) eqn:E; [eauto|].
  pose proof (py_index_None _ _ E a0 Hin) as Hf.
  assert (Qeq_bool a0 a0 = true) by (apply Qeq_bool_iff; apply Qeq_refl). congruence.
Qed.

(** ** Fallback scores *)

Lemma fallback_scores_spec p d sc :
  fallback_scores p d = Ok sc ->
  exists fidx, index_for_action d (fallback_action_name p) = Ok fidx /\
    fidx < num_actions d /\ sc = <[fidx:=1%Q]> (replicate (num_actions d) 0%Q).
Proof.
  unfold fallback_scores. intros H. inv_bind H.
  apply py_setitem_Ok_inv in H as [Hlt ->]. rewrite length_replicate in Hlt. eauto.
Qed.

Lemma fallback_scores_valid p d sc : fallback_scores p d = Ok sc -> valid_distribution d sc.
Proof.
  intros (fidx & _ & Hlt & ->)%fallback_scores_spec. split.
  - by rewrite length_insert, length_replicate.
  - apply Forall_insert; [apply Forall_replicate; lra|lra].
Qed.

(** Two indices of different actions differ. *)
Lemma index_for_action_inj d a b ka kb :
  index_for_action d a = Ok ka -> index_for_action d b = Ok kb -> a <> b -> ka <> kb.
Proof.
  intros [Ha _]%index_for_action_Ok [Hb _]%index_for_action_Ok Hab ->. congruence.
Qed.


(** The returned distribution is the winner's or the first fallback
    policy's scores. *)
Lemma probabilities_cases policies tr d r n :
  probabilities_using_best_policy policies tr d = Ok (Some r, n) ->
  (exists st, arbitrate policies tr d = Ok st /\ result st = Some r /\ n = best_policy_name st) \/
  (exists st r0 fi fp, arbitrate policies tr d = Ok st /\ result st = Some r0 /\
     first_fallback policies = Some (fi, fp) /\ fallback_scores fp d = Ok r /\
     n = Some (policy_name fi fp)).
Proof.
  unfold probabilities_using_best_policy. intros H. inv_bind H.
  destruct (result a) as [r0|] eqn:Er, (best_policy_name a) as [name|] eqn:En;
    try (injection H as <- <-; left; eauto).
  unfold fallback_override in H. destruct (py_index _ _); [|discriminate]. inv_bind H.
  destruct (_ && _ && _); [|injection H as <- <-; left; eauto].
  destruct (first_fallback policies) as [[fi fp]|]; [|injection H as <- <-; left; eauto].
  inv_bind H. injection H as <- <-. right. eauto 10.
Qed.

Lemma first_fallback_Some policies fi fp :
  first_fallback policies = Some (fi, fp) -> policies !! fi = Some fp.
Proof.
  unfold first_fallback. intros H.
  assert (Hin : (fi, fp) ∈ filter (fun ip => is_fallback_class (policy_class ip.2) = true)
                                (enumerate policies)).
  { destruct (filter _ _) as [|x l]; simpl in H; [discriminate|]. injection H as ->. set_solver. }
  apply list_elem_of_filter in Hin as [_ Hin]. by apply elem_of_enumerate.
Qed.

Lemma state_of_result_inv policies tr d st r :
  arbitrate policies tr d = Ok st -> result st = Some r ->
  exists i p c, policies !! i = Some p /\ candidate tr d (i, p) = Ok c /\ st = state_of c.
Proof. intros H Hr. destruct (arbitrate_inv _ _ _ _ H) as [->|Hc]; [discriminate|done]. Qed.

(** C3: After a rejection of action [a], the returned distribution gives [a]
    probability 0, unless the fallback override fires with [a] as the
    fallback action (the next theorem). *)
Theorem rejected_action_zeroed policies tr d r n a :
  probabilities_using_best_policy policies tr d = Ok (Some r, n) ->
  rejected_action tr = Some a ->
  (forall fi fp, first_fallback policies = Some (fi, fp) -> fallback_action_name fp <> a) ->
  exists k, index_for_action d a = Ok k /\ r !! k = Some 0%Q.
Proof.
  intros H Ha Hfb.
  destruct (probabilities_cases _ _ _ _ _ H)
    as [(st & Hst & Hr & _)|(st & r0 & fi & fp & Hst & Hr & Hfi & Hsc & _)].
  - destruct (state_of_result_inv _ _ _ _ _ Hst Hr) as (i & p & c & _ & Hc & ->).
    injection Hr as <-. by eapply candidate_zeroed.
  - destruct (state_of_result_inv _ _ _ _ _ Hst Hr) as (i & p & c & _ & Hc & ->).
    destruct (candidate_zeroed _ _ _ _ _ _ Hc Ha) as (k & Hk & _).
    destruct (fallback_scores_spec _ _ _ Hsc) as (fidx & Hfidx & Hlt & ->).
    exists k. split; [done|].
    rewrite list_lookup_insert_ne by (eapply index_for_action_inj; [exact Hfidx|exact Hk|by apply (Hfb fi)]).
    apply lookup_replicate_2. apply index_for_action_Ok in Hk as [Hk _].
    by apply lookup_lt_Some in Hk.
Qed.

(** C4: After a rejection of action [a], the returned distribution gives
    [a] probability exactly 0, except when the fallback override fires and
    [a] is the fallback policy's action: then [a] gets probability 1 and
    the override undoes the zeroing. *)
Theorem rejected_fallback_not_zeroed policies tr d r n a k :
  probabilities_using_best_policy policies tr d = Ok (Some r, n) ->
  rejected_action tr = Some a -> index_for_action d a = Ok k ->
  r !! k = Some 0%Q \/
  (exists fi fp, first_fallback policies = Some (fi, fp) /\ fallback_action_name fp = a /\
     n = Some (policy_name fi fp) /\ r !! k = Some 1%Q).
Proof.
  intros H Ha Hk.
  destruct (probabilities_cases _ _ _ _ _ H)
    as [(st & Hst & Hr & _)|(st & r0 & fi & fp & Hst & Hr & Hfi & Hsc & ->)].
  - left. destruct (state_of_result_inv _ _ _ _ _ Hst Hr) as (i & p & c & _ & Hc & ->).
    injection Hr as <-. destruct (candidate_zeroed _ _ _ _ _ _ Hc Ha) as (k' & Hk' & Hz). congruence.
  - destruct (fallback_scores_spec _ _ _ Hsc) as (fidx & Hfidx & Hlt & ->).
    destruct (decide (fallback_action_name fp = a)) as [<-|Hne].
    + right. exists fi, fp. split_and!; [done|done|done|].
      assert (fidx = k) as -> by congruence. apply list_lookup_insert_eq. by rewrite length_replicate.
    + left. rewrite list_lookup_insert_ne by (eapply index_for_action_inj; [exact Hfidx|exact Hk|done]).
      apply lookup_replicate_2. apply index_for_action_Ok in Hk as [Hk _].
      by apply lookup_lt_Some in Hk.
Qed.


(** ** Which identifiers count as memoization *)

Definition is_memo_class (c : PolicyClass) : bool :=
  match c with MemoizationPolicy | AugmentedMemoizationPolicy => true | _ => false end.

(** The test on the identifier [policy_<i>_<Class>] looks only at the
    class name. *)
Lemma is_not_memo_policy_name i p :
  is_not_memo_policy (policy_name i p) = is_not_memo_policy ("_" +:+ class_name (policy_class p)).
Proof.
  unfold is_not_memo_policy, policy_name.
  assert (Hre : forall t, "policy_" +:+ pretty i +:+ "_" +:+ t = ("policy_" +:+ pretty i) +:+ String "_"%char t).
  { intros t. by rewrite <- string_app_assoc. }
  assert (Hu : forall t, "_" +:+ t = String "_"%char t) by reflexivity.
  rewrite Hre, !Hu, !endswith_sep; [done| |]; vm_compute; set_solver.
Qed.

(** For the built-in classes the identifier test is the class test. *)
Theorem is_not_memo_policy_builtin i p :
  (forall n, policy_class p <> CustomPolicy n) ->
  is_not_memo_policy (policy_name i p) = negb (is_memo_class (policy_class p)).
Proof.
  intros Hc. rewrite is_not_memo_policy_name.
  destruct (policy_class p); try reflexivity. by destruct (Hc name).
Qed.

(** ** The fallback override *)

Lemma state_conf_in policies tr d st r :
  arbitrate policies tr d = Ok st -> result st = Some r ->
  exists top, py_index (Qeq_bool (max_confidence st)) r = Some top.
Proof.
  intros H Hr. destruct (state_of_result_inv _ _ _ _ _ H Hr) as (i & p & c & _ & Hc & ->).
  injection Hr as <-. by eapply candidate_conf_in.
Qed.

(** C5: A non-memoization winner that predicts [action_listen] right after
    [action_listen] is replaced by the first fallback policy. *)
Theorem listen_after_listen_fallback policies tr d st r name li fi fp sc :
  arbitrate policies tr d = Ok st ->
  result st = Some r -> best_policy_name st = Some name ->
  index_for_action d ACTION_LISTEN_NAME = Ok li ->
  py_index (Qeq_bool (max_confidence st)) r = Some li ->
  tracker_latest_action_name tr = Some ACTION_LISTEN_NAME ->
  is_not_memo_policy name = true ->
  first_fallback policies = Some (fi, fp) ->
  fallback_scores fp d = Ok sc ->
  probabilities_using_best_policy policies tr d = Ok (Some sc, Some (policy_name fi fp)).
Proof.
  intros Hst Hr Hn Hli Htop Hlast Hmemo Hfi Hsc.
  unfold probabilities_using_best_policy. rewrite Hst. simpl. rewrite Hr, Hn.
  unfold fallback_override. rewrite Htop, Hli. simpl.
  rewrite bool_decide_true by done. rewrite bool_decide_true by done.
  rewrite Hmemo. simpl. rewrite Hfi, Hsc. done.
Qed.

(** A memoization winner is never overridden. *)
Theorem memo_winner_kept policies tr d st r name :
  arbitrate policies tr d = Ok st ->
  result st = Some r -> best_policy_name st = Some name ->
  is_not_memo_policy name = false ->
  ACTION_LISTEN_NAME ∈ action_names d ->
  probabilities_using_best_policy policies tr d = Ok (Some r, Some name).
Proof.
  intros Hst Hr Hn Hmemo Hlisten.
  destruct (state_conf_in _ _ _ _ _ Hst Hr) as [top Htop].
  destruct (index_for_action_known _ _ Hlisten) as [li Hli].
  unfold probabilities_using_best_policy. rewrite Hst. simpl. rewrite Hr, Hn.
  unfold fallback_override. rewrite Htop, Hli. simpl. rewrite Hmemo.
  by rewrite andb_false_r.
Qed.

(** ** The result is a distribution *)

(** C6: When every policy keeps its contract, a returned prediction is a
    distribution over the domain's actions: one entry per action, each
    between 0 and 1. *)
Theorem probabilities_valid policies tr d r n :
  Forall PolicyContract policies ->
  probabilities_using_best_policy policies tr d = Ok (Some r, n) ->
  valid_distribution d r.
Proof.
  intros Hall H.
  destruct (probabilities_cases _ _ _ _ _ H)
    as [(st & Hst & Hr & _)|(st & r0 & fi & fp & Hst & Hr & Hfi & Hsc & _)].
  - destruct (state_of_result_inv _ _ _ _ _ Hst Hr) as (i & p & c & Hp & Hc & ->).
    injection Hr as <-. eapply candidate_valid; [|exact Hc].
    exact (proj1 (Forall_lookup _ _) Hall _ _ Hp).
  - by eapply fallback_scores_valid.
Qed.


(** ** Errors *)

(** C7: A rejection of an action the domain does not know raises [NameError]
    in the first iteration. *)
Theorem unknown_rejection_raises policies tr d a :
  policies <> [] -> rejected_action tr = Some a -> a ∉ action_names d ->
  probabilities_using_best_policy policies tr d = Raise (NameError a).
Proof.
  intros Hne Ha Hunk. destruct policies as [|p ps]; [done|].
  assert (Hidx : index_for_action d a = Raise (NameError a)).
  { destruct (index_for_action d a) as [k|e] eqn:E.
    - apply index_for_action_Ok in E as [Hk _]. exfalso. apply Hunk.
      by eapply list_elem_of_lookup_2.
    - by apply index_for_action_Raise in E as [-> _]. }
  unfold probabilities_using_best_policy, arbitrate. simpl.
  unfold zero_rejected. rewrite Ha, Hidx. done.
Qed.

(** ** Examples *)

Definition ex_keras : Policy := one_hot_policy KerasPolicy 1 0 (9 # 10).
Definition ex_fallback : Policy := one_hot_policy FallbackPolicy 3 2 (3 # 10).
Definition ex_memo : Policy := one_hot_policy MemoizationPolicy 1 0 1.
Definition ex_policies : list Policy := [ex_keras; ex_fallback].
Definition ex_memo_policies : list Policy := [ex_memo; ex_fallback].
Definition ex_rejecting (a : string) : Tracker := update ex_tracker (ActionExecutionRejected a).

Lemma ex_policies_contract : Forall PolicyContract ex_policies.
Proof. repeat (apply List.Forall_cons; [apply one_hot_policy_contract; lra|]). apply List.Forall_nil. Qed.

Lemma ex_memo_policies_contract : Forall PolicyContract ex_memo_policies.
Proof. repeat (apply List.Forall_cons; [apply one_hot_policy_contract; lra|]). apply List.Forall_nil. Qed.

Lemma arbitrate_first_best_witness :
  Forall PolicyContract ex_policies /\
  arbitrate ex_policies ex_tracker ex_domain =
  (cs <- candidates ex_tracker ex_domain (enumerate ex_policies) ;;
   Ok (match first_best cs with Some b => state_of b | None => arb_init end)).
Proof. split; [exact ex_policies_contract|]. apply arbitrate_first_best, ex_policies_contract. Defined.

Lemma arbitrate_winner_witness :
  Forall PolicyContract ex_policies /\
  exists st, arbitrate ex_policies ex_tracker ex_domain = Ok st /\
  ((ex_policies = [] /\ st = arb_init) \/
   exists i p c, ex_policies !! i = Some p /\ candidate ex_tracker ex_domain (i, p) = Ok c /\
     st = state_of c /\
     (forall j q cq, ex_policies !! j = Some q -> candidate ex_tracker ex_domain (j, q) = Ok cq ->
        key_gt (cand_conf cq) (cand_priority cq) (cand_conf c) (cand_priority c) = false) /\
     (forall j q cq, j < i -> ex_policies !! j = Some q -> candidate ex_tracker ex_domain (j, q) = Ok cq ->
        key_gt (cand_conf c) (cand_priority c) (cand_conf cq) (cand_priority cq) = true)).
Proof.
  split; [exact ex_policies_contract|]. eexists. split; [vm_compute; reflexivity|].
  apply arbitrate_winner; [exact ex_policies_contract|vm_compute; reflexivity].
Defined.

Lemma rejected_action_zeroed_witness :
  probabilities_using_best_policy ex_policies (ex_rejecting "action_search") ex_domain =
    Ok (Some [0; 0; 1; 0; 0; 0; 0; 0]%Q, Some "policy_1_FallbackPolicy") /\
  rejected_action (ex_rejecting "action_search") = Some "action_search" /\
  exists k, index_for_action ex_domain "action_search" = Ok k /\
    [0; 0; 1; 0; 0; 0; 0; 0]%Q !! k = Some 0%Q.
Proof.
  assert (H : probabilities_using_best_policy ex_policies (ex_rejecting "action_search") ex_domain =
    Ok (Some [0; 0; 1; 0; 0; 0; 0; 0]%Q, Some "policy_1_FallbackPolicy")) by (vm_compute; reflexivity).
  split_and!; [exact H|vm_compute; reflexivity|].
  apply (rejected_action_zeroed _ _ _ _ _ _ H); [vm_compute; reflexivity|].
  intros fi fp Hfi. vm_compute in Hfi. injection Hfi as <- <-. vm_compute. discriminate.
Defined.

Lemma rejected_fallback_not_zeroed_witness :
  probabilities_using_best_policy ex_policies (ex_rejecting ACTION_DEFAULT_FALLBACK_NAME) ex_domain =
    Ok (Some [0; 0; 1; 0; 0; 0; 0; 0]%Q, Some "policy_1_FallbackPolicy") /\
  rejected_action (ex_rejecting ACTION_DEFAULT_FALLBACK_NAME) = Some ACTION_DEFAULT_FALLBACK_NAME /\
  index_for_action ex_domain ACTION_DEFAULT_FALLBACK_NAME = Ok 2 /\
  ([0; 0; 1; 0; 0; 0; 0; 0]%Q !! 2 = Some 0%Q \/
   exists fi fp, first_fallback ex_policies = Some (fi, fp) /\
     fallback_action_name fp = ACTION_DEFAULT_FALLBACK_NAME /\
     Some "policy_1_FallbackPolicy" = Some (policy_name fi fp) /\
     [0; 0; 1; 0; 0; 0; 0; 0]%Q !! 2 = Some 1%Q).
Proof.
  assert (H1 : probabilities_using_best_policy ex_policies (ex_rejecting ACTION_DEFAULT_FALLBACK_NAME) ex_domain =
    Ok (Some [0; 0; 1; 0; 0; 0; 0; 0]%Q, Some "policy_1_FallbackPolicy")) by (vm_compute; reflexivity).
  assert (H2 : rejected_action (ex_rejecting ACTION_DEFAULT_FALLBACK_NAME) = Some ACTION_DEFAULT_FALLBACK_NAME)
    by (vm_compute; reflexivity).
  assert (H3 : index_for_action ex_domain ACTION_DEFAULT_FALLBACK_NAME = Ok 2) by (vm_compute; reflexivity).
  split_and!; [exact H1|exact H2|exact H3|exact (rejected_fallback_not_zeroed _ _ _ _ _ _ _ H1 H2 H3)].
Defined.

Lemma listen_after_listen_fallback_witness :
  arbitrate ex_policies ex_tracker ex_domain =
    Ok (mkArb (Some [9 # 10; 0; 0; 0; 0; 0; 0; 0]%Q) (9 # 10) (Some "policy_0_KerasPolicy") 1) /\
  probabilities_using_best_policy ex_policies ex_tracker ex_domain =
    Ok (Some [0; 0; 1; 0; 0; 0; 0; 0]%Q, Some (policy_name 1 ex_fallback)).
Proof.
  assert (H : arbitrate ex_policies ex_tracker ex_domain =
    Ok (mkArb (Some [9 # 10; 0; 0; 0; 0; 0; 0; 0]%Q) (9 # 10) (Some "policy_0_KerasPolicy") 1))
    by (vm_compute; reflexivity).
  split; [exact H|].
  apply (listen_after_listen_fallback _ _ _ _ [9 # 10; 0; 0; 0; 0; 0; 0; 0]%Q "policy_0_KerasPolicy"
           0 1 ex_fallback [0; 0; 1; 0; 0; 0; 0; 0]%Q H); vm_compute; reflexivity.
Defined.

Lemma memo_winner_kept_witness :
  arbitrate ex_memo_policies ex_tracker ex_domain =
    Ok (mkArb (Some [1; 0; 0; 0; 0; 0; 0; 0]%Q) 1 (Some "policy_0_MemoizationPolicy") 1) /\
  probabilities_using_best_policy ex_memo_policies ex_tracker ex_domain =
    Ok (Some [1; 0; 0; 0; 0; 0; 0; 0]%Q, Some "policy_0_MemoizationPolicy").
Proof.
  assert (H : arbitrate ex_memo_policies ex_tracker ex_domain =
    Ok (mkArb (Some [1; 0; 0; 0; 0; 0; 0; 0]%Q) 1 (Some "policy_0_MemoizationPolicy") 1))
    by (vm_compute; reflexivity).
  split; [exact H|].
  apply (memo_winner_kept _ _ _ _ [1; 0; 0; 0; 0; 0; 0; 0]%Q "policy_0_MemoizationPolicy" H);
    [reflexivity|reflexivity|vm_compute; reflexivity|].
  apply (bool_decide_eq_true_1 _). vm_compute. reflexivity.
Defined.

Lemma probabilities_valid_witness :
  Forall PolicyContract ex_policies /\
  probabilities_using_best_policy ex_policies ex_tracker ex_domain =
    Ok (Some [0; 0; 1; 0; 0; 0; 0; 0]%Q, Some "policy_1_FallbackPolicy") /\
  valid_distribution ex_domain [0; 0; 1; 0; 0; 0; 0; 0]%Q.
Proof.
  assert (H : probabilities_using_best_policy ex_policies ex_tracker ex_domain =
    Ok (Some [0; 0; 1; 0; 0; 0; 0; 0]%Q, Some "policy_1_FallbackPolicy")) by (vm_compute; reflexivity).
  split_and!; [exact ex_policies_contract|exact H|].
  exact (probabilities_valid _ _ _ _ _ ex_policies_contract H).
Defined.

Lemma is_not_memo_policy_builtin_witness :
  (forall n, policy_class ex_memo <> CustomPolicy n) /\
  is_not_memo_policy (policy_name 4 ex_memo) = negb (is_memo_class (policy_class ex_memo)).
Proof.
  assert (H : forall n, policy_class ex_memo <> CustomPolicy n) by (intros n; discriminate).
  split; [exact H|]. exact (is_not_memo_policy_builtin 4 ex_memo H).
Defined.

Lemma unknown_rejection_raises_witness :
  ex_policies <> [] /\ rejected_action (ex_rejecting "action_unknown") = Some "action_unknown" /\
  "action_unknown" ∉ action_names ex_domain /\
  probabilities_using_best_policy ex_policies (ex_rejecting "action_unknown") ex_domain =
    Raise (NameError "action_unknown").
Proof.
  assert (H1 : ex_policies <> []) by discriminate.
  assert (H2 : rejected_action (ex_rejecting "action_unknown") = Some "action_unknown")
    by (vm_compute; reflexivity).
  assert (H3 : "action_unknown" ∉ action_names ex_domain)
    by (apply (bool_decide_eq_true_1 _); vm_compute; reflexivity).
  split_and!; [exact H1|exact H2|exact H3|]. exact (unknown_rejection_raises _ _ _ _ H1 H2 H3).
Defined.

End Ensemble.
