(* ===== verification/Evaluation.v ===== *)
(** * Story evaluation ([src/rasa/core/test.py])

    [Evaluation] models the [EvaluationStore]: its six lists,
    [add_to_store] with Python's truthiness of its arguments,
    [merge_store], [has_prediction_target_mismatch], and [serialise] with
    the padding of [pad_lists_to_size].  It also models the replay of a
    recorded story:
    - [collect_action_executed_predictions] asks the ensemble for the next
      action, through the processor's [predict_next_action].  When the
      form policy was wrong it retries after an emulated form rejection
      ([emulate_form_rejection], [retry_after_form]).  It then records the
      prediction and either logs the gold event or a
      [WronglyPredictedAction];
    - [collect_user_uttered_predictions] records intent and entities;
    - [replay_step] and [predict_tracker_actions] fold both over the events
      of a story;
    - [story_step] and [story_loop] fold [predict_tracker_actions] over a
      corpus, and [collect_story_predictions] adds
      [in_training_data_fraction].
    Every [raise] of the code, and every Python error the code can hit
    ([IndexError] on an empty list, [TypeError] on [None],
    [ZeroDivisionError]), is a [Raise] of the model.  The Markdown
    rendering of entities and the form policy's [state_is_unhappy] are
    section variables. *)

From S2P Require Import Prelude Tracker Domain Policy Ensemble.
Import Slots Tracker Domain Policy Ensemble.

Module Evaluation.

(** An entity dict after [_clean_entity_results]: [text] and the keys
    [start], [end], [entity], [value] present in the result. *)
Record CleanEntity := mkClean {
  ce_text : string;
  ce_start : option nat;
  ce_end : option nat;
  ce_entity : option string;
  ce_value : option string
}.

#[export] Instance CleanEntity_eq_dec : EqDecision CleanEntity.
Proof. solve_decision. Defined.

Record EvaluationStore := mkStore {
  action_predictions : list string;
  action_targets : list string;
  intent_predictions : list (option string);
  intent_targets : list (option string);
  entity_predictions : list CleanEntity;
  entity_targets : list CleanEntity
}.

Definition empty_store : EvaluationStore := mkStore [] [] [] [] [] [].

(** An argument of [add_to_store]: [None], one item, or a list. *)
Inductive PyArg (A : Type) := PNone | PItem (x : A) | PList (l : list A).
Arguments PNone {A}.
Arguments PItem {A} x.
Arguments PList {A} l.

(** [if v: attr.extend(v) if isinstance(v, list) else attr.append(v)]. *)
Definition add_arg {A} (truthy : A -> bool) (attr : list A) (v : PyArg A) : list A :=
  match v with
  | PNone => attr
  | PItem x => if truthy x then attr ++ [x] else attr
  | PList l => attr ++ l
  end.

Definition str_truthy (s : string) : bool := negb (String.eqb s "").
Definition opt_truthy (o : option string) : bool := if o is Some s then str_truthy s else false.

Definition add_to_store (st : EvaluationStore)
    (ap at' : PyArg string) (ip it : PyArg (option string)) (ep et : PyArg CleanEntity)
    : EvaluationStore :=
  mkStore (add_arg str_truthy (action_predictions st) ap)
          (add_arg str_truthy (action_targets st) at')
          (add_arg opt_truthy (intent_predictions st) ip)
          (add_arg opt_truthy (intent_targets st) it)
          (add_arg (fun _ => true) (entity_predictions st) ep)
          (add_arg (fun _ => true) (entity_targets st) et).

Definition merge_store (st other : EvaluationStore) : EvaluationStore :=
  add_to_store st (PList (action_predictions other)) (PList (action_targets other))
    (PList (intent_predictions other)) (PList (intent_targets other))
    (PList (entity_predictions other)) (PList (entity_targets other)).

Definition has_prediction_target_mismatch (st : EvaluationStore) : bool :=
  bool_decide (intent_predictions st <> intent_targets st) ||
  bool_decide (entity_predictions st <> entity_targets st) ||
  bool_decide (action_predictions st <> action_targets st).

(** [rasa.core.utils.pad_lists_to_size], from the spec: the shorter list
    is padded with [pad] to the length of the longer. *)
Definition pad_lists_to_size {A} (xs ys : list A) (pad : A) : list A * list A :=
  if decide (length ys < length xs) then (xs, ys ++ replicate (length xs - length ys) pad)
  else (xs ++ replicate (length ys - length xs) pad, ys).

Section Serialise.
(** [MarkdownWriter.generate_entity_md(e.get("text"), e)]. *)
Variable generate_entity_md : CleanEntity -> string.

(** [serialise]: targets and predictions of equal length for sklearn;
    [None] items stay [None], the padding is the string ["None"]. *)
Definition serialise (st : EvaluationStore) : list (option string) * list (option string) :=
  let targets := map Some (action_targets st) ++ intent_targets st ++
                 map (fun e => Some (generate_entity_md e)) (entity_targets st) in
  let predictions := map Some (action_predictions st) ++ intent_predictions st ++
                     map (fun e => Some (generate_entity_md e)) (entity_predictions st) in
  pad_lists_to_size targets predictions (Some "None").
End Serialise.

(** [_clean_entity_results]. *)
Definition clean_entity_results (text : string) (ents : list Entity) : list CleanEntity :=
  map (fun r => mkClean text (entity_start r) (entity_end r) (entity_type r) (Some (entity_value r))) ents.

(** An entry of the [actions] list of the report. *)
Record ActionRecord := mkRecord {
  ar_action : string;
  ar_predicted : string;
  ar_policy : option string;
  ar_confidence : Q
}.

(** [_in_training_data_fraction]: the share of actions predicted by a
    memoization policy; Python divides by [len(action_list)]. *)
Definition in_training_data_fraction (action_list : list ActionRecord) : res Q :=
  let in_training_data :=
    filter (fun a => match ar_policy a with
                     | Some p => str_truthy p && negb (is_not_memo_policy p)
                     | None => false
                     end = true) action_list in
  match length action_list with
  | 0 => Raise ZeroDivisionError
  | n => Ok (inject_Z (Z.of_nat (length in_training_data)) / inject_Z (Z.of_nat n))%Q
  end.

Section Replay.
(** [FormPolicy.state_is_unhappy(tracker, domain)]. *)
Variable state_is_unhappy : Tracker -> Domain -> bool.
(** The ensemble and the domain of the agent. *)
Variable policies : list Policy.
Variable d : Domain.

(** [MessageProcessor.predict_next_action] (from the spec): the action of
    highest probability, its policy and its probability. *)
Definition predict_next_action (tr : Tracker) : res (string * option string * Q) :=
  pr <- probabilities_using_best_policy policies tr d ;;
  match pr with
  | (Some probs, policy) =>
      m <- np_max probs ;;
      match py_index (Qeq_bool m) probs with
      | Some idx => a <- action_for_index d idx ;; Ok (a, policy, m)
      | None => Raise (ValueError "argmax")
      end
  | (None, _) => Raise (TypeError "no action probabilities")
  end.

(** [_emulate_form_rejection]: for each form policy, log a rejection of
    the active form; keep it only when the form policy knows the state
    as an unhappy path, otherwise drop it and clear the rejected flag. *)
Definition emulate_form_rejection (tr : Tracker) : Tracker :=
  match py_truthy (tracker_active_form tr) with
  | Some form =>
      fold_left (fun tr p =>
        if is_form_class (policy_class p) then
          let tr' := update tr (ActionExecutionRejected form) in
          if state_is_unhappy tr' d then tr' else clear_form_rejection (drop_last_event tr')
        else tr) policies tr
  | None => tr
  end.

(** The retry of [_collect_action_executed_predictions] after a wrong
    prediction of the form policy. *)
Definition retry_after_form (tr : Tracker) (gold : string)
    (r : string * option string * Q) : res (string * option string * Q * Tracker) :=
  let '(predicted, policy, conf) := r in
  match policy with
  | Some pol =>
      if str_truthy pol && negb (String.eqb predicted gold) && contains pol (class_name FormPolicy)
      then let tr' := emulate_form_rejection tr in
           r2 <- predict_next_action tr' ;;
           let '(p2, pol2, c2) := r2 in Ok (p2, pol2, c2, tr')
      else Ok (predicted, policy, conf, tr)
  | None => Ok (predicted, policy, conf, tr)
  end.

(** [_collect_action_executed_predictions]. *)
Definition collect_action_executed_predictions (tr : Tracker) (ev : Event) (gold : string)
    (fail_on_prediction_errors : bool) : res (EvaluationStore * option string * Q * Tracker) :=
  r <- predict_next_action tr ;;
  r' <- retry_after_form tr gold r ;;
  let '(predicted, policy, conf, tr) := r' in
  let st := add_to_store empty_store (PItem predicted) (PItem gold) PNone PNone PNone PNone in
  if has_prediction_target_mismatch st then
    let tr := update tr (WronglyPredictedAction gold predicted) in
    if fail_on_prediction_errors then
      match policy with
      | Some pol =>
          Raise (ValueError (if contains pol (class_name FormPolicy)
                             then "Model predicted a wrong action. FormAction is not run during evaluation"
                             else "Model predicted a wrong action."))
      | None => Raise (TypeError "argument of type 'NoneType' is not iterable")
      end
    else Ok (st, policy, conf, tr)
  else Ok (st, policy, conf, update tr ev).


(** The message of a [WronglyClassifiedUserUtterance]: the gold intent
    and the gold entities over the original parse data. *)
Definition wrongly_classified_message (m : Message) (target : option string)
    (gold_entities : list CleanEntity) : Message :=
  mkMessage (msg_text m) target None (intent_ranking m)
    (map (fun e => mkEntity (ce_entity e) (default "" (ce_value e)) (ce_start e) (ce_end e))
       gold_entities)
    (true_intent m) (true_entities m).

(** The message of an [EndToEndUserUtterance]: intent and entities, no
    ranking. *)
Definition end_to_end_message (m : Message) : Message :=
  mkMessage (msg_text m) (intent_name m) (intent_confidence m) None (msg_entities m) None None.

(** [_collect_user_uttered_predictions]. *)
Definition collect_user_uttered_predictions (m : Message) (tr : Tracker)
    (fail_on_prediction_errors : bool) : res (EvaluationStore * Tracker) :=
  let ip := match py_truthy (intent_name m) with
            | Some n => PItem (Some n)
            | None => PList [None]
            end in
  let it := match true_intent m with Some g => PItem (Some g) | None => PNone end in
  let st1 := add_to_store empty_store PNone PNone ip it PNone PNone in
  let entity_gold := true_entities m in
  let predicted_entities := msg_entities m in
  st2 <- (if (if entity_gold is Some (_ :: _) then true else false) ||
             (if predicted_entities is _ :: _ then true else false)
          then match entity_gold with
               | Some gold =>
                   Ok (add_to_store st1 PNone PNone PNone PNone
                         (PList (clean_entity_results (msg_text m) predicted_entities))
                         (PList (clean_entity_results (msg_text m) gold)))
               | None => Raise (TypeError "'NoneType' object is not iterable")
               end
          else Ok st1) ;;
  if has_prediction_target_mismatch st2 then
    match intent_targets st2 with
    | target :: _ =>
        let tr := update tr (UserUttered (wrongly_classified_message m target (entity_targets st2))) in
        if fail_on_prediction_errors
        then Raise (ValueError "NLU model predicted a wrong intent.")
        else Ok (st2, tr)
    | [] => Raise (IndexError 0)
    end
  else Ok (st2, update tr (UserUttered (end_to_end_message m))).

(** The events [_predict_tracker_actions] sends to the action branch:
    [isinstance(event, ActionExecuted)]. *)
Definition is_action_event (ev : Event) : bool :=
  match ev with ActionExecuted _ _ _ | WronglyPredictedAction _ _ => true | _ => false end.

(** The loop state of [_predict_tracker_actions]. *)
Definition replay_step (fail_on_prediction_errors use_e2e : bool)
    (acc : EvaluationStore * Tracker * list ActionRecord) (ev : Event)
    : res (EvaluationStore * Tracker * list ActionRecord) :=
  let '(store, partial, actions) := acc in
  match ev with
  | ActionExecuted gold _ _ | WronglyPredictedAction gold _ =>
      r <- collect_action_executed_predictions partial ev gold fail_on_prediction_errors ;;
      let '(result, policy, conf, partial) := r in
      match action_targets result, action_predictions result with
      | t :: _, p :: _ =>
          Ok (merge_store store result, partial, actions ++ [mkRecord t p policy conf])
      | _, _ => Raise (IndexError 0)
      end
  | UserUttered m =>
      if use_e2e then
        r <- collect_user_uttered_predictions m partial fail_on_prediction_errors ;;
        let '(result, partial) := r in Ok (merge_store store result, partial, actions)
      else Ok (store, update partial ev, actions)
  | _ => Ok (store, update partial ev, actions)
  end.

(** [_predict_tracker_actions]: the first event seeds the partial tracker,
    the others are replayed. *)
Definition predict_tracker_actions (tr : Tracker) (fail_on_prediction_errors use_e2e : bool)
    : res (EvaluationStore * Tracker * list ActionRecord) :=
  let partial := from_events (sender_id tr) (take 1 (events tr)) (slots d) in
  fold_res (replay_step fail_on_prediction_errors use_e2e) (drop 1 (events tr))
    (empty_store, partial, []).

(** The result of [collect_story_predictions] before the metrics. *)
(** The [StoryEvalution] named tuple. *)
Record StoryEvaluation := mkStoryEvaluation {
  evaluation_store : EvaluationStore;
  failed_stories : list Tracker;
  action_list : list ActionRecord;
  in_training_data_fraction_value : Q
}.

(** The body of the loop over the stories in [collect_story_predictions];
    the accumulator is [story_eval_store], [failed], [correct_dialogues]
    and [action_list]. *)
Definition story_step (fail_on_prediction_errors use_e2e : bool)
    (acc : EvaluationStore * list Tracker * list nat * list ActionRecord) (tr : Tracker)
    : res (EvaluationStore * list Tracker * list nat * list ActionRecord) :=
  let '(store, failed, correct, actions) := acc in
  r <- predict_tracker_actions tr fail_on_prediction_errors use_e2e ;;
  let '(tracker_results, predicted_tracker, tracker_actions) := r in
  if has_prediction_target_mismatch tracker_results
  then Ok (merge_store store tracker_results, failed ++ [predicted_tracker],
           correct ++ [0], actions ++ tracker_actions)
  else Ok (merge_store store tracker_results, failed, correct ++ [1],
           actions ++ tracker_actions).

(** The loop of [collect_story_predictions] over the completed trackers. *)
Definition story_loop (completed_trackers : list Tracker) (fail_on_prediction_errors use_e2e : bool)
    : res (EvaluationStore * list Tracker * list nat * list ActionRecord) :=
  fold_res (story_step fail_on_prediction_errors use_e2e) completed_trackers
    (empty_store, [], [], []).

(** [collect_story_predictions].  The metrics [get_evaluation_metrics]
    computes from [correct_dialogues] (line 441) are only passed to
    [log_evaluation_table], which logs them: they do not reach the
    result, so the call and [correct_dialogues] are left out here. *)
Definition collect_story_predictions (completed_trackers : list Tracker)
    (fail_on_prediction_errors use_e2e : bool) : res (StoryEvaluation * nat) :=
  acc <- story_loop completed_trackers fail_on_prediction_errors use_e2e ;;
  let '(store, failed, _, actions) := acc in
  frac <- in_training_data_fraction actions ;;
  Ok (mkStoryEvaluation store failed actions frac, length completed_trackers).

End Replay.

(** ** The store *)

Lemma merge_store_fields st o :
  merge_store st o =
  mkStore (action_predictions st ++ action_predictions o) (action_targets st ++ action_targets o)
          (intent_predictions st ++ intent_predictions o) (intent_targets st ++ intent_targets o)
          (entity_predictions st ++ entity_predictions o) (entity_targets st ++ entity_targets o).
Proof. done. Qed.

Lemma has_prediction_target_mismatch_false st :
  has_prediction_target_mismatch st = false <->
  intent_predictions st = intent_targets st /\ entity_predictions st = entity_targets st /\
  action_predictions st = action_targets st.
Proof.
  unfold has_prediction_target_mismatch.
  rewrite !orb_false_iff, !bool_decide_eq_false. split.
  - intros [[H1 H2] H3]. split_and!; by apply dec_stable.
  - intros (H1 & H2 & H3). split_and!; by intros [].
Qed.

(** Merging two stores without a mismatch gives a store without one. *)
Lemma merge_store_no_mismatch st o :
  has_prediction_target_mismatch st = false -> has_prediction_target_mismatch o = false ->
  has_prediction_target_mismatch (merge_store st o) = false.
Proof.
  rewrite merge_store_fields, !has_prediction_target_mismatch_false. simpl.
  intros (-> & -> & ->) (-> & -> & ->). done.
Qed.

Lemma pad_lists_to_size_spec {A} (xs ys : list A) pad :
  let '(xs', ys') := pad_lists_to_size xs ys pad in
  length xs' = length ys' /\
  exists k1 k2, xs' = xs ++ replicate k1 pad /\ ys' = ys ++ replicate k2 pad /\ (k1 = 0 \/ k2 = 0).
Proof.
  unfold pad_lists_to_size. case_decide.
  - split; [rewrite length_app, length_replicate; lia|].
    exists 0, (length xs - length ys). rewrite app_nil_r. auto.
  - split; [rewrite length_app, length_replicate; lia|].
    exists (length ys - length xs), 0. rewrite app_nil_r. auto.
Qed.

(** [serialise] returns lists of equal length: the concatenated targets and
    predictions, the shorter padded with ["None"] and nothing else changed. *)
Theorem serialise_padded md st :
  let '(targets, predictions) := serialise md st in
  length targets = length predictions /\
  exists k1 k2,
    targets = map Some (action_targets st) ++ intent_targets st ++
              map (fun e => Some (md e)) (entity_targets st) ++ replicate k1 (Some "None") /\
    predictions = map Some (action_predictions st) ++ intent_predictions st ++
              map (fun e => Some (md e)) (entity_predictions st) ++ replicate k2 (Some "None") /\
    (k1 = 0 \/ k2 = 0).
Proof.
  unfold serialise.
  pose proof (pad_lists_to_size_spec
    (map Some (action_targets st) ++ intent_targets st ++ map (fun e => Some (md e)) (entity_targets st))
    (map Some (action_predictions st) ++ intent_predictions st ++
       map (fun e => Some (md e)) (entity_predictions st)) (Some "None")) as H.
  destruct (pad_lists_to_size _ _ _) as [t p]. destruct H as (Hlen & k1 & k2 & -> & -> & Hk).
  split; [done|]. exists k1, k2. rewrite <- !app_assoc. auto.
Qed.

(** ** The fraction of actions predicted from the training data *)

(** The share of memoized actions that [_in_training_data_fraction]
    returns is a fraction between 0 and 1. *)
Theorem in_training_data_fraction_bounds action_list q :
  in_training_data_fraction action_list = Ok q -> (0 <= q <= 1)%Q.
Proof.
  unfold in_training_data_fraction. destruct (length action_list) as [|n] eqn:Hn; [discriminate|].
  intros [= <-].
  pose proof (length_filter (fun a => match ar_policy a with
                     | Some p => str_truthy p && negb (is_not_memo_policy p)
                     | None => false
                     end = true) action_list) as Hf.
  rewrite Hn in Hf. set (k := length (filter _ _)) in *.
  assert (Hk : (0 <= inject_Z (Z.of_nat k))%Q /\ (inject_Z (Z.of_nat k) <= inject_Z (Z.of_nat (S n)))%Q).
  { change 0%Q with (inject_Z 0). rewrite <- !Zle_Qle. lia. }
  assert (Hpos : (0 < inject_Z (Z.of_nat (S n)))%Q)
    by (change 0%Q with (inject_Z 0); rewrite <- Zlt_Qlt; lia).
  destruct Hk as [Hk0 Hk1]. split.
  - apply Qle_shift_div_l; [done|]. rewrite Qmult_0_l. exact Hk0.
  - apply Qle_shift_div_r; [done|]. rewrite Qmult_1_l. exact Hk1.
Qed.

(** ** Replaying a story *)

Section ReplayFacts.
Variable state_is_unhappy : Tracker -> Domain -> bool.
Variable policies : list Policy.
Variable d : Domain.

Lemma collect_action_store st_unh_tr ev gold fail st pol conf tr' :
  collect_action_executed_predictions state_is_unhappy policies d st_unh_tr ev gold fail =
    Ok (st, pol, conf, tr') ->
  exists pred, st = add_to_store empty_store (PItem pred) (PItem gold) PNone PNone PNone PNone /\
    (fail = true -> has_prediction_target_mismatch st = false).
Proof.
  unfold collect_action_executed_predictions. intros H. inv_bind H. inv_bind H.
  destruct a0 as [[[pred pol'] c] trx].
  destruct (has_prediction_target_mismatch _) eqn:Hm.
  - destruct fail; [by destruct pol'|]. injection H as <- <- <- <-. exists pred. split; [done|discriminate].
  - injection H as <- <- <- <-. eauto.
Qed.

Lemma collect_user_uttered_store m tr fail st tr' :
  collect_user_uttered_predictions m tr fail = Ok (st, tr') ->
  action_predictions st = [] /\ action_targets st = [] /\
  (fail = true -> has_prediction_target_mismatch st = false).
Proof.
  unfold collect_user_uttered_predictions. intros H. inv_bind H.
  assert (Ha : action_predictions a = [] /\ action_targets a = []).
  { destruct (_ || _); [destruct (true_entities m); [|discriminate]|]; injection Hc as <-; done. }
  destruct (has_prediction_target_mismatch a) eqn:Hm.
  - destruct (intent_targets a); [discriminate|]. destruct fail; [discriminate|].
    injection H as <- <-. split_and!; [apply Ha|apply Ha|discriminate].
  - injection H as <- <-. split_and!; [apply Ha|apply Ha|done].
Qed.

(** A replayed action event records one prediction: the gold action and
    the predicted one, both non-empty. *)
Lemma replay_step_action fail use_e2e store partial acts ev gold acc' :
  replay_step state_is_unhappy policies d fail use_e2e (store, partial, acts) ev = Ok acc' ->
  match ev with ActionExecuted g _ _ | WronglyPredictedAction g _ => g = gold | _ => False end ->
  exists pred pol conf p,
    let res := add_to_store empty_store (PItem pred) (PItem gold) PNone PNone PNone PNone in
    (fail = true -> has_prediction_target_mismatch res = false) /\
    str_truthy gold = true /\ str_truthy pred = true /\
    acc' = (merge_store store res, p, acts ++ [mkRecord gold pred pol conf]).
Proof.
  intros Hstep Hev.
  assert (Hc : exists r, collect_action_executed_predictions state_is_unhappy policies d partial ev gold fail = Ok r /\
    match action_targets r.1.1.1, action_predictions r.1.1.1 with
    | t :: _, p :: _ => Ok (merge_store store r.1.1.1, r.2, acts ++ [mkRecord t p r.1.1.2 r.1.2])
    | _, _ => Raise (IndexError 0)
    end = Ok acc').
  { destruct ev; try contradiction; subst gold; simpl in Hstep; inv_bind Hstep;
      exists a; destruct a as [[[??]?]?]; done. }
  destruct Hc as ([[[res pol] conf] p] & Hc & Hm).
  destruct (collect_action_store _ _ _ _ _ _ _ _ Hc) as (pred & -> & Hno). cbn in Hm.
  exists pred, pol, conf, p.
  destruct (str_truthy gold) eqn:Hg, (str_truthy pred) eqn:Hp; cbn in Hm; try discriminate.
  injection Hm as <-. lazy zeta. split_and!; [exact Hno|done..].
Qed.

(** In fail-fast mode a replay that returns has recorded no wrong
    prediction: every mismatch raised. *)
Theorem fail_fast_no_mismatch tr use_e2e st tr' actions :
  predict_tracker_actions state_is_unhappy policies d tr true use_e2e = Ok (st, tr', actions) ->
  has_prediction_target_mismatch st = false.
Proof.
  unfold predict_tracker_actions.
  apply (fold_res_invariant (fun '(store, _, _) => has_prediction_target_mismatch store = false)
           _ _ (empty_store, _, [])); [done|].
  intros [[store partial] acts] ev [[store' partial'] acts'] _ Hinv Hstep.
  destruct ev as [m|name ??|name ?| | | |];
    try (simpl in Hstep; injection Hstep as <- <- <-; exact Hinv).
  1: { simpl in Hstep. destruct use_e2e; [|injection Hstep as <- <- <-; exact Hinv].
    inv_bind Hstep. destruct a as [res p]. injection Hstep as <- <- <-.
    apply merge_store_no_mismatch; [done|]. by apply (collect_user_uttered_store m partial true res p). }
  all: destruct (replay_step_action _ _ _ _ _ _ _ _ Hstep eq_refl)
    as (pred & pol & conf & p & Hno & _ & _ & Hacc).
  all: injection Hacc as -> -> ->; apply merge_store_no_mismatch; [done|by apply Hno].
Qed.


(** C14: The [actions] report of a story lists, in order, exactly the gold and
    predicted actions the store holds. *)
Theorem replay_action_records tr fail use_e2e st tr' actions :
  predict_tracker_actions state_is_unhappy policies d tr fail use_e2e = Ok (st, tr', actions) ->
  action_targets st = map ar_action actions /\ action_predictions st = map ar_predicted actions.
Proof.
  unfold predict_tracker_actions.
  apply (fold_res_invariant (fun '(store, _, acts) =>
           action_targets store = map ar_action acts /\
           action_predictions store = map ar_predicted acts) _ _ (empty_store, _, [])); [done|].
  intros [[store partial] acts] ev [[store' partial'] acts'] _ [Ht Hp] Hstep.
  destruct ev as [m|name ??|name ?| | | |];
    try (simpl in Hstep; injection Hstep as <- <- <-; split; assumption).
  1: { simpl in Hstep. destruct use_e2e; [|injection Hstep as <- <- <-; split; assumption].
    inv_bind Hstep. destruct a as [res p]. injection Hstep as <- <- <-.
    destruct (collect_user_uttered_store _ _ _ _ _ Hc) as (Hap & Hat & _).
    rewrite merge_store_fields. simpl. rewrite Hap, Hat, !app_nil_r. done. }
  all: destruct (replay_step_action _ _ _ _ _ _ _ _ Hstep eq_refl)
    as (pred & pol & conf & p & _ & Hg & Hpr & Hacc).
  all: injection Hacc as -> -> ->; rewrite merge_store_fields; cbn; rewrite Hg, Hpr.
  all: rewrite !map_app, Ht, Hp; split; reflexivity.
Qed.
Lemma story_step_Ok fail use_e2e store failed correct actions tr acc' :
  story_step state_is_unhappy policies d fail use_e2e (store, failed, correct, actions) tr = Ok acc' ->
  exists res ptr acts,
    predict_tracker_actions state_is_unhappy policies d tr fail use_e2e = Ok (res, ptr, acts) /\
    acc' = (merge_store store res,
            if has_prediction_target_mismatch res then failed ++ [ptr] else failed,
            correct ++ [if has_prediction_target_mismatch res then 0 else 1],
            actions ++ acts).
Proof.
  simpl. intros H. inv_bind H. destruct a as [[res ptr] acts].
  exists res, ptr, acts. split; [done|].
  by destruct (has_prediction_target_mismatch res); injection H as <-.
Qed.

Lemma story_loop_length trs fail use_e2e store failed correct actions :
  story_loop state_is_unhappy policies d trs fail use_e2e = Ok (store, failed, correct, actions) ->
  length correct = length trs.
Proof.
  intros H. apply (fold_res_measure (fun '(_, _, c, _) => length c)) in H; [done|].
  intros [[[s f] c] l] x a' Hs. apply story_step_Ok in Hs as (? & ? & ? & _ & ->).
  rewrite length_app. simpl. lia.
Qed.

(** C15: Counting the stories: the loop of [collect_story_predictions] records
    one entry of [correct_dialogues] per story, and lists as failed
    exactly as many stories as there are 0 entries. *)
Theorem story_counts trs fail use_e2e store failed correct actions :
  story_loop state_is_unhappy policies d trs fail use_e2e = Ok (store, failed, correct, actions) ->
  length correct = length trs /\ length failed = length (filter (fun c => c = 0) correct).
Proof.
  intros H. split; [by eapply story_loop_length|].
  apply (fold_res_invariant (fun '(_, f, c, _) => length f = length (filter (fun c => c = 0) c)))
    in H; [done|done|].
  intros [[[s f] c] l] x a' _ Hinv Hs. apply story_step_Ok in Hs as (res & ? & ? & _ & ->).
  destruct (has_prediction_target_mismatch res); rewrite filter_app, !length_app, Hinv; simpl; lia.
Qed.

(** In fail-fast mode a corpus that is evaluated to the end has no failed
    story and every story counts as correct. *)
Theorem fail_fast_all_correct trs use_e2e store failed correct actions :
  story_loop state_is_unhappy policies d trs true use_e2e = Ok (store, failed, correct, actions) ->
  failed = [] /\ correct = replicate (length trs) 1.
Proof.
  intros H. rewrite <- (story_loop_length _ _ _ _ _ _ _ H).
  apply (fold_res_invariant (fun '(_, f, c, _) => f = [] /\ c = replicate (length c) 1)) in H;
    [done|done|].
  intros [[[s f] c] l] x a' _ [-> Hc1] Hs. apply story_step_Ok in Hs as (res & ? & ? & Hp & ->).
  rewrite (fail_fast_no_mismatch _ _ _ _ _ Hp). rewrite length_app, replicate_add, <- Hc1. done.
Qed.

Lemma replay_without_actions fail store partial acts evs :
  Forall (fun ev => is_action_event ev = false) evs ->
  exists p, fold_res (replay_step state_is_unhappy policies d fail false) evs (store, partial, acts) =
    Ok (store, p, acts).
Proof.
  induction 1 as [|ev evs Hev _ IH] in partial |- *; [by eexists|].
  destruct ev; try discriminate; apply IH.
Qed.

(** C16: A corpus whose stories hold no action event after their first event
    (the empty corpus among them) makes [collect_story_predictions]
    raise [ZeroDivisionError] in [_in_training_data_fraction] when the
    stories are not evaluated end to end. *)
Theorem collect_story_predictions_no_actions trs fail :
  Forall (fun tr => Forall (fun ev => is_action_event ev = false) (drop 1 (events tr))) trs ->
  collect_story_predictions state_is_unhappy policies d trs fail false = Raise ZeroDivisionError.
Proof.
  intros Htrs. unfold collect_story_predictions, story_loop.
  enough (H : forall store failed correct, exists store' failed' correct',
    fold_res (story_step state_is_unhappy policies d fail false) trs (store, failed, correct, []) =
      Ok (store', failed', correct', [])).
  { destruct (H empty_store [] []) as (? & ? & ? & ->). done. }
  induction Htrs as [|tr trs Htr _ IH]; intros store failed correct; [by eexists _, _, _|].
  simpl. destruct (replay_without_actions fail empty_store
    (from_events (sender_id tr) (take 1 (events tr)) (slots d)) [] _ Htr) as [p Hp].
  unfold predict_tracker_actions. rewrite Hp. simpl.
  destruct (has_prediction_target_mismatch empty_store); apply IH.
Qed.
End ReplayFacts.

(** ** The corpus *)


(** ** A story of the example domain *)

(** The user asks for a table; the ensemble of [ex_policies] answers with
    the fallback action, which is also the gold action of the story. *)
Definition ex_story : Tracker :=
  from_events "story"
    [ActionExecuted ACTION_LISTEN_NAME None None; UserUttered ex_message;
     ActionExecuted ACTION_DEFAULT_FALLBACK_NAME None None] (slots ex_domain).

Definition ex_replay (fail : bool) :=
  predict_tracker_actions (fun _ _ => false) ex_policies ex_domain ex_story fail false.

Definition ex_greeting : Tracker :=
  from_events "greeting" [ActionExecuted ACTION_LISTEN_NAME None None; UserUttered ex_message]
    (slots ex_domain).

(** The same story with the search action as the gold action: the
    ensemble's answer is wrong. *)
Definition ex_wrong_story : Tracker :=
  from_events "wrong"
    [ActionExecuted ACTION_LISTEN_NAME None None; UserUttered ex_message;
     ActionExecuted "action_search" None None] (slots ex_domain).

Definition ex_corpus (trs : list Tracker) (fail : bool) :=
  story_loop (fun _ _ => false) ex_policies ex_domain trs fail false.

Lemma story_counts_witness :
  exists r, ex_corpus [ex_story; ex_greeting; ex_wrong_story] false = Ok r /\
    r.1.2 = [1; 1; 0] /\ length r.1.1.2 = 1 /\
    length r.1.2 = 3 /\ length r.1.1.2 = length (filter (fun c => c = 0) r.1.2).
Proof.
  destruct (ex_corpus [ex_story; ex_greeting; ex_wrong_story] false) as [[[[st f] c] acts]|e] eqn:H; [|vm_compute in H; discriminate].
  exists (st, f, c, acts). destruct (story_counts _ _ _ _ _ _ _ _ _ _ H) as [Hc Hf].
  vm_compute in H. injection H as _ Hf' Hc' _. subst f c.
  split_and!; [reflexivity|reflexivity|reflexivity|exact Hc|exact Hf].
Defined.

Lemma fail_fast_all_correct_witness :
  exists r, ex_corpus [ex_story; ex_greeting; ex_story] true = Ok r /\
    r.1.1.2 = [] /\ r.1.2 = [1; 1; 1].
Proof.
  destruct (ex_corpus [ex_story; ex_greeting; ex_story] true) as [[[[st f] c] acts]|e] eqn:H; [|vm_compute in H; discriminate].
  exists (st, f, c, acts). destruct (fail_fast_all_correct _ _ _ _ _ _ _ _ _ H) as [Hf Hc].
  split_and!; [reflexivity|exact Hf|exact Hc].
Defined.

Lemma replay_action_records_witness :
  exists r, ex_replay false = Ok r /\
    action_targets r.1.1 = [ACTION_DEFAULT_FALLBACK_NAME] /\
    action_targets r.1.1 = map ar_action r.2 /\ action_predictions r.1.1 = map ar_predicted r.2.
Proof.
  destruct (ex_replay false) as [[[st tr'] acts]|e] eqn:H; [|vm_compute in H; discriminate].
  exists (st, tr', acts). split_and!; [reflexivity| |
    exact (proj1 (replay_action_records _ _ _ _ _ _ _ _ _ H))|
    exact (proj2 (replay_action_records _ _ _ _ _ _ _ _ _ H))].
  vm_compute in H. injection H as <- _ _. reflexivity.
Defined.

Lemma in_training_data_fraction_bounds_witness :
  in_training_data_fraction
    [mkRecord "action_listen" "action_listen" (Some "policy_0_MemoizationPolicy") 1;
     mkRecord "utter_greet" "action_listen" (Some "policy_1_KerasPolicy") (1 # 2)] = Ok (Qmake 1 2) /\
  (0 <= Qmake 1 2 <= 1)%Q.
Proof.
  assert (H : in_training_data_fraction
    [mkRecord "action_listen" "action_listen" (Some "policy_0_MemoizationPolicy") 1;
     mkRecord "utter_greet" "action_listen" (Some "policy_1_KerasPolicy") (1 # 2)] = Ok (Qmake 1 2))
    by (vm_compute; reflexivity).
  split; [exact H|exact (in_training_data_fraction_bounds _ _ H)].
Defined.

Lemma collect_story_predictions_no_actions_witness :
  Forall (fun tr => Forall (fun ev => is_action_event ev = false) (drop 1 (events tr))) [ex_greeting] /\
  collect_story_predictions (fun _ _ => false) ex_policies ex_domain [ex_greeting] true false =
    Raise ZeroDivisionError.
Proof.
  assert (H : Forall (fun tr => Forall (fun ev => is_action_event ev = false) (drop 1 (events tr)))
                [ex_greeting]) by repeat constructor.
  split; [exact H|exact (collect_story_predictions_no_actions _ _ _ _ _ H)].
Defined.

End Evaluation.
