(* ===== verification/EvaluationReport.v ===== *)
(** * The evaluation report ([src/rasa/core/test.py]: [test],
      [log_failed_stories])

    [EvaluationReport] composes the replay of a corpus with what [test]
    does after it: the evaluation store is serialised into targets and
    predictions of equal length for [get_evaluation_metrics], the failed
    stories are written to [failed_stories.md] in the output directory,
    and the report dict of the specification is returned ([TestResult]).
    The metrics (sklearn), [export_stories] and the story reader
    [_generate_trackers] live outside [src/]: the first two are section
    variables, and [test] starts from the completed trackers.  The
    plots [plot_story_evaluation] draws are not modelled. *)

From Stdlib Require Import Ascii.
From S2P Require Import Prelude Tracker Domain DomainMerge DomainFiles Policy Ensemble Evaluation.
Import Slots Tracker Domain DomainFiles Policy Ensemble Evaluation.

Module EvaluationReport.

(** The text files of the output directory, by path. *)
Notation Files := (gmap string string).

Definition ALL_STORIES_PASSED : string := "<!-- All stories passed -->".

(** [f.write("\n\n")]. *)
Definition blank_line : string := String "010" (String "010" EmptyString).

Section Report.
Context {Report : Type}.
Variable state_is_unhappy : Tracker -> Domain -> bool.
Variable policies : list Policy.
Variable d : Domain.
(** [MarkdownWriter.generate_entity_md], used by [serialise]. *)
Variable generate_entity_md : CleanEntity -> string.
(** [rasa.nlu.test.get_evaluation_metrics(targets, predictions)]: the
    report, precision, f1 and accuracy. *)
Variable get_evaluation_metrics : list (option string) -> list (option string) -> Report * Q * Q * Q.
(** [DialogueStateTracker.export_stories()]. *)
Variable export_stories : Tracker -> string.

(** The dict [test] returns. *)
Record TestResult := mkTestResult {
  tr_report : Report;
  tr_precision : Q;
  tr_f1 : Q;
  tr_accuracy : Q;
  tr_actions : list ActionRecord;
  tr_in_training_data_fraction : Q;
  tr_is_end_to_end_evaluation : bool
}.

(** [log_failed_stories]: nothing without an output directory. *)
Definition log_failed_stories (failed : list Tracker) (out_directory : option string) (files : Files) : Files :=
  match out_directory with
  | None | Some "" => files
  | Some dir =>
      <[os_path_join dir "failed_stories.md" :=
          match failed with
          | [] => ALL_STORIES_PASSED
          | _ => foldr (fun f acc => export_stories f +:+ blank_line +:+ acc) "" failed
          end]> files
  end.

(** [test] on the completed trackers [_generate_trackers] returned. *)
Definition test (completed_trackers : list Tracker) (out_directory : option string)
    (fail_on_prediction_errors e2e : bool) (files : Files) : res (TestResult * Files) :=
  r <- collect_story_predictions state_is_unhappy policies d completed_trackers fail_on_prediction_errors e2e ;;
  let story_evaluation := r.1 in
  let '(targets, predictions) := serialise generate_entity_md (evaluation_store story_evaluation) in
  let '(report, precision, f1, accuracy) := get_evaluation_metrics targets predictions in
  let files := log_failed_stories (failed_stories story_evaluation) out_directory files in
  Ok (mkTestResult report precision f1 accuracy (action_list story_evaluation)
        (in_training_data_fraction_value story_evaluation) e2e, files).

(** ** Facts *)

(** [failed_stories.md] says that all stories passed exactly when none
    failed; nothing is written without an output directory. *)
Lemma log_failed_stories_spec failed out_directory files path :
  log_failed_stories failed out_directory files !! path =
  match out_directory with
  | Some dir =>
      if decide (dir <> "" /\ path = os_path_join dir "failed_stories.md") then
        Some (match failed with
              | [] => ALL_STORIES_PASSED
              | _ => foldr (fun f acc => export_stories f +:+ blank_line +:+ acc) "" failed
              end)
      else files !! path
  | None => files !! path
  end.
Proof.
  unfold log_failed_stories. destruct out_directory as [dir|]; [|done].
  destruct (decide (dir = "")) as [->|Hne].
  - rewrite decide_False; [done|]. by intros [? _].
  - assert (Hmatch : forall {A} (x y : A), match dir with "" => x | _ => y end = y)
      by (intros ? x y; destruct dir; [done|reflexivity]).
    rewrite Hmatch. destruct (decide (path = os_path_join dir "failed_stories.md")) as [->|Hp].
    + rewrite decide_True by done. by rewrite lookup_insert_eq.
    + rewrite decide_False by (intros [_ Heq]; contradiction). by rewrite lookup_insert_ne.
Qed.

Lemma collect_story_predictions_Ok trs fail e2e se n :
  collect_story_predictions state_is_unhappy policies d trs fail e2e = Ok (se, n) ->
  exists store correct,
    story_loop state_is_unhappy policies d trs fail e2e = Ok (store, failed_stories se, correct, action_list se) /\
    evaluation_store se = store /\ n = length trs.
Proof.
  unfold collect_story_predictions. intros H. inv_bind H.
  destruct a as [[[store failed] correct] actions]. inv_bind H. injection H as <- <-.
  by exists store, correct.
Qed.

(** C17: [test] returns the report the specification describes: the
    metrics of the serialised store, whose targets and predictions have
    the same length; the action records and the in-training-data fraction
    of [collect_story_predictions]; and the [e2e] flag.  In fail-fast
    mode, [failed_stories.md] in the output directory says that all
    stories passed. *)
Theorem test_report trs out_directory fail e2e files r files' :
  test trs out_directory fail e2e files = Ok (r, files') ->
  (exists targets predictions, length targets = length predictions /\
     get_evaluation_metrics targets predictions = (tr_report r, tr_precision r, tr_f1 r, tr_accuracy r)) /\
  (exists se, collect_story_predictions state_is_unhappy policies d trs fail e2e = Ok (se, length trs) /\
     tr_actions r = action_list se /\ tr_in_training_data_fraction r = in_training_data_fraction_value se) /\
  tr_is_end_to_end_evaluation r = e2e /\
  (fail = true -> forall dir, out_directory = Some dir -> dir <> "" ->
     files' !! os_path_join dir "failed_stories.md" = Some ALL_STORIES_PASSED).
Proof.
  unfold test. intros H. inv_bind H. destruct a as [se n].
  destruct (collect_story_predictions_Ok _ _ _ _ _ Hc) as (store & correct & Hloop & <- & ->).
  cbn [fst] in H. pose proof (serialise_padded generate_entity_md (evaluation_store se)) as Hpad.
  destruct (serialise generate_entity_md (evaluation_store se)) as [targets predictions].
  destruct (get_evaluation_metrics targets predictions) as [[[report precision] f1] accuracy] eqn:Em.
  injection H as <- <-. split_and!; simpl.
  - exists targets, predictions. split; [apply Hpad|done].
  - by exists se.
  - done.
  - intros -> dir -> Hdir. rewrite log_failed_stories_spec, decide_True by done.
    by rewrite (proj1 (fail_fast_all_correct _ _ _ _ _ _ _ _ _ Hloop)).
Qed.

End Report.

(** ** The example corpus of [Evaluation], in fail-fast mode *)

(** A metrics function that reports the number of samples it was given. *)
Definition ex_metrics (targets predictions : list (option string)) : nat * Q * Q * Q :=
  (length targets, 1%Q, 1%Q, 1%Q).

Definition ex_test : res (TestResult (Report := nat) * Files) :=
  test (fun _ _ => false) ex_policies ex_domain (fun _ => "entity") ex_metrics (fun _ => "story")
    [ex_story; ex_greeting] (Some "results") true false ∅.

Lemma test_report_witness :
  exists r files', ex_test = Ok (r, files') /\
    files' !! "results/failed_stories.md" = Some ALL_STORIES_PASSED /\ tr_is_end_to_end_evaluation r = false.
Proof.
  destruct ex_test as [[r files']|e] eqn:H; [|vm_compute in H; discriminate].
  exists r, files'. split; [done|].
  unfold ex_test in H. destruct (test_report _ _ _ _ _ _ _ _ _ _ _ _ _ H) as (_ & _ & He2e & Hfail).
  split; [|exact He2e]. exact (Hfail eq_refl "results" eq_refl ltac:(discriminate)).
Defined.

End EvaluationReport.
