(* ===== verification/EnsembleIO.v ===== *)
(** * The ensemble's life cycle ([src/rasa/core/policies/ensemble.py], class [PolicyEnsemble])

    [EnsembleIO] models what [PolicyEnsemble] does besides prediction:
    - the constructor with its two warnings ([_check_priorities],
      [_check_for_important_policies]);
    - training and continued training;
    - the action fingerprints computed from the training trackers
      ([_training_events_from_trackers], [_create_action_fingerprints]);
    - persistence of the metadata document and of one artifact per policy
      ([persist], [_persist_metadata]), and [load] with
      [ensure_model_compatibility] and [_ensure_loaded_policy];
    - parsing of a policy configuration ([from_dict],
      [get_featurizer_from_dict], [get_state_featurizer_from_dict]).
    The file system is a finite map from paths to artifacts, and the
    metadata document is a record.  The registry of policy and featurizer
    classes, the constructors, the policies' own training and the
    installed package versions are section variables. *)

From S2P Require Import Prelude Tracker Domain Policy Ensemble.
Import Slots Tracker Domain Policy Ensemble.

Module EnsembleIO.

(** ** Construction *)

(** The warnings the constructor logs. *)
Inductive Warning :=
| DuplicatePriority (priority : Z) (policy_names : list string)
| MappingPolicyMissing.

(** [d[k].append(v)] on a [defaultdict(list)], keeping the dict's
    insertion order. *)
Fixpoint group_append {K V} `{EqDecision K} (k : K) (v : V) (l : list (K * list V))
    : list (K * list V) :=
  match l with
  | [] => [(k, [v])]
  | (k', vs) :: l' => if decide (k = k') then (k', vs ++ [v]) :: l' else (k', vs) :: group_append k v l'
  end.

(** The [priority_dict] of [_check_priorities]. *)
Definition priority_dict (policies : list Policy) : list (Z * list string) :=
  fold_left (fun acc p => group_append (priority p) (class_name (policy_class p)) acc) policies [].

(** [_check_priorities]: one warning per priority shared by several policies. *)
Definition check_priorities (policies : list Policy) : list Warning :=
  map (fun '(k, v) => DuplicatePriority k v)
    (filter (fun kv => 1 < length kv.2) (priority_dict policies)).

(** [_check_for_important_policies]. *)
Definition check_for_important_policies (policies : list Policy) : list Warning :=
  if existsb (fun p => is_mapping_class (policy_class p)) policies then [] else [MappingPolicyMissing].

(** The fingerprint table: [{action_name: {"slots": [...]}}]; the slot list
    is built from a set, so its order carries no meaning. *)
Definition Fingerprints := gmap (option string) (gset string).

Record PolicyEnsemble := mkEnsemble {
  policies : list Policy;
  action_fingerprints : Fingerprints;
  training_trackers : option (list Tracker);
  date_trained : option string
}.

(** [PolicyEnsemble.__init__]: the ensemble and the warnings it logs. *)
Definition ensemble_init (ps : list Policy) (fingerprints : option Fingerprints)
    : PolicyEnsemble * list Warning :=
  let fps := match fingerprints with Some f => if decide (f = ∅) then ∅ else f | None => ∅ end in
  (mkEnsemble ps fps None None, check_priorities ps ++ check_for_important_policies ps).

(** ** Training *)

Section Training.
(** [policy.train(training_trackers, domain, **kwargs)] and
    [p.continue_training(...)]: the policies' own training. *)
Variable policy_train : Policy -> list Tracker -> Domain -> Policy.
Variable policy_continue_training : Policy -> list Tracker -> Domain -> Policy.
(** [datetime.now().strftime("%Y%m%d-%H%M%S")]. *)
Variable now : string.

(** [PolicyEnsemble.train]. *)
Definition train (ens : PolicyEnsemble) (trs : list Tracker) (d : Domain) : PolicyEnsemble :=
  let ps := if trs is [] then policies ens else map (fun p => policy_train p trs d) (policies ens) in
  mkEnsemble ps (action_fingerprints ens) (Some trs) (Some now).

(** [PolicyEnsemble.continue_training]: [self.training_trackers.extend]
    on [None] raises [AttributeError]. *)
Definition continue_training (ens : PolicyEnsemble) (trs : list Tracker) (d : Domain)
    : res PolicyEnsemble :=
  match training_trackers ens with
  | None => Raise (AttributeError "'NoneType' object has no attribute 'extend'")
  | Some old =>
      let all := old ++ trs in
      Ok (mkEnsemble (map (fun p => policy_continue_training p all d) (policies ens))
            (action_fingerprints ens) (Some all) (date_trained ens))
  end.
End Training.

(** ** Action fingerprints *)

(** [events_metadata[action_name].add(event)]: the set is kept as the list
    of its insertions; its one consumer reads it through a set
    comprehension, which forgets order and repetitions. *)
Definition add_event (m : gmap (option string) (list Event)) (k : option string) (e : Event)
    : gmap (option string) (list Event) :=
  <[k := default [] (m !! k) ++ [e]]> m.

(** The body of the inner loop of [_training_events_from_trackers]. *)
Definition training_events_step (acc : Tracker * gmap (option string) (list Event)) (e : Event)
    : Tracker * gmap (option string) (list Event) :=
  let '(tracker, m) := acc in
  let tracker := update tracker e in
  match e with
  | ActionExecuted _ _ _ | WronglyPredictedAction _ _ => (tracker, m)
  | _ => (tracker, add_event m (tracker_latest_action_name tracker) e)
  end.

(** The inner loop over one tracker, from its [init_copy()]. *)
Definition tracker_training_events (m : gmap (option string) (list Event)) (t : Tracker)
    : gmap (option string) (list Event) :=
  (fold_left training_events_step (events t) (from_events (sender_id t) [] (tracker_slots t), m)).2.

(** [_training_events_from_trackers]. *)
Definition training_events_from_trackers (trs : list Tracker) : gmap (option string) (list Event) :=
  fold_left tracker_training_events trs ∅.

(** The slot keys among a list of events. *)
Definition slot_keys (vs : list Event) : gset string :=
  list_to_set (omap (fun e => if e is SlotSet k _ then Some k else None) vs).

(** [_create_action_fingerprints]. *)
Definition create_action_fingerprints (training_events : gmap (option string) (list Event))
    : option Fingerprints :=
  if decide (training_events = ∅) then None else Some (slot_keys <$> training_events).

(** [_max_histories]: a policy has a [max_history] exactly when its
    featurizer is a [MaxHistoryTrackerFeaturizer]. *)
Definition max_histories (ens : PolicyEnsemble) : list (option nat) := map max_history (policies ens).

(** ** The priority check *)

(** The entry of a key in a [defaultdict(list)]. *)
Fixpoint group_lookup {K V} `{EqDecision K} (k : K) (l : list (K * list V)) : option (list V) :=
  match l with
  | [] => None
  | (k', vs) :: l' => if decide (k = k') then Some vs else group_lookup k l'
  end.

(** The class names of the policies of priority [k], in order. *)
Definition names_with (k : Z) (ps : list Policy) : list string :=
  map (fun p => class_name (policy_class p)) (filter (fun p => priority p = k) ps).

Section Groups.
Context {K V : Type} `{EqDecision K}.
Implicit Types (k : K) (l : list (K * list V)).

Lemma group_lookup_append k0 x l k :
  group_lookup k (group_append k0 x l) =
  if decide (k = k0) then Some (default [] (group_lookup k l) ++ [x]) else group_lookup k l.
Proof.
  induction l as [|[k' vs] l IH]; simpl; [by repeat case_decide|].
  repeat (case_decide; simplify_eq/=); rewrite ?IH; repeat case_decide; congruence.
Qed.

Lemma group_append_keys k0 x l :
  map fst (group_append k0 x l) = if decide (k0 ∈ map fst l) then map fst l else map fst l ++ [k0].
Proof.
  induction l as [|[k' vs] l IH]; simpl; [done|].
  destruct (decide (k0 = k')) as [->|Hne]; simpl.
  - by rewrite decide_True by set_solver.
  - rewrite IH. destruct (decide (k0 ∈ map fst l)).
    + by rewrite decide_True by set_solver.
    + by rewrite decide_False by set_solver.
Qed.

Lemma group_append_NoDup k0 x l : NoDup (map fst l) -> NoDup (map fst (group_append k0 x l)).
Proof.
  rewrite group_append_keys. case_decide; [done|].
  intros Hl. apply NoDup_app. split_and!; [done| |by apply NoDup_singleton]. set_solver.
Qed.

Lemma group_lookup_elem_of l k v : NoDup (map fst l) -> (k, v) ∈ l <-> group_lookup k l = Some v.
Proof.
  induction l as [|[k' vs] l IH]; simpl; intros Hnd; [split; [inversion 1|discriminate]|].
  apply NoDup_cons in Hnd as [Hk' Hnd]. rewrite elem_of_cons.
  case_decide as Hk.
  - subst k. split; [|intros [= ->]; by left].
    intros [[= ->]|Hin]; [done|]. exfalso. apply Hk'.
    apply list_elem_of_In, in_map_iff. exists (k', v). split; [done|]. by apply list_elem_of_In.
  - rewrite <- IH by done. split; [intros [[= -> ->]|?]; [congruence|done]|by right].
Qed.
End Groups.

Lemma names_with_snoc k ps p :
  names_with k (ps ++ [p]) =
  names_with k ps ++ (if decide (priority p = k) then [class_name (policy_class p)] else []).
Proof. unfold names_with. rewrite filter_app, map_app, filter_cons, filter_nil. by case_decide. Qed.

(** The dict of [_check_priorities] maps each priority to the names of its
    policies, and has each priority once. *)
Lemma priority_dict_spec ps :
  NoDup (map fst (priority_dict ps)) /\
  forall k, group_lookup k (priority_dict ps) =
            if names_with k ps is [] then None else Some (names_with k ps).
Proof.
  induction ps as [|p ps IH] using rev_ind; [split; [constructor|done]|].
  unfold priority_dict. rewrite fold_left_app. fold (priority_dict ps). simpl.
  destruct IH as [Hnd Hl]. split; [by apply group_append_NoDup|].
  intros k. rewrite group_lookup_append, names_with_snoc, Hl.
  case_decide as Hk; [subst k; rewrite decide_True by done|rewrite decide_False by congruence].
  - by destruct (names_with _ ps).
  - by rewrite app_nil_r.
Qed.

Lemma length_names_with k ps :
  length (names_with k ps) = count_occ Z.eq_dec (map priority ps) k.
Proof.
  unfold names_with. rewrite length_map. induction ps as [|p ps IH]; [done|].
  simpl. rewrite filter_cons. destruct (Z.eq_dec (priority p) k); case_decide; simpl; congruence.
Qed.

Lemma check_priorities_elem ps w :
  w ∈ check_priorities ps <->
  exists k, w = DuplicatePriority k (names_with k ps) /\ 1 < length (names_with k ps).
Proof.
  destruct (priority_dict_spec ps) as [Hnd Hl]. unfold check_priorities.
  rewrite list_elem_of_In, in_map_iff. setoid_rewrite <- list_elem_of_In.
  setoid_rewrite list_elem_of_filter. split.
  - intros ([k v] & <- & Hlen & Hin). apply group_lookup_elem_of in Hin; [|done].
    rewrite Hl in Hin. exists k. destruct (names_with k ps); simplify_eq/=; auto.
  - intros (k & -> & Hlen). exists (k, names_with k ps). split_and!; [done|done|].
    apply group_lookup_elem_of; [done|]. rewrite Hl. by destruct (names_with k ps); [simpl in Hlen; lia|].
Qed.

(** [_check_priorities] warns about a priority exactly when several
    policies share it, naming their classes in order; it is silent
    exactly when the priorities are pairwise distinct. *)
Theorem check_priorities_spec ps :
  (forall k names, DuplicatePriority k names ∈ check_priorities ps <->
     names = names_with k ps /\ 1 < length names) /\
  (check_priorities ps = [] <-> NoDup (map priority ps)).
Proof.
  split.
  - intros k names. rewrite check_priorities_elem. split.
    + by intros (k' & [= -> ->] & ?).
    + intros [-> ?]. eauto.
  - rewrite NoDup_ListNoDup, (NoDup_count_occ Z.eq_dec). split.
    + intros Hnil k. rewrite <- length_names_with.
      destruct (decide (1 < length (names_with k ps))) as [Hlt|]; [|lia].
      assert (Hin : DuplicatePriority k (names_with k ps) ∈ check_priorities ps)
        by (apply check_priorities_elem; eauto).
      rewrite Hnil in Hin. inversion Hin.
    + intros Hcount. destruct (check_priorities ps) as [|w ws] eqn:Hc; [done|].
      destruct (proj1 (check_priorities_elem ps w)) as (k & _ & Hlt); [rewrite Hc; left|].
      specialize (Hcount k). rewrite <- length_names_with in Hcount. lia.
Qed.

(** ** Fingerprints *)

(** The slots recorded for key [k]. *)
Definition slots_of (m : gmap (option string) (list Event)) (k : option string) : gset string :=
  slot_keys (default [] (m !! k)).

Lemma slot_keys_app vs ws : slot_keys (vs ++ ws) = slot_keys vs ∪ slot_keys ws.
Proof. unfold slot_keys. by rewrite omap_app, list_to_set_app_L. Qed.

Lemma slots_of_add_event m k' e k :
  slots_of (add_event m k' e) k = slots_of m k ∪ (if decide (k = k') then slot_keys [e] else ∅).
Proof.
  unfold slots_of, add_event. destruct (decide (k = k')) as [->|Hne].
  - rewrite lookup_insert_eq. simpl. by rewrite slot_keys_app.
  - by rewrite lookup_insert_ne, union_empty_r_L by congruence.
Qed.

Lemma elem_of_slot_keys_single e s : s ∈ slot_keys [e] <-> exists v, e = SlotSet s v.
Proof.
  unfold slot_keys. destruct e; simpl; rewrite ?elem_of_union, ?elem_of_singleton; set_solver.
Qed.

Lemma training_events_step_tracker acc e : (training_events_step acc e).1 = update acc.1 e.
Proof. destruct acc. by destruct e. Qed.

Lemma training_events_step_slots tracker m e k s :
  s ∈ slots_of (training_events_step (tracker, m) e).2 k <->
  s ∈ slots_of m k \/ exists v, e = SlotSet s v /\ tracker_latest_action_name (update tracker e) = k.
Proof.
  assert (Hadd : s ∈ slots_of (add_event m (tracker_latest_action_name (update tracker e)) e) k <->
    s ∈ slots_of m k \/ exists v, e = SlotSet s v /\ tracker_latest_action_name (update tracker e) = k).
  { rewrite slots_of_add_event, elem_of_union. case_decide as Hk.
    - rewrite elem_of_slot_keys_single. naive_solver.
    - rewrite elem_of_empty. naive_solver. }
  destruct e; simpl; try exact Hadd; naive_solver.
Qed.

(** The loop over the events of one tracker, from any prefix. *)
Lemma tracker_loop_slots evs pre tracker m k s :
  tracker_state tracker = replay pre ->
  s ∈ slots_of (fold_left training_events_step evs (tracker, m)).2 k <->
  s ∈ slots_of m k \/
  exists j v, evs !! j = Some (SlotSet s v) /\
    latest_action_name (replay (pre ++ take (S j) evs)) = k.
Proof.
  induction evs as [|e evs IH] in pre, tracker, m |- *; intros Hst; cbn [fold_left].
  - split; [by left|]. intros [?|(j & v & Hj & _)]; [done|]. by rewrite lookup_nil in Hj.
  - assert (Hst' : tracker_state (update tracker e) = replay (pre ++ [e])).
    { simpl. rewrite Hst. unfold replay. by rewrite fold_left_app. }
    destruct (training_events_step (tracker, m) e) as [tr' m'] eqn:Hstep.
    assert (Htr : tr' = update tracker e).
    { pose proof (training_events_step_tracker (tracker, m) e) as H. by rewrite Hstep in H. }
    subst tr'. rewrite (IH (pre ++ [e])) by exact Hst'.
    pose proof (training_events_step_slots tracker m e k s) as Hs. rewrite Hstep in Hs. simpl in Hs.
    rewrite Hs. unfold tracker_latest_action_name. rewrite Hst'. split.
    + intros [[?|(v & -> & Hk)]|(j & v & Hj & Hk)]; [by left|right|right].
      * exists 0, v. split; [done|]. by cbn [take].
      * exists (S j), v. split; [done|]. by rewrite <- app_assoc in Hk.
    + intros [?|([|j] & v & Hj & Hk)]; [by left; left|left; right|right].
      * simpl in Hj. injection Hj as ->. exists v. split; [done|]. by cbn [take] in Hk.
      * exists j, v. split; [done|]. by rewrite <- app_assoc.
Qed.

Lemma training_events_slots trs m k s :
  s ∈ slots_of (fold_left tracker_training_events trs m) k <->
  s ∈ slots_of m k \/
  exists t j v, t ∈ trs /\ events t !! j = Some (SlotSet s v) /\
    latest_action_name (replay (take (S j) (events t))) = k.
Proof.
  induction trs as [|t trs IH] in m |- *; simpl.
  - split; [by left|]. intros [?|(t & _ & _ & Ht & _)]; [done|]. by apply elem_of_nil in Ht.
  - rewrite IH. unfold tracker_training_events. rewrite (tracker_loop_slots _ []) by done.
    setoid_rewrite elem_of_cons. naive_solver.
Qed.

(** The slots the fingerprint table records for an action name. *)
Definition fingerprint_slots (fps : option Fingerprints) (k : option string) : gset string :=
  match fps with Some f => default ∅ (f !! k) | None => ∅ end.

(** C19: The fingerprint of an action lists exactly the slots that some
    training story sets while that action is the latest action of the
    tracker: every [SlotSet] is charged to the last action before it,
    however many user messages and other events come in between. *)
Theorem action_fingerprints_spec trs k s :
  s ∈ fingerprint_slots (create_action_fingerprints (training_events_from_trackers trs)) k <->
  exists t j v, t ∈ trs /\ events t !! j = Some (SlotSet s v) /\
    latest_action_name (replay (take (S j) (events t))) = k.
Proof.
  transitivity (s ∈ slots_of (training_events_from_trackers trs) k).
  2: { unfold training_events_from_trackers. rewrite training_events_slots.
       unfold slots_of at 1. rewrite lookup_empty.
       unfold slot_keys. simpl. set_solver. }
  unfold create_action_fingerprints, slots_of. case_decide as Hm.
  - rewrite Hm, lookup_empty. unfold slot_keys. simpl. set_solver.
  - unfold fingerprint_slots, Fingerprints. rewrite lookup_fmap. destruct (_ !! k); simpl; [done|]. unfold slot_keys. simpl. set_solver.
Qed.

(** ** Persistence *)

(** [version.parse(a) < version.parse(b)] on release numbers: the
    lexicographic order on the components, the shorter padded with zeros. *)
Fixpoint lex_lt (a b : list nat) : bool :=
  match a, b with
  | x :: a', y :: b' => (x <? y) || ((x =? y) && lex_lt a' b')
  | _, _ => false
  end.

Definition version_lt (a b : list nat) : bool :=
  let n := Nat.max (length a) (length b) in
  lex_lt (a ++ replicate (n - length a) 0) (b ++ replicate (n - length b) 0).

(** [os.path.join(path, name)]. *)
Definition path_join (path name : string) : string := path +:+ "/" +:+ name.

(** The fingerprint table as [metadata.json] holds it: the keys of a
    JSON object are strings. *)
Definition FingerprintsJson := gmap string (gset string).

(** The key [json.dumps] writes for a key of the table: [None] becomes
    ["null"]. *)
Definition json_key (k : option string) : string := default "null" k.

(** [json.dumps] of the table (line 202).  The action [None] and an
    action named ["null"] would both be written under ["null"], and
    [json.loads] would keep the later one in dict order; the model keeps
    one of them. *)
Definition json_fingerprints (f : Fingerprints) : FingerprintsJson :=
  list_to_map ((fun kv => (json_key kv.1, kv.2)) <$> map_to_list f).

(** [json.loads] of the table (line 222): every key is the string read. *)
Definition loads_fingerprints (j : FingerprintsJson) : Fingerprints := kmap Some j.

(** The metadata document [metadata.json]; the package versions are the
    keys [_add_package_version_info] adds. *)
Record Metadata := mkMetadata {
  md_action_fingerprints : option FingerprintsJson;
  md_python : string;
  md_max_histories : list (option nat);
  md_ensemble_name : string;
  md_policy_names : list string;
  md_trained_at : option string;
  md_versions : list (string * list nat)
}.

(** What a path of the model directory holds. *)
Inductive Artifact :=
| MetadataFile (m : Metadata)
| PolicyArtifact (p : Policy)
| DomainSpecFile (states : list string)    (** [domain.json]: [{"states": [...]}] *)
| StoriesFile (trackers : list Tracker).   (** [stories.md] of [training.persist_data] *)

Definition FileSystem := gmap string Artifact.

(** [PolicyEnsemble.versioned_packages]. *)
Definition versioned_packages : list string := ["rasa"; "tensorflow"; "sklearn"].

(** [self.__module__ + "." + self.__class__.__name__]. *)
Definition ensemble_name : string := "rasa.core.policies.ensemble.SimplePolicyEnsemble".

(** [Policy.load(path)] of the policy contract: the policy persisted there,
    or [None]. *)
Definition policy_load (fs : FileSystem) (path : string) : option Policy :=
  match fs !! path with Some (PolicyArtifact p) => Some p | _ => None end.

Section Persistence.
(** [utils.module_path_from_instance] and [registry.policy_from_module_path]. *)
Variable module_path_from_instance : PolicyClass -> string.
Variable policy_from_module_path : string -> res PolicyClass.
(** [class_from_module_path(metadata["ensemble_name"])]. *)
Variable ensemble_class_from_module_path : string -> res unit.
(** [importlib.import_module(package_name).__version__], [None] on
    [ImportError]; the running Python's version. *)
Variable import_version : string -> option (list nat).
Variable python_version : string.
(** [rasa.constants.MINIMUM_COMPATIBLE_VERSION]. *)
Variable minimum_compatible_version : list nat.

(** [_add_package_version_info]. *)
Definition package_versions : list (string * list nat) :=
  omap (fun pkg => (fun v => (pkg, v)) <$> import_version pkg) versioned_packages.

(** [_persist_metadata] (without [dump_flattened_stories]): iterating over
    [self.training_trackers] raises [TypeError] when it is [None]. *)
Definition persist_metadata (path : string) (ens : PolicyEnsemble) (fs : FileSystem) : res FileSystem :=
  let policy_names := map (fun p => module_path_from_instance (policy_class p)) (policies ens) in
  training_events <-
    (match training_trackers ens with
     | Some trs => Ok (training_events_from_trackers trs)
     | None => Raise (TypeError "'NoneType' object is not iterable")
     end) ;;
  let md := mkMetadata (json_fingerprints <$> create_action_fingerprints training_events) python_version
              (max_histories ens) ensemble_name policy_names (date_trained ens) package_versions in
  Ok (<[path_join path "metadata.json" := MetadataFile md]> fs).

(** [PolicyEnsemble.persist]: the metadata, then one directory per policy. *)
Definition persist (path : string) (ens : PolicyEnsemble) (fs : FileSystem) : res FileSystem :=
  fs <- persist_metadata path ens fs ;;
  Ok (fold_left (fun fs '(i, p) => <[path_join path (policy_name i p) := PolicyArtifact p]> fs)
        (enumerate (policies ens)) fs).

(** [load_metadata]. *)
Definition load_metadata (path : string) (fs : FileSystem) : res Metadata :=
  match fs !! path_join path "metadata.json" with
  | Some (MetadataFile m) => Ok m
  | _ => Raise (IOError (path_join path "metadata.json"))
  end.

(** [ensure_model_compatibility]: a model without a recorded [rasa]
    version counts as version 0.0.0. *)
Definition ensure_model_compatibility (md : Metadata) (version_to_check : option (list nat)) : res unit :=
  let version_to_check := default minimum_compatible_version version_to_check in
  let model_version := default [0; 0; 0] (assoc "rasa" (md_versions md)) in
  if version_lt model_version version_to_check
  then Raise (UnsupportedDialogueModelError model_version)
  else Ok tt.

(** [_ensure_loaded_policy]: a bare [Exception] when [load] returned
    [None] or an object that is not an instance of [policy_cls]
    ([isinstance] accepts a subclass). *)
Definition ensure_loaded_policy (policy : option Policy) (policy_cls : PolicyClass) (policy_name : string)
    : res Policy :=
  match policy with
  | None => Raise (PyException ("Failed to load policy " +:+ policy_name +:+ ": load returned None"))
  | Some p =>
      if policy_subclass (policy_class p) policy_cls then Ok p
      else Raise (PyException ("Failed to load policy " +:+ policy_name +:+
                               ": load returned object that is not instance of its own class"))
  end.

(** One iteration of the loop of [load]. *)
Definition load_policy_step (path : string) (fs : FileSystem) (acc : list Policy)
    (ip : nat * string) : res (list Policy) :=
  let '(i, name) := ip in
  policy_cls <- policy_from_module_path name ;;
  let dir_name := "policy_" +:+ pretty i +:+ "_" +:+ class_name policy_cls in
  p <- ensure_loaded_policy (policy_load fs (path_join path dir_name)) policy_cls name ;;
  Ok (acc ++ [p]).

(** [PolicyEnsemble.load]. *)
Definition load (path : string) (fs : FileSystem) : res PolicyEnsemble :=
  md <- load_metadata path fs ;;
  _ <- ensure_model_compatibility md None ;;
  ps <- fold_res (load_policy_step path fs) (enumerate (md_policy_names md)) [] ;;
  _ <- ensemble_class_from_module_path (md_ensemble_name md) ;;
  Ok (ensemble_init ps (loads_fingerprints <$> md_action_fingerprints md)).1.

(** *** Facts *)

Lemma policy_dir_inj path i j p q :
  path_join path (policy_name i p) = path_join path (policy_name j q) -> i = j.
Proof.
  unfold path_join, policy_name. intros H.
  apply string_app_inj_r, string_app_inj_r in H. by eapply policy_prefix_inj.
Qed.

Lemma policy_dir_not_metadata path i p :
  path_join path (policy_name i p) <> path_join path "metadata.json".
Proof. unfold path_join. intros H. apply string_app_inj_r, string_app_inj_r in H. discriminate. Qed.

Lemma assoc_rasa_package_versions : assoc "rasa" package_versions = import_version "rasa".
Proof.
  unfold package_versions, versioned_packages. simpl.
  destruct (import_version "rasa"); simpl; [done|].
  by destruct (import_version "tensorflow"), (import_version "sklearn").
Qed.

(** [ensemble_init] keeps a fingerprint table, an absent one is empty. *)
Lemma ensemble_init_fingerprints ps fps :
  (ensemble_init ps fps).1 = mkEnsemble ps (default ∅ fps) None None.
Proof. unfold ensemble_init. destruct fps as [f|]; simpl; [|done]. case_decide; by subst. Qed.

(** A key of the table [json.dumps] writes, when no action is named
    ["null"]. *)
Lemma json_fingerprints_lookup (f : gmap (option string) (gset string)) a :
  f !! Some "null" = None ->
  json_fingerprints f !! a = f !! (if decide (a = "null") then None else Some a).
Proof.
  intros Hnull. unfold json_fingerprints.
  assert (Hinv : forall k y, (k, y) ∈ map_to_list f -> json_key k = a ->
                 k = if decide (a = "null") then None else Some a).
  { intros k y Hk <-. apply elem_of_map_to_list in Hk.
    destruct k as [b|]; simpl; [case_decide; subst; congruence|done]. }
  destruct (f !! (if decide (a = "null") then None else Some a)) as [v|] eqn:Hv.
  - apply elem_of_list_to_map_1'.
    + intros y Hy. apply list_elem_of_fmap in Hy as ([k y'] & Heq & Hk).
      simpl in Heq. injection Heq as Ha ->.
      pose proof (Hinv _ _ Hk (eq_sym Ha)) as ->. apply elem_of_map_to_list in Hk. congruence.
    + apply list_elem_of_fmap. exists (if decide (a = "null") then None else Some a, v).
      split; [simpl; f_equal; case_decide; simpl; congruence|by apply elem_of_map_to_list].
  - apply not_elem_of_list_to_map_1. intros Ha.
    apply list_elem_of_fmap in Ha as (p & -> & Hp). apply list_elem_of_fmap in Hp as ([k y] & -> & Hk).
    simpl in *. pose proof (Hinv _ _ Hk eq_refl) as Hk'. apply elem_of_map_to_list in Hk.
    rewrite <- Hk' in Hv. congruence.
Qed.

Lemma loads_fingerprints_None j : loads_fingerprints j !! None = None.
Proof. unfold loads_fingerprints. apply lookup_kmap_None; [apply _|intros i Hi; discriminate]. Qed.

Lemma loads_fingerprints_Some j a : loads_fingerprints j !! Some a = j !! a.
Proof. unfold loads_fingerprints. apply (lookup_kmap Some); apply _. Qed.

Lemma load_policies_Ok path fs ps acc :
  (forall i p, ps !! i = Some p -> policy_load fs (path_join path (policy_name i p)) = Some p) ->
  (forall p, p ∈ ps ->
     policy_from_module_path (module_path_from_instance (policy_class p)) = Ok (policy_class p)) ->
  fold_res (load_policy_step path fs)
    (enumerate (map (fun p => module_path_from_instance (policy_class p)) ps)) acc = Ok (acc ++ ps).
Proof.
  induction ps as [|p ps IH] using rev_ind; intros Hload Hreg; [by rewrite app_nil_r|].
  rewrite map_app. cbn [map]. rewrite enumerate_snoc, fold_res_app, length_map, IH; simpl.
  - rewrite Hreg by set_solver. simpl.
    change ("policy_" +:+ pretty (length ps) +:+ "_" +:+ class_name (policy_class p))
      with (policy_name (length ps) p).
    rewrite Hload by (rewrite lookup_app_r, Nat.sub_diag by lia; done). simpl.
    rewrite policy_subclass_refl. simpl. by rewrite app_assoc.
  - intros i q Hi. apply Hload. apply lookup_app_l_Some, Hi.
  - intros q Hq. apply Hreg. set_solver.
Qed.

(** C18: Persisting a trained ensemble and loading the directory back gives
    the same policies in the same order (so the same classes and
    priorities), provided the registry resolves each recorded module path
    to the policy's class and the installed Rasa is not older than the
    minimum compatible version.  The fingerprint table comes back through
    JSON: the slots recorded before the first action of a story, keyed by
    [None] in memory, come back under the action name ["null"]; every
    other action keeps its fingerprint (when no action is named
    ["null"]). *)
Theorem persist_load_roundtrip path ens fs trs :
  training_trackers ens = Some trs ->
  (forall p, p ∈ policies ens ->
     policy_from_module_path (module_path_from_instance (policy_class p)) = Ok (policy_class p)) ->
  ensemble_class_from_module_path ensemble_name = Ok tt ->
  version_lt (default [0; 0; 0] (import_version "rasa")) minimum_compatible_version = false ->
  default ∅ (create_action_fingerprints (training_events_from_trackers trs)) !! Some "null" = None ->
  exists fs' fps, persist path ens fs = Ok fs' /\
    load path fs' = Ok (mkEnsemble (policies ens) fps None None) /\
    fps !! None = None /\
    fps !! Some "null" = default ∅ (create_action_fingerprints (training_events_from_trackers trs)) !! None /\
    (forall a, a <> "null" ->
       fps !! Some a = default ∅ (create_action_fingerprints (training_events_from_trackers trs)) !! Some a).
Proof.
  intros Htr Hreg Hens Hver Hnull.
  set (c := create_action_fingerprints (training_events_from_trackers trs)) in *.
  set (md := mkMetadata (json_fingerprints <$> c) python_version
               (max_histories ens) ensemble_name
               (map (fun p => module_path_from_instance (policy_class p)) (policies ens))
               (date_trained ens) package_versions).
  set (key := fun i p => path_join path (policy_name i p)).
  exists (insert_enumerate key PolicyArtifact (policies ens)
            (<[path_join path "metadata.json" := MetadataFile md]> fs)),
    (default ∅ (loads_fingerprints <$> (json_fingerprints <$> c))).
  split; [unfold persist, persist_metadata; by rewrite Htr|].
  assert (Hkey : forall i j p q, key i p = key j q -> i = j) by apply policy_dir_inj.
  split.
  - unfold load, load_metadata, FileSystem.
    rewrite lookup_insert_enumerate_other, lookup_insert_eq by apply policy_dir_not_metadata.
    simpl. unfold ensure_model_compatibility. simpl. rewrite assoc_rasa_package_versions, Hver. simpl.
    rewrite (load_policies_Ok _ _ _ []); [simpl; rewrite Hens; simpl| |done].
    { pose proof (ensemble_init_fingerprints (policies ens)
        (loads_fingerprints <$> (json_fingerprints <$> c))) as E.
      simpl in E. by rewrite E. }
    intros i p Hi. unfold policy_load, FileSystem. change (path_join path (policy_name i p)) with (key i p).
    by rewrite (lookup_insert_enumerate key PolicyArtifact Hkey _ _ i p Hi).
  - destruct c as [f|]; simpl in *; [|done].
    rewrite loads_fingerprints_None, !loads_fingerprints_Some, json_fingerprints_lookup by done.
    split_and!; [done|by rewrite decide_True|].
    intros a Ha. rewrite loads_fingerprints_Some, json_fingerprints_lookup by done. by rewrite decide_False.
Qed.

(** C21: An ensemble returned by [load] has no training trackers: persisting it
    again raises [TypeError] in [_training_events_from_trackers], and
    [continue_training] raises [AttributeError]. *)
Theorem loaded_ensemble_untrained path fs ens :
  load path fs = Ok ens ->
  training_trackers ens = None /\
  (forall path' fs', persist path' ens fs' = Raise (TypeError "'NoneType' object is not iterable")) /\
  (forall cont trs d, continue_training cont ens trs d =
     Raise (AttributeError "'NoneType' object has no attribute 'extend'")).
Proof.
  unfold load. intros H. inv_bind H. inv_bind H. inv_bind H. inv_bind H. injection H as <-.
  split_and!; done.
Qed.

End Persistence.

Lemma lex_lt_zeros b : lex_lt (replicate (length b) 0) b = true <-> exists x, x ∈ b /\ x <> 0.
Proof.
  induction b as [|y b IH]; simpl; [split; [done|intros (x & Hx & _); by apply elem_of_nil in Hx]|].
  destruct y as [|y]; simpl.
  - rewrite IH. setoid_rewrite elem_of_cons. naive_solver.
  - split; [intros _; exists (S y); split; [left|lia]|done].
Qed.

Lemma version_lt_zero v : version_lt [0; 0; 0] v = true <-> exists x, x ∈ v /\ x <> 0.
Proof.
  unfold version_lt. set (n := Nat.max _ _).
  assert (Hz : [0; 0; 0] ++ replicate (n - 3) 0 = replicate (length (v ++ replicate (n - length v) 0)) 0).
  { rewrite length_app, length_replicate. change [0; 0; 0] with (replicate 3 0).
    rewrite <- replicate_add. f_equal. simpl in n. lia. }
  simpl length. rewrite Hz, lex_lt_zeros. setoid_rewrite elem_of_app.
  setoid_rewrite elem_of_replicate. naive_solver.
Qed.

Section Compatibility.
Variable minimum_compatible_version : list nat.

(** A model whose metadata records no Rasa version counts as 0.0.0: it is
    accepted exactly when the version to check is 0.0.0 (zeros only), and
    refused with [UnsupportedDialogueModelError] otherwise. *)
Theorem unversioned_model_check md v :
  assoc "rasa" (md_versions md) = None ->
  (ensure_model_compatibility minimum_compatible_version md v = Ok tt <-> Forall (fun x => x = 0) (default minimum_compatible_version v)) /\
  ((exists x, x ∈ default minimum_compatible_version v /\ x <> 0) ->
   ensure_model_compatibility minimum_compatible_version md v = Raise (UnsupportedDialogueModelError [0; 0; 0])).
Proof.
  intros Hv. unfold ensure_model_compatibility. rewrite Hv. simpl.
  pose proof (version_lt_zero (default minimum_compatible_version v)) as Hz.
  split.
  - rewrite Forall_forall. destruct (version_lt _ _) eqn:E.
    + split; [discriminate|]. intros Hall. destruct (proj1 Hz eq_refl) as (x & Hx & Hne).
      exfalso. by apply Hne, Hall.
    + split; [intros _ x Hx|done]. destruct (decide (x = 0)) as [|Hne]; [done|].
      assert (false = true) by (apply Hz; eauto). discriminate.
  - intros Hx. by rewrite (proj2 Hz Hx).
Qed.
End Compatibility.

(** ** Domain compatibility and the ensemble classes *)

Section DomainCompatibility.
(** [validate_against_domain] of a policy class, defined by the policies
    outside [src/]. *)
Variable validate_against_domain : PolicyClass -> option PolicyEnsemble -> option Domain -> res unit.

(** The classes [check_domain_ensemble_compatibility] asks, in order. *)
Definition policies_needing_validation : list PolicyClass := [FormPolicy; MappingPolicy; TwoStageFallbackPolicy].

(** [PolicyEnsemble.check_domain_ensemble_compatibility]. *)
Definition check_domain_ensemble_compatibility (ensemble : option PolicyEnsemble) (domain : option Domain)
    : res unit :=
  fold_res (fun _ policy => validate_against_domain policy ensemble domain) policies_needing_validation tt.

(** The check passes exactly when the three validators pass, and
    otherwise raises the error of the first that fails, in the order
    form, mapping, two-stage fallback. *)
Lemma check_domain_ensemble_compatibility_spec ensemble domain e :
  (check_domain_ensemble_compatibility ensemble domain = Ok tt <->
   forall c, c ∈ policies_needing_validation -> validate_against_domain c ensemble domain = Ok tt) /\
  (check_domain_ensemble_compatibility ensemble domain = Raise e <->
   exists pre c post, policies_needing_validation = pre ++ c :: post /\
     Forall (fun c' => validate_against_domain c' ensemble domain = Ok tt) pre /\
     validate_against_domain c ensemble domain = Raise e).
Proof.
  unfold check_domain_ensemble_compatibility. rewrite fold_res_checks_Ok, Forall_forall.
  split; [done|]. apply fold_res_checks_Raise.
Qed.
End DomainCompatibility.

(** The ensemble classes: [PolicyEnsemble] leaves
    [probabilities_using_best_policy] abstract, [SimplePolicyEnsemble]
    implements it ([Ensemble.probabilities_using_best_policy]). *)
Inductive EnsembleClass := PolicyEnsembleBase | SimplePolicyEnsembleClass.

Definition ensemble_probabilities (cls : EnsembleClass) (ens : PolicyEnsemble) (tr : Tracker) (d : Domain)
    : res (option (list Q) * option string) :=
  match cls with
  | PolicyEnsembleBase => Raise NotImplementedError
  | SimplePolicyEnsembleClass => probabilities_using_best_policy (policies ens) tr d
  end.


(** ** Policy configuration *)

(** The dicts of a policy configuration: each has an optional ["name"]
    key, which [pop("name")] removes; the other keys are passed to the
    constructor. *)
Record StateFeaturizerConfig := mkStateFeaturizerConfig {
  sfc_name : option string;
  sfc_params : list (string * string)
}.

Record FeaturizerConfig := mkFeaturizerConfig {
  fc_name : option string;
  fc_state_featurizer : option (list StateFeaturizerConfig);
  fc_params : list (string * string)
}.

Record PolicyConfig := mkPolicyConfig {
  pc_name : option string;
  pc_featurizer : option (list FeaturizerConfig);
  pc_params : list (string * string)
}.

(** The keys ["policies"] and ["policy"] of the configuration. *)
Record PolicyConfiguration := mkPolicyConfiguration {
  cfg_policies : option (list PolicyConfig);
  cfg_policy : option (list PolicyConfig)
}.

(** [dict.pop("name")]. *)
Definition pop_name (name : option string) : res string :=
  match name with Some n => Ok n | None => Raise (KeyError "name") end.

(** Python's truthiness of an optional list. *)
Definition list_truthy {A} (l : option (list A)) : option (list A) :=
  match l with Some (_ :: _) => l | _ => None end.

Section Configuration.
Context {FeaturizerClass StateFeaturizer Featurizer : Type}.
(** [registry.featurizer_from_module_path], [registry.policy_from_module_path]
    and the constructors called with the remaining keys. *)
Variable featurizer_from_module_path : string -> res FeaturizerClass.
Variable make_state_featurizer : FeaturizerClass -> list (string * string) -> res StateFeaturizer.
Variable make_featurizer :
  FeaturizerClass -> option StateFeaturizer -> list (string * string) -> res Featurizer.
Variable policy_from_module_path : string -> res PolicyClass.
Variable make_policy : PolicyClass -> option Featurizer -> list (string * string) -> res Policy.

(** [get_featurizer_from_dict], on the truthy list [policy["featurizer"]]. *)
Definition get_featurizer_from_dict (fs : list FeaturizerConfig)
    : res (FeaturizerClass * FeaturizerConfig) :=
  if decide (1 < length fs) then Raise (InvalidPolicyConfig "policy can have only 1 featurizer")
  else match fs with
       | fc :: _ => name <- pop_name (fc_name fc) ;;
                    func <- featurizer_from_module_path name ;; Ok (func, fc)
       | [] => Raise (IndexError 0)
       end.

(** [get_state_featurizer_from_dict]. *)
Definition get_state_featurizer_from_dict (ss : list StateFeaturizerConfig)
    : res (FeaturizerClass * StateFeaturizerConfig) :=
  if decide (1 < length ss) then Raise (InvalidPolicyConfig "featurizer can have only 1 state featurizer")
  else match ss with
       | sc :: _ => name <- pop_name (sfc_name sc) ;;
                    func <- featurizer_from_module_path name ;; Ok (func, sc)
       | [] => Raise (IndexError 0)
       end.

(** The featurizer object that replaces [policy["featurizer"]]. *)
Definition build_featurizer (pc : PolicyConfig) : res (option Featurizer) :=
  match list_truthy (pc_featurizer pc) with
  | Some fs =>
      r <- get_featurizer_from_dict fs ;;
      let '(featurizer_func, fc) := r in
      sf <- (match list_truthy (fc_state_featurizer fc) with
             | Some ss =>
                 r' <- get_state_featurizer_from_dict ss ;;
                 let '(state_featurizer_func, sc) := r' in
                 s <- make_state_featurizer state_featurizer_func (sfc_params sc) ;; Ok (Some s)
             | None => Ok None
             end) ;;
      f <- make_featurizer featurizer_func sf (fc_params fc) ;; Ok (Some f)
  | None => Ok None
  end.

(** The [try] block of [from_dict]: resolving the class and calling its
    constructor; a [TypeError] of the constructor becomes a bare
    [Exception], an [ImportError] or [AttributeError] of either an
    [InvalidPolicyConfig]. *)
Definition construct_policy (policy_name : string) (featurizer : option Featurizer)
    (params : list (string * string)) : res Policy :=
  let r := (constr_func <- policy_from_module_path policy_name ;;
            match make_policy constr_func featurizer params with
            | Raise (TypeError e) => Raise (PyException ("Could not initialize " +:+ policy_name +:+ ". " +:+ e))
            | r => r
            end) in
  match r with
  | Raise (ImportError _) | Raise (AttributeError _) =>
      Raise (InvalidPolicyConfig ("Module for policy '" +:+ policy_name +:+ "' could not be loaded."))
  | r => r
  end.

(** One iteration of the loop of [from_dict]. *)
Definition parse_policy (parsed : list Policy) (pc : PolicyConfig) : res (list Policy) :=
  policy_name <- pop_name (pc_name pc) ;;
  featurizer <- build_featurizer pc ;;
  p <- construct_policy policy_name featurizer (pc_params pc) ;;
  Ok (parsed ++ [p]).

(** [PolicyEnsemble.from_dict]. *)
Definition ensemble_from_dict (cfg : PolicyConfiguration) : res (list Policy) :=
  match (match list_truthy (cfg_policies cfg) with Some l => Some l | None => cfg_policy cfg end) with
  | None => Raise (InvalidPolicyConfig "You didn't define any policies.")
  | Some [] => Raise (InvalidPolicyConfig "The policy configuration file has to include at least one policy.")
  | Some policies => fold_res parse_policy policies []
  end.
(** The policies of the configuration, as [from_dict] reads them. *)
Definition configured_policies (cfg : PolicyConfiguration) : option (list PolicyConfig) :=
  match list_truthy (cfg_policies cfg) with Some l => Some l | None => cfg_policy cfg end.

Lemma fold_parse_policy_Ok pcs acc ps :
  fold_res parse_policy pcs acc = Ok ps ->
  exists ps', ps = acc ++ ps' /\
  Forall2 (fun pc p => exists name f, pc_name pc = Some name /\ build_featurizer pc = Ok f /\
             construct_policy name f (pc_params pc) = Ok p) pcs ps'.
Proof.
  induction pcs as [|pc pcs IH] in acc |- *; simpl; intros H.
  - injection H as <-. exists []. by rewrite app_nil_r.
  - destruct (parse_policy acc pc) as [acc'|e] eqn:Hp; simpl in H; [|discriminate].
    apply IH in H as (ps' & -> & Hall). unfold parse_policy in Hp.
    destruct (pop_name (pc_name pc)) as [name|e] eqn:Hn; simpl in Hp; [|discriminate].
    destruct (build_featurizer pc) as [f|e] eqn:Hf; simpl in Hp; [|discriminate].
    destruct (construct_policy name f (pc_params pc)) as [p|e] eqn:Hc; simpl in Hp; [|discriminate].
    injection Hp as <-. exists (p :: ps'). rewrite <- app_assoc. split; [done|].
    constructor; [|done]. exists name, f. split_and!; [|done|done].
    destruct (pc_name pc); simpl in Hn; [by injection Hn as ->|discriminate].
Qed.

(** [from_dict] returns one policy per configured entry, in order: the
    class the registry gives for the entry's name, built by its
    constructor from the entry's featurizer and other keys; a
    configuration without policies is refused. *)
Theorem from_dict_Ok cfg ps :
  ensemble_from_dict cfg = Ok ps ->
  exists pcs, configured_policies cfg = Some pcs /\ pcs <> [] /\
  Forall2 (fun pc p => exists name f cls, pc_name pc = Some name /\ build_featurizer pc = Ok f /\
             policy_from_module_path name = Ok cls /\ make_policy cls f (pc_params pc) = Ok p) pcs ps.
Proof.
  unfold ensemble_from_dict. fold (configured_policies cfg).
  destruct (configured_policies cfg) as [[|pc pcs]|]; intros H; try discriminate.
  exists (pc :: pcs). split_and!; [done|done|].
  apply fold_parse_policy_Ok in H as (ps' & -> & Hall). simpl.
  eapply Forall2_impl; [exact Hall|]. intros pc' p (name & f & Hn & Hf & Hp).
  exists name, f. unfold construct_policy in Hp.
  destruct (policy_from_module_path name) as [cls|e] eqn:Hcls; simpl in Hp;
    [|by destruct e].
  exists cls. split_and!; [done|done|done|].
  destruct (make_policy cls f (pc_params pc')) as [q|[]]; simpl in Hp; congruence.
Qed.

(** C20: How a misconfigured policy fails, for a configuration of one policy:
    an unknown policy module gives [InvalidPolicyConfig]; an unknown
    featurizer module lets the registry's [ImportError] through; a
    constructor that rejects the keys gives a bare [Exception]. *)
Theorem from_dict_error_kinds pc name m :
  pc_name pc = Some name ->
  (list_truthy (pc_featurizer pc) = None ->
   policy_from_module_path name = Raise (ImportError m) ->
   exists msg, ensemble_from_dict (mkPolicyConfiguration (Some [pc]) None) = Raise (InvalidPolicyConfig msg)) /\
  (forall fc fname, pc_featurizer pc = Some [fc] -> fc_name fc = Some fname ->
   featurizer_from_module_path fname = Raise (ImportError m) ->
   ensemble_from_dict (mkPolicyConfiguration (Some [pc]) None) = Raise (ImportError m)) /\
  (forall cls, list_truthy (pc_featurizer pc) = None -> policy_from_module_path name = Ok cls ->
   make_policy cls None (pc_params pc) = Raise (TypeError m) ->
   exists msg, ensemble_from_dict (mkPolicyConfiguration (Some [pc]) None) = Raise (PyException msg)).
Proof.
  intros Hn. unfold ensemble_from_dict. simpl. unfold parse_policy. rewrite Hn. simpl.
  split_and!.
  - intros Hf Hreg. unfold build_featurizer. rewrite Hf. simpl. unfold construct_policy.
    rewrite Hreg. simpl. eauto.
  - intros fc fname Hf Hfn Hreg. unfold build_featurizer. rewrite Hf. simpl.
    unfold get_featurizer_from_dict. simpl. rewrite Hfn. simpl. by rewrite Hreg.
  - intros cls Hf Hreg Hmk. unfold build_featurizer. rewrite Hf. simpl. unfold construct_policy.
    rewrite Hreg. simpl. rewrite Hmk. simpl. eauto.
Qed.

End Configuration.

(** ** Examples *)

(** A registry for the classes of [Ensemble.ex_policies]. *)
Definition ex_module_path (c : PolicyClass) : string := "rasa.core.policies." +:+ class_name c.

Definition ex_policy_from_module_path (s : string) : res PolicyClass :=
  if String.eqb s (ex_module_path KerasPolicy) then Ok KerasPolicy
  else if String.eqb s (ex_module_path FallbackPolicy) then Ok FallbackPolicy
  else Raise (ImportError s).

Definition ex_ensemble_class (s : string) : res unit :=
  if String.eqb s ensemble_name then Ok tt else Raise (ImportError s).

Definition ex_import_version (pkg : string) : option (list nat) :=
  if String.eqb pkg "rasa" then Some [1; 10; 2] else None.

(** A story in which the user's message sets a slot before any action runs. *)
Definition ex_training_tracker : Tracker :=
  from_events "trainer"
    [ActionExecuted ACTION_LISTEN_NAME None None; UserUttered ex_message; SlotSet "city" (VStr "Berlin");
     ActionExecuted "action_search" None None; SlotSet "name" (VStr "Bob")]
    (slots ex_domain).

(** A story recorded with a slot already set: the [SlotSet] comes before
    any action, so its fingerprint is keyed by [None]. *)
Definition ex_prefilled_tracker : Tracker :=
  from_events "trainer"
    [SlotSet "city" (VStr "Paris"); ActionExecuted ACTION_LISTEN_NAME None None; UserUttered ex_message]
    (slots ex_domain).

Definition ex_training_trackers : list Tracker := [ex_prefilled_tracker; ex_training_tracker].

(** [ex_policies] after training on the two stories. *)
Definition ex_trained : PolicyEnsemble :=
  mkEnsemble ex_policies ∅ (Some ex_training_trackers) (Some "20200101-120000").

Definition ex_persisted : res FileSystem :=
  persist ex_module_path ex_import_version "3.7.6" "models/core" ex_trained ∅.

(** The prefilled slot is fingerprinted under [None] and comes back under
    ["null"]. *)
Lemma persist_load_roundtrip_witness :
  default ∅ (create_action_fingerprints (training_events_from_trackers ex_training_trackers)) !! None =
    Some {["city"]} /\
  exists fs' fps, ex_persisted = Ok fs' /\
    load ex_policy_from_module_path ex_ensemble_class [1; 6; 0] "models/core" fs' =
      Ok (mkEnsemble ex_policies fps None None) /\
    fps !! None = None /\
    fps !! Some "null" =
      default ∅ (create_action_fingerprints (training_events_from_trackers ex_training_trackers)) !! None /\
    (forall a, a <> "null" ->
       fps !! Some a =
       default ∅ (create_action_fingerprints (training_events_from_trackers ex_training_trackers)) !! Some a).
Proof.
  split; [vm_compute; reflexivity|].
  apply (persist_load_roundtrip ex_module_path ex_policy_from_module_path ex_ensemble_class
           ex_import_version "3.7.6" [1; 6; 0] "models/core" ex_trained ∅ ex_training_trackers).
  - reflexivity.
  - intros p Hp. repeat (apply elem_of_cons in Hp as [->|Hp]; [reflexivity|]).
    by apply elem_of_nil in Hp.
  - reflexivity.
  - reflexivity.
  - vm_compute. reflexivity.
Defined.

(** The fingerprint of [action_listen] holds the slot the user's message
    set, although no action set it. *)
Example fingerprint_charges_user_slots :
  fingerprint_slots (create_action_fingerprints (training_events_from_trackers [ex_training_tracker]))
    (Some ACTION_LISTEN_NAME) = {["city"]} /\
  fingerprint_slots (create_action_fingerprints (training_events_from_trackers [ex_training_tracker]))
    (Some "action_search") = {["name"]}.
Proof. split; vm_compute; reflexivity. Qed.

Definition ex_fs : FileSystem := match ex_persisted with Ok fs => fs | Raise _ => ∅ end.

Lemma loaded_ensemble_untrained_witness :
  ex_persisted = Ok ex_fs /\
  exists ens, load ex_policy_from_module_path ex_ensemble_class [1; 6; 0] "models/core" ex_fs = Ok ens /\
    training_trackers ens = None /\
    persist ex_module_path ex_import_version "3.7.6" "models/backup" ens ∅ =
      Raise (TypeError "'NoneType' object is not iterable").
Proof.
  split; [vm_compute; reflexivity|].
  destruct (load ex_policy_from_module_path ex_ensemble_class [1; 6; 0] "models/core" ex_fs) as [ens|e] eqn:Hl;
    [|vm_compute in Hl; discriminate].
  destruct (loaded_ensemble_untrained ex_module_path ex_policy_from_module_path ex_ensemble_class
    ex_import_version "3.7.6" [1; 6; 0] _ _ _ Hl) as (Ht & Hpers & _).
  exists ens. split_and!; [reflexivity|exact Ht|apply Hpers].
Defined.

Lemma unversioned_model_check_witness :
  assoc "rasa" (md_versions (mkMetadata None "3.7.6" [] ensemble_name [] None [])) = None /\
  ensure_model_compatibility [1; 6; 0] (mkMetadata None "3.7.6" [] ensemble_name [] None []) None =
    Raise (UnsupportedDialogueModelError [0; 0; 0]).
Proof.
  split; [reflexivity|].
  apply (unversioned_model_check [1; 6; 0] (mkMetadata None "3.7.6" [] ensemble_name [] None []) None);
    [reflexivity|]. exists 1. split; [left|lia].
Defined.

(** Constructors for the configuration examples: the featurizers are
    trivial, the registry of featurizers knows none, and a policy
    constructor rejects any extra key. *)
Definition ex_featurizer_from_module_path (s : string) : res unit :=
  Raise (ImportError ("Cannot retrieve featurizer from path '" +:+ s +:+ "'")).

Definition ex_make_policy (c : PolicyClass) (f : option unit) (params : list (string * string)) : res Policy :=
  match params with
  | (k, _) :: _ => Raise (TypeError ("__init__() got an unexpected keyword argument '" +:+ k +:+ "'"))
  | [] => match c with
          | KerasPolicy => Ok ex_keras
          | FallbackPolicy => Ok ex_fallback
          | _ => Raise (ImportError (class_name c))
          end
  end.

Definition ex_from_dict (cfg : PolicyConfiguration) : res (list Policy) :=
  ensemble_from_dict ex_featurizer_from_module_path (fun _ _ => Ok tt) (fun _ _ _ => Ok tt)
    ex_policy_from_module_path ex_make_policy cfg.

Definition ex_config : PolicyConfiguration :=
  mkPolicyConfiguration None
    (Some [mkPolicyConfig (Some (ex_module_path KerasPolicy)) None [];
           mkPolicyConfig (Some (ex_module_path FallbackPolicy)) (Some []) []]).

Lemma from_dict_Ok_witness :
  exists ps, ex_from_dict ex_config = Ok ps /\ length ps = 2 /\
  exists pcs, configured_policies ex_config = Some pcs /\ pcs <> [] /\
  Forall2 (fun pc p => exists name f cls, pc_name pc = Some name /\
             build_featurizer ex_featurizer_from_module_path (fun _ _ => Ok tt) (fun _ _ _ => Ok tt) pc = Ok f /\
             ex_policy_from_module_path name = Ok cls /\ ex_make_policy cls f (pc_params pc) = Ok p) pcs ps.
Proof.
  destruct (ex_from_dict ex_config) as [ps|e] eqn:H; [|vm_compute in H; discriminate].
  exists ps. split_and!; [reflexivity|vm_compute in H; by injection H as <-|].
  exact (from_dict_Ok _ _ _ _ _ _ _ H).
Defined.

Lemma from_dict_error_kinds_witness :
  (exists msg, ex_from_dict (mkPolicyConfiguration (Some [mkPolicyConfig (Some "NoSuchPolicy") None []]) None) =
     Raise (InvalidPolicyConfig msg)) /\
  ex_from_dict (mkPolicyConfiguration
     (Some [mkPolicyConfig (Some (ex_module_path KerasPolicy))
              (Some [mkFeaturizerConfig (Some "NoSuchFeaturizer") None []]) []]) None) =
    Raise (ImportError "Cannot retrieve featurizer from path 'NoSuchFeaturizer'") /\
  (exists msg, ex_from_dict (mkPolicyConfiguration
     (Some [mkPolicyConfig (Some (ex_module_path KerasPolicy)) None [("epochs", "100")]]) None) =
     Raise (PyException msg)).
Proof.
  split_and!.
  - eapply (from_dict_error_kinds ex_featurizer_from_module_path _ _ ex_policy_from_module_path
      ex_make_policy _ "NoSuchPolicy" "NoSuchPolicy"); reflexivity.
  - eapply (from_dict_error_kinds ex_featurizer_from_module_path _ _ ex_policy_from_module_path
      ex_make_policy _ (ex_module_path KerasPolicy)
      "Cannot retrieve featurizer from path 'NoSuchFeaturizer'"); reflexivity.
  - eapply (from_dict_error_kinds ex_featurizer_from_module_path _ _ ex_policy_from_module_path
      ex_make_policy _ (ex_module_path KerasPolicy) "__init__() got an unexpected keyword argument 'epochs'");
      reflexivity.
Defined.

End EnsembleIO.
