(* ===== verification/ModelDir.v ===== *)
(** * The model directory ([src/rasa/core/domain.py]:
      [Domain.persist_specification], [Domain.load_specification],
      [Domain.compare_with_specification]; [src/rasa/core/policies/ensemble.py]:
      [PolicyEnsemble.persist], [PolicyEnsemble.load])

    A trained model directory holds the ensemble's [metadata.json], one
    [policy_<i>_<ClassName>] entry per policy, and the domain's
    [domain.json] with its state list.  The ensemble and the domain write
    and read their parts of the same directory independently.
    [ModelDir] models the domain's part on the file system of
    [EnsembleIO] ([FileSystem], a map from paths to artifacts), and shows
    that neither writer disturbs what the other reads back. *)

From S2P Require Import Prelude Tracker Domain Policy Ensemble EnsembleIO.
Import Slots Tracker Domain Policy Ensemble EnsembleIO.

Module ModelDir.

(** [Domain.persist_specification(model_path)]: [{"states": input_states}]
    written to [model_path/domain.json]. *)
Definition persist_specification_at (model_path : string) (d : Domain) (fs : FileSystem) : FileSystem :=
  <[path_join model_path "domain.json" := DomainSpecFile (persist_specification d)]> fs.

(** [Domain.load_specification(path)] and the [["states"]] that
    [compare_with_specification] reads of it: a [domain.json] that holds
    another document has no [states] key. *)
Definition load_specification (path : string) (fs : FileSystem) : res (list string) :=
  match fs !! path_join path "domain.json" with
  | Some (DomainSpecFile states) => Ok states
  | Some (MetadataFile _) => Raise (KeyError "states")
  | _ => Raise (IOError (path_join path "domain.json"))
  end.

(** [Domain.compare_with_specification(path)]. *)
Definition compare_with_specification_at (d : Domain) (path : string) (fs : FileSystem) : res bool :=
  states <- load_specification path fs ;; compare_with_specification d states.

Section Agent.
Variable module_path_from_instance : PolicyClass -> string.
Variable policy_from_module_path : string -> res PolicyClass.
Variable ensemble_class_from_module_path : string -> res unit.
Variable import_version : string -> option (list nat).
Variable python_version : string.
Variable minimum_compatible_version : list nat.

Notation persist := (EnsembleIO.persist module_path_from_instance import_version python_version).
Notation load := (EnsembleIO.load policy_from_module_path ensemble_class_from_module_path minimum_compatible_version).

(** [PolicyEnsemble.persist(path, dump_flattened_stories=True)]: the
    training trackers are also written to [stories.md] by
    [training.persist_data]. *)
Definition persist_flattened (path : string) (ens : PolicyEnsemble) (fs : FileSystem) : res FileSystem :=
  fs' <- persist path ens fs ;;
  match training_trackers ens with
  | Some trs => Ok (<[path_join path "stories.md" := StoriesFile trs]> fs')
  | None => Ok fs'
  end.

(** A name that is neither [metadata.json] nor a policy directory. *)
Definition foreign_name (name : string) : Prop :=
  name <> "metadata.json" /\ forall dir, name <> "policy_" +:+ dir.

Lemma foreign_domain_json : foreign_name "domain.json".
Proof. split; [|intros dir]; discriminate. Qed.

Lemma foreign_stories_md : foreign_name "stories.md".
Proof. split; [|intros dir]; discriminate. Qed.

Lemma foreign_not_metadata path name : foreign_name name -> path_join path name <> path_join path "metadata.json".
Proof.
  intros [Hm _] H. apply Hm. unfold path_join in H. by apply string_app_inj_r, string_app_inj_r in H.
Qed.

Lemma foreign_not_policy_dir path name dir :
  foreign_name name -> path_join path ("policy_" +:+ dir) <> path_join path name.
Proof.
  intros [_ Hp] H. unfold path_join in H. apply string_app_inj_r, string_app_inj_r in H. by apply (Hp dir).
Qed.

(** [PolicyEnsemble.persist] leaves every other name of the directory as
    it was. *)
Lemma persist_keeps_foreign path name ens fs fs' :
  foreign_name name -> persist path ens fs = Ok fs' -> fs' !! path_join path name = fs !! path_join path name.
Proof.
  intros Hn. unfold EnsembleIO.persist, persist_metadata. destruct (training_trackers ens); simpl; [|done].
  intros [= <-].
  change (fold_left _ _ ?m) with (insert_enumerate (fun i p => path_join path (policy_name i p)) PolicyArtifact
                                   (policies ens) m).
  unfold FileSystem. rewrite lookup_insert_enumerate_other by (intros i q; by apply foreign_not_policy_dir).
  apply lookup_insert_ne, not_eq_sym, foreign_not_metadata, Hn.
Qed.

(** [PolicyEnsemble.load] reads only the metadata and the policy
    directories. *)
Lemma load_ignores_foreign path name st fs :
  foreign_name name -> load path (<[path_join path name := st]> fs) = load path fs.
Proof.
  intros Hn. unfold EnsembleIO.load, load_metadata.
  replace (<[path_join path name := st]> fs !! path_join path "metadata.json")
    with (fs !! path_join path "metadata.json") by (symmetry; apply lookup_insert_ne, foreign_not_metadata, Hn).
  destruct (fs !! path_join path "metadata.json") as [[md| | |]|]; simpl; try done.
  destruct (ensure_model_compatibility minimum_compatible_version md None); simpl; [|done].
  rewrite (fold_res_ext _ (load_policy_step policy_from_module_path path fs)); [done|].
  intros acc [i n]. unfold load_policy_step.
  destruct (policy_from_module_path n); simpl; [|done].
  unfold policy_load. set (k := path_join path _).
  replace (<[path_join path name := st]> fs !! k) with (fs !! k); [done|].
  symmetry. apply lookup_insert_ne, not_eq_sym, foreign_not_policy_dir, Hn.
Qed.

(** Dumping the flattened stories changes nothing [load] reads back. *)
Lemma load_persist_flattened path ens fs fs' fs'' :
  persist path ens fs = Ok fs' -> persist_flattened path ens fs = Ok fs'' -> load path fs'' = load path fs'.
Proof.
  unfold persist_flattened. intros H1. rewrite H1. simpl.
  destruct (training_trackers ens); intros [= <-]; [|done].
  apply load_ignores_foreign, foreign_stories_md.
Qed.

Lemma compare_persisted_spec d d' path fs :
  compare_with_specification_at d' path (persist_specification_at path d fs) =
  compare_with_specification d' (input_states d).
Proof. unfold compare_with_specification_at, load_specification, persist_specification_at, FileSystem. by rewrite lookup_insert_eq. Qed.

End Agent.

End ModelDir.
