(* ===== verification/Slack.v ===== *)
(** * The Slack channel ([src/rasa/core/channels/slack.py])

    [Slack] models the logic of the Slack connector around its I/O.
    Requests and payloads are JSON values ([Json]) with Python's dict
    access ([dict.get], [d[k]], [l[0]]) and truthiness written out; the
    errors these raise are values of [res].  On the input side,
    [webhook] is the route [/webhook] of [SlackInput.blueprint]: it
    answers a request with an HTTP response and hands at most one
    [UserMessage] to the agent ([process_message]); the helpers are
    [is_user_message], [is_interactive_message],
    [get_interactive_response] and [sanitize_user_message] (with its
    [re.sub], [re.search] and [str.replace] written as string scans).  On
    the output side, [SlackBot]'s [send_*] methods return the list of
    [chat.postMessage] calls they make.  Decoding the JSON text of the
    request, the HTTP server and the Slack client are not modelled. *)

From S2P Require Import Prelude.
From Stdlib Require Import Ascii.

Module Slack.

(** ** JSON values and Python's dict access *)

Inductive Json :=
| JNull
| JBool (b : bool)
| JNum (q : Q)
| JStr (s : string)
| JList (l : list Json)
| JObj (fields : list (string * Json)).

(** Python's truthiness of a JSON value. *)
Definition truthy (j : Json) : bool :=
  match j with
  | JNull => false
  | JBool b => b
  | JNum q => negb (Qeq_bool q 0)
  | JStr s => negb (String.eqb s "")
  | JList l => negb (bool_decide (l = []))
  | JObj fs => negb (bool_decide (fs = []))
  end.

(** [d.get(k, default)]; on a value that is not a dict, [AttributeError]. *)
Definition get (j : Json) (k : string) (dflt : Json) : res Json :=
  match j with
  | JObj fs => Ok (default dflt (assoc k fs))
  | _ => Raise (AttributeError "get")
  end.

(** [d[k]]. *)
Definition getitem (j : Json) (k : string) : res Json :=
  match j with
  | JObj fs => match assoc k fs with Some v => Ok v | None => Raise (KeyError k) end
  | _ => Raise (TypeError "subscript")
  end.

(** [l[0]] on a list ([IndexError] when empty), a string (its first
    character) or a dict (the key [0], which JSON dicts never have). *)
Definition getitem0 (j : Json) : res Json :=
  match j with
  | JList (x :: _) => Ok x
  | JList [] => Raise (IndexError 0)
  | JStr (String c _) => Ok (JStr (String c EmptyString))
  | JStr EmptyString => Raise (IndexError 0)
  | JObj _ => Raise (KeyError "0")
  | _ => Raise (TypeError "subscript")
  end.

(** [j == "s"]. *)
Definition is_str (j : Json) (s : string) : bool :=
  match j with JStr t => String.eqb t s | _ => false end.

(** ** Recognising messages *)

(** [SlackInput._is_user_message], as the [elif] that calls it tests it:
    the [and] chain stops at the first falsy operand. *)
Definition is_user_message (slack_event : Json) : res bool :=
  ev <- get slack_event "event" JNull ;;
  if negb (truthy ev) then Ok false else
  ev' <- get slack_event "event" (JObj []) ;;
  ty <- get ev' "type" JNull ;;
  if negb (is_str ty "message" || is_str ty "app_mention") then Ok false else
  text <- get ev' "text" JNull ;;
  if negb (truthy text) then Ok false else
  bot <- get ev' "bot_id" JNull ;;
  Ok (negb (truthy bot)).

Definition supported_interactive : list string :=
  ["button"; "select"; "static_select"; "external_select"; "conversations_select";
   "users_select"; "channels_select"; "overflow"; "datepicker"].

(** [SlackInput._is_interactive_message]; the warning for an unsupported
    type is only logged. *)
Definition is_interactive_message (payload : Json) : res bool :=
  actions <- get payload "actions" JNull ;;
  if truthy actions then
    a <- getitem0 actions ;;
    action_type <- get a "type" JNull ;;
    Ok (match action_type with JStr t => bool_decide (t ∈ supported_interactive) | _ => false end)
  else Ok false.

(** [x.get(k, {}).get("value")]. *)
Definition get_nested (action : Json) (k : string) : res Json :=
  o <- get action k (JObj []) ;; get o "value" JNull.

(** [SlackInput._get_interactive_response]; [JNull] is [None], also the
    value of a function that falls off its end. *)
Definition get_interactive_response (action : Json) : res Json :=
  ty <- getitem action "type" ;;
  if is_str ty "button" then get action "value" JNull
  else if is_str ty "select" then
    opts <- get action "selected_options" (JList [JObj []]) ;;
    o <- getitem0 opts ;; get o "value" JNull
  else if is_str ty "static_select" then get_nested action "selected_option"
  else if is_str ty "external_select" then get_nested action "selected_option"
  else if is_str ty "conversations_select" then get action "selected_conversation" JNull
  else if is_str ty "users_select" then get action "selected_user" JNull
  else if is_str ty "channels_select" then get action "selected_channel" JNull
  else if is_str ty "overflow" then get_nested action "selected_option"
  else if is_str ty "datepicker" then get action "selected_date" JNull
  else Ok JNull.

(** ** Strings: [re.sub], [re.search], [str.replace] and [str.strip] *)

(** The characters [\s] matches and [str.strip] removes: the ASCII
    characters for which [str.isspace] holds. *)
Definition is_space (c : ascii) : bool :=
  let n := nat_of_ascii c in ((9 <=? n) && (n <=? 13)) || ((28 <=? n) && (n <=? 32)).

(** The rest of [s] after the prefix [p], if [s] starts with [p]. *)
Fixpoint strip_prefix (p s : string) : option string :=
  match p, s with
  | EmptyString, _ => Some s
  | String c p', String d s' => if Ascii.eqb c d then strip_prefix p' s' else None
  | String _ _, EmptyString => None
  end.

(** A scan replacing, from left to right, every non-overlapping match of
    a pattern by [repl], where [mat s] is the rest of [s] after a match at
    its start.  [re.sub] and [str.replace] with a pattern that never
    matches the empty string are this scan; every step consumes a
    character, so [length s + 1] steps are enough. *)
Fixpoint sub_scan (fuel : nat) (mat : string -> option string) (repl s : string) : string :=
  match fuel with
  | 0 => s
  | S f =>
      match mat s with
      | Some rest => repl +:+ sub_scan f mat repl rest
      | None => match s with
                | EmptyString => EmptyString
                | String c s' => String c (sub_scan f mat repl s')
                end
      end
  end.

Definition re_sub (mat : string -> option string) (repl s : string) : string :=
  sub_scan (S (String.length s)) mat repl s.

(** The patterns [<@uid>\s], [\s<@uid>] and [<@uid>], for a user id
    without regex metacharacters (Slack ids are alphanumeric). *)
Definition mention (uid : string) : string := "<@" +:+ uid +:+ ">".

Definition match_mention_space (uid s : string) : option string :=
  match strip_prefix (mention uid) s with
  | Some (String c r) => if is_space c then Some r else None
  | _ => None
  end.

Definition match_space_mention (uid s : string) : option string :=
  match s with
  | String c r => if is_space c then strip_prefix (mention uid) r else None
  | EmptyString => None
  end.

Definition match_mention (uid s : string) : option string := strip_prefix (mention uid) s.

(** The body of a match of [.*\|.*\>] on one line: the longest prefix
    ending in [>] with a [|] before that [>] ([seen_bar]: a [|] was read
    before the current character). *)
Fixpoint link_body (seg : string) (seen_bar : bool) : option string :=
  match seg with
  | EmptyString => None
  | String c rest =>
      match link_body rest (seen_bar || Ascii.eqb c "|"%char) with
      | Some p => Some (String c p)
      | None => if Ascii.eqb c ">"%char && seen_bar then Some (String c EmptyString) else None
      end
  end.

(** [.] does not match a newline: the line the match must stay on. *)
Fixpoint take_line (s : string) : string :=
  match s with
  | EmptyString => EmptyString
  | String c s' => if Ascii.eqb c "010"%char then EmptyString else String c (take_line s')
  end.

Definition link_schemes : list string := ["mailto:"; "http://"; "https://"].

(** A match of [\<(mailto:|(http|https):\/\/).*\|.*\>] at the start of
    [s]: the matched text. *)
Definition link_match_at (s : string) : option string :=
  match strip_prefix "<" s with
  | None => None
  | Some r =>
      match omap (fun sch => (fun rest => (sch, rest)) <$> strip_prefix sch r) link_schemes with
      | (sch, rest) :: _ => (fun body => "<" +:+ sch +:+ body) <$> link_body (take_line rest) false
      | [] => None
      end
  end.

(** [re.search(pattern, text).group(0)]: the leftmost match. *)
Fixpoint link_search (s : string) : option string :=
  match link_match_at s with
  | Some m => Some m
  | None => match s with EmptyString => None | String _ s' => link_search s' end
  end.

(** The text up to the next [|]. *)
Fixpoint take_until_bar (s : string) : string :=
  match s with
  | EmptyString => EmptyString
  | String c s' => if Ascii.eqb c "|"%char then EmptyString else String c (take_until_bar s')
  end.

(** [s.split("|")[1]]: the text between the first and the second [|]. *)
Fixpoint after_first_bar (s : string) : string :=
  match s with
  | EmptyString => EmptyString
  | String c s' => if Ascii.eqb c "|"%char then take_until_bar s' else after_first_bar s'
  end.

(** [s.replace(">", "")]. *)
Fixpoint remove_gt (s : string) : string :=
  match s with
  | EmptyString => EmptyString
  | String c s' => if Ascii.eqb c ">"%char then remove_gt s' else String c (remove_gt s')
  end.

(** [s.replace(old, new)] for a non-empty [old]. *)
Definition str_replace (s old new : string) : string := re_sub (strip_prefix old) new s.

Fixpoint lstrip (s : string) : string :=
  match s with
  | EmptyString => EmptyString
  | String c s' => if is_space c then lstrip s' else s
  end.

Definition str_rev (s : string) : string := String.string_of_list_ascii (rev (String.list_ascii_of_string s)).

(** [s.strip()]. *)
Definition strip (s : string) : string := str_rev (lstrip (str_rev (lstrip s))).

(** [SlackInput._sanitize_user_message]. *)
Definition sanitize_user_message (text : string) (uids_to_remove : list string) : string :=
  let text :=
    fold_left (fun text uid =>
                 re_sub (match_mention uid) " "
                   (re_sub (match_space_mention uid) ""
                      (re_sub (match_mention_space uid) "" text)))
      uids_to_remove text in
  let text :=
    match link_search text with
    | Some regex => str_replace text regex (remove_gt (after_first_bar regex))
    | None => text
    end in
  strip text.

(** ** The webhook *)

(** A [SlackInput] as [__init__] stores its arguments; [errors_ignore_retry]
    is the value [in] tests against. *)
Record SlackInput := mkSlackInput {
  slack_token : option string;
  slack_channel : option string;
  errors_ignore_retry : Json;
  retry_reason_header : option string;
  retry_num_header : option string
}.

(** [SlackInput.__init__]: [errors_ignore_retry or ("http_timeout",)]. *)
(** [SlackInput.name()]. *)
Definition input_channel_name : string := "slack".

Definition slack_input_init (token channel : option string) (reason_header num_header : option string)
    (errors_ignore_retry : Json) : SlackInput :=
  mkSlackInput token channel
    (if truthy errors_ignore_retry then errors_ignore_retry else JList [JStr "http_timeout"])
    reason_header num_header.

Definition json_opt_string (j : Json) : option string := match j with JStr s => Some s | _ => None end.

(** [SlackInput.from_credentials]: no credentials raise (the base class's
    [raise_missing_credentials_exception]). *)
Definition from_credentials (credentials : Json) : res SlackInput :=
  if negb (truthy credentials) then Raise (PyException "missing credentials") else
  token <- get credentials "slack_token" JNull ;;
  channel <- get credentials "slack_channel" JNull ;;
  reason <- get credentials "slack_retry_reason_header" (JStr "x-slack-retry-reason") ;;
  num <- get credentials "slack_retry_number_header" (JStr "x-slack-retry-num") ;;
  errs <- get credentials "errors_ignore_retry" JNull ;;
  Ok (slack_input_init (json_opt_string token) (json_opt_string channel)
        (json_opt_string reason) (json_opt_string num) errs).

(** An HTTP request as the webhook reads it: the form's [payload] field,
    already decoded ([None]: no form; [Some None]: a form without
    [payload]), the JSON body ([JNull] when there is none) and the
    headers. *)
Record Request := mkRequest {
  req_form : option (option Json);
  req_json : Json;
  req_headers : list (string * string)
}.

Record HttpResponse := mkResponse {
  resp_status : nat;
  resp_body : Json;
  resp_headers : list (string * Json)
}.

Definition text_response (status : nat) (body : string) : HttpResponse := mkResponse status (JStr body) [].

(** The [UserMessage] handed to the agent. *)
Record UserMessage := mkUserMessage {
  um_text : Json;
  um_sender_id : Json;
  um_input_channel : string;
  um_metadata : Json
}.

(** [request.headers.get(name)] with [name] possibly [None]. *)
Definition header (req : Request) (name : option string) : option string :=
  match name with Some n => assoc n (req_headers req) | None => None end.

(** [x in container] for a header value [x] (a string or [None]). *)
Definition py_in (x : option string) (container : Json) : res bool :=
  match container with
  | JList l => Ok (existsb (fun j => match x, j with
                                    | Some s, JStr t => String.eqb s t
                                    | None, JNull => true
                                    | _, _ => false
                                    end) l)
  | JStr t => match x with Some s => Ok (contains t s) | None => Raise (TypeError "in") end
  | JObj fs => Ok (match x with Some s => bool_decide (s ∈ map fst fs) | None => false end)
  | _ => Raise (TypeError "in")
  end.

Section Webhook.
(** [InputChannel.get_metadata], which the base class defines outside
    [src/]. *)
Variable get_metadata : Request -> Json.

(** [SlackInput.process_message]: a retry Slack sends for an error in
    [errors_ignore_retry] is acknowledged with 201 and dropped; otherwise
    the message goes to the agent (its exceptions are caught and logged)
    and the answer is an empty text. *)
Definition process_message (cfg : SlackInput) (req : Request) (text sender_id metadata : Json)
    : res (HttpResponse * list UserMessage) :=
  let retry_reason := header req (retry_reason_header cfg) in
  let retry_count := header req (retry_num_header cfg) in
  ignore <- (match retry_count with
             | Some c => if String.eqb c "" then Ok false else py_in retry_reason (errors_ignore_retry cfg)
             | None => Ok false
             end) ;;
  if ignore then Ok (mkResponse 201 JNull [("X-Slack-No-Retry", JNum 1)], [])
  else Ok (text_response 200 "", [mkUserMessage text sender_id input_channel_name metadata]).

(** The strings [for uid in uids] iterates over: a list of strings, or
    the characters of a string.  Other values are not modelled and raise
    [TypeError] here. *)
Definition json_strings (j : Json) : res (list string) :=
  match j with
  | JList l => fold_res (fun acc x => match x with JStr s => Ok (acc ++ [s]) | _ => Raise (TypeError "uid") end) l []
  | JStr s => Ok (map (fun c => String c EmptyString) (String.list_ascii_of_string s))
  | _ => Raise (TypeError "not iterable")
  end.

(** The route [/webhook] of [SlackInput.blueprint]. *)
Definition webhook (cfg : SlackInput) (req : Request) : res (HttpResponse * list UserMessage) :=
  match req_form req with
  | Some form =>
      payload <- (match form with Some p => Ok p | None => Raise (KeyError "payload") end) ;;
      interactive <- is_interactive_message payload ;;
      if interactive then
        user <- getitem payload "user" ;;
        sender_id <- getitem user "id" ;;
        actions <- getitem payload "actions" ;;
        action <- getitem0 actions ;;
        text <- get_interactive_response action ;;
        match text with
        | JNull =>
            ty <- getitem action "type" ;;
            if is_str ty "button" then Ok (text_response 200 "User clicked link button", [])
            else Ok (text_response 500 "The input message could not be processed.", [])
        | _ => process_message cfg req text sender_id (get_metadata req)
        end
      else Ok (text_response 500 "The input message could not be processed.", [])
  | None =>
      let output := req_json req in
      if truthy output then
        challenge <- py_in (Some "challenge") output ;;
        if challenge then
          c <- get output "challenge" JNull ;; Ok (mkResponse 200 c [], [])
        else
          user_message <- is_user_message output ;;
          if user_message then
            event <- getitem output "event" ;;
            text <- getitem event "text" ;;
            authed <- getitem output "authed_users" ;;
            text_s <- (match text with JStr t => Ok t | _ => Raise (TypeError "expected string") end) ;;
            uids <- json_strings authed ;;
            event' <- get output "event" JNull ;;
            sender <- get event' "user" JNull ;;
            process_message cfg req (JStr (sanitize_user_message text_s uids)) sender (get_metadata req)
          else Ok (text_response 200 "Bot message delivered", [])
      else Ok (text_response 200 "Bot message delivered", [])
  end.
(** The methods the blueprint's routes accept. *)
Inductive Method := GET | POST.

(** [SlackInput.blueprint]: the routes [/] ([health], [GET] only) and
    [/webhook] ([GET] and [POST]).  [None] is a request no route accepts,
    which Sanic answers itself. *)
Definition blueprint (cfg : SlackInput) (method : Method) (route : string) (req : Request)
    : option (res (HttpResponse * list UserMessage)) :=
  if String.eqb route "/" then
    match method with GET => Some (Ok (mkResponse 200 (JObj [("status", JStr "ok")]) [], [])) | POST => None end
  else if String.eqb route "/webhook" then Some (webhook cfg req)
  else None.
End Webhook.

(** ** The output channel *)

(** [SlackBot]: the output channel, with its token and the channel it
    posts to instead of the recipient when set. *)
Record SlackBot := mkSlackBot {
  bot_token : option string;
  bot_slack_channel : option string
}.

(** [SlackBot.name()]. *)
Definition output_channel_name : string := "slack".

(** [SlackInput.get_output_channel]. *)
Definition get_output_channel (cfg : SlackInput) : SlackBot := mkSlackBot (slack_token cfg) (slack_channel cfg).

(** A [chat.postMessage] call of [SlackBot]. *)
Record PostMessage := mkPostMessage {
  pm_channel : string;
  pm_text : option string;
  pm_blocks : list Json;
  pm_attachments : list Json
}.

(** The separator ["\n\n"]. *)
Definition paragraph_sep : string := String "010"%char (String "010"%char EmptyString).

(** [text.split("\n\n")]. *)
Fixpoint split_paragraphs_aux (s : string) (cur : string) : list string :=
  match s with
  | EmptyString => [cur]
  | String c s' =>
      match s' with
      | String d s'' =>
          if Ascii.eqb c "010"%char && Ascii.eqb d "010"%char then cur :: split_paragraphs_aux s'' ""
          else split_paragraphs_aux s' (cur +:+ String c EmptyString)
      | EmptyString => split_paragraphs_aux s' (cur +:+ String c EmptyString)
      end
  end.
Definition split_paragraphs (s : string) : list string := split_paragraphs_aux s "".

(** [self.slack_channel or recipient_id]. *)
Definition recipient (slack_channel : option string) (recipient_id : string) : string :=
  match slack_channel with Some c => if String.eqb c "" then recipient_id else c | None => recipient_id end.

(** [SlackBot.send_text_message]: one call per paragraph. *)
Definition send_text_message (slack_channel : option string) (recipient_id text : string) : list PostMessage :=
  map (fun part => mkPostMessage (recipient slack_channel recipient_id) (Some part) [] [])
    (split_paragraphs text).

(** [SlackBot._get_text_from_slack_buttons]. *)
Definition get_text_from_slack_buttons (buttons : list Json) : res string :=
  fold_res (fun acc b => t <- get b "title" (JStr "") ;;
                         match t with JStr s => Ok (acc +:+ s) | _ => Raise (TypeError "join") end)
    buttons "".

(** [SlackBot.send_text_with_buttons]: more than five buttons fall back to
    the text alone; a button needs a [title] and a [payload]. *)
Definition send_text_with_buttons (slack_channel : option string) (recipient_id text : string)
    (buttons : list Json) : res (list PostMessage) :=
  let rcpt := recipient slack_channel recipient_id in
  let text_block := JObj [("type", JStr "section"); ("text", JObj [("type", JStr "plain_text"); ("text", JStr text)])] in
  if 5 <? length buttons then Ok (send_text_message slack_channel rcpt text)
  else
    elements <- fold_res (fun els b =>
                  title <- getitem b "title" ;;
                  payload <- getitem b "payload" ;;
                  Ok (els ++ [JObj [("type", JStr "button");
                                    ("text", JObj [("type", JStr "plain_text"); ("text", title)]);
                                    ("value", payload)]])) buttons [] ;;
    Ok [mkPostMessage rcpt (Some text)
          [text_block; JObj [("type", JStr "actions"); ("elements", JList elements)]] []].

(** [SlackBot.send_image_url]. *)
Definition send_image_url (slack_channel : option string) (recipient_id image : string) : list PostMessage :=
  [mkPostMessage (recipient slack_channel recipient_id) (Some image)
     [JObj [("type", JStr "image"); ("image_url", JStr image); ("alt_text", JStr image)]] []].

(** [d.setdefault(k, v)] on an ordered dict: [d] when [k] is a key, [d]
    with [(k, v)] appended otherwise. *)
Definition dict_setdefault (k : string) (v : Json) (d : list (string * Json)) : list (string * Json) :=
  if decide (k ∈ map fst d) then d else d ++ [(k, v)].

(** [SlackBot.send_custom_json]: the keyword arguments of the
    [chat.postMessage] call.  [setdefault] changes the caller's
    [json_message] in place, so this is also the caller's dict after the
    call. *)
Definition send_custom_json (slack_channel : option string) (recipient_id : string)
    (json_message : list (string * Json)) : list (string * Json) :=
  dict_setdefault "as_user" (JBool true)
    (dict_setdefault "channel" (JStr (recipient slack_channel recipient_id)) json_message).

(** [SlackBot.send_attachment]. *)
Definition send_attachment (slack_channel : option string) (recipient_id : string) (attachment : Json)
    : list PostMessage :=
  [mkPostMessage (recipient slack_channel recipient_id) None [] [attachment]].

(** ** The string scans *)

Lemma strip_prefix_Some p s r : strip_prefix p s = Some r -> s = p +:+ r.
Proof.
  induction p as [|c p IH] in s |- *; simpl; [by intros [= ->]|].
  destruct s as [|d s]; [done|]. destruct (Ascii.eqb_spec c d) as [->|]; [|done].
  intros H. by rewrite (IH _ H).
Qed.

Lemma strip_prefix_app p x : strip_prefix p (p +:+ x) = Some x.
Proof. induction p as [|c p IH]; simpl; [done|]. by rewrite Ascii.eqb_refl. Qed.

(** A prefix starting with [c] never matches where [c] is not. *)
Lemma strip_prefix_head c p d s : Ascii.eqb d c = false -> strip_prefix (String c p) (String d s) = None.
Proof. simpl. intros H. by rewrite Ascii.eqb_sym, H. Qed.

Section Scan.
Variable mat : string -> option string.
Variable repl : string.
Hypothesis mat_consumes : forall s r, mat s = Some r -> String.length r < String.length s.

(** More fuel than the length of the string changes nothing. *)
Lemma sub_scan_enough_fuel f1 f2 s :
  String.length s < f1 -> String.length s < f2 -> sub_scan f1 mat repl s = sub_scan f2 mat repl s.
Proof.
  induction f1 as [|f1 IH] in f2, s |- *; intros H1 H2; [lia|]. destruct f2 as [|f2]; [lia|]. simpl.
  destruct (mat s) as [r|] eqn:E.
  - apply mat_consumes in E. f_equal. apply IH; lia.
  - destruct s as [|c s]; [done|]. simpl in *. f_equal. apply IH; lia.
Qed.

Lemma sub_scan_S f s :
  sub_scan (S f) mat repl s =
  match mat s with
  | Some rest => repl +:+ sub_scan f mat repl rest
  | None => match s with EmptyString => EmptyString | String c s' => String c (sub_scan f mat repl s') end
  end.
Proof. reflexivity. Qed.

Lemma re_sub_match s r : mat s = Some r -> re_sub mat repl s = repl +:+ re_sub mat repl r.
Proof.
  intros E. unfold re_sub at 1. rewrite sub_scan_S, E. f_equal.
  apply sub_scan_enough_fuel; apply mat_consumes in E; lia.
Qed.

Lemma re_sub_skip c s : mat (String c s) = None -> re_sub mat repl (String c s) = String c (re_sub mat repl s).
Proof.
  intros E. unfold re_sub at 1. rewrite sub_scan_S, E. done.
Qed.

End Scan.

Lemma length_string_app x y : String.length (x +:+ y) = String.length x + String.length y.
Proof. induction x as [|c x IH]; simpl; [done|]. by rewrite IH. Qed.

Lemma strip_prefix_consumes p : p <> EmptyString ->
  forall s r, strip_prefix p s = Some r -> String.length r < String.length s.
Proof.
  intros Hp s r ->%strip_prefix_Some. rewrite length_string_app. destruct p; [done|simpl; lia].
Qed.

(** Replacing a pattern that starts with [c] in [x +:+ y], where [x] has
    no [c], leaves [x] alone. *)
Lemma re_sub_prefix_skip c p repl x y :
  has_char c x = false ->
  re_sub (strip_prefix (String c p)) repl (x +:+ y) = x +:+ re_sub (strip_prefix (String c p)) repl y.
Proof.
  induction x as [|d x IH]; intros Hx; [done|]. cbn [has_char] in Hx.
  apply orb_false_iff in Hx as [Hd Hx]. change (String d x +:+ y) with (String d (x +:+ y)).
  rewrite re_sub_skip; [by rewrite IH|by apply strip_prefix_head].
Qed.

Lemma re_sub_nil mat repl : re_sub mat repl "" = match mat "" with Some r => repl +:+ r | None => "" end.
Proof. unfold re_sub. simpl. by destruct (mat ""). Qed.

(** ** Reading a link *)

Lemma link_body_none seg b : has_char ">"%char seg = false -> link_body seg b = None.
Proof.
  induction seg as [|c seg IH] in b |- *; simpl; intros H; [done|].
  apply orb_false_iff in H as [Hc H]. rewrite IH by done. by rewrite Hc.
Qed.

Lemma link_body_app x rest b p :
  link_body rest (b || has_char "|"%char x) = Some p -> link_body (x +:+ rest) b = Some (x +:+ p).
Proof.
  induction x as [|c x IH] in b |- *; simpl; intros H; [by rewrite orb_false_r in H|].
  rewrite (IH (b || Ascii.eqb c "|"%char)); [done|]. by rewrite <- orb_assoc.
Qed.

Lemma take_line_app x y : has_char "010"%char x = false -> take_line (x +:+ y) = x +:+ take_line y.
Proof.
  induction x as [|c x IH]; simpl; intros H; [done|]. apply orb_false_iff in H as [Hc H].
  rewrite Hc. by rewrite IH.
Qed.

Lemma has_char_take_line c s : has_char c (take_line s) = true -> has_char c s = true.
Proof.
  induction s as [|d s IH]; simpl; [done|]. destruct (Ascii.eqb d "010"%char); simpl; [done|].
  intros [->|H]%orb_true_iff; [done|]. rewrite IH by done. apply orb_true_r.
Qed.

Lemma link_search_skip pre t : has_char "<"%char pre = false -> link_search (pre +:+ t) = link_search t.
Proof.
  induction pre as [|c pre IH]; intros H; [done|]. cbn [has_char] in H.
  apply orb_false_iff in H as [Hc H]. change (String c pre +:+ t) with (String c (pre +:+ t)).
  cbn [link_search]. unfold link_match_at at 1. rewrite strip_prefix_head by done. by apply IH.
Qed.

Lemma after_first_bar_app x y :
  has_char "|"%char x = false -> after_first_bar (x +:+ String "|" y) = take_until_bar y.
Proof.
  induction x as [|c x IH]; simpl; intros H; [done|].
  apply orb_false_iff in H as [Hc H]. rewrite Hc. by apply IH.
Qed.

Lemma take_until_bar_no_bar y : has_char "|"%char y = false -> take_until_bar y = y.
Proof.
  induction y as [|c y IH]; simpl; intros H; [done|]. apply orb_false_iff in H as [Hc H].
  rewrite Hc. by rewrite IH.
Qed.

Lemma remove_gt_app l : has_char ">"%char l = false -> remove_gt (l +:+ ">") = l.
Proof.
  induction l as [|c l IH]; simpl; intros H; [done|]. apply orb_false_iff in H as [Hc H].
  rewrite Hc. by rewrite IH.
Qed.

Lemma string_app_nil_r x : x +:+ "" = x.
Proof. induction x as [|c x IH]; [done|]. rewrite string_app_cons. by rewrite IH. Qed.

Lemma has_char_mid c x y : has_char c (x +:+ String c EmptyString +:+ y) = true.
Proof. rewrite !has_char_app. cbn [has_char]. rewrite Ascii.eqb_refl. apply orb_true_r. Qed.

Lemma link_search_match s m : link_match_at s = Some m -> link_search s = Some m.
Proof. intros H. destruct s; cbn [link_search]; by rewrite H. Qed.

Lemma has_char_lt c s : c <> "<"%char -> has_char c ("<" +:+ s) = has_char c s.
Proof. intros Hc. rewrite has_char_app. cbn [has_char]. by destruct (Ascii.eqb_spec "<" c). Qed.

Lemma link_match_at_link sch body post :
  sch ∈ link_schemes -> link_body (take_line (body +:+ post)) false = Some body ->
  link_match_at ("<" +:+ sch +:+ body +:+ post) = Some ("<" +:+ sch +:+ body).
Proof.
  intros Hsch Hb. unfold link_match_at. rewrite strip_prefix_app.
  assert (Ho : omap (fun sch0 => (fun rest => (sch0, rest)) <$> strip_prefix sch0 (sch +:+ body +:+ post))
                 link_schemes = [(sch, body +:+ post)]).
  { repeat (apply elem_of_cons in Hsch as [->|Hsch]); [..|by apply elem_of_nil in Hsch]; reflexivity. }
  rewrite Ho. cbn [fmap option_fmap option_map]. by rewrite Hb.
Qed.

(** The text of a link as Slack writes it: [<scheme...|label>]. *)
Definition slack_link (sch a l : string) : string := "<" +:+ sch +:+ a +:+ "|" +:+ l +:+ ">".

(** C31: A message with one Slack link [<scheme...|label>] (and no other
    [<] or [>] around it) is sanitized to the message with the link
    replaced by its label, stripped. *)
Theorem sanitize_single_link pre sch a l post :
  sch ∈ link_schemes ->
  has_char "<" pre = false -> has_char "|" a = false -> has_char "010" a = false ->
  has_char "|" l = false -> has_char ">" l = false -> has_char "010" l = false ->
  has_char "<" post = false -> has_char ">" post = false ->
  sanitize_user_message (pre +:+ slack_link sch a l +:+ post) [] = strip (pre +:+ l +:+ post).
Proof.
  intros Hsch Hpre Ha Ha' Hl Hl' Hl'' Hpost Hpost'. unfold sanitize_user_message. cbn [fold_left].
  rewrite link_search_skip by done.
  rewrite link_search_match with (m := slack_link sch a l).
  2: { replace (slack_link sch a l +:+ post) with ("<" +:+ sch +:+ (a +:+ "|" +:+ l +:+ ">") +:+ post)
         by (unfold slack_link; by rewrite <- !string_app_assoc).
       apply link_match_at_link; [done|].
       rewrite take_line_app by (rewrite !has_char_app; cbn [has_char]; by rewrite Ha', Hl'').
       replace ((a +:+ "|" +:+ l +:+ ">") +:+ take_line post)
         with ((a +:+ "|" +:+ l) +:+ (">" +:+ take_line post)) by (by rewrite <- !string_app_assoc).
       replace (a +:+ "|" +:+ l +:+ ">") with ((a +:+ "|" +:+ l) +:+ ">") by (by rewrite <- !string_app_assoc).
       apply link_body_app. rewrite has_char_mid.
       change (">" +:+ take_line post) with (String ">" (take_line post)). cbn [link_body].
       rewrite link_body_none; [done|].
       apply not_true_iff_false. intros Ht. apply has_char_take_line in Ht. congruence. }
  f_equal.
  assert (Hbar : after_first_bar (slack_link sch a l) = take_until_bar (l +:+ ">")).
  { replace (slack_link sch a l) with (("<" +:+ sch +:+ a) +:+ String "|" (l +:+ ">"))
      by (unfold slack_link; by rewrite <- !string_app_assoc).
    apply after_first_bar_app. rewrite !has_char_app, Ha.
    repeat (apply elem_of_cons in Hsch as [->|Hsch]); [..|by apply elem_of_nil in Hsch]; done. }
  rewrite Hbar.
  rewrite take_until_bar_no_bar, remove_gt_app by (rewrite ?has_char_app, ?Hl; done).
  unfold str_replace, slack_link. change ("<" +:+ ?x) with (String "<" x).
  rewrite re_sub_prefix_skip by done.
  rewrite re_sub_match with (r := post); [|apply strip_prefix_consumes; discriminate|].
  - f_equal. f_equal. rewrite <- (string_app_nil_r post) at 1. rewrite re_sub_prefix_skip by done.
    rewrite re_sub_nil. apply string_app_nil_r.
  - apply strip_prefix_app.
Qed.

(** ** The output channel *)

Lemma omap_map_comp_pm (f : string -> PostMessage) l :
  (forall x, pm_text (f x) = Some x) -> omap pm_text (map f l) = l.
Proof. intros Hf. induction l as [|x l IH]; [done|]. cbn. rewrite Hf. cbn. by rewrite IH. Qed.

Lemma split_paragraphs_aux_cons s cur : exists p ps, split_paragraphs_aux s cur = p :: ps.
Proof.
  induction s as [|c s IH] in cur |- *; simpl; [eauto|].
  destruct s as [|d s]; [apply IH|]. destruct (_ && _); [eauto|apply IH].
Qed.

Lemma concat_split_paragraphs_aux n s cur :
  String.length s <= n -> String.concat paragraph_sep (split_paragraphs_aux s cur) = cur +:+ s.
Proof.
  induction n as [|n IH] in s, cur |- *; intros Hn.
  - destruct s; [|simpl in Hn; lia]. simpl. by rewrite string_app_nil_r.
  - destruct s as [|c s]; [simpl; by rewrite string_app_nil_r|]. cbn [split_paragraphs_aux].
    assert (Hskip : String.concat paragraph_sep (split_paragraphs_aux s (cur +:+ String c EmptyString)) =
                    cur +:+ String c s).
    { rewrite IH by (simpl in Hn; lia). rewrite <- string_app_assoc. reflexivity. }
    destruct s as [|d s]; [exact Hskip|].
    destruct (Ascii.eqb_spec c "010"%char) as [->|]; [|exact Hskip].
    destruct (Ascii.eqb_spec d "010"%char) as [->|]; [|exact Hskip]. simpl andb. cbv iota.
    destruct (split_paragraphs_aux_cons s "") as (p & ps & Hps).
    change (String.concat paragraph_sep (cur :: split_paragraphs_aux s "")) with
      (match split_paragraphs_aux s "" with [] => cur | _ :: _ => cur +:+ paragraph_sep +:+ String.concat paragraph_sep (split_paragraphs_aux s "") end).
    rewrite Hps, <- Hps, IH by (simpl in Hn; lia). reflexivity.
Qed.

(** [send_text_message] loses nothing: the texts of the calls it
    makes, joined with blank lines, give back the message. *)
Theorem send_text_message_roundtrip slack_channel recipient_id text :
  String.concat paragraph_sep (omap pm_text (send_text_message slack_channel recipient_id text)) = text.
Proof.
  unfold send_text_message. rewrite omap_map_comp_pm by done. apply (concat_split_paragraphs_aux (String.length text)). lia.
Qed.

(** [setdefault] keeps a key's value and adds a missing key last. *)
Lemma assoc_dict_setdefault k k' v d :
  assoc k (dict_setdefault k' v d) = if String.eqb k k' then Some (default v (assoc k' d)) else assoc k d.
Proof.
  unfold dict_setdefault. destruct (String.eqb_spec k k') as [->|Hne].
  - case_decide as Hin.
    + destruct (assoc k' d) eqn:E; [done|]. by apply assoc_None in E.
    + apply assoc_None in Hin as E. rewrite assoc_app, E. simpl. by rewrite String.eqb_refl.
  - case_decide; [done|]. rewrite assoc_app. destruct (assoc k d); [done|]. simpl.
    by destruct (String.eqb_spec k k').
Qed.

(** [send_custom_json] posts the caller's message with the channel and
    [as_user] it names, and otherwise to the configured channel (or the
    recipient) as the bot user; every other key is passed on unchanged. *)
Lemma send_custom_json_args slack_channel recipient_id json_message k :
  assoc k (send_custom_json slack_channel recipient_id json_message) =
  if String.eqb k "as_user" then Some (default (JBool true) (assoc "as_user" json_message))
  else if String.eqb k "channel" then Some (default (JStr (recipient slack_channel recipient_id)) (assoc "channel" json_message))
  else assoc k json_message.
Proof.
  unfold send_custom_json. rewrite assoc_dict_setdefault.
  destruct (String.eqb_spec k "as_user") as [->|]; [by rewrite assoc_dict_setdefault|].
  by rewrite assoc_dict_setdefault.
Qed.

(** Only the route [/webhook] hands messages to the agent. *)
Lemma blueprint_messages get_metadata cfg method route req resp msgs :
  blueprint get_metadata cfg method route req = Some (Ok (resp, msgs)) -> msgs <> [] -> route = "/webhook".
Proof.
  unfold blueprint. destruct (String.eqb_spec route "/") as [->|]; [by destruct method as [|]; intros [= _ <-]|].
  destruct (String.eqb_spec route "/webhook"); [done|discriminate].
Qed.

(** ** The webhook *)

Section WebhookProps.
Variable get_metadata : Request -> Json.

Lemma process_message_retry cfg req text sender_id metadata c :
  header req (retry_num_header cfg) = Some c -> c <> "" ->
  py_in (header req (retry_reason_header cfg)) (errors_ignore_retry cfg) = Ok true ->
  process_message cfg req text sender_id metadata =
    Ok (mkResponse 201 JNull [("X-Slack-No-Retry", JNum 1)], []).
Proof.
  intros Hc Hne Hin. unfold process_message. rewrite Hc.
  destruct (String.eqb_spec c ""); [done|]. by rewrite Hin.
Qed.

(** C32: A request Slack retries for an error listed in
    [errors_ignore_retry] never reaches the agent, whatever it carries. *)
Theorem webhook_retry_dropped cfg req c r msgs :
  header req (retry_num_header cfg) = Some c -> c <> "" ->
  py_in (header req (retry_reason_header cfg)) (errors_ignore_retry cfg) = Ok true ->
  webhook get_metadata cfg req = Ok (r, msgs) -> msgs = [].
Proof.
  intros Hc Hne Hin. unfold webhook.
  assert (Hpm : forall t sd m r' msgs', process_message cfg req t sd m = Ok (r', msgs') -> msgs' = []).
  { intros t sd m r' msgs'. rewrite (process_message_retry _ _ _ _ _ c) by done. congruence. }
  intros H. destruct (req_form req) as [form|].
  - inv_bind H. inv_bind H. destruct a0; [|congruence].
    do 5 inv_bind H. destruct a4; try (by eapply Hpm).
    inv_bind H. destruct (is_str _ _); congruence.
  - destruct (truthy (req_json req)); [|congruence]. inv_bind H.
    destruct a; [inv_bind H; congruence|]. inv_bind H. destruct a; [|congruence].
    do 7 inv_bind H. by eapply Hpm.
Qed.

(** A bot's own messages (an event with a [bot_id]) are acknowledged and
    not handed to the agent. *)
Theorem webhook_ignores_bots cfg req fs efs :
  req_form req = None -> req_json req = JObj fs -> "challenge" ∉ map fst fs ->
  assoc "event" fs = Some (JObj efs) -> truthy (default JNull (assoc "bot_id" efs)) = true ->
  webhook get_metadata cfg req = Ok (text_response 200 "Bot message delivered", []).
Proof.
  intros Hf Hj Hch Hev Hbot. unfold webhook. rewrite Hf, Hj.
  assert (Hfs : fs <> []) by (intros ->; discriminate).
  assert (Hefs : efs <> []) by (intros ->; discriminate).
  assert (Hu : is_user_message (JObj fs) = Ok false).
  { unfold is_user_message. cbn [get]. rewrite Hev. cbn [default id res_bind truthy get].
    rewrite (bool_decide_eq_false_2 _ Hefs). cbn [negb].
    destruct (_ || _); cbn [negb res_bind]; [|done].
    rewrite Hbot. cbn [negb]. by destruct (negb _). }
  assert (Hc : py_in (Some "challenge") (JObj fs) = Ok false) by (cbn; by rewrite bool_decide_eq_false_2).
  cbn [truthy]. rewrite (bool_decide_eq_false_2 _ Hfs). cbn [negb].
  rewrite Hc. cbn [res_bind]. by rewrite Hu.
Qed.
End WebhookProps.

(** ** Examples *)

(** With two links in one message the greedy pattern spans both: the
    first link's label swallows the text up to the second link's label
    bar, whose label is lost and whose markup stays. *)
Example sanitize_two_links :
  sanitize_user_message "<@U123> write to <mailto:a@x.io|a@x.io> or <http://x.io|x.io> " ["U123"] =
    "write to a@x.io or <http://x.io".
Proof. vm_compute. reflexivity. Qed.

Lemma sanitize_single_link_witness :
  sanitize_user_message ("see " +:+ slack_link "https://" "rasa.com" "rasa.com" +:+ " now") [] =
    "see rasa.com now".
Proof.
  rewrite (sanitize_single_link "see " "https://" "rasa.com" "rasa.com" " now");
    [vm_compute; reflexivity|apply (bool_decide_unpack _); vm_compute; reflexivity|..];
    vm_compute; reflexivity.
Defined.

Definition ex_cfg : SlackInput :=
  slack_input_init (Some "xoxb-token") None (Some "x-slack-retry-reason") (Some "x-slack-retry-num") JNull.

Definition ex_event (extra : list (string * Json)) : Json :=
  JObj [("event", JObj ([("type", JStr "message"); ("text", JStr "<@UBOT> hi there"); ("user", JStr "U42")] ++ extra));
        ("authed_users", JList [JStr "UBOT"])].

Definition ex_request (headers : list (string * string)) (extra : list (string * Json)) : Request :=
  mkRequest None (ex_event extra) headers.

Definition ex_retry_headers : list (string * string) :=
  [("x-slack-retry-num", "1"); ("x-slack-retry-reason", "http_timeout")].

Lemma webhook_retry_dropped_witness :
  exists r msgs, webhook (fun _ => JNull) ex_cfg (ex_request ex_retry_headers []) = Ok (r, msgs) /\ msgs = [] /\
  webhook (fun _ => JNull) ex_cfg (ex_request [] []) =
    Ok (text_response 200 "", [mkUserMessage (JStr "hi there") (JStr "U42") "slack" JNull]).
Proof.
  assert (H : webhook (fun _ => JNull) ex_cfg (ex_request ex_retry_headers []) =
              Ok (mkResponse 201 JNull [("X-Slack-No-Retry", JNum 1)], [])) by (vm_compute; reflexivity).
  exists (mkResponse 201 JNull [("X-Slack-No-Retry", JNum 1)]), []. split_and!; [exact H| |vm_compute; reflexivity].
  exact (webhook_retry_dropped (fun _ => JNull) ex_cfg (ex_request ex_retry_headers []) "1" _ _
           eq_refl ltac:(discriminate) eq_refl H).
Defined.

Example webhook_ignores_bots_example :
  webhook (fun _ => JNull) ex_cfg (ex_request [] [("bot_id", JStr "B1")]) =
    Ok (text_response 200 "Bot message delivered", []).
Proof.
  set (efs := [("type", JStr "message"); ("text", JStr "<@UBOT> hi there"); ("user", JStr "U42");
               ("bot_id", JStr "B1")]).
  apply (webhook_ignores_bots _ _ _ [("event", JObj efs); ("authed_users", JList [JStr "UBOT"])] efs);
    try reflexivity. vm_compute. set_solver.
Qed.

End Slack.
