(* ===== verification/SpacyExtractor.v ===== *)
(** * The spaCy entity extractor ([src/rasa/nlu/extractors/spacy_entity_extractor.py])

    [SpacyExtractor] models [SpacyEntityExtractor.process]: the spaCy
    pipeline turns the message text into a document whose named entities
    ([SpacyEnt]) become entity dicts ([extract_entities]); the extractor's
    name is added to each ([add_extractor_name]), those outside the
    configured [dimensions] are dropped ([filter_irrelevant_entities]) and
    the rest is appended to the entities already on the message.  The
    spaCy model itself is a parameter; [add_extractor_name] and
    [filter_irrelevant_entities] belong to the base class
    [EntityExtractor], outside [src/]. *)

From S2P Require Import Prelude.

Module SpacyExtractor.

(** A named entity of a spaCy [Doc]: [ent.label_], [ent.text],
    [ent.start_char], [ent.end_char]. *)
Record SpacyEnt := mkSpacyEnt {
  ent_label : string;
  ent_text : string;
  ent_start_char : nat;
  ent_end_char : nat
}.

Notation Doc := (list SpacyEnt).

(** An entity dict of an NLU message. *)
Record EntityDict := mkEntityDict {
  ed_entity : string;
  ed_value : string;
  ed_start : nat;
  ed_end : nat;
  ed_confidence : option Q;      (** [None] is [confidence: None] *)
  ed_extractor : option string   (** the [extractor] key, once set *)
}.

(** The attributes of an NLU [Message] the extractor reads and writes:
    its text, its [entities] ([None] when unset) and the names of the
    attributes marked [add_to_output]. *)
Record NluMessage := mkNluMessage {
  nlu_text : string;
  nlu_entities : option (list EntityDict);
  nlu_output_properties : list string
}.

Definition ENTITIES_ATTRIBUTE : string := "entities".

(** [Component.name]: the class name. *)
Definition extractor_name : string := "SpacyEntityExtractor".

(** The class attributes of [SpacyEntityExtractor]: what it [provides]
    and [requires], and its [defaults] ([dimensions] is [None]: every
    dimension spaCy recognises is returned). *)
Record ComponentSpec := mkComponentSpec {
  provides : list string;
  requires : list string;
  default_dimensions : option (list string)
}.

Definition spacy_entity_extractor : ComponentSpec :=
  mkComponentSpec [ENTITIES_ATTRIBUTE] ["spacy_nlp"] None.

(** [SpacyEntityExtractor.extract_entities]. *)
Definition extract_entities (doc : Doc) : list EntityDict :=
  map (fun ent => mkEntityDict (ent_label ent) (ent_text ent) (ent_start_char ent) (ent_end_char ent) None None)
    doc.

(** [EntityExtractor.add_extractor_name]: [entity["extractor"] = self.name]. *)
Definition add_extractor_name (entities : list EntityDict) : list EntityDict :=
  map (fun e => mkEntityDict (ed_entity e) (ed_value e) (ed_start e) (ed_end e) (ed_confidence e)
                  (Some extractor_name)) entities.

(** [EntityExtractor.filter_irrelevant_entities]: an empty or missing
    [dimensions] keeps everything. *)
Definition filter_irrelevant_entities (extracted : list EntityDict) (requested_dimensions : option (list string))
    : list EntityDict :=
  match requested_dimensions with
  | Some ((_ :: _) as dims) => filter (fun e => ed_entity e ∈ dims) extracted
  | _ => extracted
  end.

(** [Message.set(prop, value, add_to_output=True)]. *)
Definition message_set (m : NluMessage) (value : list EntityDict) : NluMessage :=
  mkNluMessage (nlu_text m) (Some value)
    (if decide (ENTITIES_ATTRIBUTE ∈ nlu_output_properties m) then nlu_output_properties m
     else nlu_output_properties m ++ [ENTITIES_ATTRIBUTE]).

(** [SpacyEntityExtractor.process]: [kwargs.get("spacy_nlp")] is the
    pipeline, and calling [None] raises [TypeError]. *)
Definition process (dimensions : option (list string)) (spacy_nlp : option (string -> Doc)) (m : NluMessage)
    : res NluMessage :=
  match spacy_nlp with
  | None => Raise (TypeError "'NoneType' object is not callable")
  | Some nlp =>
      let doc := nlp (nlu_text m) in
      let all_extracted := add_extractor_name (extract_entities doc) in
      let extracted := filter_irrelevant_entities all_extracted dimensions in
      Ok (message_set m (default [] (nlu_entities m) ++ extracted))
  end.

(** ** Properties *)

(** Whether an entity of the document passes the configured dimensions. *)
Definition wanted (dimensions : option (list string)) (ent : SpacyEnt) : bool :=
  match dimensions with Some ((_ :: _) as dims) => bool_decide (ent_label ent ∈ dims) | _ => true end.

(** The entity dict [process] writes for a document entity. *)
Definition entity_of (ent : SpacyEnt) : EntityDict :=
  mkEntityDict (ent_label ent) (ent_text ent) (ent_start_char ent) (ent_end_char ent) None (Some extractor_name).

Lemma filter_extracted dims doc :
  filter_irrelevant_entities (add_extractor_name (extract_entities doc)) dims =
  map entity_of (filter (fun ent => wanted dims ent = true) doc).
Proof.
  unfold filter_irrelevant_entities, add_extractor_name, extract_entities. rewrite map_map.
  destruct dims as [[|d ds]|]; induction doc as [|ent doc IH]; try done;
    rewrite map_cons, !filter_cons.
  - rewrite decide_True by done. cbn [map]. by rewrite IH.
  - destruct (decide (ent_label ent ∈ d :: ds)) as [Hin|Hin].
    + rewrite decide_True by exact Hin. rewrite decide_True by (unfold wanted; by apply bool_decide_eq_true_2).
      cbn [map]. by rewrite IH.
    + rewrite decide_False by exact Hin. rewrite decide_False by (unfold wanted; by rewrite bool_decide_eq_false_2).
      exact IH.
  - rewrite decide_True by done. cbn [map]. by rewrite IH.
Qed.

(** C33: With a spaCy pipeline, [process] succeeds: the message keeps its
    text, its entities become the entities it had (none when unset)
    followed by the document's entities whose label is among the
    configured dimensions (all of them when the dimensions are missing or
    empty), in document order and each tagged with the extractor's name,
    and the entities attribute is marked for output.  Without a pipeline
    the call raises [TypeError]. *)
Theorem process_spec dims nlp m :
  (exists m', process dims (Some nlp) m = Ok m' /\
    nlu_entities m' = Some (default [] (nlu_entities m) ++
                            map entity_of (filter (fun ent => wanted dims ent = true) (nlp (nlu_text m)))) /\
    nlu_text m' = nlu_text m /\ ENTITIES_ATTRIBUTE ∈ nlu_output_properties m') /\
  (exists msg, process dims None m = Raise (TypeError msg)).
Proof.
  split; [|by eexists]. eexists; split; [reflexivity|]. cbn [nlu_entities nlu_text message_set].
  rewrite filter_extracted. split_and!; [reflexivity|reflexivity|].
  unfold message_set; simpl. case_decide; [done|set_solver].
Qed.

(** ** Examples *)

Definition ex_nlp (text : string) : Doc :=
  [mkSpacyEnt "PERSON" "Ada" 0 3; mkSpacyEnt "GPE" "Berlin" 12 18; mkSpacyEnt "DATE" "today" 19 24].

Definition ex_message : NluMessage :=
  mkNluMessage "Ada flew to Berlin today"
    (Some [mkEntityDict "city" "Berlin" 12 18 (Some 1%Q) (Some "CRFEntityExtractor")]) [].

Example process_example :
  option_map (fun m => map ed_value (default [] (nlu_entities m)))
    (match process (Some ["PERSON"; "GPE"]) (Some ex_nlp) ex_message with Ok m => Some m | Raise _ => None end) =
  Some ["Berlin"; "Ada"; "Berlin"].
Proof. vm_compute. reflexivity. Qed.

End SpacyExtractor.
