(* ===== verification/Cli.v ===== *)
(** * The command line ([src/rasa/__main__.py])

    [Cli] models the entry point [rasa]: [create_argument_parser] builds
    the parser ([Parser]: the program name, the [--version] flag and the
    sub-commands in the order they are registered), and [main] runs the
    parsed arguments ([Namespace]).  Parsing itself is [argparse]'s and
    the sub-commands' [add_subparser] functions live outside [src/]; the
    namespace records what [main] reads of it with [hasattr].  [main]'s
    effects on the process (logging set-up, [sys.path], running the
    command, printing, exiting) are returned in order as a list of
    [Effect]s. *)

From S2P Require Import Prelude.

Module Cli.

(** The modules of [rasa.cli] whose [add_subparser] [create_argument_parser]
    calls, in order. *)
Inductive CliModule := Scaffold | Run | Shell | Train | Interactive | Test | Visualize | Data | X.

#[export] Instance CliModule_eq_dec : EqDecision CliModule.
Proof. solve_decision. Defined.

Record Parser := mkParser {
  parser_prog : string;
  parser_flags : list string;               (** the options of the top-level parser *)
  parser_subcommands : list CliModule;      (** in registration order *)
  parser_parent_logging : bool               (** the sub-parsers share the logging options *)
}.

(** [create_argument_parser]. *)
Definition create_argument_parser : Parser :=
  mkParser "rasa" ["--version"] [Scaffold; Run; Shell; Train; Interactive; Test; Visualize; Data; X] true.

(** What [main] reads of [parse_args()]: the [loglevel] attribute (absent
    without a sub-command, whose parents add it), the [func] a sub-command
    sets, and whether [version] exists ([default=SUPPRESS] creates it only
    when [--version] is given). *)
Record Namespace := mkNamespace {
  ns_loglevel : option (option string);    (** [None]: no attribute *)
  ns_func : option CliModule;
  ns_version : bool
}.

Inductive Effect :=
| ParseLastPositionalAsModelPath
| SetLogLevel (level : option string)
| InsertCwdInSysPath
| ConfigureColoredLogging (level : option string)
| RunCommand (cmd : CliModule)
| PrintVersion
| LogError (msg : string)
| PrintHelp
| Exit (code : nat).

(** [main], after [arg_parser.parse_args()] returned [args]. *)
Definition main (args : Namespace) : list Effect :=
  let log_level := match ns_loglevel args with Some l => l | None => None end in
  [ParseLastPositionalAsModelPath; SetLogLevel log_level; InsertCwdInSysPath] ++
  match ns_func args with
  | Some f => [ConfigureColoredLogging log_level; RunCommand f]
  | None =>
      if ns_version args then [PrintVersion]
      else [LogError "No command specified."; PrintHelp; Exit 1]
  end.

(** ** Properties *)

Definition is_run (e : Effect) : bool := match e with RunCommand _ => true | _ => false end.

(** C34: Every invocation ends in exactly one outcome: with a sub-command,
    the command runs once, last, after the log level is set from its
    [loglevel] and coloured logging is configured; without one, the version
    is printed when [--version] was given, and otherwise the process exits
    with status 1. *)
Theorem main_outcome args :
  let l := match ns_loglevel args with Some l => l | None => None end in
  (forall f, ns_func args = Some f ->
     exists pre, main args = pre ++ [ConfigureColoredLogging l; RunCommand f] /\ SetLogLevel l ∈ pre) /\
  length (filter (fun e => is_run e = true) (main args)) = (match ns_func args with Some _ => 1 | None => 0 end) /\
  (Exit 1 ∈ main args <-> ns_func args = None /\ ns_version args = false) /\
  (PrintVersion ∈ main args <-> ns_func args = None /\ ns_version args = true).
Proof.
  intros l. unfold main. fold l.
  destruct (ns_func args) as [f|], (ns_version args); split_and!;
    try solve [intros ? [= <-]; exists [ParseLastPositionalAsModelPath; SetLogLevel l; InsertCwdInSysPath];
               split; [reflexivity|set_solver]
              |intros ? [=]
              |reflexivity
              |split; [intros H; set_solver|intros [H1 H2]; congruence]
              |split; [intros _; set_solver|done]
              |split; [done|intros _; set_solver]].
Qed.

(** Every sub-command is registered once. *)
Lemma subcommands_NoDup : NoDup (parser_subcommands create_argument_parser).
Proof. apply (bool_decide_unpack _). vm_compute. reflexivity. Qed.

End Cli.
